(** * nxdumptool: the NCA engine of [source/core/nca.c]

    A shallow embedding of the content-archive (NCA) engine: header and
    key-area codec, section reads, hash-tree patch generation and the
    patch-apply buffer merge, followed by the properties the specification
    states about them.

    Conventions.
    - C integers are [Z] with the wrap-around written out ([add64], [sub64],
      [sub32], ...).
    - A memory block is a list of bytes ([bytes]); [memcpy] is a splice.
    - In-memory structs ([NcaContext], [NcaFsSectionContext], the patch
      structs) are records.  The two on-disk structs ([NcaHeader],
      [NcaFsHeader]) are kept as the byte images the cipher reads and writes;
      their fields are read through [NcaLayout], because [nca.h], which
      declares them, is not part of the sources.
    - Everything the engine calls but does not define (AES, SHA-256, RSA, the
      key store, the storage readers, the ticket store) is a field of
      [NcaEnv]. *)

From Stdlib Require Import ZArith List Bool Lia.
Import ListNotations.
Local Open Scope Z_scope.

(** ** Machine integers *)

Definition u8 (z : Z) : Z := z mod 2 ^ 8.
Definition u32 (z : Z) : Z := z mod 2 ^ 32.
Definition u64 (z : Z) : Z := z mod 2 ^ 64.

Definition add64 (a b : Z) : Z := u64 (a + b).
Definition sub64 (a b : Z) : Z := u64 (a - b).
Definition mul64 (a b : Z) : Z := u64 (a * b).
Definition add32 (a b : Z) : Z := u32 (a + b).
Definition sub32 (a b : Z) : Z := u32 (a - b).

Definition is_u64 (z : Z) : Prop := 0 <= z < 2 ^ 64.
Definition is_u32 (z : Z) : Prop := 0 <= z < 2 ^ 32.

(** ** Memory blocks *)

Definition bytes := list Z.

Definition zlen (b : bytes) : Z := Z.of_nat (length b).

(** [calloc(n, 1)]. *)
Definition calloc (n : Z) : bytes := repeat 0 (Z.to_nat n).

(** The [n] bytes of [b] that start at [off]. *)
Definition slice (b : bytes) (off n : Z) : bytes :=
  firstn (Z.to_nat n) (skipn (Z.to_nat off) b).

(** [memcpy(dst + off, src, n)]: the bytes of [dst] outside [off, off+n) stay. *)
Definition memcpy (dst : bytes) (off : Z) (src : bytes) (n : Z) : bytes :=
  firstn (Z.to_nat off) dst ++ firstn (Z.to_nat n) src
    ++ skipn (Z.to_nat (off + n)) dst.

(** A struct member of fixed size [n]: shorter data is zero-filled, as the
    [memset] of the enclosing struct leaves it. *)
Definition fixed (n : Z) (b : bytes) : bytes :=
  firstn (Z.to_nat n) (b ++ repeat 0 (Z.to_nat n)).

(** [memcmp(a, zeros, n) == 0]. *)
Definition all_zero (b : bytes) : bool := forallb (Z.eqb 0) b.

Fixpoint bytes_eqb (a b : bytes) : bool :=
  match a, b with
  | [], [] => true
  | x :: a', y :: b' => (x =? y) && bytes_eqb a' b'
  | _, _ => false
  end.

(** Array element [a[i]] with a default for the (never taken) miss. *)
Definition nth_z {A : Type} (l : list A) (i : Z) (d : A) : A :=
  nth (Z.to_nat i) l d.

(** [a[i] = v]. *)
Definition set_nth {A : Type} (l : list A) (i : Z) (v : A) : list A :=
  firstn (Z.to_nat i) l ++
  match skipn (Z.to_nat i) l with
  | [] => []
  | _ :: tl => v :: tl
  end.

(** ** Constants *)

(** Modelled from the spec: [nca.h] is not under the sources.  The archive
    header is the first two 0x200-byte sectors, each of the four section
    headers is one sector, and the full header length is their sum. *)
Definition NCA_FS_HEADER_COUNT : Z := 4.
Definition NCA_HEADER_LENGTH : Z := 0x400.        (* sizeof(NcaHeader) *)
Definition NCA_FS_HEADER_LENGTH : Z := 0x200.     (* sizeof(NcaFsHeader) *)
Definition NCA_FULL_HEADER_LENGTH : Z :=
  NCA_HEADER_LENGTH + NCA_FS_HEADER_LENGTH * NCA_FS_HEADER_COUNT.
Definition NCA_AES_XTS_SECTOR_SIZE : Z := 0x200.
Definition NCA_FS_SECTOR_SIZE : Z := 0x200.
Definition AES_BLOCK_SIZE : Z := 0x10.
Definition AES_128_KEY_SIZE : Z := 0x10.
Definition SHA256_HASH_SIZE : Z := 0x20.
Definition NCA_USED_KEY_AREA_SIZE : Z := 0x40.
Definition NCA_HIERARCHICAL_SHA256_MAX_REGION_COUNT : Z := 5.
Definition NCA_IVFC_LEVEL_COUNT : Z := 6.
Definition NCA_CRYPTO_BUFFER_SIZE : Z := 0x800000.

(** [NCA_FS_SECTOR_OFFSET(x)]: a 64-bit product. *)
Definition NCA_FS_SECTOR_OFFSET (x : Z) : Z := mul64 x NCA_FS_SECTOR_SIZE.

(** [NCA_IVFC_BLOCK_SIZE(x)]: [1U << x], a 32-bit shift. *)
Definition NCA_IVFC_BLOCK_SIZE (x : Z) : Z := u32 (Z.shiftl 1 x).

(** Modelled from the spec: [ALIGN_DOWN] and [ALIGN_UP] come from
    [nxdt_utils.h]; the spec gives them as floor(x / y) * y and
    ceil(x / y) * y. *)
Definition ALIGN_DOWN (x y : Z) : Z := u64 ((x / y) * y).
Definition ALIGN_UP (x y : Z) : Z := u64 (((x + (y - 1)) / y) * y).

(** The magic words, as [__builtin_bswap32] of the stored field gives them. *)
Definition NCA_NCA0_MAGIC : Z := 0x4E434130.
Definition NCA_NCA2_MAGIC : Z := 0x4E434132.
Definition NCA_NCA3_MAGIC : Z := 0x4E434133.
Definition NCA_BKTR_MAGIC : Z := 0x424B5452.
Definition NCA_BKTR_VERSION : Z := 1.

(** Enumerations of [nca.h] and libnx, with the order the comparisons of
    [nca.c] rely on. *)
Definition NcaVersion_Nca0 : Z := 0.
Definition NcaVersion_Nca2 : Z := 2.
Definition NcaVersion_Nca3 : Z := 3.

Definition NcaDistributionType_Download : Z := 0.
Definition NcaDistributionType_GameCard : Z := 1.

Definition NcaFsType_RomFs : Z := 0.
Definition NcaFsType_PartitionFs : Z := 1.

Definition NcaHashType_Auto : Z := 0.
Definition NcaHashType_None : Z := 1.
Definition NcaHashType_HierarchicalSha256 : Z := 2.
Definition NcaHashType_HierarchicalIntegrity : Z := 3.

Definition NcaEncryptionType_Auto : Z := 0.
Definition NcaEncryptionType_None : Z := 1.
Definition NcaEncryptionType_AesXts : Z := 2.
Definition NcaEncryptionType_AesCtr : Z := 3.
Definition NcaEncryptionType_AesCtrEx : Z := 4.

Definition NcaFsSectionType_PartitionFs : Z := 0.
Definition NcaFsSectionType_RomFs : Z := 1.
Definition NcaFsSectionType_PatchRomFs : Z := 2.
Definition NcaFsSectionType_Nca0RomFs : Z := 3.
Definition NcaFsSectionType_Invalid : Z := 4.

Definition NcmStorageId_GameCard : Z := 2.
Definition NcmContentType_Meta : Z := 0.
Definition NcmContentType_DeltaFragment : Z := 6.
Definition GameCardHashFileSystemPartitionType_Count : Z := 6.

(** [g_nca0KeyAreaHash]. *)
Definition g_nca0KeyAreaHash : bytes :=
  [0x9A; 0xBB; 0xD2; 0x11; 0x86; 0x00; 0x21; 0x9D;
   0x7A; 0xDC; 0x5B; 0x43; 0x95; 0xF8; 0x4E; 0xFD;
   0xFF; 0x6B; 0x25; 0xEF; 0x9F; 0x96; 0x85; 0x28;
   0x18; 0x9E; 0x76; 0xB0; 0x92; 0xF0; 0x6A; 0xCB].

(** [g_ncaHeaderMainSignaturePublicExponent]. *)
Definition g_ncaHeaderMainSignaturePublicExponent : bytes := [0x01; 0x00; 0x01].

(** ** Cipher contexts

    A context that was never created is the zero-filled struct the enclosing
    [memset] or [= {0}] leaves: no key schedule. *)

Record Aes128XtsContext := {
  xts_keys : option (bytes * bytes);
  xts_is_encryptor : bool
}.

Record Aes128CtrContext := {
  ctr_key : option bytes;
  ctr_counter : bytes
}.

Definition xts_zero : Aes128XtsContext :=
  {| xts_keys := None; xts_is_encryptor := false |}.

Definition ctr_zero : Aes128CtrContext :=
  {| ctr_key := None; ctr_counter := calloc 0x10 |}.

Definition aes128XtsContextCreate (key0 key1 : bytes) (is_encryptor : bool)
  : Aes128XtsContext :=
  {| xts_keys := Some (key0, key1); xts_is_encryptor := is_encryptor |}.

Definition aes128CtrContextCreate (key ctr : bytes) : Aes128CtrContext :=
  {| ctr_key := Some key; ctr_counter := ctr |}.

Definition aes128CtrContextResetCtr (c : Aes128CtrContext) (ctr : bytes)
  : Aes128CtrContext :=
  {| ctr_key := ctr_key c; ctr_counter := ctr |}.

(** ** The environment: what [nca.c] calls but does not define *)

Record NcaEnv := {
  (* keys.c *)
  keysGetNcaHeaderKey : option bytes;
  keysDecryptNcaKeyAreaEntry : Z -> Z -> bytes -> option bytes;
  keysGetNcaKeyAreaEncryptionKey : Z -> Z -> option bytes;
  keysGetNcaMainSignatureModulus : Z -> option bytes;
  (* aes.c and libnx: [aes128XtsNintendoCrypt ctx src size sector sector_size
     encrypt] gives the destination bytes and the count of bytes processed *)
  aes128XtsNintendoCrypt :
    Aes128XtsContext -> bytes -> Z -> Z -> Z -> bool -> bytes * Z;
  aes128EncryptBlock : bytes -> bytes -> bytes;
  aes128CtrCrypt : Aes128CtrContext -> bytes -> bytes;
  sha256CalculateHash : bytes -> bytes;
  (* rsa.c: data, signature, modulus, public exponent *)
  rsa2048VerifySha256BasedPssSignature : bytes -> bytes -> bytes -> bytes -> bool;
  (* storage: content id, size, offset *)
  ncmContentStorageReadContentIdFile : bytes -> Z -> Z -> option bytes;
  gamecardReadStorage : Z -> Z -> option bytes;
  gamecardGetHashFileSystemEntryInfoByName : Z -> bytes -> option Z;
  titleGetNcmStorageByStorageId : Z -> bool;
  (* tik.c: rights id, from gamecard *)
  tikRetrieveTicketByRightsId : bytes -> bool -> option bytes;
  (* nxdt_utils.c: the hex string of a block *)
  utilsGenerateHexStringFromData : bytes -> bytes;
  (* aes.h: [aes128CtrInitializePartialCtr upper_iv offset] is the fresh
     16-byte counter; [aes128CtrUpdatePartialCtr ctr offset] re-seeds its
     offset half *)
  aes128CtrInitializePartialCtr : bytes -> Z -> bytes;
  aes128CtrUpdatePartialCtr : bytes -> Z -> bytes
}.

(** ** The layout of the on-disk structs

    [NcaHeader] and [NcaFsHeader] are declared in [nca.h], which is not under
    the sources: a header is its byte image, and each field the engine
    touches is a reader (and, where the engine writes it, a writer) over that
    image. *)

Record NcaLayout := {
  (* NcaHeader *)
  hdr_main_signature : bytes -> bytes;
  hdr_signature_area : bytes -> bytes;  (* NCA_SIGNATURE_AREA_SIZE bytes from &magic *)
  hdr_magic : bytes -> Z;               (* the u32 as loaded *)
  hdr_distribution_type : bytes -> Z;
  hdr_key_generation_old : bytes -> Z;
  hdr_kaek_index : bytes -> Z;
  hdr_content_size : bytes -> Z;
  hdr_key_generation : bytes -> Z;
  hdr_main_signature_key_generation : bytes -> Z;
  hdr_rights_id : bytes -> bytes;
  hdr_fs_info : bytes -> Z -> bytes;            (* fs_info[i], raw *)
  hdr_fs_header_hash : bytes -> Z -> bytes;     (* fs_header_hash[i].hash *)
  hdr_encrypted_key_area : bytes -> bytes;      (* the used NCA_USED_KEY_AREA_SIZE bytes *)
  hdr_set_distribution_type : bytes -> Z -> bytes;
  hdr_set_rights_id : bytes -> bytes -> bytes;
  hdr_set_fs_header_hash : bytes -> Z -> bytes -> bytes;
  hdr_set_encrypted_key_area : bytes -> bytes -> bytes;
  (* NcaFsInfo *)
  fs_info_start_sector : bytes -> Z;
  fs_info_end_sector : bytes -> Z;
  (* NcaFsHeader *)
  fsh_fs_type : bytes -> Z;
  fsh_hash_type : bytes -> Z;
  fsh_encryption_type : bytes -> Z;
  fsh_aes_ctr_upper_iv : bytes -> bytes;        (* aes_ctr_upper_iv.value *)
  upper_iv_set_generation : bytes -> Z -> bytes; (* NcaAesCtrUpperIv.generation = v *)
  (* NcaFsHeader.sparse_info *)
  fsh_sparse_generation : bytes -> Z;
  fsh_sparse_physical_offset : bytes -> Z;
  fsh_sparse_bucket_offset : bytes -> Z;
  fsh_sparse_bucket_size : bytes -> Z;
  fsh_sparse_bucket_magic : bytes -> Z;         (* the u32 as loaded *)
  fsh_sparse_bucket_version : bytes -> Z;
  fsh_sparse_bucket_entry_count : bytes -> Z;
  (* NcaFsHeader.hash_data.hierarchical_sha256_data *)
  fsh_sha256_hash_block_size : bytes -> Z;
  fsh_sha256_hash_region_count : bytes -> Z;
  fsh_sha256_hash_region_offset : bytes -> Z -> Z;
  fsh_sha256_hash_region_size : bytes -> Z -> Z;
  fsh_set_sha256_master_hash : bytes -> bytes -> bytes;
  (* NcaFsHeader.hash_data.integrity_meta_info *)
  fsh_ivfc_max_level_count : bytes -> Z;
  fsh_ivfc_level_offset : bytes -> Z -> Z;
  fsh_ivfc_level_size : bytes -> Z -> Z;
  fsh_ivfc_level_block_order : bytes -> Z -> Z;
  fsh_set_ivfc_master_hash : bytes -> bytes -> bytes
}.

(** [__builtin_bswap32]. *)
Definition bswap32 (v : Z) : Z :=
  Z.lor (Z.lor (Z.shiftl (Z.land v 0xFF) 24) (Z.shiftl (Z.land (Z.shiftr v 8) 0xFF) 16))
        (Z.lor (Z.shiftl (Z.land (Z.shiftr v 16) 0xFF) 8) (Z.land (Z.shiftr v 24) 0xFF)).

(** ** Contexts and patches *)

Record NcaFsSectionContext := {
  enabled : bool;
  section_num : Z;
  section_offset : Z;
  section_size : Z;
  section_type : Z;
  encryption_type : Z;
  fs_header : bytes;                 (* header *)
  fs_encrypted_header : bytes;       (* encrypted_header *)
  fs_header_written : bool;          (* header_written *)
  ctr : bytes;
  ctr_ctx : Aes128CtrContext;
  xts_decrypt_ctx : Aes128XtsContext;
  xts_encrypt_ctx : Aes128XtsContext;
  has_sparse_layer : bool;
  sparse_table_offset : Z;
  sparse_table_size : Z;
  sparse_ctr : bytes;
  sparse_ctr_ctx : Aes128CtrContext
}.

Record NcaContext := {
  storage_id : Z;
  ncm_storage : bool;                (* the pointer is not NULL *)
  gamecard_offset : Z;
  content_id : bytes;
  content_id_str : bytes;
  hash : bytes;
  hash_str : bytes;
  format_version : Z;
  content_type : Z;
  content_size : Z;
  key_generation : Z;
  id_offset : Z;
  rights_id_available : bool;
  titlekey_retrieved : bool;
  valid_main_signature : bool;
  titlekey : bytes;
  encrypted_header : bytes;
  header : bytes;
  header_hash : bytes;
  header_written : bool;
  fs_ctx : list NcaFsSectionContext;
  decrypted_key_area : bytes
}.

(** The members of [NcaDecryptedKeyArea]: four 16-byte slots. *)
Definition key_area_slot (ka : bytes) (i : Z) : bytes :=
  slice ka (i * AES_128_KEY_SIZE) AES_128_KEY_SIZE.
Definition aes_xts_1 (ka : bytes) : bytes := key_area_slot ka 0.
Definition aes_xts_2 (ka : bytes) : bytes := key_area_slot ka 1.
Definition aes_ctr (ka : bytes) : bytes := key_area_slot ka 2.
Definition aes_ctr_ex (ka : bytes) : bytes := key_area_slot ka 3.

Record NcaHashDataPatch := {
  hdp_written : bool;
  hdp_offset : Z;
  hdp_size : Z;
  hdp_data : option bytes            (* NULL or the ciphertext block *)
}.

Record NcaHierarchicalSha256Patch := {
  sp_written : bool;
  sp_content_id : bytes;
  sp_hash_region_count : Z;
  sp_hash_region_patch : list NcaHashDataPatch
}.

Record NcaHierarchicalIntegrityPatch := {
  ip_written : bool;
  ip_content_id : bytes;
  ip_hash_level_patch : list NcaHashDataPatch
}.

Definition hdp_zero : NcaHashDataPatch :=
  {| hdp_written := false; hdp_offset := 0; hdp_size := 0; hdp_data := None |}.

Definition fs_ctx_zero : NcaFsSectionContext :=
  {| enabled := false; section_num := 0; section_offset := 0; section_size := 0;
     section_type := 0; encryption_type := 0;
     fs_header := calloc NCA_FS_HEADER_LENGTH;
     fs_encrypted_header := calloc NCA_FS_HEADER_LENGTH;
     fs_header_written := false;
     ctr := calloc 0x10; ctr_ctx := ctr_zero;
     xts_decrypt_ctx := xts_zero; xts_encrypt_ctx := xts_zero;
     has_sparse_layer := false; sparse_table_offset := 0; sparse_table_size := 0;
     sparse_ctr := calloc 0x10; sparse_ctr_ctx := ctr_zero |}.

(** Modelled from the spec: [ncaFreeHierarchicalSha256Patch] and
    [ncaFreeHierarchicalIntegrityPatch] are inline helpers of [nca.h], not
    under the sources; they release every block and leave the patch set
    zero-filled (a released patch set holds nothing). *)
Definition ncaFreeHierarchicalSha256Patch : NcaHierarchicalSha256Patch :=
  {| sp_written := false; sp_content_id := calloc 0x10; sp_hash_region_count := 0;
     sp_hash_region_patch :=
       repeat hdp_zero (Z.to_nat NCA_HIERARCHICAL_SHA256_MAX_REGION_COUNT) |}.

Definition ncaFreeHierarchicalIntegrityPatch : NcaHierarchicalIntegrityPatch :=
  {| ip_written := false; ip_content_id := calloc 0x10;
     ip_hash_level_patch := repeat hdp_zero (Z.to_nat NCA_IVFC_LEVEL_COUNT) |}.

(** ** Patch-apply buffer merge *)

(** [ncaWritePatchToMemoryBuffer].  The context is never NULL here; a NULL
    [patch] is [None].  The result is the buffer after the call and the
    returned flag. *)
Definition ncaWritePatchToMemoryBuffer (ctx : NcaContext) (patch : option bytes)
    (patch_size patch_offset : Z) (buf : bytes) (buf_size buf_offset : Z)
  : bytes * bool :=
  match patch with
  | None => (buf, false)
  | Some p =>
    if (patch_size =? 0)
       || (add64 patch_offset patch_size >? content_size ctx)
       || (add64 buf_offset buf_size <=? patch_offset)
       || (add64 patch_offset patch_size <=? buf_offset)
    then (buf, false)
    else
      let patch_block_offset :=
        if patch_offset <? buf_offset then sub64 buf_offset patch_offset else 0 in
      let patch_remaining_size := sub64 patch_size patch_block_offset in
      let buf_block_offset :=
        if buf_offset <? patch_offset then sub64 patch_offset buf_offset else 0 in
      let buf_remaining_size := sub64 buf_size buf_block_offset in
      let buf_block_size :=
        if buf_remaining_size <? patch_remaining_size
        then buf_remaining_size else patch_remaining_size in
      (memcpy buf buf_block_offset
              (skipn (Z.to_nat patch_block_offset) p) buf_block_size,
       add64 patch_block_offset buf_block_size =? patch_size)
  end.

(** The loop shared by the two patch writers: entries already written are
    skipped, the others are merged and take the returned flag; the running
    [written] of the patch set drops to false at the first partial entry. *)
Fixpoint write_patch_entries (ctx : NcaContext) (entries : list NcaHashDataPatch)
    (written : bool) (buf : bytes) (buf_size buf_offset : Z)
  : list NcaHashDataPatch * bool * bytes :=
  match entries with
  | [] => ([], written, buf)
  | e :: rest =>
    if hdp_written e then
      let '(rest', w, b) :=
        write_patch_entries ctx rest written buf buf_size buf_offset in
      (e :: rest', w, b)
    else
      let '(buf1, r) :=
        ncaWritePatchToMemoryBuffer ctx (hdp_data e) (hdp_size e) (hdp_offset e)
                                    buf buf_size buf_offset in
      let e' := {| hdp_written := r; hdp_offset := hdp_offset e;
                   hdp_size := hdp_size e; hdp_data := hdp_data e |} in
      let '(rest', w, b) :=
        write_patch_entries ctx rest (if r then written else false)
                            buf1 buf_size buf_offset in
      (e' :: rest', w, b)
  end.

(** [ncaWriteHierarchicalSha256PatchToMemoryBuffer]: the patch set and the
    buffer after the call. *)
Definition ncaWriteHierarchicalSha256PatchToMemoryBuffer (ctx : NcaContext)
    (patch : NcaHierarchicalSha256Patch) (buf : bytes) (buf_size buf_offset : Z)
  : NcaHierarchicalSha256Patch * bytes :=
  if all_zero (firstn 1 (content_id_str ctx))
     || (content_size ctx <? NCA_FULL_HEADER_LENGTH)
     || sp_written patch
     || negb (bytes_eqb (fixed 0x10 (sp_content_id patch)) (fixed 0x10 (content_id ctx)))
     || (sp_hash_region_count patch =? 0)
     || (sp_hash_region_count patch >? NCA_HIERARCHICAL_SHA256_MAX_REGION_COUNT)
     || (buf_size =? 0)
     || (add64 buf_offset buf_size >? content_size ctx)
  then (patch, buf)
  else
    let n := Z.to_nat (sp_hash_region_count patch) in
    let '(es, w, b) :=
      write_patch_entries ctx (firstn n (sp_hash_region_patch patch)) true
                          buf buf_size buf_offset in
    ({| sp_written := w; sp_content_id := sp_content_id patch;
        sp_hash_region_count := sp_hash_region_count patch;
        sp_hash_region_patch := es ++ skipn n (sp_hash_region_patch patch) |}, b).

(** [ncaWriteHierarchicalIntegrityPatchToMemoryBuffer]. *)
Definition ncaWriteHierarchicalIntegrityPatchToMemoryBuffer (ctx : NcaContext)
    (patch : NcaHierarchicalIntegrityPatch) (buf : bytes) (buf_size buf_offset : Z)
  : NcaHierarchicalIntegrityPatch * bytes :=
  if all_zero (firstn 1 (content_id_str ctx))
     || (content_size ctx <? NCA_FULL_HEADER_LENGTH)
     || ip_written patch
     || negb (bytes_eqb (fixed 0x10 (ip_content_id patch)) (fixed 0x10 (content_id ctx)))
     || (buf_size =? 0)
     || (add64 buf_offset buf_size >? content_size ctx)
  then (patch, buf)
  else
    let n := Z.to_nat NCA_IVFC_LEVEL_COUNT in
    let '(es, w, b) :=
      write_patch_entries ctx (firstn n (ip_hash_level_patch patch)) true
                          buf buf_size buf_offset in
    ({| ip_written := w; ip_content_id := ip_content_id patch;
        ip_hash_level_patch := es ++ skipn n (ip_hash_level_patch patch) |}, b).

(** ** Field updates ([s->f = v]) *)

Definition set_enabled (s : NcaFsSectionContext) (v : bool) : NcaFsSectionContext :=
  {| enabled := v; section_num := section_num s; section_offset := section_offset s;
     section_size := section_size s; section_type := section_type s;
     encryption_type := encryption_type s; fs_header := fs_header s;
     fs_encrypted_header := fs_encrypted_header s;
     fs_header_written := fs_header_written s; ctr := ctr s; ctr_ctx := ctr_ctx s;
     xts_decrypt_ctx := xts_decrypt_ctx s; xts_encrypt_ctx := xts_encrypt_ctx s;
     has_sparse_layer := has_sparse_layer s;
     sparse_table_offset := sparse_table_offset s;
     sparse_table_size := sparse_table_size s; sparse_ctr := sparse_ctr s;
     sparse_ctr_ctx := sparse_ctr_ctx s |}.

Definition set_section_num (s : NcaFsSectionContext) (v : Z) : NcaFsSectionContext :=
  {| enabled := enabled s; section_num := v; section_offset := section_offset s;
     section_size := section_size s; section_type := section_type s;
     encryption_type := encryption_type s; fs_header := fs_header s;
     fs_encrypted_header := fs_encrypted_header s;
     fs_header_written := fs_header_written s; ctr := ctr s; ctr_ctx := ctr_ctx s;
     xts_decrypt_ctx := xts_decrypt_ctx s; xts_encrypt_ctx := xts_encrypt_ctx s;
     has_sparse_layer := has_sparse_layer s;
     sparse_table_offset := sparse_table_offset s;
     sparse_table_size := sparse_table_size s; sparse_ctr := sparse_ctr s;
     sparse_ctr_ctx := sparse_ctr_ctx s |}.

Definition set_section_offset (s : NcaFsSectionContext) (v : Z) : NcaFsSectionContext :=
  {| enabled := enabled s; section_num := section_num s; section_offset := v;
     section_size := section_size s; section_type := section_type s;
     encryption_type := encryption_type s; fs_header := fs_header s;
     fs_encrypted_header := fs_encrypted_header s;
     fs_header_written := fs_header_written s; ctr := ctr s; ctr_ctx := ctr_ctx s;
     xts_decrypt_ctx := xts_decrypt_ctx s; xts_encrypt_ctx := xts_encrypt_ctx s;
     has_sparse_layer := has_sparse_layer s;
     sparse_table_offset := sparse_table_offset s;
     sparse_table_size := sparse_table_size s; sparse_ctr := sparse_ctr s;
     sparse_ctr_ctx := sparse_ctr_ctx s |}.

Definition set_section_size (s : NcaFsSectionContext) (v : Z) : NcaFsSectionContext :=
  {| enabled := enabled s; section_num := section_num s;
     section_offset := section_offset s; section_size := v;
     section_type := section_type s; encryption_type := encryption_type s;
     fs_header := fs_header s; fs_encrypted_header := fs_encrypted_header s;
     fs_header_written := fs_header_written s; ctr := ctr s; ctr_ctx := ctr_ctx s;
     xts_decrypt_ctx := xts_decrypt_ctx s; xts_encrypt_ctx := xts_encrypt_ctx s;
     has_sparse_layer := has_sparse_layer s;
     sparse_table_offset := sparse_table_offset s;
     sparse_table_size := sparse_table_size s; sparse_ctr := sparse_ctr s;
     sparse_ctr_ctx := sparse_ctr_ctx s |}.

Definition set_section_type (s : NcaFsSectionContext) (v : Z) : NcaFsSectionContext :=
  {| enabled := enabled s; section_num := section_num s;
     section_offset := section_offset s; section_size := section_size s;
     section_type := v; encryption_type := encryption_type s; fs_header := fs_header s;
     fs_encrypted_header := fs_encrypted_header s;
     fs_header_written := fs_header_written s; ctr := ctr s; ctr_ctx := ctr_ctx s;
     xts_decrypt_ctx := xts_decrypt_ctx s; xts_encrypt_ctx := xts_encrypt_ctx s;
     has_sparse_layer := has_sparse_layer s;
     sparse_table_offset := sparse_table_offset s;
     sparse_table_size := sparse_table_size s; sparse_ctr := sparse_ctr s;
     sparse_ctr_ctx := sparse_ctr_ctx s |}.

Definition set_encryption_type (s : NcaFsSectionContext) (v : Z) : NcaFsSectionContext :=
  {| enabled := enabled s; section_num := section_num s;
     section_offset := section_offset s; section_size := section_size s;
     section_type := section_type s; encryption_type := v; fs_header := fs_header s;
     fs_encrypted_header := fs_encrypted_header s;
     fs_header_written := fs_header_written s; ctr := ctr s; ctr_ctx := ctr_ctx s;
     xts_decrypt_ctx := xts_decrypt_ctx s; xts_encrypt_ctx := xts_encrypt_ctx s;
     has_sparse_layer := has_sparse_layer s;
     sparse_table_offset := sparse_table_offset s;
     sparse_table_size := sparse_table_size s; sparse_ctr := sparse_ctr s;
     sparse_ctr_ctx := sparse_ctr_ctx s |}.

Definition set_fs_header (s : NcaFsSectionContext) (v : bytes) : NcaFsSectionContext :=
  {| enabled := enabled s; section_num := section_num s;
     section_offset := section_offset s; section_size := section_size s;
     section_type := section_type s; encryption_type := encryption_type s;
     fs_header := v; fs_encrypted_header := fs_encrypted_header s;
     fs_header_written := fs_header_written s; ctr := ctr s; ctr_ctx := ctr_ctx s;
     xts_decrypt_ctx := xts_decrypt_ctx s; xts_encrypt_ctx := xts_encrypt_ctx s;
     has_sparse_layer := has_sparse_layer s;
     sparse_table_offset := sparse_table_offset s;
     sparse_table_size := sparse_table_size s; sparse_ctr := sparse_ctr s;
     sparse_ctr_ctx := sparse_ctr_ctx s |}.

Definition set_fs_encrypted_header (s : NcaFsSectionContext) (v : bytes) : NcaFsSectionContext :=
  {| enabled := enabled s; section_num := section_num s;
     section_offset := section_offset s; section_size := section_size s;
     section_type := section_type s; encryption_type := encryption_type s;
     fs_header := fs_header s; fs_encrypted_header := v;
     fs_header_written := fs_header_written s; ctr := ctr s; ctr_ctx := ctr_ctx s;
     xts_decrypt_ctx := xts_decrypt_ctx s; xts_encrypt_ctx := xts_encrypt_ctx s;
     has_sparse_layer := has_sparse_layer s;
     sparse_table_offset := sparse_table_offset s;
     sparse_table_size := sparse_table_size s; sparse_ctr := sparse_ctr s;
     sparse_ctr_ctx := sparse_ctr_ctx s |}.

Definition set_fs_header_written (s : NcaFsSectionContext) (v : bool) : NcaFsSectionContext :=
  {| enabled := enabled s; section_num := section_num s;
     section_offset := section_offset s; section_size := section_size s;
     section_type := section_type s; encryption_type := encryption_type s;
     fs_header := fs_header s; fs_encrypted_header := fs_encrypted_header s;
     fs_header_written := v; ctr := ctr s; ctr_ctx := ctr_ctx s;
     xts_decrypt_ctx := xts_decrypt_ctx s; xts_encrypt_ctx := xts_encrypt_ctx s;
     has_sparse_layer := has_sparse_layer s;
     sparse_table_offset := sparse_table_offset s;
     sparse_table_size := sparse_table_size s; sparse_ctr := sparse_ctr s;
     sparse_ctr_ctx := sparse_ctr_ctx s |}.

Definition set_ctr (s : NcaFsSectionContext) (v : bytes) : NcaFsSectionContext :=
  {| enabled := enabled s; section_num := section_num s;
     section_offset := section_offset s; section_size := section_size s;
     section_type := section_type s; encryption_type := encryption_type s;
     fs_header := fs_header s; fs_encrypted_header := fs_encrypted_header s;
     fs_header_written := fs_header_written s; ctr := v; ctr_ctx := ctr_ctx s;
     xts_decrypt_ctx := xts_decrypt_ctx s; xts_encrypt_ctx := xts_encrypt_ctx s;
     has_sparse_layer := has_sparse_layer s;
     sparse_table_offset := sparse_table_offset s;
     sparse_table_size := sparse_table_size s; sparse_ctr := sparse_ctr s;
     sparse_ctr_ctx := sparse_ctr_ctx s |}.

Definition set_ctr_ctx (s : NcaFsSectionContext) (v : Aes128CtrContext) : NcaFsSectionContext :=
  {| enabled := enabled s; section_num := section_num s;
     section_offset := section_offset s; section_size := section_size s;
     section_type := section_type s; encryption_type := encryption_type s;
     fs_header := fs_header s; fs_encrypted_header := fs_encrypted_header s;
     fs_header_written := fs_header_written s; ctr := ctr s; ctr_ctx := v;
     xts_decrypt_ctx := xts_decrypt_ctx s; xts_encrypt_ctx := xts_encrypt_ctx s;
     has_sparse_layer := has_sparse_layer s;
     sparse_table_offset := sparse_table_offset s;
     sparse_table_size := sparse_table_size s; sparse_ctr := sparse_ctr s;
     sparse_ctr_ctx := sparse_ctr_ctx s |}.

Definition set_xts_decrypt_ctx (s : NcaFsSectionContext) (v : Aes128XtsContext) : NcaFsSectionContext :=
  {| enabled := enabled s; section_num := section_num s;
     section_offset := section_offset s; section_size := section_size s;
     section_type := section_type s; encryption_type := encryption_type s;
     fs_header := fs_header s; fs_encrypted_header := fs_encrypted_header s;
     fs_header_written := fs_header_written s; ctr := ctr s; ctr_ctx := ctr_ctx s;
     xts_decrypt_ctx := v; xts_encrypt_ctx := xts_encrypt_ctx s;
     has_sparse_layer := has_sparse_layer s;
     sparse_table_offset := sparse_table_offset s;
     sparse_table_size := sparse_table_size s; sparse_ctr := sparse_ctr s;
     sparse_ctr_ctx := sparse_ctr_ctx s |}.

Definition set_xts_encrypt_ctx (s : NcaFsSectionContext) (v : Aes128XtsContext) : NcaFsSectionContext :=
  {| enabled := enabled s; section_num := section_num s;
     section_offset := section_offset s; section_size := section_size s;
     section_type := section_type s; encryption_type := encryption_type s;
     fs_header := fs_header s; fs_encrypted_header := fs_encrypted_header s;
     fs_header_written := fs_header_written s; ctr := ctr s; ctr_ctx := ctr_ctx s;
     xts_decrypt_ctx := xts_decrypt_ctx s; xts_encrypt_ctx := v;
     has_sparse_layer := has_sparse_layer s;
     sparse_table_offset := sparse_table_offset s;
     sparse_table_size := sparse_table_size s; sparse_ctr := sparse_ctr s;
     sparse_ctr_ctx := sparse_ctr_ctx s |}.

Definition set_has_sparse_layer (s : NcaFsSectionContext) (v : bool) : NcaFsSectionContext :=
  {| enabled := enabled s; section_num := section_num s;
     section_offset := section_offset s; section_size := section_size s;
     section_type := section_type s; encryption_type := encryption_type s;
     fs_header := fs_header s; fs_encrypted_header := fs_encrypted_header s;
     fs_header_written := fs_header_written s; ctr := ctr s; ctr_ctx := ctr_ctx s;
     xts_decrypt_ctx := xts_decrypt_ctx s; xts_encrypt_ctx := xts_encrypt_ctx s;
     has_sparse_layer := v; sparse_table_offset := sparse_table_offset s;
     sparse_table_size := sparse_table_size s; sparse_ctr := sparse_ctr s;
     sparse_ctr_ctx := sparse_ctr_ctx s |}.

Definition set_sparse_table_offset (s : NcaFsSectionContext) (v : Z) : NcaFsSectionContext :=
  {| enabled := enabled s; section_num := section_num s;
     section_offset := section_offset s; section_size := section_size s;
     section_type := section_type s; encryption_type := encryption_type s;
     fs_header := fs_header s; fs_encrypted_header := fs_encrypted_header s;
     fs_header_written := fs_header_written s; ctr := ctr s; ctr_ctx := ctr_ctx s;
     xts_decrypt_ctx := xts_decrypt_ctx s; xts_encrypt_ctx := xts_encrypt_ctx s;
     has_sparse_layer := has_sparse_layer s; sparse_table_offset := v;
     sparse_table_size := sparse_table_size s; sparse_ctr := sparse_ctr s;
     sparse_ctr_ctx := sparse_ctr_ctx s |}.

Definition set_sparse_table_size (s : NcaFsSectionContext) (v : Z) : NcaFsSectionContext :=
  {| enabled := enabled s; section_num := section_num s;
     section_offset := section_offset s; section_size := section_size s;
     section_type := section_type s; encryption_type := encryption_type s;
     fs_header := fs_header s; fs_encrypted_header := fs_encrypted_header s;
     fs_header_written := fs_header_written s; ctr := ctr s; ctr_ctx := ctr_ctx s;
     xts_decrypt_ctx := xts_decrypt_ctx s; xts_encrypt_ctx := xts_encrypt_ctx s;
     has_sparse_layer := has_sparse_layer s;
     sparse_table_offset := sparse_table_offset s; sparse_table_size := v;
     sparse_ctr := sparse_ctr s; sparse_ctr_ctx := sparse_ctr_ctx s |}.

Definition set_sparse_ctr (s : NcaFsSectionContext) (v : bytes) : NcaFsSectionContext :=
  {| enabled := enabled s; section_num := section_num s;
     section_offset := section_offset s; section_size := section_size s;
     section_type := section_type s; encryption_type := encryption_type s;
     fs_header := fs_header s; fs_encrypted_header := fs_encrypted_header s;
     fs_header_written := fs_header_written s; ctr := ctr s; ctr_ctx := ctr_ctx s;
     xts_decrypt_ctx := xts_decrypt_ctx s; xts_encrypt_ctx := xts_encrypt_ctx s;
     has_sparse_layer := has_sparse_layer s;
     sparse_table_offset := sparse_table_offset s;
     sparse_table_size := sparse_table_size s; sparse_ctr := v;
     sparse_ctr_ctx := sparse_ctr_ctx s |}.

Definition set_sparse_ctr_ctx (s : NcaFsSectionContext) (v : Aes128CtrContext) : NcaFsSectionContext :=
  {| enabled := enabled s; section_num := section_num s;
     section_offset := section_offset s; section_size := section_size s;
     section_type := section_type s; encryption_type := encryption_type s;
     fs_header := fs_header s; fs_encrypted_header := fs_encrypted_header s;
     fs_header_written := fs_header_written s; ctr := ctr s; ctr_ctx := ctr_ctx s;
     xts_decrypt_ctx := xts_decrypt_ctx s; xts_encrypt_ctx := xts_encrypt_ctx s;
     has_sparse_layer := has_sparse_layer s;
     sparse_table_offset := sparse_table_offset s;
     sparse_table_size := sparse_table_size s; sparse_ctr := sparse_ctr s;
     sparse_ctr_ctx := v |}.

Definition set_storage_id (c : NcaContext) (v : Z) : NcaContext :=
  {| storage_id := v; ncm_storage := ncm_storage c;
     gamecard_offset := gamecard_offset c; content_id := content_id c;
     content_id_str := content_id_str c; hash := hash c; hash_str := hash_str c;
     format_version := format_version c; content_type := content_type c;
     content_size := content_size c; key_generation := key_generation c;
     id_offset := id_offset c; rights_id_available := rights_id_available c;
     titlekey_retrieved := titlekey_retrieved c;
     valid_main_signature := valid_main_signature c; titlekey := titlekey c;
     encrypted_header := encrypted_header c; header := header c;
     header_hash := header_hash c; header_written := header_written c;
     fs_ctx := fs_ctx c; decrypted_key_area := decrypted_key_area c |}.

Definition set_ncm_storage (c : NcaContext) (v : bool) : NcaContext :=
  {| storage_id := storage_id c; ncm_storage := v;
     gamecard_offset := gamecard_offset c; content_id := content_id c;
     content_id_str := content_id_str c; hash := hash c; hash_str := hash_str c;
     format_version := format_version c; content_type := content_type c;
     content_size := content_size c; key_generation := key_generation c;
     id_offset := id_offset c; rights_id_available := rights_id_available c;
     titlekey_retrieved := titlekey_retrieved c;
     valid_main_signature := valid_main_signature c; titlekey := titlekey c;
     encrypted_header := encrypted_header c; header := header c;
     header_hash := header_hash c; header_written := header_written c;
     fs_ctx := fs_ctx c; decrypted_key_area := decrypted_key_area c |}.

Definition set_gamecard_offset (c : NcaContext) (v : Z) : NcaContext :=
  {| storage_id := storage_id c; ncm_storage := ncm_storage c; gamecard_offset := v;
     content_id := content_id c; content_id_str := content_id_str c; hash := hash c;
     hash_str := hash_str c; format_version := format_version c;
     content_type := content_type c; content_size := content_size c;
     key_generation := key_generation c; id_offset := id_offset c;
     rights_id_available := rights_id_available c;
     titlekey_retrieved := titlekey_retrieved c;
     valid_main_signature := valid_main_signature c; titlekey := titlekey c;
     encrypted_header := encrypted_header c; header := header c;
     header_hash := header_hash c; header_written := header_written c;
     fs_ctx := fs_ctx c; decrypted_key_area := decrypted_key_area c |}.

Definition set_content_id (c : NcaContext) (v : bytes) : NcaContext :=
  {| storage_id := storage_id c; ncm_storage := ncm_storage c;
     gamecard_offset := gamecard_offset c; content_id := v;
     content_id_str := content_id_str c; hash := hash c; hash_str := hash_str c;
     format_version := format_version c; content_type := content_type c;
     content_size := content_size c; key_generation := key_generation c;
     id_offset := id_offset c; rights_id_available := rights_id_available c;
     titlekey_retrieved := titlekey_retrieved c;
     valid_main_signature := valid_main_signature c; titlekey := titlekey c;
     encrypted_header := encrypted_header c; header := header c;
     header_hash := header_hash c; header_written := header_written c;
     fs_ctx := fs_ctx c; decrypted_key_area := decrypted_key_area c |}.

Definition set_content_id_str (c : NcaContext) (v : bytes) : NcaContext :=
  {| storage_id := storage_id c; ncm_storage := ncm_storage c;
     gamecard_offset := gamecard_offset c; content_id := content_id c;
     content_id_str := v; hash := hash c; hash_str := hash_str c;
     format_version := format_version c; content_type := content_type c;
     content_size := content_size c; key_generation := key_generation c;
     id_offset := id_offset c; rights_id_available := rights_id_available c;
     titlekey_retrieved := titlekey_retrieved c;
     valid_main_signature := valid_main_signature c; titlekey := titlekey c;
     encrypted_header := encrypted_header c; header := header c;
     header_hash := header_hash c; header_written := header_written c;
     fs_ctx := fs_ctx c; decrypted_key_area := decrypted_key_area c |}.

Definition set_hash (c : NcaContext) (v : bytes) : NcaContext :=
  {| storage_id := storage_id c; ncm_storage := ncm_storage c;
     gamecard_offset := gamecard_offset c; content_id := content_id c;
     content_id_str := content_id_str c; hash := v; hash_str := hash_str c;
     format_version := format_version c; content_type := content_type c;
     content_size := content_size c; key_generation := key_generation c;
     id_offset := id_offset c; rights_id_available := rights_id_available c;
     titlekey_retrieved := titlekey_retrieved c;
     valid_main_signature := valid_main_signature c; titlekey := titlekey c;
     encrypted_header := encrypted_header c; header := header c;
     header_hash := header_hash c; header_written := header_written c;
     fs_ctx := fs_ctx c; decrypted_key_area := decrypted_key_area c |}.

Definition set_hash_str (c : NcaContext) (v : bytes) : NcaContext :=
  {| storage_id := storage_id c; ncm_storage := ncm_storage c;
     gamecard_offset := gamecard_offset c; content_id := content_id c;
     content_id_str := content_id_str c; hash := hash c; hash_str := v;
     format_version := format_version c; content_type := content_type c;
     content_size := content_size c; key_generation := key_generation c;
     id_offset := id_offset c; rights_id_available := rights_id_available c;
     titlekey_retrieved := titlekey_retrieved c;
     valid_main_signature := valid_main_signature c; titlekey := titlekey c;
     encrypted_header := encrypted_header c; header := header c;
     header_hash := header_hash c; header_written := header_written c;
     fs_ctx := fs_ctx c; decrypted_key_area := decrypted_key_area c |}.

Definition set_format_version (c : NcaContext) (v : Z) : NcaContext :=
  {| storage_id := storage_id c; ncm_storage := ncm_storage c;
     gamecard_offset := gamecard_offset c; content_id := content_id c;
     content_id_str := content_id_str c; hash := hash c; hash_str := hash_str c;
     format_version := v; content_type := content_type c;
     content_size := content_size c; key_generation := key_generation c;
     id_offset := id_offset c; rights_id_available := rights_id_available c;
     titlekey_retrieved := titlekey_retrieved c;
     valid_main_signature := valid_main_signature c; titlekey := titlekey c;
     encrypted_header := encrypted_header c; header := header c;
     header_hash := header_hash c; header_written := header_written c;
     fs_ctx := fs_ctx c; decrypted_key_area := decrypted_key_area c |}.

Definition set_content_type (c : NcaContext) (v : Z) : NcaContext :=
  {| storage_id := storage_id c; ncm_storage := ncm_storage c;
     gamecard_offset := gamecard_offset c; content_id := content_id c;
     content_id_str := content_id_str c; hash := hash c; hash_str := hash_str c;
     format_version := format_version c; content_type := v;
     content_size := content_size c; key_generation := key_generation c;
     id_offset := id_offset c; rights_id_available := rights_id_available c;
     titlekey_retrieved := titlekey_retrieved c;
     valid_main_signature := valid_main_signature c; titlekey := titlekey c;
     encrypted_header := encrypted_header c; header := header c;
     header_hash := header_hash c; header_written := header_written c;
     fs_ctx := fs_ctx c; decrypted_key_area := decrypted_key_area c |}.

Definition set_content_size (c : NcaContext) (v : Z) : NcaContext :=
  {| storage_id := storage_id c; ncm_storage := ncm_storage c;
     gamecard_offset := gamecard_offset c; content_id := content_id c;
     content_id_str := content_id_str c; hash := hash c; hash_str := hash_str c;
     format_version := format_version c; content_type := content_type c;
     content_size := v; key_generation := key_generation c; id_offset := id_offset c;
     rights_id_available := rights_id_available c;
     titlekey_retrieved := titlekey_retrieved c;
     valid_main_signature := valid_main_signature c; titlekey := titlekey c;
     encrypted_header := encrypted_header c; header := header c;
     header_hash := header_hash c; header_written := header_written c;
     fs_ctx := fs_ctx c; decrypted_key_area := decrypted_key_area c |}.

Definition set_key_generation (c : NcaContext) (v : Z) : NcaContext :=
  {| storage_id := storage_id c; ncm_storage := ncm_storage c;
     gamecard_offset := gamecard_offset c; content_id := content_id c;
     content_id_str := content_id_str c; hash := hash c; hash_str := hash_str c;
     format_version := format_version c; content_type := content_type c;
     content_size := content_size c; key_generation := v; id_offset := id_offset c;
     rights_id_available := rights_id_available c;
     titlekey_retrieved := titlekey_retrieved c;
     valid_main_signature := valid_main_signature c; titlekey := titlekey c;
     encrypted_header := encrypted_header c; header := header c;
     header_hash := header_hash c; header_written := header_written c;
     fs_ctx := fs_ctx c; decrypted_key_area := decrypted_key_area c |}.

Definition set_id_offset (c : NcaContext) (v : Z) : NcaContext :=
  {| storage_id := storage_id c; ncm_storage := ncm_storage c;
     gamecard_offset := gamecard_offset c; content_id := content_id c;
     content_id_str := content_id_str c; hash := hash c; hash_str := hash_str c;
     format_version := format_version c; content_type := content_type c;
     content_size := content_size c; key_generation := key_generation c;
     id_offset := v; rights_id_available := rights_id_available c;
     titlekey_retrieved := titlekey_retrieved c;
     valid_main_signature := valid_main_signature c; titlekey := titlekey c;
     encrypted_header := encrypted_header c; header := header c;
     header_hash := header_hash c; header_written := header_written c;
     fs_ctx := fs_ctx c; decrypted_key_area := decrypted_key_area c |}.

Definition set_rights_id_available (c : NcaContext) (v : bool) : NcaContext :=
  {| storage_id := storage_id c; ncm_storage := ncm_storage c;
     gamecard_offset := gamecard_offset c; content_id := content_id c;
     content_id_str := content_id_str c; hash := hash c; hash_str := hash_str c;
     format_version := format_version c; content_type := content_type c;
     content_size := content_size c; key_generation := key_generation c;
     id_offset := id_offset c; rights_id_available := v;
     titlekey_retrieved := titlekey_retrieved c;
     valid_main_signature := valid_main_signature c; titlekey := titlekey c;
     encrypted_header := encrypted_header c; header := header c;
     header_hash := header_hash c; header_written := header_written c;
     fs_ctx := fs_ctx c; decrypted_key_area := decrypted_key_area c |}.

Definition set_titlekey_retrieved (c : NcaContext) (v : bool) : NcaContext :=
  {| storage_id := storage_id c; ncm_storage := ncm_storage c;
     gamecard_offset := gamecard_offset c; content_id := content_id c;
     content_id_str := content_id_str c; hash := hash c; hash_str := hash_str c;
     format_version := format_version c; content_type := content_type c;
     content_size := content_size c; key_generation := key_generation c;
     id_offset := id_offset c; rights_id_available := rights_id_available c;
     titlekey_retrieved := v; valid_main_signature := valid_main_signature c;
     titlekey := titlekey c; encrypted_header := encrypted_header c;
     header := header c; header_hash := header_hash c;
     header_written := header_written c; fs_ctx := fs_ctx c;
     decrypted_key_area := decrypted_key_area c |}.

Definition set_valid_main_signature (c : NcaContext) (v : bool) : NcaContext :=
  {| storage_id := storage_id c; ncm_storage := ncm_storage c;
     gamecard_offset := gamecard_offset c; content_id := content_id c;
     content_id_str := content_id_str c; hash := hash c; hash_str := hash_str c;
     format_version := format_version c; content_type := content_type c;
     content_size := content_size c; key_generation := key_generation c;
     id_offset := id_offset c; rights_id_available := rights_id_available c;
     titlekey_retrieved := titlekey_retrieved c; valid_main_signature := v;
     titlekey := titlekey c; encrypted_header := encrypted_header c;
     header := header c; header_hash := header_hash c;
     header_written := header_written c; fs_ctx := fs_ctx c;
     decrypted_key_area := decrypted_key_area c |}.

Definition set_titlekey (c : NcaContext) (v : bytes) : NcaContext :=
  {| storage_id := storage_id c; ncm_storage := ncm_storage c;
     gamecard_offset := gamecard_offset c; content_id := content_id c;
     content_id_str := content_id_str c; hash := hash c; hash_str := hash_str c;
     format_version := format_version c; content_type := content_type c;
     content_size := content_size c; key_generation := key_generation c;
     id_offset := id_offset c; rights_id_available := rights_id_available c;
     titlekey_retrieved := titlekey_retrieved c;
     valid_main_signature := valid_main_signature c; titlekey := v;
     encrypted_header := encrypted_header c; header := header c;
     header_hash := header_hash c; header_written := header_written c;
     fs_ctx := fs_ctx c; decrypted_key_area := decrypted_key_area c |}.

Definition set_encrypted_header (c : NcaContext) (v : bytes) : NcaContext :=
  {| storage_id := storage_id c; ncm_storage := ncm_storage c;
     gamecard_offset := gamecard_offset c; content_id := content_id c;
     content_id_str := content_id_str c; hash := hash c; hash_str := hash_str c;
     format_version := format_version c; content_type := content_type c;
     content_size := content_size c; key_generation := key_generation c;
     id_offset := id_offset c; rights_id_available := rights_id_available c;
     titlekey_retrieved := titlekey_retrieved c;
     valid_main_signature := valid_main_signature c; titlekey := titlekey c;
     encrypted_header := v; header := header c; header_hash := header_hash c;
     header_written := header_written c; fs_ctx := fs_ctx c;
     decrypted_key_area := decrypted_key_area c |}.

Definition set_header (c : NcaContext) (v : bytes) : NcaContext :=
  {| storage_id := storage_id c; ncm_storage := ncm_storage c;
     gamecard_offset := gamecard_offset c; content_id := content_id c;
     content_id_str := content_id_str c; hash := hash c; hash_str := hash_str c;
     format_version := format_version c; content_type := content_type c;
     content_size := content_size c; key_generation := key_generation c;
     id_offset := id_offset c; rights_id_available := rights_id_available c;
     titlekey_retrieved := titlekey_retrieved c;
     valid_main_signature := valid_main_signature c; titlekey := titlekey c;
     encrypted_header := encrypted_header c; header := v; header_hash := header_hash c;
     header_written := header_written c; fs_ctx := fs_ctx c;
     decrypted_key_area := decrypted_key_area c |}.

Definition set_header_hash (c : NcaContext) (v : bytes) : NcaContext :=
  {| storage_id := storage_id c; ncm_storage := ncm_storage c;
     gamecard_offset := gamecard_offset c; content_id := content_id c;
     content_id_str := content_id_str c; hash := hash c; hash_str := hash_str c;
     format_version := format_version c; content_type := content_type c;
     content_size := content_size c; key_generation := key_generation c;
     id_offset := id_offset c; rights_id_available := rights_id_available c;
     titlekey_retrieved := titlekey_retrieved c;
     valid_main_signature := valid_main_signature c; titlekey := titlekey c;
     encrypted_header := encrypted_header c; header := header c; header_hash := v;
     header_written := header_written c; fs_ctx := fs_ctx c;
     decrypted_key_area := decrypted_key_area c |}.

Definition set_header_written (c : NcaContext) (v : bool) : NcaContext :=
  {| storage_id := storage_id c; ncm_storage := ncm_storage c;
     gamecard_offset := gamecard_offset c; content_id := content_id c;
     content_id_str := content_id_str c; hash := hash c; hash_str := hash_str c;
     format_version := format_version c; content_type := content_type c;
     content_size := content_size c; key_generation := key_generation c;
     id_offset := id_offset c; rights_id_available := rights_id_available c;
     titlekey_retrieved := titlekey_retrieved c;
     valid_main_signature := valid_main_signature c; titlekey := titlekey c;
     encrypted_header := encrypted_header c; header := header c;
     header_hash := header_hash c; header_written := v; fs_ctx := fs_ctx c;
     decrypted_key_area := decrypted_key_area c |}.

Definition set_fs_ctx (c : NcaContext) (v : list NcaFsSectionContext) : NcaContext :=
  {| storage_id := storage_id c; ncm_storage := ncm_storage c;
     gamecard_offset := gamecard_offset c; content_id := content_id c;
     content_id_str := content_id_str c; hash := hash c; hash_str := hash_str c;
     format_version := format_version c; content_type := content_type c;
     content_size := content_size c; key_generation := key_generation c;
     id_offset := id_offset c; rights_id_available := rights_id_available c;
     titlekey_retrieved := titlekey_retrieved c;
     valid_main_signature := valid_main_signature c; titlekey := titlekey c;
     encrypted_header := encrypted_header c; header := header c;
     header_hash := header_hash c; header_written := header_written c; fs_ctx := v;
     decrypted_key_area := decrypted_key_area c |}.

Definition set_decrypted_key_area (c : NcaContext) (v : bytes) : NcaContext :=
  {| storage_id := storage_id c; ncm_storage := ncm_storage c;
     gamecard_offset := gamecard_offset c; content_id := content_id c;
     content_id_str := content_id_str c; hash := hash c; hash_str := hash_str c;
     format_version := format_version c; content_type := content_type c;
     content_size := content_size c; key_generation := key_generation c;
     id_offset := id_offset c; rights_id_available := rights_id_available c;
     titlekey_retrieved := titlekey_retrieved c;
     valid_main_signature := valid_main_signature c; titlekey := titlekey c;
     encrypted_header := encrypted_header c; header := header c;
     header_hash := header_hash c; header_written := header_written c;
     fs_ctx := fs_ctx c; decrypted_key_area := v |}.

(** The result of a call that recurses: [OutOfFuel] is the model's own
    "not finished yet" and is shown below never to be the answer. *)
Inductive outcome (A : Type) : Type :=
| Done (a : A)
| Failed
| OutOfFuel.
Arguments Done {A} a.
Arguments Failed {A}.
Arguments OutOfFuel {A}.

(** ** The engine *)

Section Engine.

Variable L : NcaLayout.
Variable E : NcaEnv.

(** [!*(ctx->content_id_str)]. *)
Definition content_id_str_empty (ctx : NcaContext) : bool :=
  all_zero (firstn 1 (content_id_str ctx)).

(** The storage test shared by every entry point:
    [(storage_id != GameCard && !ncm_storage) ||
     (storage_id == GameCard && !gamecard_offset)]. *)
Definition storage_missing (ctx : NcaContext) : bool :=
  (negb (storage_id ctx =? NcmStorageId_GameCard) && negb (ncm_storage ctx))
  || ((storage_id ctx =? NcmStorageId_GameCard) && (gamecard_offset ctx =? 0)).

(** [ncaReadContentFile]: the bytes read, or [None] for [false]. *)
Definition ncaReadContentFile (ctx : NcaContext) (read_size offset : Z)
  : option bytes :=
  if content_id_str_empty ctx || storage_missing ctx || (read_size =? 0)
     || (add64 offset read_size >? content_size ctx)
  then None
  else if negb (storage_id ctx =? NcmStorageId_GameCard)
  then ncmContentStorageReadContentIdFile E (content_id ctx) read_size offset
  else gamecardReadStorage E read_size (add64 (gamecard_offset ctx) offset).

(** [ncaIsFsInfoEntryValid]: the entry is not all zero. *)
Definition ncaIsFsInfoEntryValid (fs_info : bytes) : bool :=
  negb (all_zero fs_info).

(** [ncaIsVersion0KeyAreaEncrypted]. *)
Definition ncaIsVersion0KeyAreaEncrypted (ctx : NcaContext) : bool :=
  if negb (format_version ctx =? NcaVersion_Nca0) then false
  else
    let nca0_key_area_hash :=
      sha256CalculateHash E
        (fixed NCA_USED_KEY_AREA_SIZE (hdr_encrypted_key_area L (header ctx))) in
    negb (bytes_eqb nca0_key_area_hash g_nca0KeyAreaHash).

(** [ncaGetKeyGenerationValue]. *)
Definition ncaGetKeyGenerationValue (ctx : NcaContext) : Z :=
  if hdr_key_generation L (header ctx) >? hdr_key_generation_old L (header ctx)
  then hdr_key_generation L (header ctx)
  else hdr_key_generation_old L (header ctx).

(** [ncaCheckRightsIdAvailability]: some byte of the rights id is not zero. *)
Definition ncaCheckRightsIdAvailability (ctx : NcaContext) : bool :=
  existsb (fun b => negb (b =? 0)) (fixed 0x10 (hdr_rights_id L (header ctx))).

(** [ncaVerifyMainSignature]. *)
Definition ncaVerifyMainSignature (ctx : NcaContext) : bool :=
  match keysGetNcaMainSignatureModulus E
          (hdr_main_signature_key_generation L (header ctx)) with
  | None => false
  | Some modulus =>
    rsa2048VerifySha256BasedPssSignature E
      (hdr_signature_area L (header ctx)) (hdr_main_signature L (header ctx))
      modulus g_ncaHeaderMainSignaturePublicExponent
  end.

(** [key_count]. *)
Definition key_count (ctx : NcaContext) : Z :=
  if format_version ctx =? NcaVersion_Nca0 then 2 else 4.

(** The slot loop of [ncaDecryptKeyArea], over the slot indices still to
    do; [None] is the [return false] of a failed slot. *)
Fixpoint decrypt_key_area_slots (ctx : NcaContext) (src dst : bytes) (idx : list Z)
  : option bytes :=
  match idx with
  | [] => Some dst
  | i :: rest =>
    let src_key := fixed AES_128_KEY_SIZE (key_area_slot src i) in
    if all_zero src_key then decrypt_key_area_slots ctx src dst rest
    else
      match keysDecryptNcaKeyAreaEntry E (hdr_kaek_index L (header ctx))
                                       (key_generation ctx) src_key with
      | None => None
      | Some k =>
        decrypt_key_area_slots ctx src
          (memcpy dst (i * AES_128_KEY_SIZE) (fixed AES_128_KEY_SIZE k) AES_128_KEY_SIZE)
          rest
      end
  end.

(** The indices [0 .. n-1] of a [for] loop. *)
Definition upto (n : Z) : list Z := map Z.of_nat (seq 0 (Z.to_nat n)).

(** [ncaDecryptKeyArea]: the context after the call, [None] for [false]. *)
Definition ncaDecryptKeyArea (ctx : NcaContext) : option NcaContext :=
  let stored := fixed NCA_USED_KEY_AREA_SIZE (hdr_encrypted_key_area L (header ctx)) in
  if ncaIsVersion0KeyAreaEncrypted ctx
  then Some (set_decrypted_key_area ctx stored)
  else
    match decrypt_key_area_slots ctx stored (calloc NCA_USED_KEY_AREA_SIZE)
                                 (upto (key_count ctx)) with
    | None => None
    | Some dka => Some (set_decrypted_key_area ctx dka)
    end.

(** The slot loop of [ncaEncryptKeyArea]. *)
Fixpoint encrypt_key_area_slots (kaek src dst : bytes) (idx : list Z) : bytes :=
  match idx with
  | [] => dst
  | i :: rest =>
    let src_key := fixed AES_128_KEY_SIZE (key_area_slot src i) in
    if all_zero src_key then encrypt_key_area_slots kaek src dst rest
    else
      encrypt_key_area_slots kaek src
        (memcpy dst (i * AES_128_KEY_SIZE)
                (fixed AES_128_KEY_SIZE (aes128EncryptBlock E kaek src_key))
                AES_128_KEY_SIZE)
        rest
  end.

(** [ncaEncryptKeyArea]. *)
Definition ncaEncryptKeyArea (ctx : NcaContext) : option NcaContext :=
  let dka := fixed NCA_USED_KEY_AREA_SIZE (decrypted_key_area ctx) in
  if ncaIsVersion0KeyAreaEncrypted ctx
  then Some (set_header ctx (hdr_set_encrypted_key_area L (header ctx) dka))
  else
    match keysGetNcaKeyAreaEncryptionKey E (hdr_kaek_index L (header ctx))
                                           (key_generation ctx) with
    | None => None
    | Some kaek =>
      Some (set_header ctx
              (hdr_set_encrypted_key_area L (header ctx)
                 (encrypt_key_area_slots kaek dka (calloc NCA_USED_KEY_AREA_SIZE)
                                         (upto (key_count ctx)))))
    end.

(** The XTS sector of section header [i]: an [unsigned int] expression,
    widened to [u64]. *)
Definition fs_header_sector (ctx : NcaContext) (i : Z) (fs_info : bytes) : Z :=
  if format_version ctx =? NcaVersion_Nca3 then add32 2 i
  else if format_version ctx =? NcaVersion_Nca2 then 0
  else sub32 (fs_info_start_sector L fs_info) 2.

(** The on-disk offset of section header [i]. *)
Definition fs_header_offset (ctx : NcaContext) (i : Z) (fs_info : bytes) : Z :=
  if negb (format_version ctx =? NcaVersion_Nca0)
  then NCA_HEADER_LENGTH + i * NCA_FS_HEADER_LENGTH
  else NCA_FS_SECTOR_OFFSET (fs_info_start_sector L fs_info).

(** [ctx->fs_ctx[i]]. *)
Definition get_fs_ctx (ctx : NcaContext) (i : Z) : NcaFsSectionContext :=
  nth_z (fs_ctx ctx) i fs_ctx_zero.

Definition put_fs_ctx (ctx : NcaContext) (i : Z) (s : NcaFsSectionContext)
  : NcaContext :=
  set_fs_ctx ctx (set_nth (fs_ctx ctx) i s).

(** The section-header loop of [ncaReadDecryptedHeader]. *)
Fixpoint read_fs_headers (hdr_aes_ctx nca0_fs_header_ctx : Aes128XtsContext)
    (ctx : NcaContext) (idx : list Z) : option NcaContext :=
  match idx with
  | [] => Some ctx
  | i :: rest =>
    let fs_info := hdr_fs_info L (header ctx) i in
    if negb (ncaIsFsInfoEntryValid fs_info)
    then read_fs_headers hdr_aes_ctx nca0_fs_header_ctx ctx rest
    else
      match ncaReadContentFile ctx NCA_FS_HEADER_LENGTH
                               (fs_header_offset ctx i fs_info) with
      | None => None
      | Some enc =>
        let aes_xts_ctx :=
          if negb (format_version ctx =? NcaVersion_Nca0)
          then hdr_aes_ctx else nca0_fs_header_ctx in
        let sector := fs_header_sector ctx i fs_info in
        let '(dec, crypt_res) :=
          aes128XtsNintendoCrypt E aes_xts_ctx enc NCA_FS_HEADER_LENGTH sector
                                 NCA_AES_XTS_SECTOR_SIZE false in
        if negb (crypt_res =? NCA_FS_HEADER_LENGTH) then None
        else
          let s := get_fs_ctx ctx i in
          read_fs_headers hdr_aes_ctx nca0_fs_header_ctx
            (put_fs_ctx ctx i (set_fs_header (set_fs_encrypted_header s enc) dec))
            rest
      end
  end.

(** The header key as the two XTS halves. *)
Definition header_xts_ctx (header_key : bytes) (is_encryptor : bool)
  : Aes128XtsContext :=
  aes128XtsContextCreate (slice header_key 0 AES_128_KEY_SIZE)
                         (slice header_key AES_128_KEY_SIZE AES_128_KEY_SIZE)
                         is_encryptor.

(** The XTS context of the NCA0 section headers: keyed from the decrypted
    key area for NCA0, the zero-filled local otherwise. *)
Definition nca0_xts_ctx (ctx : NcaContext) (is_encryptor : bool) : Aes128XtsContext :=
  if format_version ctx =? NcaVersion_Nca0
  then aes128XtsContextCreate (aes_xts_1 (decrypted_key_area ctx))
                              (aes_xts_2 (decrypted_key_area ctx)) is_encryptor
  else xts_zero.

(** [ncaReadDecryptedHeader]: the context after the call, [None] for
    [false]. *)
Definition ncaReadDecryptedHeader (ctx : NcaContext) : option NcaContext :=
  if content_id_str_empty ctx || (content_size ctx <? NCA_FULL_HEADER_LENGTH)
  then None
  else
    match keysGetNcaHeaderKey E with
    | None => None
    | Some header_key =>
      match ncaReadContentFile ctx NCA_HEADER_LENGTH 0 with
      | None => None
      | Some enc =>
        let ctx := set_encrypted_header ctx enc in
        let hdr_aes_ctx := header_xts_ctx header_key false in
        let '(dec, crypt_res) :=
          aes128XtsNintendoCrypt E hdr_aes_ctx enc NCA_HEADER_LENGTH 0
                                 NCA_AES_XTS_SECTOR_SIZE false in
        let ctx := set_header ctx dec in
        let magic := bswap32 (hdr_magic L (header ctx)) in
        if negb (crypt_res =? NCA_HEADER_LENGTH)
           || (negb (magic =? NCA_NCA3_MAGIC) && negb (magic =? NCA_NCA2_MAGIC)
               && negb (magic =? NCA_NCA0_MAGIC))
           || negb (hdr_content_size L (header ctx) =? content_size ctx)
        then None
        else
          let ctx := set_format_version ctx
                       (if magic =? NCA_NCA3_MAGIC then NcaVersion_Nca3
                        else if magic =? NCA_NCA2_MAGIC then NcaVersion_Nca2
                        else NcaVersion_Nca0) in
          let ctx := set_key_generation ctx (ncaGetKeyGenerationValue ctx) in
          let ctx := set_rights_id_available ctx (ncaCheckRightsIdAvailability ctx) in
          let ctx := set_header_hash ctx (sha256CalculateHash E (header ctx)) in
          let ctx := set_valid_main_signature ctx (ncaVerifyMainSignature ctx) in
          match (if negb (rights_id_available ctx)
                 then ncaDecryptKeyArea ctx else Some ctx) with
          | None => None
          | Some ctx =>
            read_fs_headers hdr_aes_ctx (nca0_xts_ctx ctx false) ctx
                            (upto NCA_FS_HEADER_COUNT)
          end
      end
    end.

(** Modelled from the spec: [ncaIsHeaderDirty] is an inline helper of
    [nca.h], not under the sources.  The spec gives the archive a
    header-dirty state that is clean after decryption and has decryption
    store the SHA-256 of the plaintext header as [header_hash]; no function
    of [nca.c] writes a dirty flag, so the state is the comparison of the
    current plaintext header's SHA-256 with [header_hash]. *)
Definition ncaIsHeaderDirty (ctx : NcaContext) : bool :=
  negb (bytes_eqb (sha256CalculateHash E (header ctx)) (header_hash ctx)).

(** The section-header loop of [ncaEncryptHeader]. *)
Fixpoint encrypt_fs_headers (hdr_aes_ctx nca0_fs_header_ctx : Aes128XtsContext)
    (ctx : NcaContext) (idx : list Z) : option NcaContext :=
  match idx with
  | [] => Some ctx
  | i :: rest =>
    let fs_info := hdr_fs_info L (header ctx) i in
    if negb (ncaIsFsInfoEntryValid fs_info)
    then encrypt_fs_headers hdr_aes_ctx nca0_fs_header_ctx ctx rest
    else
      let s := get_fs_ctx ctx i in
      let aes_xts_ctx :=
        if negb (format_version ctx =? NcaVersion_Nca0)
        then hdr_aes_ctx else nca0_fs_header_ctx in
      let sector := fs_header_sector ctx i fs_info in
      let '(enc, crypt_res) :=
        aes128XtsNintendoCrypt E aes_xts_ctx (fs_header s) NCA_FS_HEADER_LENGTH sector
                               NCA_AES_XTS_SECTOR_SIZE true in
      if negb (crypt_res =? NCA_FS_HEADER_LENGTH) then None
      else
        encrypt_fs_headers hdr_aes_ctx nca0_fs_header_ctx
          (put_fs_ctx ctx i (set_fs_encrypted_header s enc)) rest
  end.

(** The part of [ncaEncryptHeader] after the dirty test. *)
Definition encrypt_header_body (ctx : NcaContext) : option NcaContext :=
  match keysGetNcaHeaderKey E with
  | None => None
  | Some header_key =>
    let hdr_aes_ctx := header_xts_ctx header_key true in
    let nca0_fs_header_ctx := nca0_xts_ctx ctx true in
    let '(enc, crypt_res) :=
      aes128XtsNintendoCrypt E hdr_aes_ctx (header ctx) NCA_HEADER_LENGTH 0
                             NCA_AES_XTS_SECTOR_SIZE true in
    if negb (crypt_res =? NCA_HEADER_LENGTH) then None
    else
      encrypt_fs_headers hdr_aes_ctx nca0_fs_header_ctx
                         (set_encrypted_header ctx enc) (upto NCA_FS_HEADER_COUNT)
  end.

(** [ncaEncryptHeader]. *)
Definition ncaEncryptHeader (ctx : NcaContext) : option NcaContext :=
  if content_id_str_empty ctx || (content_size ctx <? NCA_FULL_HEADER_LENGTH)
  then None
  else if negb (ncaIsHeaderDirty ctx) then Some ctx
  else encrypt_header_body ctx.

(** [ncaSetDownloadDistributionType]. *)
Definition ncaSetDownloadDistributionType (ctx : NcaContext) : NcaContext :=
  if (content_size ctx <? NCA_FULL_HEADER_LENGTH) || content_id_str_empty ctx
     || (content_type ctx >? NcmContentType_DeltaFragment)
     || (hdr_distribution_type L (header ctx) =? NcaDistributionType_Download)
  then ctx
  else set_header ctx
         (hdr_set_distribution_type L (header ctx) NcaDistributionType_Download).

(** [ncaRemoveTitleKeyCrypto]. *)
Definition ncaRemoveTitleKeyCrypto (ctx : NcaContext) : option NcaContext :=
  if (content_size ctx <? NCA_FULL_HEADER_LENGTH) || content_id_str_empty ctx
     || (content_type ctx >? NcmContentType_DeltaFragment)
  then None
  else if negb (rights_id_available ctx) || negb (titlekey_retrieved ctx)
  then Some ctx
  else
    let ctx := set_decrypted_key_area ctx
                 (memcpy (fixed NCA_USED_KEY_AREA_SIZE (decrypted_key_area ctx))
                         (2 * AES_128_KEY_SIZE)
                         (fixed AES_128_KEY_SIZE (titlekey ctx)) AES_128_KEY_SIZE) in
    match ncaEncryptKeyArea ctx with
    | None => None
    | Some ctx =>
      let ctx := set_header ctx (hdr_set_rights_id L (header ctx) (calloc 0x10)) in
      Some (set_rights_id_available ctx false)
    end.

(** [ncaUpdateContentIdAndHash] (the argument [hash] is [new_hash] here,
    the field keeps its name). *)
Definition ncaUpdateContentIdAndHash (ctx : NcaContext) (new_hash : bytes)
  : NcaContext :=
  let ctx := set_content_id ctx (fixed 0x10 new_hash) in
  let ctx := set_content_id_str ctx
               (utilsGenerateHexStringFromData E (content_id ctx)) in
  let ctx := set_hash ctx (fixed SHA256_HASH_SIZE new_hash) in
  set_hash_str ctx (utilsGenerateHexStringFromData E (hash ctx)).

(** What [ncaInitializeContext] reads of its [NcmContentInfo]; [ci_size] is
    the size as [titleConvertNcmContentSizeToU64] gives it. *)
Record NcmContentInfo := {
  ci_content_id : bytes;
  ci_size : Z;
  ci_content_type : Z;
  ci_id_offset : Z
}.

(** [memset(out, 0, sizeof(NcaContext))]. *)
Definition nca_ctx_zero : NcaContext :=
  {| storage_id := 0; ncm_storage := false; gamecard_offset := 0;
     content_id := calloc 0x10; content_id_str := []; hash := calloc SHA256_HASH_SIZE;
     hash_str := []; format_version := 0; content_type := 0; content_size := 0;
     key_generation := 0; id_offset := 0; rights_id_available := false;
     titlekey_retrieved := false; valid_main_signature := false;
     titlekey := calloc 0x10; encrypted_header := calloc NCA_HEADER_LENGTH;
     header := calloc NCA_HEADER_LENGTH; header_hash := calloc SHA256_HASH_SIZE;
     header_written := false;
     fs_ctx := repeat fs_ctx_zero (Z.to_nat NCA_FS_HEADER_COUNT);
     decrypted_key_area := calloc NCA_USED_KEY_AREA_SIZE |}.

(** The encryption type of a section: forced to XTS for NCA0, else the
    header's, with [Auto] resolved by the section number. *)
Definition resolve_encryption_type (out : NcaContext) (s : NcaFsSectionContext) : Z :=
  let t := if format_version out =? NcaVersion_Nca0 then NcaEncryptionType_AesXts
           else fsh_encryption_type L (fs_header s) in
  if t =? NcaEncryptionType_Auto then
    if (section_num s =? 0) || (section_num s =? 1) then NcaEncryptionType_AesCtr
    else if section_num s =? 2 then NcaEncryptionType_None
    else t
  else t.

(** The section type; it stays [Invalid] when no rule applies. *)
Definition resolve_section_type (out : NcaContext) (s : NcaFsSectionContext) : Z :=
  let h := fs_header s in
  if (fsh_fs_type L h =? NcaFsType_PartitionFs)
     && (fsh_hash_type L h =? NcaHashType_HierarchicalSha256)
  then NcaFsSectionType_PartitionFs
  else if (fsh_fs_type L h =? NcaFsType_RomFs)
          && (fsh_hash_type L h =? NcaHashType_HierarchicalIntegrity)
  then (if encryption_type s =? NcaEncryptionType_AesCtrEx
        then NcaFsSectionType_PatchRomFs else NcaFsSectionType_RomFs)
  else if (fsh_fs_type L h =? NcaFsType_RomFs)
          && (fsh_hash_type L h =? NcaHashType_HierarchicalSha256)
          && (format_version out =? NcaVersion_Nca0)
  then NcaFsSectionType_Nca0RomFs
  else section_type s.

(** "Initialize crypto data": the counters and the cipher contexts. *)
Definition init_section_crypto (out : NcaContext) (s : NcaFsSectionContext)
  : NcaFsSectionContext :=
  if (negb (rights_id_available out)
      || (rights_id_available out && titlekey_retrieved out))
     && (encryption_type s >? NcaEncryptionType_None)
     && (encryption_type s <=? NcaEncryptionType_AesCtrEx)
  then
    let s := set_ctr s (aes128CtrInitializePartialCtr E
                          (fsh_aes_ctr_upper_iv L (fs_header s)) (section_offset s)) in
    let s :=
      if has_sparse_layer s then
        let sparse_upper_iv :=
          upper_iv_set_generation L (fsh_aes_ctr_upper_iv L (fs_header s))
            (u32 (Z.shiftl (fsh_sparse_generation L (fs_header s)) 16)) in
        set_sparse_ctr s (aes128CtrInitializePartialCtr E sparse_upper_iv
                                                        (sparse_table_offset s))
      else s in
    if rights_id_available out then
      let s := set_ctr_ctx s (aes128CtrContextCreate (titlekey out) (ctr s)) in
      if has_sparse_layer s
      then set_sparse_ctr_ctx s (aes128CtrContextCreate (titlekey out) (sparse_ctr s))
      else s
    else if encryption_type s =? NcaEncryptionType_AesXts then
      let s := set_xts_decrypt_ctx s
                 (aes128XtsContextCreate (aes_xts_1 (decrypted_key_area out))
                                         (aes_xts_2 (decrypted_key_area out)) false) in
      set_xts_encrypt_ctx s
        (aes128XtsContextCreate (aes_xts_1 (decrypted_key_area out))
                                (aes_xts_2 (decrypted_key_area out)) true)
    else if (encryption_type s =? NcaEncryptionType_AesCtr)
            || (encryption_type s =? NcaEncryptionType_AesCtrEx) then
      let s := set_ctr_ctx s
                 (aes128CtrContextCreate (aes_ctr (decrypted_key_area out)) (ctr s)) in
      if has_sparse_layer s
      then set_sparse_ctr_ctx s
             (aes128CtrContextCreate (aes_ctr (decrypted_key_area out)) (sparse_ctr s))
      else s
    else s
  else s.

(** One turn of the "Parse NCA FS sections" loop: the section context as the
    turn leaves it, and whether the turn reached its end (where the section
    is enabled and counted) instead of a [continue]. *)
Definition init_fs_section (out : NcaContext) (i : Z) : NcaFsSectionContext * bool :=
  let fs_info := hdr_fs_info L (header out) i in
  let fs_header_hash := hdr_fs_header_hash L (header out) i in
  let s := get_fs_ctx out i in
  let s := set_section_num s i in
  let s := set_section_type s NcaFsSectionType_Invalid in
  let s := set_has_sparse_layer s
             (negb (fsh_sparse_generation L (fs_header s) =? 0)) in
  if negb (ncaIsFsInfoEntryValid fs_info) then (s, false)
  else if negb (bytes_eqb (fixed SHA256_HASH_SIZE (sha256CalculateHash E (fs_header s)))
                          (fixed SHA256_HASH_SIZE fs_header_hash)) then (s, false)
  else
    let s := set_section_offset s
               (NCA_FS_SECTOR_OFFSET (fs_info_start_sector L fs_info)) in
    let s := set_section_size s
               (sub64 (NCA_FS_SECTOR_OFFSET (fs_info_end_sector L fs_info))
                      (section_offset s)) in
    if (section_offset s <? NCA_HEADER_LENGTH) || (section_size s =? 0) then (s, false)
    else
      let s := set_encryption_type s (resolve_encryption_type out s) in
      if (encryption_type s =? NcaEncryptionType_Auto)
         || (encryption_type s >? NcaEncryptionType_AesCtrEx) then (s, false)
      else
        let s := set_section_type s (resolve_section_type out s) in
        if section_type s >=? NcaFsSectionType_Invalid then (s, false)
        else
          let h := fs_header s in
          let sparse_checked :=
            if has_sparse_layer s then
              let raw_storage_offset := fsh_sparse_physical_offset L h in
              let raw_storage_size :=
                add64 (fsh_sparse_bucket_offset L h) (fsh_sparse_bucket_size L h) in
              if negb (bswap32 (fsh_sparse_bucket_magic L h) =? NCA_BKTR_MAGIC)
                 || negb (fsh_sparse_bucket_version L h =? NCA_BKTR_VERSION)
                 || (raw_storage_offset <? NCA_HEADER_LENGTH)
                 || (raw_storage_size =? 0)
                 || (add64 raw_storage_offset raw_storage_size >? content_size out)
                 || (fsh_sparse_bucket_entry_count L h =? 0)
              then None
              else Some (set_sparse_table_size
                           (set_sparse_table_offset s
                              (add64 (fsh_sparse_physical_offset L h)
                                     (fsh_sparse_bucket_offset L h)))
                           (fsh_sparse_bucket_size L h))
            else if add64 (section_offset s) (section_size s) >? content_size out
            then None
            else Some s in
          match sparse_checked with
          | None => (s, false)
          | Some s => (set_enabled (init_section_crypto out s) true, true)
          end.

(** The "Parse NCA FS sections" loop with its counter (a [u8]). *)
Fixpoint init_fs_sections (out : NcaContext) (idx : list Z)
    (valid_fs_section_cnt : Z) : NcaContext * Z :=
  match idx with
  | [] => (out, valid_fs_section_cnt)
  | i :: rest =>
    let '(s, counted) := init_fs_section out i in
    init_fs_sections (put_fs_ctx out i s) rest
      (if counted then u8 (valid_fs_section_cnt + 1) else valid_fs_section_cnt)
  end.

(** The gamecard file name: ["%s.%s"] of the content id string and
    ["cnmt.nca"] or ["nca"], as character codes. *)
Definition nca_filename (out : NcaContext) : bytes :=
  content_id_str out ++ [46] ++
  (if content_type out =? NcmContentType_Meta
   then [99; 110; 109; 116; 46; 110; 99; 97] else [110; 99; 97]).

(** [ncaInitializeContext] up to the section loop: parameter test, the
    filled context, the declared-size test, the gamecard lookup, the header
    read and the ticket retrieval.  The optional ticket argument only selects
    where the ticket store puts the ticket it retrieves; the title key it
    yields is [tikRetrieveTicketByRightsId]'s. *)
Definition init_before_sections (storage : Z) (hfs_partition_type : Z)
    (content_info : NcmContentInfo) : option NcaContext :=
  let ncm := titleGetNcmStorageByStorageId E storage in
  if (negb (storage =? NcmStorageId_GameCard) && negb ncm)
     || ((storage =? NcmStorageId_GameCard)
         && ((hfs_partition_type =? 0)
             || (hfs_partition_type >=? GameCardHashFileSystemPartitionType_Count)))
     || (ci_content_type content_info >? NcmContentType_DeltaFragment)
  then None
  else
    let out := nca_ctx_zero in
    let out := set_storage_id out storage in
    let out := set_ncm_storage out
                 (if negb (storage_id out =? NcmStorageId_GameCard) then ncm else false) in
    let out := set_content_id out (fixed 0x10 (ci_content_id content_info)) in
    let out := set_content_id_str out
                 (utilsGenerateHexStringFromData E (content_id out)) in
    let out := set_hash_str out (utilsGenerateHexStringFromData E (hash out)) in
    let out := set_content_type out (ci_content_type content_info) in
    let out := set_id_offset out (ci_id_offset content_info) in
    let out := set_content_size out (ci_size content_info) in
    if content_size out <? NCA_FULL_HEADER_LENGTH then None
    else
      match (if storage_id out =? NcmStorageId_GameCard
             then match gamecardGetHashFileSystemEntryInfoByName E hfs_partition_type
                          (nca_filename out) with
                  | None => None
                  | Some off => Some (set_gamecard_offset out off)
                  end
             else Some out) with
      | None => None
      | Some out =>
        match ncaReadDecryptedHeader out with
        | None => None
        | Some out =>
          if rights_id_available out then
            match tikRetrieveTicketByRightsId E
                    (fixed 0x10 (hdr_rights_id L (header out)))
                    (storage_id out =? NcmStorageId_GameCard) with
            | Some dec_titlekey =>
              Some (set_titlekey_retrieved
                      (set_titlekey out (fixed 0x10 dec_titlekey)) true)
            | None => Some out
            end
          else Some out
        end
      end.

(** [ncaInitializeContext]: the context built, [None] for [false]. *)
Definition ncaInitializeContext (storage : Z) (hfs_partition_type : Z)
    (content_info : NcmContentInfo) : option NcaContext :=
  match init_before_sections storage hfs_partition_type content_info with
  | None => None
  | Some out =>
    let '(out, valid_fs_section_cnt) :=
      init_fs_sections out (upto NCA_FS_HEADER_COUNT) 0 in
    if valid_fs_section_cnt >? 0 then Some out else None
  end.

(** ** Section reads *)

(** The cipher unit of a section: the XTS sector or the AES block. *)
Definition cipher_unit (ctx : NcaFsSectionContext) : Z :=
  if encryption_type ctx =? NcaEncryptionType_AesXts
  then NCA_AES_XTS_SECTOR_SIZE else AES_BLOCK_SIZE.

(** The XTS sector number of a payload access at section offset [offset],
    archive offset [content_offset]. *)
Definition xts_sector_num (nca_ctx : NcaContext) (offset content_offset : Z) : Z :=
  (if negb (format_version nca_ctx =? NcaVersion_Nca0) then offset
   else sub64 content_offset NCA_HEADER_LENGTH) / NCA_AES_XTS_SECTOR_SIZE.

(** "Decrypt data" of [_ncaReadFsSection] on a block of [size] bytes read at
    archive offset [block_offset]; [None] is the XTS length mismatch.  Only
    the decrypted bytes are returned.  The code works in place on the
    section context: [aes128CtrUpdatePartialCtr] overwrites [ctx->ctr] and
    [aes128CtrContextResetCtr] overwrites [ctx->ctr_ctx], and the XTS call
    is handed [ctx->xts_decrypt_ctx].  Those writes are not returned here:
    the counter of every call is computed from the [ctr] of the context
    given, so a result of this model speaks of the bytes of one call on
    that context and says nothing of the counter fields afterwards. *)
Definition decrypt_section_block (nca_ctx : NcaContext) (ctx : NcaFsSectionContext)
    (data : bytes) (size offset content_offset block_offset : Z) : option bytes :=
  if encryption_type ctx =? NcaEncryptionType_AesXts then
    let sector_num := xts_sector_num nca_ctx offset content_offset in
    let '(dec, crypt_res) :=
      aes128XtsNintendoCrypt E (xts_decrypt_ctx ctx) data size sector_num
                             NCA_AES_XTS_SECTOR_SIZE false in
    if negb (crypt_res =? size) then None else Some dec
  else if (encryption_type ctx =? NcaEncryptionType_AesCtr)
          || (encryption_type ctx =? NcaEncryptionType_AesCtrEx) then
    Some (aes128CtrCrypt E
            (aes128CtrContextResetCtr (ctr_ctx ctx)
               (aes128CtrUpdatePartialCtr E (ctr ctx) block_offset))
            data)
  else Some data.

(** The first parameter test of [_ncaReadFsSection]; [crypto_buffer] is
    [g_ncaCryptoBuffer != NULL]. *)
Definition read_section_invalid (crypto_buffer : bool) (ctx : NcaFsSectionContext)
    (read_size offset : Z) : bool :=
  negb crypto_buffer || negb (enabled ctx)
  || (section_num ctx >=? NCA_FS_HEADER_COUNT)
  || (section_offset ctx <? NCA_HEADER_LENGTH)
  || (section_type ctx >=? NcaFsSectionType_Invalid)
  || (encryption_type ctx =? NcaEncryptionType_Auto)
  || (encryption_type ctx >? NcaEncryptionType_AesCtrEx)
  || (read_size =? 0)
  || (add64 offset read_size >? section_size ctx).

(** The second test, on the archive context. *)
Definition read_archive_invalid (nca_ctx : NcaContext) (content_offset size : Z)
  : bool :=
  content_id_str_empty nca_ctx || storage_missing nca_ctx
  || (negb (format_version nca_ctx =? NcaVersion_Nca0)
      && negb (format_version nca_ctx =? NcaVersion_Nca2)
      && negb (format_version nca_ctx =? NcaVersion_Nca3))
  || (add64 content_offset size >? content_size nca_ctx).

(** The aligned-access test: plaintext sections, or offset and size both
    multiples of the cipher unit.  [ctr_ex] tells whether CTR-Ex counts as
    CTR (it does for reads, not for block generation). *)
Definition aligned_access (ctx : NcaFsSectionContext) (ctr_ex : bool)
    (content_offset size : Z) : bool :=
  (encryption_type ctx =? NcaEncryptionType_None)
  || ((encryption_type ctx =? NcaEncryptionType_AesXts)
      && (content_offset mod NCA_AES_XTS_SECTOR_SIZE =? 0)
      && (size mod NCA_AES_XTS_SECTOR_SIZE =? 0))
  || (((encryption_type ctx =? NcaEncryptionType_AesCtr)
       || (ctr_ex && (encryption_type ctx =? NcaEncryptionType_AesCtrEx)))
      && (content_offset mod AES_BLOCK_SIZE =? 0)
      && (size mod AES_BLOCK_SIZE =? 0)).

(** [_ncaReadFsSection]: the [read_size] bytes written to [out].  The
    recursion on the tail of a span larger than the staging buffer is on
    [fuel].  The value is the output buffer alone: the counter fields the
    code overwrites in the section context (see [decrypt_section_block])
    are not part of it, and the recursive call is given the same context
    as the first. *)
Fixpoint _ncaReadFsSection_fuel (fuel : nat) (crypto_buffer : bool)
    (nca_ctx : NcaContext) (ctx : NcaFsSectionContext) (read_size offset : Z)
  : outcome bytes :=
  match fuel with
  | O => OutOfFuel
  | S fuel' =>
    if read_section_invalid crypto_buffer ctx read_size offset then Failed
    else
      let content_offset := add64 (section_offset ctx) offset in
      if read_archive_invalid nca_ctx content_offset read_size then Failed
      else if aligned_access ctx true content_offset read_size then
        match ncaReadContentFile nca_ctx read_size content_offset with
        | None => Failed
        | Some out =>
          if encryption_type ctx =? NcaEncryptionType_None then Done out
          else
            match decrypt_section_block nca_ctx ctx out read_size offset
                                        content_offset content_offset with
            | None => Failed
            | Some dec => Done dec
            end
        end
      else
        let block_start_offset := ALIGN_DOWN content_offset (cipher_unit ctx) in
        let block_end_offset :=
          ALIGN_UP (add64 content_offset read_size) (cipher_unit ctx) in
        let block_size := sub64 block_end_offset block_start_offset in
        let data_start_offset := sub64 content_offset block_start_offset in
        let chunk_size :=
          if block_size >? NCA_CRYPTO_BUFFER_SIZE
          then NCA_CRYPTO_BUFFER_SIZE else block_size in
        let out_chunk_size :=
          if block_size >? NCA_CRYPTO_BUFFER_SIZE
          then sub64 NCA_CRYPTO_BUFFER_SIZE data_start_offset else read_size in
        match ncaReadContentFile nca_ctx chunk_size block_start_offset with
        | None => Failed
        | Some enc =>
          match decrypt_section_block nca_ctx ctx enc chunk_size offset
                                      content_offset block_start_offset with
          | None => Failed
          | Some dec =>
            let chunk := slice dec data_start_offset out_chunk_size in
            if block_size >? NCA_CRYPTO_BUFFER_SIZE then
              match _ncaReadFsSection_fuel fuel' crypto_buffer nca_ctx ctx
                      (sub64 read_size out_chunk_size)
                      (add64 offset out_chunk_size) with
              | Done rest => Done (chunk ++ rest)
              | Failed => Failed
              | OutOfFuel => OutOfFuel
              end
            else Done chunk
          end
        end
  end.

(** Each recursive call consumes more than [NCA_CRYPTO_BUFFER_SIZE - 0x200]
    bytes, which bounds the depth. *)
Definition read_fuel (read_size : Z) : nat :=
  S (Z.to_nat (read_size / (NCA_CRYPTO_BUFFER_SIZE - NCA_AES_XTS_SECTOR_SIZE))).

(** [_ncaReadFsSection]: [None] for [false]. *)
Definition _ncaReadFsSection (crypto_buffer : bool) (nca_ctx : NcaContext)
    (ctx : NcaFsSectionContext) (read_size offset : Z) : option bytes :=
  match _ncaReadFsSection_fuel (read_fuel read_size) crypto_buffer nca_ctx ctx
                               read_size offset with
  | Done out => Some out
  | _ => None
  end.

(** ** Encrypted block generation *)

(** The test on the section context in [_ncaGenerateEncryptedFsSectionBlock]:
    sparse sections and every encryption type from [AesCtrEx] up are
    refused. *)
Definition block_section_invalid (crypto_buffer : bool) (ctx : NcaFsSectionContext)
    (data_size data_offset : Z) : bool :=
  negb crypto_buffer || negb (enabled ctx) || has_sparse_layer ctx
  || (section_num ctx >=? NCA_FS_HEADER_COUNT)
  || (section_offset ctx <? NCA_HEADER_LENGTH)
  || (section_type ctx >=? NcaFsSectionType_Invalid)
  || (encryption_type ctx =? NcaEncryptionType_Auto)
  || (encryption_type ctx >=? NcaEncryptionType_AesCtrEx)
  || (data_size =? 0)
  || (add64 data_offset data_size >? section_size ctx).

(** "Encrypt data" / "Reencrypt data": [None] is the XTS length mismatch.
    As for [decrypt_section_block], only the bytes are returned: the writes
    of the code to [ctx->ctr] and [ctx->ctr_ctx] are not. *)
Definition encrypt_section_block (nca_ctx : NcaContext) (ctx : NcaFsSectionContext)
    (data : bytes) (size offset content_offset : Z) : option bytes :=
  if encryption_type ctx =? NcaEncryptionType_AesXts then
    let sector_num := xts_sector_num nca_ctx offset content_offset in
    let '(enc, crypt_res) :=
      aes128XtsNintendoCrypt E (xts_encrypt_ctx ctx) data size sector_num
                             NCA_AES_XTS_SECTOR_SIZE true in
    if negb (crypt_res =? size) then None else Some enc
  else if encryption_type ctx =? NcaEncryptionType_AesCtr then
    Some (aes128CtrCrypt E
            (aes128CtrContextResetCtr (ctr_ctx ctx)
               (aes128CtrUpdatePartialCtr E (ctr ctx) content_offset))
            data)
  else Some data.

(** [_ncaGenerateEncryptedFsSectionBlock]: the block with [*out_block_size]
    and [*out_block_offset], or [None] for NULL.  Allocation is taken to
    succeed.  The section context is read only here; the counter fields
    the code overwrites in it while it decrypts and encrypts are not
    returned. *)
Definition _ncaGenerateEncryptedFsSectionBlock (crypto_buffer : bool)
    (nca_ctx : NcaContext) (ctx : NcaFsSectionContext)
    (data : bytes) (data_size data_offset : Z) : option (bytes * Z * Z) :=
  if block_section_invalid crypto_buffer ctx data_size data_offset then None
  else
    let content_offset := add64 (section_offset ctx) data_offset in
    if read_archive_invalid nca_ctx content_offset data_size then None
    else if aligned_access ctx false content_offset data_size then
      let out := fixed data_size data in
      match encrypt_section_block nca_ctx ctx out data_size data_offset
                                  content_offset with
      | None => None
      | Some enc => Some (enc, data_size, content_offset)
      end
    else
      let block_start_offset := ALIGN_DOWN data_offset (cipher_unit ctx) in
      let block_end_offset :=
        ALIGN_UP (add64 data_offset data_size) (cipher_unit ctx) in
      let block_size := sub64 block_end_offset block_start_offset in
      let plain_chunk_offset := sub64 data_offset block_start_offset in
      let content_offset := add64 (section_offset ctx) block_start_offset in
      match _ncaReadFsSection crypto_buffer nca_ctx ctx block_size
                              block_start_offset with
      | None => None
      | Some out =>
        let out := memcpy out plain_chunk_offset (fixed data_size data) data_size in
        match encrypt_section_block nca_ctx ctx out block_size block_start_offset
                                    content_offset with
        | None => None
        | Some enc => Some (enc, block_size, content_offset)
        end
      end.

(** ** Hash-tree patch generation *)

(** The properties of layer [idx] (0-based) in either hash scheme. *)
Definition layer_hash_block_size (is_integrity_patch : bool) (h : bytes) (idx : Z) : Z :=
  if negb is_integrity_patch then fsh_sha256_hash_block_size L h
  else NCA_IVFC_BLOCK_SIZE (fsh_ivfc_level_block_order L h idx).

Definition layer_offset (is_integrity_patch : bool) (h : bytes) (idx : Z) : Z :=
  if negb is_integrity_patch then fsh_sha256_hash_region_offset L h idx
  else fsh_ivfc_level_offset L h idx.

Definition layer_size (is_integrity_patch : bool) (h : bytes) (idx : Z) : Z :=
  if negb is_integrity_patch then fsh_sha256_hash_region_size L h idx
  else fsh_ivfc_level_size L h idx.

(** [layer_count], as the parameter test assigns it. *)
Definition patch_layer_count (is_integrity_patch : bool) (h : bytes) : Z :=
  if negb is_integrity_patch then fsh_sha256_hash_region_count L h
  else sub32 (fsh_ivfc_max_level_count L h) 1.

(** The parameter test of [ncaGenerateHashDataPatch]. *)
Definition patch_params_invalid (ctx : NcaFsSectionContext) (data_size data_offset : Z)
    (is_integrity_patch : bool) : bool :=
  let h := fs_header ctx in
  let layer_count := patch_layer_count is_integrity_patch h in
  let last_layer_size :=
    if negb is_integrity_patch then layer_size false h (layer_count - 1)
    else layer_size true h (NCA_IVFC_LEVEL_COUNT - 1) in
  negb (enabled ctx) || has_sparse_layer ctx
  || (negb is_integrity_patch
      && (negb (fsh_hash_type L h =? NcaHashType_HierarchicalSha256)
          || (fsh_sha256_hash_block_size L h =? 0)
          || (layer_count =? 0)
          || (layer_count >? NCA_HIERARCHICAL_SHA256_MAX_REGION_COUNT)
          || (last_layer_size =? 0)))
  || (is_integrity_patch
      && (negb (fsh_hash_type L h =? NcaHashType_HierarchicalIntegrity)
          || (layer_count =? 0)
          || negb (layer_count =? NCA_IVFC_LEVEL_COUNT)
          || (last_layer_size =? 0)))
  || (data_size =? 0)
  || (add64 data_offset data_size >? last_layer_size).

(** The hash loop over the blocks of the current layer: [j] walks the
    layer, [k] the hash slots of the parent; [n] bounds the turns by
    [size / block + 1].  The SHA-256 scheme truncates the last block and
    keeps the truncated size. *)
Fixpoint hash_layer_blocks (n : nat) (is_integrity_patch : bool)
    (cur_layer_block parent_layer_block : bytes)
    (cur_layer_read_size hash_block_size j k : Z) : bytes :=
  match n with
  | O => parent_layer_block
  | S n' =>
    if j <? cur_layer_read_size then
      let hash_block_size :=
        if negb is_integrity_patch
           && (hash_block_size >? sub64 cur_layer_read_size j)
        then sub64 cur_layer_read_size j else hash_block_size in
      hash_layer_blocks n' is_integrity_patch cur_layer_block
        (memcpy parent_layer_block (mul64 k SHA256_HASH_SIZE)
                (fixed SHA256_HASH_SIZE
                   (sha256CalculateHash E (slice cur_layer_block j hash_block_size)))
                SHA256_HASH_SIZE)
        cur_layer_read_size hash_block_size (add64 j hash_block_size) (add64 k 1)
    else parent_layer_block
  end.

(** [master_hash = SHA-256(...)] in the header of the section. *)
Definition set_master_hash (is_integrity_patch : bool) (h master_hash : bytes) : bytes :=
  if negb is_integrity_patch then fsh_set_sha256_master_hash L h master_hash
  else fsh_set_ivfc_master_hash L h master_hash.

(** "Process each layer": the turn for layer [i = n] and the turns below
    it.  The state is the plaintext carried to the next layer
    ([cur_data], [cur_data_offset], [cur_data_size]), the patch entries and
    the section context, whose header takes the new master hash in the last
    turn.  [None] is a [goto end] without success.  Allocation is taken to
    succeed.  The section context returned carries the header write only:
    its [ctr], [ctr_ctx] and XTS contexts are those of the context given,
    not those the reads and the block generator of the code leave behind
    (see [section_frame] for the fields that can be relied on). *)
Fixpoint patch_layers (n : nat) (crypto_buffer : bool) (nca_ctx : NcaContext)
    (ctx : NcaFsSectionContext) (is_integrity_patch : bool)
    (cur_data : bytes) (cur_data_offset cur_data_size : Z)
    (entries : list NcaHashDataPatch)
  : option (list NcaHashDataPatch) * NcaFsSectionContext :=
  match n with
  | O => (Some entries, ctx)
  | S n' =>
    let i := Z.of_nat n in
    let h := fs_header ctx in
    let hash_block_size := layer_hash_block_size is_integrity_patch h (i - 1) in
    let cur_layer_offset := layer_offset is_integrity_patch h (i - 1) in
    let cur_layer_size := layer_size is_integrity_patch h (i - 1) in
    let parent_layer_offset :=
      if i >? 1 then layer_offset is_integrity_patch h (i - 2) else 0 in
    let parent_layer_size :=
      if i >? 1 then layer_size is_integrity_patch h (i - 2) else 0 in
    if (hash_block_size <=? 1) || (cur_layer_size =? 0)
       || (add64 cur_layer_offset cur_layer_size >? section_size ctx)
       || ((i >? 1)
           && ((parent_layer_size =? 0)
               || (add64 parent_layer_offset parent_layer_size >? section_size ctx)))
    then (None, ctx)
    else
      let cur_layer_read_start_offset :=
        if i >? 1
        then add64 cur_layer_offset (ALIGN_DOWN cur_data_offset hash_block_size)
        else cur_layer_offset in
      let cur_layer_read_end_offset :=
        if i >? 1
        then add64 cur_layer_offset
                   (ALIGN_UP (add64 cur_data_offset cur_data_size) hash_block_size)
        else add64 cur_layer_offset cur_layer_size in
      let cur_layer_read_size :=
        if i >? 1
        then sub64 cur_layer_read_end_offset cur_layer_read_start_offset
        else cur_layer_size in
      let parent_layer_read_start_offset :=
        if i >? 1
        then mul64 (cur_data_offset / hash_block_size) SHA256_HASH_SIZE else 0 in
      let parent_layer_read_size :=
        if i >? 1
        then mul64 (cur_layer_read_size / hash_block_size) SHA256_HASH_SIZE else 0 in
      let cur_layer_read_patch_offset :=
        sub64 cur_data_offset (ALIGN_DOWN cur_data_offset hash_block_size) in
      let cur_layer_block := calloc cur_layer_read_size in
      (* Adjust current layer read size to avoid read errors. *)
      let adjust :=
        cur_layer_read_end_offset >? add64 cur_layer_offset cur_layer_size in
      let cur_layer_read_end_offset :=
        if adjust then add64 cur_layer_offset cur_layer_size
        else cur_layer_read_end_offset in
      let cur_layer_read_size :=
        if adjust then sub64 cur_layer_read_end_offset cur_layer_read_start_offset
        else cur_layer_read_size in
      match _ncaReadFsSection crypto_buffer nca_ctx ctx cur_layer_read_size
                              cur_layer_read_start_offset with
      | None => (None, ctx)
      | Some rd =>
        let cur_layer_block := memcpy cur_layer_block 0 rd cur_layer_read_size in
        let cur_layer_block :=
          memcpy cur_layer_block cur_layer_read_patch_offset
                 (fixed cur_data_size cur_data) cur_data_size in
        (* Recalculate hashes. *)
        let hashed :=
          if i >? 1 then
            match _ncaReadFsSection crypto_buffer nca_ctx ctx parent_layer_read_size
                    (add64 parent_layer_offset parent_layer_read_start_offset) with
            | None => None
            | Some prd =>
              let parent_layer_block :=
                memcpy (calloc parent_layer_read_size) 0 prd parent_layer_read_size in
              Some (hash_layer_blocks
                      (S (Z.to_nat (cur_layer_read_size / hash_block_size)))
                      is_integrity_patch cur_layer_block parent_layer_block
                      cur_layer_read_size hash_block_size 0 0,
                    ctx)
            end
          else
            Some ([],
                  set_fs_header ctx
                    (set_master_hash is_integrity_patch h
                       (fixed SHA256_HASH_SIZE
                          (sha256CalculateHash E
                             (slice cur_layer_block 0 cur_layer_read_size))))) in
        match hashed with
        | None => (None, ctx)
        | Some (parent_layer_block, ctx) =>
          (* Reencrypt current layer block. *)
          match _ncaGenerateEncryptedFsSectionBlock crypto_buffer nca_ctx ctx
                  (skipn (Z.to_nat cur_layer_read_patch_offset) cur_layer_block)
                  cur_data_size (add64 cur_layer_offset cur_data_offset) with
          | None => (None, ctx)
          | Some (block, block_size, block_offset) =>
            let cur_layer_patch := nth_z entries (i - 1) hdp_zero in
            let entries :=
              set_nth entries (i - 1)
                {| hdp_written := hdp_written cur_layer_patch;
                   hdp_offset := block_offset; hdp_size := block_size;
                   hdp_data := Some block |} in
            if i >? 1
            then patch_layers n' crypto_buffer nca_ctx ctx is_integrity_patch
                   parent_layer_block parent_layer_read_start_offset
                   parent_layer_read_size entries
            else (Some entries, ctx)
          end
        end
      end
  end.

(** The fields of a section context that no read, block generation or patch
    generation writes: everything but the plaintext header, the counter
    [ctr] with its cipher context [ctr_ctx], and the two XTS contexts. *)
Definition section_frame (c ctx : NcaFsSectionContext) : Prop :=
  enabled c = enabled ctx /\ section_num c = section_num ctx
  /\ section_offset c = section_offset ctx /\ section_size c = section_size ctx
  /\ section_type c = section_type ctx /\ encryption_type c = encryption_type ctx
  /\ fs_encrypted_header c = fs_encrypted_header ctx
  /\ fs_header_written c = fs_header_written ctx
  /\ has_sparse_layer c = has_sparse_layer ctx
  /\ sparse_table_offset c = sparse_table_offset ctx
  /\ sparse_table_size c = sparse_table_size ctx
  /\ sparse_ctr c = sparse_ctr ctx /\ sparse_ctr_ctx c = sparse_ctr_ctx ctx.

(** What [ncaGenerateHashDataPatch] leaves behind: the returned flag, the
    output patch set (its entries, content id and region count) and the two
    contexts.  Of the section context, [pr_ctx] gives the header and the
    fields of [section_frame]. *)
Record PatchResult := {
  pr_success : bool;
  pr_entries : list NcaHashDataPatch;
  pr_content_id : bytes;
  pr_hash_region_count : Z;
  pr_ctx : NcaFsSectionContext;
  pr_nca_ctx : NcaContext
}.

(** The entries of a released patch set. *)
Definition released_entries (is_integrity_patch : bool) : list NcaHashDataPatch :=
  if negb is_integrity_patch
  then sp_hash_region_patch ncaFreeHierarchicalSha256Patch
  else ip_hash_level_patch ncaFreeHierarchicalIntegrityPatch.

Definition patch_failure (is_integrity_patch : bool) (ctx : NcaFsSectionContext)
    (nca_ctx : NcaContext) : PatchResult :=
  {| pr_success := false; pr_entries := released_entries is_integrity_patch;
     pr_content_id := calloc 0x10; pr_hash_region_count := 0;
     pr_ctx := ctx; pr_nca_ctx := nca_ctx |}.

(** [ncaGenerateHashDataPatch].  The output patch set is released first and
    again on every failure, so what it held on entry does not matter.  The
    section context is the element [section_num] of the archive context it
    points back to: its new header is stored there. *)
Definition ncaGenerateHashDataPatch (crypto_buffer : bool) (nca_ctx : NcaContext)
    (ctx : NcaFsSectionContext) (data : bytes) (data_size data_offset : Z)
    (is_integrity_patch : bool) : PatchResult :=
  if patch_params_invalid ctx data_size data_offset is_integrity_patch
  then patch_failure is_integrity_patch ctx nca_ctx
  else
    let layer_count := patch_layer_count is_integrity_patch (fs_header ctx) in
    match patch_layers (Z.to_nat layer_count) crypto_buffer nca_ctx ctx
                       is_integrity_patch data data_offset data_size
                       (released_entries is_integrity_patch) with
    | (None, ctx) =>
      patch_failure is_integrity_patch ctx (put_fs_ctx nca_ctx (section_num ctx) ctx)
    | (Some entries, ctx) =>
      let nca_ctx := put_fs_ctx nca_ctx (section_num ctx) ctx in
      let nca_ctx :=
        set_header nca_ctx
          (hdr_set_fs_header_hash L (header nca_ctx) (section_num ctx)
             (fixed SHA256_HASH_SIZE (sha256CalculateHash E (fs_header ctx)))) in
      {| pr_success := true; pr_entries := entries;
         pr_content_id := fixed 0x10 (content_id nca_ctx);
         pr_hash_region_count :=
           if negb is_integrity_patch then layer_count else 0;
         pr_ctx := ctx; pr_nca_ctx := nca_ctx |}
    end.

(** [ncaGenerateHierarchicalSha256Patch] and
    [ncaGenerateHierarchicalIntegrityPatch]: the lock around the call is not
    modelled. *)
Definition ncaGenerateHierarchicalSha256Patch (crypto_buffer : bool)
    (nca_ctx : NcaContext) (ctx : NcaFsSectionContext)
    (data : bytes) (data_size data_offset : Z) : PatchResult :=
  ncaGenerateHashDataPatch crypto_buffer nca_ctx ctx data data_size data_offset false.

Definition ncaGenerateHierarchicalIntegrityPatch (crypto_buffer : bool)
    (nca_ctx : NcaContext) (ctx : NcaFsSectionContext)
    (data : bytes) (data_size data_offset : Z) : PatchResult :=
  ncaGenerateHashDataPatch crypto_buffer nca_ctx ctx data data_size data_offset true.

End Engine.

(** What the section test of [_ncaGenerateEncryptedFsSectionBlock] refuses
    whatever the data range is: sparse sections, and the encryption types
    [Auto] and [AesCtrEx] and up. *)
Definition block_refused (ctx : NcaFsSectionContext) : bool :=
  has_sparse_layer ctx
  || (encryption_type ctx =? NcaEncryptionType_Auto)
  || (encryption_type ctx >=? NcaEncryptionType_AesCtrEx).

(** The patch sets as [ncaGenerateHashDataPatch] leaves them in its output
    parameter: the entries, the content id and the region count it stored;
    [written] is what the release at its start left. *)
Definition pr_sha256_patch (r : PatchResult) : NcaHierarchicalSha256Patch :=
  {| sp_written := sp_written ncaFreeHierarchicalSha256Patch;
     sp_content_id := pr_content_id r;
     sp_hash_region_count := pr_hash_region_count r;
     sp_hash_region_patch := pr_entries r |}.

Definition pr_integrity_patch (r : PatchResult) : NcaHierarchicalIntegrityPatch :=
  {| ip_written := ip_written ncaFreeHierarchicalIntegrityPatch;
     ip_content_id := pr_content_id r;
     ip_hash_level_patch := pr_entries r |}.

(** A patch entry that the buffer merge accepts: not empty, and its range,
    as the code adds it, ends inside the archive. *)
Definition entry_accepted (nca_ctx : NcaContext) (e : NcaHashDataPatch) : Prop :=
  hdp_data e <> None /\ hdp_size e <> 0 /\ 0 <= hdp_size e /\ 0 <= hdp_offset e
  /\ add64 (hdp_offset e) (hdp_size e) <= content_size nca_ctx.


(** ** The patch merge as the specification words it

    Ranges that do not overlap: not fully applied, buffer untouched.
    Otherwise [min(remaining_patch, remaining_buf)] bytes go from
    [ciphertext[max(0, buf_offset - abs_offset) ..]] onto
    [buf[max(0, abs_offset - buf_offset) ..]], and the entry is fully applied
    iff the copy reaches the last byte of the patch. *)
Definition patch_merge_spec (ciphertext : bytes) (size abs_offset : Z)
    (buf : bytes) (buf_size buf_offset : Z) : bytes * bool :=
  if (buf_offset + buf_size <=? abs_offset) || (abs_offset + size <=? buf_offset)
  then (buf, false)
  else
    let from := Z.max 0 (buf_offset - abs_offset) in
    let onto := Z.max 0 (abs_offset - buf_offset) in
    let count := Z.min (size - from) (buf_size - onto) in
    (memcpy buf onto (skipn (Z.to_nat from) ciphertext) count,
     abs_offset + size <=? buf_offset + buf_size).

(** ** Well-formed patch entries

    An entry describes the archive range [hdp_offset, hdp_offset + hdp_size)
    with values that are [u64]s, and its block holds [hdp_size] bytes. *)
Definition entry_wf (e : NcaHashDataPatch) : Prop :=
  0 <= hdp_offset e /\ 0 <= hdp_size e /\ hdp_offset e + hdp_size e < 2 ^ 64
  /\ forall p, hdp_data e = Some p -> zlen p = hdp_size e.

(** Two entries whose archive ranges do not meet. *)
Definition entries_disjoint (e1 e2 : NcaHashDataPatch) : Prop :=
  hdp_offset e1 + hdp_size e1 <= hdp_offset e2
  \/ hdp_offset e2 + hdp_size e2 <= hdp_offset e1.

(** The buffer after merging one entry. *)
Definition merge_entry (ctx : NcaContext) (buf_size buf_offset : Z)
    (e : NcaHashDataPatch) (buf : bytes) : bytes :=
  fst (ncaWritePatchToMemoryBuffer ctx (hdp_data e) (hdp_size e) (hdp_offset e)
                                   buf buf_size buf_offset).

(** A context as [ncaInitializeContext] fills it before the header is read,
    for the examples: storage 5 (SD card), the given declared size. *)
Definition example_ctx (size : Z) : NcaContext :=
  set_content_size
    (set_ncm_storage
       (set_storage_id
          (set_content_id_str nca_ctx_zero (repeat 48 32)) 5) true) size.

(** One turn of the loop of the patch writers, seen from the buffer. *)
Definition merge_step (ctx : NcaContext) (buf_size buf_offset : Z)
    (buf : bytes) (e : NcaHashDataPatch) : bytes :=
  if hdp_written e then buf else merge_entry ctx buf_size buf_offset e buf.

(** An entry after a pass: the same range and block; it can only have
    become written. *)
Definition same_entry (e e1 : NcaHashDataPatch) : Prop :=
  hdp_offset e1 = hdp_offset e /\ hdp_size e1 = hdp_size e
  /\ hdp_data e1 = hdp_data e
  /\ (hdp_written e = true -> hdp_written e1 = true).

(** A patch set with two overlapping entries, for the examples: entry 0
    covers [0xC05, 0xC0F), entry 1 covers [0xC05, 0xC0A). *)
Definition overlapping_patch : NcaHierarchicalSha256Patch :=
  {| sp_written := false; sp_content_id := calloc 0x10; sp_hash_region_count := 2;
     sp_hash_region_patch :=
       [ {| hdp_written := false; hdp_offset := 0xC05; hdp_size := 10;
            hdp_data := Some (repeat 0xBB 10) |};
         {| hdp_written := false; hdp_offset := 0xC05; hdp_size := 5;
            hdp_data := Some (repeat 0xAA 5) |};
         hdp_zero; hdp_zero; hdp_zero ] |}.

(** A patch set with two disjoint entries: [0xC02, 0xC06) and
    [0xC08, 0xC10). *)
Definition disjoint_patch : NcaHierarchicalSha256Patch :=
  {| sp_written := false; sp_content_id := calloc 0x10; sp_hash_region_count := 2;
     sp_hash_region_patch :=
       [ {| hdp_written := false; hdp_offset := 0xC02; hdp_size := 4;
            hdp_data := Some [1; 2; 3; 4] |};
         {| hdp_written := false; hdp_offset := 0xC08; hdp_size := 8;
            hdp_data := Some [5; 6; 7; 8; 9; 10; 11; 12] |} ] |}.

Definition disjoint_ivfc_patch : NcaHierarchicalIntegrityPatch :=
  {| ip_written := false; ip_content_id := calloc 0x10;
     ip_hash_level_patch := sp_hash_region_patch disjoint_patch |}.

(** ** The XTS sector law as the specification words it

    Section header [i]: sector [2 + i] for V3, [0] for V2,
    [start_sector - 2] for V0.  Payload: [(content_offset - header_length) /
    0x200] for V0 and [offset / 0x200] otherwise. *)
Definition header_sector_law (version i start_sector : Z) : Z :=
  if version =? NcaVersion_Nca3 then 2 + i
  else if version =? NcaVersion_Nca2 then 0
  else start_sector - 2.

Definition payload_sector_law (version offset content_offset : Z) : Z :=
  if version =? NcaVersion_Nca0
  then (content_offset - NCA_HEADER_LENGTH) / 0x200
  else offset / 0x200.

(** ** Statements about the header codec *)

(** Re-encryption inverts decryption between two XTS contexts. *)
Definition xts_inverse (E : NcaEnv) (dec_ctx enc_ctx : Aes128XtsContext) : Prop :=
  forall src size sector dst,
    aes128XtsNintendoCrypt E dec_ctx src size sector NCA_AES_XTS_SECTOR_SIZE false
    = (dst, size) ->
    aes128XtsNintendoCrypt E enc_ctx dst size sector NCA_AES_XTS_SECTOR_SIZE true
    = (src, size).

(** Section [i] holds a header pair that is consistent with the archive:
    the encrypted header is what the reader gives at its offset, and the
    plaintext header is its decryption at its sector. *)
Definition fs_header_consistent (L : NcaLayout) (E : NcaEnv)
    (hdr_aes_ctx nca0_fs_header_ctx : Aes128XtsContext)
    (ctx : NcaContext) (i : Z) : Prop :=
  let fs_info := hdr_fs_info L (header ctx) i in
  let s := get_fs_ctx ctx i in
  ncaIsFsInfoEntryValid fs_info = true ->
  ncaReadContentFile E ctx NCA_FS_HEADER_LENGTH (fs_header_offset L ctx i fs_info)
  = Some (fs_encrypted_header s)
  /\ aes128XtsNintendoCrypt E
       (if negb (format_version ctx =? NcaVersion_Nca0)
        then hdr_aes_ctx else nca0_fs_header_ctx)
       (fs_encrypted_header s) NCA_FS_HEADER_LENGTH (fs_header_sector L ctx i fs_info)
       NCA_AES_XTS_SECTOR_SIZE false
     = (fs_header s, NCA_FS_HEADER_LENGTH).

(** The hash tells [a] from [b]: it has no collision on this pair. *)
Definition hash_separates (E : NcaEnv) (a b : bytes) : Prop :=
  sha256CalculateHash E a = sha256CalculateHash E b -> a = b.

(** ** The structural conditions of a section

    Section [i] of the archive context [out] (as the header reader left
    it), twice.  [section_passes] is the sequence of tests of the section
    loop of [ncaInitializeContext], with the 64-bit arithmetic of the code:
    the [fs_info] entry is populated, the header hash matches the slot of
    the archive header, the start offset is at least the header length and
    the size is not zero, the encryption tag resolves, the type is valid,
    and either the sparse bucket passes its tests or (no sparse layer) the
    end offset is at most the declared size.  [section_valid], further
    down, is the same list as the specification words it, in exact
    arithmetic. *)
Section SectionConditions.

Variable L : NcaLayout.
Variable E : NcaEnv.
Variable out : NcaContext.
Variable i : Z.

Definition sec_fs_info : bytes := hdr_fs_info L (header out) i.
Definition sec_header : bytes := fs_header (get_fs_ctx out i).
Definition sec_offset : Z := NCA_FS_SECTOR_OFFSET (fs_info_start_sector L sec_fs_info).
Definition sec_size : Z :=
  sub64 (NCA_FS_SECTOR_OFFSET (fs_info_end_sector L sec_fs_info)) sec_offset.

Definition sec_encryption : Z :=
  let t := if format_version out =? NcaVersion_Nca0 then NcaEncryptionType_AesXts
           else fsh_encryption_type L sec_header in
  if t =? NcaEncryptionType_Auto then
    if (i =? 0) || (i =? 1) then NcaEncryptionType_AesCtr
    else if i =? 2 then NcaEncryptionType_None
    else NcaEncryptionType_Auto
  else t.

Definition sec_type : Z :=
  if (fsh_fs_type L sec_header =? NcaFsType_PartitionFs)
     && (fsh_hash_type L sec_header =? NcaHashType_HierarchicalSha256)
  then NcaFsSectionType_PartitionFs
  else if (fsh_fs_type L sec_header =? NcaFsType_RomFs)
          && (fsh_hash_type L sec_header =? NcaHashType_HierarchicalIntegrity)
  then (if sec_encryption =? NcaEncryptionType_AesCtrEx
        then NcaFsSectionType_PatchRomFs else NcaFsSectionType_RomFs)
  else if (fsh_fs_type L sec_header =? NcaFsType_RomFs)
          && (fsh_hash_type L sec_header =? NcaHashType_HierarchicalSha256)
          && (format_version out =? NcaVersion_Nca0)
  then NcaFsSectionType_Nca0RomFs
  else NcaFsSectionType_Invalid.

Definition sec_populated : bool := ncaIsFsInfoEntryValid sec_fs_info.

Definition sec_hash_matches : bool :=
  bytes_eqb (fixed SHA256_HASH_SIZE (sha256CalculateHash E sec_header))
            (fixed SHA256_HASH_SIZE (hdr_fs_header_hash L (header out) i)).

Definition sec_offsets_in_range : bool :=
  (NCA_HEADER_LENGTH <=? sec_offset) && negb (sec_size =? 0).

Definition sec_encryption_valid : bool :=
  negb (sec_encryption =? NcaEncryptionType_Auto)
  && (sec_encryption <=? NcaEncryptionType_AesCtrEx).

Definition sec_type_valid : bool := sec_type <? NcaFsSectionType_Invalid.

Definition sec_sparse : bool := negb (fsh_sparse_generation L sec_header =? 0).

Definition sec_sparse_bucket_valid : bool :=
  (bswap32 (fsh_sparse_bucket_magic L sec_header) =? NCA_BKTR_MAGIC)
  && (fsh_sparse_bucket_version L sec_header =? NCA_BKTR_VERSION)
  && (NCA_HEADER_LENGTH <=? fsh_sparse_physical_offset L sec_header)
  && negb (add64 (fsh_sparse_bucket_offset L sec_header)
                 (fsh_sparse_bucket_size L sec_header) =? 0)
  && (add64 (fsh_sparse_physical_offset L sec_header)
            (add64 (fsh_sparse_bucket_offset L sec_header)
                   (fsh_sparse_bucket_size L sec_header)) <=? content_size out)
  && negb (fsh_sparse_bucket_entry_count L sec_header =? 0).

Definition sec_inside_archive : bool :=
  add64 sec_offset sec_size <=? content_size out.

Definition section_passes : bool :=
  sec_populated && sec_hash_matches && sec_offsets_in_range
  && sec_encryption_valid && sec_type_valid
  && (if sec_sparse then sec_sparse_bucket_valid else sec_inside_archive).









End SectionConditions.

(** The environment with another signature check: the modulus store and
    the RSA verification replaced, everything else kept. *)
Definition with_signature_check (E : NcaEnv) (modulus : Z -> option bytes)
    (verify : bytes -> bytes -> bytes -> bytes -> bool) : NcaEnv :=
  {| keysGetNcaHeaderKey := keysGetNcaHeaderKey E;
     keysDecryptNcaKeyAreaEntry := keysDecryptNcaKeyAreaEntry E;
     keysGetNcaKeyAreaEncryptionKey := keysGetNcaKeyAreaEncryptionKey E;
     keysGetNcaMainSignatureModulus := modulus;
     aes128XtsNintendoCrypt := aes128XtsNintendoCrypt E;
     aes128EncryptBlock := aes128EncryptBlock E;
     aes128CtrCrypt := aes128CtrCrypt E;
     sha256CalculateHash := sha256CalculateHash E;
     rsa2048VerifySha256BasedPssSignature := verify;
     ncmContentStorageReadContentIdFile := ncmContentStorageReadContentIdFile E;
     gamecardReadStorage := gamecardReadStorage E;
     gamecardGetHashFileSystemEntryInfoByName :=
       gamecardGetHashFileSystemEntryInfoByName E;
     titleGetNcmStorageByStorageId := titleGetNcmStorageByStorageId E;
     tikRetrieveTicketByRightsId := tikRetrieveTicketByRightsId E;
     utilsGenerateHexStringFromData := utilsGenerateHexStringFromData E;
     aes128CtrInitializePartialCtr := aes128CtrInitializePartialCtr E;
     aes128CtrUpdatePartialCtr := aes128CtrUpdatePartialCtr E |}.

(** * A concrete instance, for the examples

    The layout is the one of the NCA format ([nca.h] follows it); the
    environment is a stand-in: an archive image held in memory and toy
    ciphers and hash with the algebra of the real ones (the XTS stand-in is
    an involution that depends on key and sector). *)

Module Toy.

(** Little-endian integers. *)
Definition le (b : bytes) : Z := fold_right (fun x acc => x + 256 * acc) 0 b.

Fixpoint to_le (n : nat) (v : Z) : bytes :=
  match n with
  | O => []
  | S n' => v mod 256 :: to_le n' (v / 256)
  end.

Definition get_le (h : bytes) (off n : Z) : Z := le (slice h off n).

(** Write [n] bytes of [b] at [off]. *)
Definition put (h : bytes) (off n : Z) (b : bytes) : bytes :=
  memcpy h off (fixed n b) n.

Definition put_le (h : bytes) (off : Z) (n : nat) (v : Z) : bytes :=
  put h off (Z.of_nat n) (to_le n v).

Definition layout : NcaLayout :=
  {| hdr_main_signature := fun h => slice h 0 0x100;
     hdr_signature_area := fun h => slice h 0x200 0x200;
     hdr_magic := fun h => get_le h 0x200 4;
     hdr_distribution_type := fun h => get_le h 0x204 1;
     hdr_key_generation_old := fun h => get_le h 0x206 1;
     hdr_kaek_index := fun h => get_le h 0x207 1;
     hdr_content_size := fun h => get_le h 0x208 8;
     hdr_key_generation := fun h => get_le h 0x220 1;
     hdr_main_signature_key_generation := fun h => get_le h 0x221 1;
     hdr_rights_id := fun h => slice h 0x230 0x10;
     hdr_fs_info := fun h i => slice h (0x240 + 0x10 * i) 0x10;
     hdr_fs_header_hash := fun h i => slice h (0x280 + 0x20 * i) 0x20;
     hdr_encrypted_key_area := fun h => slice h 0x300 0x40;
     hdr_set_distribution_type := fun h v => put_le h 0x204 1 v;
     hdr_set_rights_id := fun h v => put h 0x230 0x10 v;
     hdr_set_fs_header_hash := fun h i v => put h (0x280 + 0x20 * i) 0x20 v;
     hdr_set_encrypted_key_area := fun h v => put h 0x300 0x40 v;
     fs_info_start_sector := fun f => get_le f 0 4;
     fs_info_end_sector := fun f => get_le f 4 4;
     fsh_fs_type := fun h => get_le h 2 1;
     fsh_hash_type := fun h => get_le h 3 1;
     fsh_encryption_type := fun h => get_le h 4 1;
     fsh_aes_ctr_upper_iv := fun h => slice h 0x140 8;
     upper_iv_set_generation := fun iv v => put_le (fixed 8 iv) 0 4 v;
     fsh_sparse_generation := fun h => get_le h 0x170 2;
     fsh_sparse_physical_offset := fun h => get_le h 0x168 8;
     fsh_sparse_bucket_offset := fun h => get_le h 0x148 8;
     fsh_sparse_bucket_size := fun h => get_le h 0x150 8;
     fsh_sparse_bucket_magic := fun h => get_le h 0x158 4;
     fsh_sparse_bucket_version := fun h => get_le h 0x15C 4;
     fsh_sparse_bucket_entry_count := fun h => get_le h 0x160 4;
     fsh_sha256_hash_block_size := fun h => get_le h 0x28 4;
     fsh_sha256_hash_region_count := fun h => get_le h 0x2C 4;
     fsh_sha256_hash_region_offset := fun h i => get_le h (0x30 + 0x10 * i) 8;
     fsh_sha256_hash_region_size := fun h i => get_le h (0x38 + 0x10 * i) 8;
     fsh_set_sha256_master_hash := fun h v => put h 0x8 0x20 v;
     fsh_ivfc_max_level_count := fun h => get_le h 0x14 4;
     fsh_ivfc_level_offset := fun h i => get_le h (0x18 + 0x18 * i) 8;
     fsh_ivfc_level_size := fun h i => get_le h (0x20 + 0x18 * i) 8;
     fsh_ivfc_level_block_order := fun h i => get_le h (0x28 + 0x18 * i) 4;
     fsh_set_ivfc_master_hash := fun h v => put h 0xC8 0x20 v |}.

(** The stand-in ciphers: XOR with a byte made of the key and the sector or
    counter.  A context without key schedule processes nothing. *)
Definition xor_bytes (k : Z) (b : bytes) : bytes := map (fun x => Z.lxor x (k mod 256)) b.

Definition xts (c : Aes128XtsContext) (src : bytes) (size sector sector_size : Z)
    (encrypt : bool) : bytes * Z :=
  match xts_keys c with
  | Some (k0, k1) =>
    if (zlen src =? size) && (size mod sector_size =? 0)
    then (xor_bytes (le (firstn 1 k0) + 2 * le (firstn 1 k1) + 3 * sector) src, size)
    else (src, 0)
  | None => (src, 0)
  end.

Definition ctr_crypt (c : Aes128CtrContext) (src : bytes) : bytes :=
  match ctr_key c with
  | Some k => xor_bytes (le (firstn 1 k) + le (skipn 15 (ctr_counter c))) src
  | None => src
  end.

(** The key area whose hash the stand-in hash maps to the NCA0 marker. *)
Definition plain_key_area : bytes := repeat 0x70 0x40.

(** The stand-in hash: a 32-byte digest of a running sum and the length. *)
Definition sha256 (b : bytes) : bytes :=
  if bytes_eqb b plain_key_area then g_nca0KeyAreaHash
  else to_le 8 (fold_left (fun a x => (a * 31 + x + 7) mod 2 ^ 61) b 1)
       ++ to_le 8 (zlen b) ++ repeat 0xA5 16.

Definition hex_digit (d : Z) : Z := if d <? 10 then 48 + d else 87 + d.

Definition hex_string (b : bytes) : bytes :=
  flat_map (fun x => [hex_digit (x / 16); hex_digit (x mod 16)]) b.

Definition be64 (v : Z) : bytes := rev (to_le 8 v).

(** The environment over an archive [image]; [tik] is what the ticket store
    has for the rights id, [sig_ok] what the signature check answers. *)
Definition env (image : bytes) (tik : option bytes) (sig_ok : bool) : NcaEnv :=
  {| keysGetNcaHeaderKey := Some (repeat 0x11 16 ++ repeat 0x22 16);
     keysDecryptNcaKeyAreaEntry := fun _ _ src => Some (xor_bytes 0x5A src);
     keysGetNcaKeyAreaEncryptionKey := fun _ _ => Some (repeat 0x5A 16);
     keysGetNcaMainSignatureModulus := fun _ => Some (repeat 1 0x100);
     aes128XtsNintendoCrypt := xts;
     aes128EncryptBlock := fun k src => xor_bytes (le (firstn 1 k)) src;
     aes128CtrCrypt := ctr_crypt;
     sha256CalculateHash := sha256;
     rsa2048VerifySha256BasedPssSignature := fun _ _ _ _ => sig_ok;
     ncmContentStorageReadContentIdFile := fun _ size offset =>
       if offset + size <=? zlen image then Some (slice image offset size) else None;
     gamecardReadStorage := fun _ _ => None;
     gamecardGetHashFileSystemEntryInfoByName := fun _ _ => None;
     titleGetNcmStorageByStorageId := fun _ => true;
     tikRetrieveTicketByRightsId := fun _ _ => tik;
     utilsGenerateHexStringFromData := hex_string;
     aes128CtrInitializePartialCtr := fun upper_iv offset =>
       rev (fixed 8 upper_iv) ++ be64 (Z.shiftr offset 4);
     aes128CtrUpdatePartialCtr := fun ctr offset =>
       memcpy (fixed 0x10 ctr) 8 (be64 (Z.shiftr offset 4)) 8 |}.

(** The plaintext header of section 0 of the example archives: a Partition
    FS with a two-layer SHA-256 tree (hash block 0x100; layer 0, the hash
    table, at [0x200, 0x240); layer 1, the data, at [0x300, 0x400)). *)
Definition fs_header0 (enc_type : Z) : bytes :=
  let h := calloc 0x200 in
  let h := put_le h 2 1 NcaFsType_PartitionFs in
  let h := put_le h 3 1 NcaHashType_HierarchicalSha256 in
  let h := put_le h 4 1 enc_type in
  let h := put_le h 0x28 4 0x100 in
  let h := put_le h 0x2C 4 2 in
  let h := put_le h 0x30 8 0x200 in
  let h := put_le h 0x38 8 0x40 in
  let h := put_le h 0x40 8 0x300 in
  put_le h 0x48 8 0x100.

(** The plaintext archive header: magic ["NCA" ++ version_char], declared
    size 0x1000, one section in sectors [6, 8). *)
Definition header_plain (version_char : Z) (rights_id key_area : bytes)
    (enc_type : Z) : bytes :=
  let h := calloc 0x400 in
  let h := put h 0x200 4 [0x4E; 0x43; 0x41; version_char] in
  let h := put_le h 0x204 1 NcaDistributionType_GameCard in
  let h := put_le h 0x208 8 0x1000 in
  let h := put h 0x230 0x10 rights_id in
  let h := put_le h 0x240 4 6 in
  let h := put_le h 0x244 4 8 in
  let h := put h 0x280 0x20 (sha256 (fs_header0 enc_type)) in
  put h 0x300 0x40 key_area.

Definition header_key : bytes := repeat 0x11 16 ++ repeat 0x22 16.

(** The archive image: the encrypted header, the encrypted section header
    where the format version puts it, and a payload of zero bytes. *)
Definition image (version_char : Z) (rights_id key_area : bytes) (enc_type : Z)
  : bytes :=
  let hk := aes128XtsContextCreate (slice header_key 0 16) (slice header_key 16 16) true in
  let enc_hdr :=
    fst (xts hk (header_plain version_char rights_id key_area enc_type)
             0x400 0 0x200 true) in
  if version_char =? 0x30 then
    let sk := aes128XtsContextCreate (key_area_slot key_area 0)
                                     (key_area_slot key_area 1) true in
    enc_hdr ++ calloc 0x800
      ++ fst (xts sk (fs_header0 enc_type) 0x200 4 0x200 true) ++ calloc 0x200
  else
    enc_hdr
      ++ fst (xts hk (fs_header0 enc_type) 0x200
                  (if version_char =? 0x33 then 2 else 0) 0x200 true)
      ++ calloc 0x600 ++ calloc 0x400.

Definition content_info : NcmContentInfo :=
  {| ci_content_id := repeat 0xAB 16; ci_size := 0x1000;
     ci_content_type := 1; ci_id_offset := 0 |}.

(** The example archives: a V3 archive with a CTR section and no rights
    id, the same with a rights id, and a V0 archive. *)
Definition key_area : bytes := repeat 0x33 0x40.
Definition rights_id : bytes := repeat 0x0E 0x10.

Definition image_v3 : bytes := image 0x33 (calloc 0x10) key_area NcaEncryptionType_AesCtr.
Definition image_v3_rights : bytes := image 0x33 rights_id key_area NcaEncryptionType_AesCtr.
Definition image_v2 : bytes := image 0x32 (calloc 0x10) key_area NcaEncryptionType_AesXts.
Definition image_v0 : bytes := image 0x30 (calloc 0x10) key_area NcaEncryptionType_AesXts.

End Toy.

(** The contexts [ncaInitializeContext] builds for the example archives
    (from the SD card, storage 5; no ticket, signature check failing). *)
Module Example.

Definition env_v3 : NcaEnv := Toy.env Toy.image_v3 None false.
Definition env_v3_rights : NcaEnv := Toy.env Toy.image_v3_rights None false.
Definition env_v2 : NcaEnv := Toy.env Toy.image_v2 None false.
Definition env_v0 : NcaEnv := Toy.env Toy.image_v0 None false.

Definition init (E : NcaEnv) : NcaContext :=
  match ncaInitializeContext Toy.layout E 5 0 Toy.content_info with
  | Some c => c
  | None => nca_ctx_zero
  end.

Definition ctx_v3 : NcaContext := init env_v3.
Definition ctx_v3_rights : NcaContext := init env_v3_rights.
Definition ctx_v2 : NcaContext := init env_v2.
Definition ctx_v0 : NcaContext := init env_v0.

End Example.

(** The context the reader leaves for the V0 example archive. *)
Definition read_v0 : NcaContext :=
  match ncaReadDecryptedHeader Toy.layout Example.env_v0 (example_ctx 0x1000) with
  | Some c => c
  | None => nca_ctx_zero
  end.

(** The context read from the V0 example archive with its encrypted images
    wiped: what the encryptor is given when only the plaintext is known. *)
Definition read_v0_wiped : NcaContext :=
  set_encrypted_header
    (put_fs_ctx read_v0 0 (set_fs_encrypted_header (get_fs_ctx read_v0 0) [])) [].

(** A V0 archive whose only section starts at sector 1, inside the archive
    header: the section header is then read at offset 0x200. *)
Definition header_low_v0 : bytes :=
  Toy.put_le (Toy.header_plain 0x30 (calloc 0x10) Toy.key_area NcaEncryptionType_AesXts)
             0x240 4 1.

Definition image_low_v0 : bytes :=
  fst (Toy.xts (aes128XtsContextCreate (slice Toy.header_key 0 16)
                                       (slice Toy.header_key 16 16) true)
               header_low_v0 0x400 0 0x200 true)
  ++ calloc 0xC00.

Definition env_low_v0 : NcaEnv := Toy.env image_low_v0 None false.

Definition read_low_v0 : NcaContext :=
  match ncaReadDecryptedHeader Toy.layout env_low_v0 (example_ctx 0x1000) with
  | Some c => c
  | None => nca_ctx_zero
  end.




(** A V0 context whose stored key area hashes to the NCA0 marker, as the
    reader has it when it calls [ncaDecryptKeyArea]. *)
Definition ctx_v0_plain : NcaContext :=
  set_format_version
    (set_header (example_ctx 0x1000)
       (Toy.header_plain 0x30 (calloc 0x10) Toy.plain_key_area NcaEncryptionType_AesXts))
    NcaVersion_Nca0.

(** The context [ncaInitializeContext] hands to the section loop for the
    example archives. *)
Definition before_sections (E : NcaEnv) : NcaContext :=
  match init_before_sections Toy.layout E 5 0 Toy.content_info with
  | Some c => c
  | None => nca_ctx_zero
  end.

(** ** Writing the encrypted headers to a buffer *)

(** The section loop of [ncaWriteEncryptedHeaderDataToMemoryBuffer]: the
    header of every enabled section that is not written yet is merged into
    the buffer and takes the returned flag; the flag of the archive drops to
    false at the first header that is not fully written. *)
Fixpoint write_fs_headers (ctx : NcaContext) (idx : list Z) (buf : bytes)
    (buf_size buf_offset : Z) : NcaContext * bytes :=
  match idx with
  | [] => (ctx, buf)
  | i :: rest =>
    let s := get_fs_ctx ctx i in
    if negb (enabled s) || fs_header_written s
    then write_fs_headers ctx rest buf buf_size buf_offset
    else
      let fs_header_offset :=
        if negb (format_version ctx =? NcaVersion_Nca0)
        then NCA_HEADER_LENGTH + i * NCA_FS_HEADER_LENGTH
        else section_offset s in
      let '(buf1, r) :=
        ncaWritePatchToMemoryBuffer ctx (Some (fs_encrypted_header s))
          NCA_FS_HEADER_LENGTH fs_header_offset buf buf_size buf_offset in
      let ctx := put_fs_ctx ctx i (set_fs_header_written s r) in
      let ctx := if r then ctx else set_header_written ctx false in
      write_fs_headers ctx rest buf1 buf_size buf_offset
  end.

(** [ncaWriteEncryptedHeaderDataToMemoryBuffer]: the context and the buffer
    after the call.  The archive header is merged only into a buffer that
    starts inside it. *)
Definition ncaWriteEncryptedHeaderDataToMemoryBuffer (ctx : NcaContext)
    (buf : bytes) (buf_size buf_offset : Z) : NcaContext * bytes :=
  if header_written ctx || (content_size ctx <? NCA_FULL_HEADER_LENGTH)
     || (buf_size =? 0) || (add64 buf_offset buf_size >? content_size ctx)
  then (ctx, buf)
  else
    let ctx := set_header_written ctx true in
    if buf_offset <? NCA_HEADER_LENGTH then
      let '(buf1, r) :=
        ncaWritePatchToMemoryBuffer ctx (Some (encrypted_header ctx))
          NCA_HEADER_LENGTH 0 buf buf_size buf_offset in
      if negb r then (set_header_written ctx false, buf1)
      else write_fs_headers ctx (upto NCA_FS_HEADER_COUNT) buf1 buf_size buf_offset
    else write_fs_headers ctx (upto NCA_FS_HEADER_COUNT) buf buf_size buf_offset.

(** ** Reads of the CTR-Ex storage of a Patch RomFS section *)

Section BktrRead.

Variable E : NcaEnv.

(** [aes128CtrUpdatePartialCtrEx ctr ctr_val offset] of [aes.h]: the counter
    re-seeded with the generation [ctr_val] and the offset. *)
Variable aes128CtrUpdatePartialCtrEx : bytes -> Z -> Z -> bytes.

(** The first parameter test of [_ncaReadAesCtrExStorageFromBktrSection]. *)
Definition bktr_section_invalid (crypto_buffer : bool) (ctx : NcaFsSectionContext)
    (read_size offset : Z) : bool :=
  negb crypto_buffer || negb (enabled ctx)
  || (section_num ctx >=? NCA_FS_HEADER_COUNT)
  || (section_offset ctx <? NCA_HEADER_LENGTH)
  || negb (section_type ctx =? NcaFsSectionType_PatchRomFs)
  || negb (encryption_type ctx =? NcaEncryptionType_AesCtrEx)
  || (read_size =? 0)
  || (add64 offset read_size >? section_size ctx).

(** The second test, on the archive context (no format version test here). *)
Definition bktr_archive_invalid (nca_ctx : NcaContext) (content_offset size : Z)
  : bool :=
  content_id_str_empty nca_ctx || storage_missing nca_ctx
  || (add64 content_offset size >? content_size nca_ctx).

(** "Decrypt data": the counter is re-seeded from [ctr_val] and the offset
    of the block before every use.  Only the bytes are returned.  The code
    writes the re-seeded counter, with [ctr_val] in it, into [ctx->ctr] and
    [ctx->ctr_ctx]; that write is not returned, so nothing here speaks of
    a read of the same section after this one. *)
Definition decrypt_bktr_block (ctx : NcaFsSectionContext) (data : bytes)
    (ctr_val block_offset : Z) : bytes :=
  aes128CtrCrypt E
    (aes128CtrContextResetCtr (ctr_ctx ctx)
       (aes128CtrUpdatePartialCtrEx (ctr ctx) ctr_val block_offset))
    data.

(** [_ncaReadAesCtrExStorageFromBktrSection], with the recursion on the tail
    of a span larger than the staging buffer on [fuel].  The value is the
    output buffer alone (see [decrypt_bktr_block]). *)
Fixpoint _ncaReadAesCtrExStorageFromBktrSection_fuel (fuel : nat)
    (crypto_buffer : bool) (nca_ctx : NcaContext) (ctx : NcaFsSectionContext)
    (read_size offset ctr_val : Z) : outcome bytes :=
  match fuel with
  | O => OutOfFuel
  | S fuel' =>
    if bktr_section_invalid crypto_buffer ctx read_size offset then Failed
    else
      let content_offset := add64 (section_offset ctx) offset in
      if bktr_archive_invalid nca_ctx content_offset read_size then Failed
      else if (content_offset mod AES_BLOCK_SIZE =? 0)
              && (read_size mod AES_BLOCK_SIZE =? 0) then
        match ncaReadContentFile E nca_ctx read_size content_offset with
        | None => Failed
        | Some out => Done (decrypt_bktr_block ctx out ctr_val content_offset)
        end
      else
        let block_start_offset := ALIGN_DOWN content_offset AES_BLOCK_SIZE in
        let block_end_offset :=
          ALIGN_UP (add64 content_offset read_size) AES_BLOCK_SIZE in
        let block_size := sub64 block_end_offset block_start_offset in
        let data_start_offset := sub64 content_offset block_start_offset in
        let chunk_size :=
          if block_size >? NCA_CRYPTO_BUFFER_SIZE
          then NCA_CRYPTO_BUFFER_SIZE else block_size in
        let out_chunk_size :=
          if block_size >? NCA_CRYPTO_BUFFER_SIZE
          then sub64 NCA_CRYPTO_BUFFER_SIZE data_start_offset else read_size in
        match ncaReadContentFile E nca_ctx chunk_size block_start_offset with
        | None => Failed
        | Some enc =>
          let dec := decrypt_bktr_block ctx enc ctr_val block_start_offset in
          let chunk := slice dec data_start_offset out_chunk_size in
          if block_size >? NCA_CRYPTO_BUFFER_SIZE then
            match _ncaReadAesCtrExStorageFromBktrSection_fuel fuel' crypto_buffer
                    nca_ctx ctx (sub64 read_size out_chunk_size)
                    (add64 offset out_chunk_size) ctr_val with
            | Done rest => Done (chunk ++ rest)
            | Failed => Failed
            | OutOfFuel => OutOfFuel
            end
          else Done chunk
        end
  end.

(** [_ncaReadAesCtrExStorageFromBktrSection]: [None] for [false]. *)
Definition _ncaReadAesCtrExStorageFromBktrSection (crypto_buffer : bool)
    (nca_ctx : NcaContext) (ctx : NcaFsSectionContext)
    (read_size offset ctr_val : Z) : option bytes :=
  match _ncaReadAesCtrExStorageFromBktrSection_fuel (read_fuel read_size)
          crypto_buffer nca_ctx ctx read_size offset ctr_val with
  | Done out => Some out
  | _ => None
  end.

End BktrRead.
(** * Properties *)

(** ** Proof tools *)

(** Reduce the field reads of updated section contexts and cipher
    contexts, and nothing else. *)
Ltac fs_simpl :=
  cbn [enabled section_num section_offset section_size section_type
       encryption_type fs_header fs_encrypted_header fs_header_written
       ctr ctr_ctx xts_decrypt_ctx xts_encrypt_ctx has_sparse_layer
       sparse_table_offset sparse_table_size sparse_ctr sparse_ctr_ctx
       set_enabled set_section_num set_section_offset set_section_size
       set_section_type set_encryption_type set_fs_header set_fs_encrypted_header
       set_fs_header_written set_ctr set_ctr_ctx set_xts_decrypt_ctx
       set_xts_encrypt_ctx set_has_sparse_layer set_sparse_table_offset
       set_sparse_table_size set_sparse_ctr set_sparse_ctr_ctx
       aes128CtrContextCreate aes128XtsContextCreate aes128CtrContextResetCtr
       ctr_key ctr_counter xts_keys xts_is_encryptor negb andb orb fst snd] in *.

(** Reduce the field reads of updated archive contexts and of the
    environment with another signature check. *)
Ltac nca_simpl :=
  cbn [storage_id ncm_storage gamecard_offset content_id content_id_str hash
       hash_str format_version content_type content_size key_generation id_offset
       rights_id_available titlekey_retrieved valid_main_signature titlekey
       encrypted_header header header_hash header_written fs_ctx decrypted_key_area
       set_storage_id set_ncm_storage set_gamecard_offset set_content_id
       set_content_id_str set_hash set_hash_str set_format_version set_content_type
       set_content_size set_key_generation set_id_offset set_rights_id_available
       set_titlekey_retrieved set_valid_main_signature set_titlekey
       set_encrypted_header set_header set_header_hash set_header_written
       set_fs_ctx set_decrypted_key_area put_fs_ctx get_fs_ctx
       with_signature_check keysGetNcaHeaderKey keysDecryptNcaKeyAreaEntry
       keysGetNcaKeyAreaEncryptionKey keysGetNcaMainSignatureModulus
       aes128XtsNintendoCrypt aes128EncryptBlock aes128CtrCrypt sha256CalculateHash
       rsa2048VerifySha256BasedPssSignature ncmContentStorageReadContentIdFile
       gamecardReadStorage gamecardGetHashFileSystemEntryInfoByName
       titleGetNcmStorageByStorageId tikRetrieveTicketByRightsId
       utilsGenerateHexStringFromData aes128CtrInitializePartialCtr
       aes128CtrUpdatePartialCtr] in *.

(** Split a conjunction of closed facts and settle each by evaluation. *)
Ltac conj_compute :=
  intros; repeat match goal with |- _ /\ _ => split end;
  vm_compute; (reflexivity || discriminate).

(** Case analysis on the test of the first conditional of the goal. *)
Ltac if_destruct :=
  match goal with
  | |- context [if ?c then _ else _] => destruct c eqn:?
  end.

(** ** Lists and machine arithmetic *)

Lemma u64_small (z : Z) : 0 <= z < 2 ^ 64 -> u64 z = z.
Proof. intros H. unfold u64. now apply Z.mod_small. Qed.

Lemma u32_small (z : Z) : 0 <= z < 2 ^ 32 -> u32 z = z.
Proof. intros H. unfold u32. now apply Z.mod_small. Qed.

Lemma u64_range (z : Z) : 0 <= u64 z < 2 ^ 64.
Proof. unfold u64. apply Z.mod_pos_bound. lia. Qed.

Lemma length_memcpy (dst src : bytes) (off n : Z) :
  0 <= off -> 0 <= n -> off + n <= zlen dst -> n <= zlen src ->
  length (memcpy dst off src n) = length dst.
Proof.
  unfold memcpy, zlen. intros Hoff Hn Hd Hs.
  rewrite !length_app, !length_firstn, length_skipn. lia.
Qed.

(** Byte [k] after a [memcpy]: the source inside the window, the old byte
    outside. *)
Lemma nth_memcpy (dst src : bytes) (off n : Z) (k : nat) (d : Z) :
  0 <= off -> 0 <= n -> off + n <= zlen dst -> n <= zlen src ->
  nth k (memcpy dst off src n) d =
  if (off <=? Z.of_nat k) && (Z.of_nat k <? off + n)
  then nth (k - Z.to_nat off) src d else nth k dst d.
Proof.
  unfold memcpy, zlen. intros Hoff Hn Hd Hs.
  assert (L1 : length (firstn (Z.to_nat off) dst) = Z.to_nat off)
    by (rewrite length_firstn; lia).
  assert (L2 : length (firstn (Z.to_nat n) src) = Z.to_nat n)
    by (rewrite length_firstn; lia).
  destruct (Z.leb_spec off (Z.of_nat k)); simpl.
  - rewrite app_nth2 by lia. rewrite L1.
    destruct (Z.ltb_spec (Z.of_nat k) (off + n)).
    + rewrite app_nth1 by lia. rewrite nth_firstn.
      destruct (Nat.ltb_spec (k - Z.to_nat off) (Z.to_nat n)); [reflexivity | lia].
    + rewrite app_nth2 by lia. rewrite L2, nth_skipn. f_equal. lia.
  - rewrite app_nth1 by lia. rewrite nth_firstn.
    destruct (Nat.ltb_spec k (Z.to_nat off)); [reflexivity | lia].
Qed.

(** ** The patch merge *)

(** A patch entry that is empty or reaches beyond the declared content size
    is refused whatever the buffer. *)
Lemma write_patch_rejected (ctx : NcaContext) (p : bytes)
    (patch_size patch_offset : Z) (buf : bytes) (buf_size buf_offset : Z) :
  patch_size = 0 \/ add64 patch_offset patch_size > content_size ctx ->
  ncaWritePatchToMemoryBuffer ctx (Some p) patch_size patch_offset
                              buf buf_size buf_offset = (buf, false).
Proof.
  intros [H | H]; unfold ncaWritePatchToMemoryBuffer.
  - subst. reflexivity.
  - destruct (patch_size =? 0); [reflexivity |].
    destruct (Z.gtb_spec (add64 patch_offset patch_size) (content_size ctx));
      [reflexivity | lia].
Qed.

(** The code against the words of the specification, for an entry that is
    not empty and lies inside the archive. *)
Lemma write_patch_merge (ctx : NcaContext) (p : bytes)
    (patch_size patch_offset : Z) (buf : bytes) (buf_size buf_offset : Z) :
  0 < patch_size -> 0 <= patch_offset -> 0 <= buf_size -> 0 <= buf_offset ->
  patch_offset + patch_size <= content_size ctx ->
  content_size ctx < 2 ^ 64 -> buf_offset + buf_size < 2 ^ 64 ->
  ncaWritePatchToMemoryBuffer ctx (Some p) patch_size patch_offset
                              buf buf_size buf_offset
  = patch_merge_spec p patch_size patch_offset buf buf_size buf_offset.
Proof.
  intros Hps Hpo Hbs Hbo Hin Hc Hb.
  unfold ncaWritePatchToMemoryBuffer, patch_merge_spec, add64, sub64.
  rewrite !(u64_small (patch_offset + patch_size)) by lia.
  rewrite !(u64_small (buf_offset + buf_size)) by lia.
  destruct (Z.eqb_spec patch_size 0); [lia |].
  destruct (Z.gtb_spec (patch_offset + patch_size) (content_size ctx)); [lia |].
  cbn [orb].
  destruct (Z.leb_spec (buf_offset + buf_size) patch_offset); [reflexivity |].
  destruct (Z.leb_spec (patch_offset + patch_size) buf_offset); [reflexivity |].
  cbn [orb].
  destruct (Z.ltb_spec patch_offset buf_offset);
    destruct (Z.ltb_spec buf_offset patch_offset); try lia.
  - rewrite (u64_small (buf_offset - patch_offset)) by lia.
    rewrite (u64_small (buf_size - 0)) by lia.
    rewrite (u64_small (patch_size - (buf_offset - patch_offset))) by lia.
    rewrite (Z.max_r 0 (buf_offset - patch_offset)) by lia.
    rewrite (Z.max_l 0 (patch_offset - buf_offset)) by lia.
    destruct (Z.ltb_spec (buf_size - 0) (patch_size - (buf_offset - patch_offset))).
    + rewrite Z.min_r by lia.
      rewrite (u64_small (buf_offset - patch_offset + (buf_size - 0))) by lia.
      f_equal.
      destruct (Z.eqb_spec (buf_offset - patch_offset + (buf_size - 0)) patch_size);
        destruct (Z.leb_spec (patch_offset + patch_size) (buf_offset + buf_size));
        (reflexivity || lia).
    + rewrite Z.min_l by lia.
      rewrite (u64_small (buf_offset - patch_offset + _)) by lia.
      f_equal.
      destruct (Z.eqb_spec (buf_offset - patch_offset
                            + (patch_size - (buf_offset - patch_offset))) patch_size);
        destruct (Z.leb_spec (patch_offset + patch_size) (buf_offset + buf_size));
        (reflexivity || lia).
  - rewrite (u64_small (patch_offset - buf_offset)) by lia.
    rewrite (u64_small (patch_size - 0)) by lia.
    rewrite (u64_small (buf_size - (patch_offset - buf_offset))) by lia.
    rewrite (Z.max_l 0 (buf_offset - patch_offset)) by lia.
    rewrite (Z.max_r 0 (patch_offset - buf_offset)) by lia.
    destruct (Z.ltb_spec (buf_size - (patch_offset - buf_offset)) (patch_size - 0)).
    + rewrite Z.min_r by lia.
      rewrite (u64_small (0 + _)) by lia.
      f_equal.
      destruct (Z.eqb_spec (0 + (buf_size - (patch_offset - buf_offset))) patch_size);
        destruct (Z.leb_spec (patch_offset + patch_size) (buf_offset + buf_size));
        (reflexivity || lia).
    + rewrite Z.min_l by lia.
      rewrite (u64_small (0 + _)) by lia.
      f_equal.
      destruct (Z.eqb_spec (0 + (patch_size - 0)) patch_size);
        destruct (Z.leb_spec (patch_offset + patch_size) (buf_offset + buf_size));
        (reflexivity || lia).
  - assert (patch_offset = buf_offset) by lia. subst.
    rewrite !Z.sub_diag, !Z.sub_0_r. cbn [Z.max].
    rewrite (u64_small patch_size) by lia.
    rewrite (u64_small buf_size) by lia.
    rewrite Z.max_id.
    destruct (Z.ltb_spec buf_size patch_size).
    + rewrite Z.min_r by lia. rewrite (u64_small (0 + _)) by lia. f_equal.
      destruct (Z.eqb_spec (0 + buf_size) patch_size);
        destruct (Z.leb_spec (buf_offset + patch_size) (buf_offset + buf_size));
        (reflexivity || lia).
    + rewrite Z.min_l by lia. rewrite (u64_small (0 + _)) by lia. f_equal.
      destruct (Z.eqb_spec (0 + patch_size) patch_size);
        destruct (Z.leb_spec (buf_offset + patch_size) (buf_offset + buf_size));
        (reflexivity || lia).
Qed.

Lemma memcpy_idem (b s : bytes) (off n : Z) :
  0 <= off -> 0 <= n -> off + n <= zlen b -> n <= zlen s ->
  memcpy (memcpy b off s n) off s n = memcpy b off s n.
Proof.
  intros Hoff Hn Hb Hs.
  assert (Hl : length (memcpy b off s n) = length b) by now apply length_memcpy.
  assert (Hz : zlen (memcpy b off s n) = zlen b) by (unfold zlen; now rewrite Hl).
  apply nth_ext with (d := 0) (d' := 0).
  - apply length_memcpy; rewrite ?Hz; assumption.
  - intros k _. rewrite (nth_memcpy (memcpy b off s n)) by (rewrite ?Hz; assumption).
    rewrite (nth_memcpy b) by assumption.
    destruct ((off <=? Z.of_nat k) && (Z.of_nat k <? off + n)); reflexivity.
Qed.

Lemma memcpy_comm (b s1 s2 : bytes) (o1 n1 o2 n2 : Z) :
  0 <= o1 -> 0 <= n1 -> o1 + n1 <= zlen b -> n1 <= zlen s1 ->
  0 <= o2 -> 0 <= n2 -> o2 + n2 <= zlen b -> n2 <= zlen s2 ->
  o1 + n1 <= o2 \/ o2 + n2 <= o1 ->
  memcpy (memcpy b o1 s1 n1) o2 s2 n2 = memcpy (memcpy b o2 s2 n2) o1 s1 n1.
Proof.
  intros H1 H2 H3 H4 H5 H6 H7 H8 Hd.
  assert (L1 : length (memcpy b o1 s1 n1) = length b) by now apply length_memcpy.
  assert (L2 : length (memcpy b o2 s2 n2) = length b) by now apply length_memcpy.
  assert (Z1 : zlen (memcpy b o1 s1 n1) = zlen b) by (unfold zlen; now rewrite L1).
  assert (Z2 : zlen (memcpy b o2 s2 n2) = zlen b) by (unfold zlen; now rewrite L2).
  apply nth_ext with (d := 0) (d' := 0).
  - rewrite !length_memcpy; rewrite ?Z1, ?Z2; auto.
  - intros k _.
    rewrite (nth_memcpy (memcpy b o1 s1 n1)) by (rewrite ?Z1; assumption).
    rewrite (nth_memcpy (memcpy b o2 s2 n2)) by (rewrite ?Z2; assumption).
    rewrite !(nth_memcpy b) by assumption.
    destruct (Z.leb_spec o1 (Z.of_nat k)); destruct (Z.ltb_spec (Z.of_nat k) (o1 + n1));
      destruct (Z.leb_spec o2 (Z.of_nat k)); destruct (Z.ltb_spec (Z.of_nat k) (o2 + n2));
      cbn [andb]; try reflexivity; lia.
Qed.

(** The merge of one entry is a [memcpy] whose window and source depend on
    the entry and the buffer range only, and whose window lies in the
    archive range of the entry. *)
Lemma merge_entry_shape (ctx : NcaContext) (buf_size buf_offset : Z)
    (e : NcaHashDataPatch) :
  entry_wf e -> 0 <= buf_size -> 0 <= buf_offset ->
  buf_offset + buf_size < 2 ^ 64 -> content_size ctx < 2 ^ 64 ->
  exists (active : bool) (off n : Z) (src : bytes),
    (forall buf, merge_entry ctx buf_size buf_offset e buf
                 = if active then memcpy buf off src n else buf)
    /\ (active = true ->
        0 <= off /\ 0 <= n /\ off + n <= buf_size /\ n <= zlen src
        /\ hdp_offset e <= buf_offset + off
        /\ buf_offset + off + n <= hdp_offset e + hdp_size e).
Proof.
  intros (Ho & Hs & Hw & Hd) Hbs Hbo Hb Hc. unfold merge_entry.
  destruct (hdp_data e) as [p |] eqn:Hp.
  2: { exists false, 0, 0, []. split; [reflexivity | discriminate]. }
  specialize (Hd p eq_refl).
  destruct (Z.eq_dec (hdp_size e) 0) as [Hz | Hz].
  { exists false, 0, 0, []. split; [| discriminate].
    intros buf. rewrite write_patch_rejected by (left; exact Hz). reflexivity. }
  destruct (Z_gt_dec (add64 (hdp_offset e) (hdp_size e)) (content_size ctx)) as [Hg | Hg].
  { exists false, 0, 0, []. split; [| discriminate].
    intros buf. rewrite write_patch_rejected by (right; exact Hg). reflexivity. }
  unfold add64 in Hg. rewrite u64_small in Hg by lia.
  set (po := hdp_offset e) in *. set (ps := hdp_size e) in *.
  destruct ((buf_offset + buf_size <=? po) || (po + ps <=? buf_offset)) eqn:Hov.
  { exists false, 0, 0, []. split; [| discriminate].
    intros buf. rewrite write_patch_merge by lia.
    unfold patch_merge_spec. rewrite Hov. reflexivity. }
  apply orb_false_iff in Hov. destruct Hov as [Hov1 Hov2].
  apply Z.leb_gt in Hov1. apply Z.leb_gt in Hov2.
  exists true, (Z.max 0 (po - buf_offset)),
         (Z.min (ps - Z.max 0 (buf_offset - po)) (buf_size - Z.max 0 (po - buf_offset))),
         (skipn (Z.to_nat (Z.max 0 (buf_offset - po))) p).
  split.
  - intros buf. rewrite write_patch_merge by lia.
    unfold patch_merge_spec.
    destruct (Z.leb_spec (buf_offset + buf_size) po); [lia |].
    destruct (Z.leb_spec (po + ps) buf_offset); [lia |]. reflexivity.
  - intros _. unfold zlen in *. rewrite length_skipn. lia.
Qed.

Section PatchApply.

Variable ctx : NcaContext.
Variables buf_size buf_offset : Z.
Hypothesis buf_size_pos : 0 <= buf_size.
Hypothesis buf_offset_pos : 0 <= buf_offset.
Hypothesis buf_end_u64 : buf_offset + buf_size < 2 ^ 64.
Hypothesis content_size_u64 : content_size ctx < 2 ^ 64.

Local Abbreviation merge := (merge_entry ctx buf_size buf_offset).
Local Abbreviation step := (merge_step ctx buf_size buf_offset).

Lemma merge_entry_zlen (e : NcaHashDataPatch) (b : bytes) :
  entry_wf e -> zlen b = buf_size -> zlen (merge e b) = buf_size.
Proof.
  intros He Hb.
  destruct (merge_entry_shape ctx buf_size buf_offset e He)
    as (a & off & n & src & Heq & Hwin); try assumption.
  rewrite Heq. destruct a; [| assumption].
  destruct (Hwin eq_refl) as (? & ? & ? & ? & _).
  unfold zlen. rewrite length_memcpy; try lia. exact Hb.
Qed.

Lemma merge_entry_idem (e : NcaHashDataPatch) (b : bytes) :
  entry_wf e -> zlen b = buf_size -> merge e (merge e b) = merge e b.
Proof.
  intros He Hb.
  destruct (merge_entry_shape ctx buf_size buf_offset e He)
    as (a & off & n & src & Heq & Hwin); try assumption.
  rewrite !Heq. destruct a; [| reflexivity].
  destruct (Hwin eq_refl) as (? & ? & ? & ? & _).
  apply memcpy_idem; lia.
Qed.

Lemma merge_entry_comm (e1 e2 : NcaHashDataPatch) (b : bytes) :
  entry_wf e1 -> entry_wf e2 -> entries_disjoint e1 e2 -> zlen b = buf_size ->
  merge e1 (merge e2 b) = merge e2 (merge e1 b).
Proof.
  intros H1 H2 Hd Hb.
  destruct (merge_entry_shape ctx buf_size buf_offset e1 H1)
    as (a1 & o1 & n1 & s1 & Heq1 & Hw1); try assumption.
  destruct (merge_entry_shape ctx buf_size buf_offset e2 H2)
    as (a2 & o2 & n2 & s2 & Heq2 & Hw2); try assumption.
  rewrite !Heq1, !Heq2.
  destruct a1; destruct a2; try reflexivity.
  destruct (Hw1 eq_refl) as (? & ? & ? & ? & ? & ?).
  destruct (Hw2 eq_refl) as (? & ? & ? & ? & ? & ?).
  symmetry. apply memcpy_comm; try lia.
  destruct Hd; lia.
Qed.

Lemma write_patch_entries_buf (es : list NcaHashDataPatch) (w : bool) (b : bytes) :
  snd (write_patch_entries ctx es w b buf_size buf_offset) = fold_left step es b.
Proof.
  revert w b. induction es as [| e rest IH]; intros w b; [reflexivity |].
  cbn [write_patch_entries fold_left]. unfold merge_step at 2, merge_entry.
  destruct (hdp_written e).
  - specialize (IH w b).
    destruct (write_patch_entries ctx rest w b buf_size buf_offset) as [[? ?] ?].
    exact IH.
  - destruct (ncaWritePatchToMemoryBuffer ctx (hdp_data e) (hdp_size e) (hdp_offset e)
                b buf_size buf_offset) as [b1 r].
    specialize (IH (if r then w else false) b1).
    destruct (write_patch_entries ctx rest (if r then w else false) b1
                                  buf_size buf_offset) as [[? ?] ?].
    exact IH.
Qed.

Lemma write_patch_entries_same (es : list NcaHashDataPatch) (w : bool) (b : bytes) :
  Forall2 same_entry es
          (fst (fst (write_patch_entries ctx es w b buf_size buf_offset))).
Proof.
  revert w b. induction es as [| e rest IH]; intros w b; [constructor |].
  cbn [write_patch_entries].
  destruct (hdp_written e) eqn:Hw.
  - specialize (IH w b).
    destruct (write_patch_entries ctx rest w b buf_size buf_offset) as [[? ?] ?].
    constructor; [| exact IH]. repeat split; auto.
  - destruct (ncaWritePatchToMemoryBuffer ctx (hdp_data e) (hdp_size e) (hdp_offset e)
                b buf_size buf_offset) as [b1 r].
    specialize (IH (if r then w else false) b1).
    destruct (write_patch_entries ctx rest (if r then w else false) b1
                                  buf_size buf_offset) as [[? ?] ?].
    constructor; [| exact IH]. repeat split; cbn; congruence.
Qed.

Lemma fold_step_zlen (es : list NcaHashDataPatch) (b : bytes) :
  Forall entry_wf es -> zlen b = buf_size -> zlen (fold_left step es b) = buf_size.
Proof.
  revert b. induction es as [| e rest IH]; intros b Hwf Hb; [exact Hb |].
  inversion_clear Hwf as [| ? ? He Hrest]. cbn [fold_left]. apply IH; [assumption |].
  unfold merge_step. destruct (hdp_written e); [exact Hb |].
  now apply merge_entry_zlen.
Qed.

(** An entry whose bytes are in place stays in place while entries
    disjoint from it are merged. *)
Lemma fold_step_keeps (e : NcaHashDataPatch) (rest : list NcaHashDataPatch) (b : bytes) :
  entry_wf e -> Forall entry_wf rest -> Forall (entries_disjoint e) rest ->
  zlen b = buf_size -> merge e b = b ->
  merge e (fold_left step rest b) = fold_left step rest b.
Proof.
  intros He. revert b. induction rest as [| e' rest IH]; intros b Hwf Hd Hb Hs;
    [exact Hs |].
  inversion_clear Hwf as [| ? ? He' Hrest]. inversion_clear Hd as [| ? ? Hd' Hdrest].
  cbn [fold_left].
  unfold merge_step at 2 4. destruct (hdp_written e').
  - now apply IH.
  - apply IH; try assumption.
    + now apply merge_entry_zlen.
    + rewrite merge_entry_comm by assumption. now rewrite Hs.
Qed.

(** After a pass, every entry the pass merged has its bytes in place. *)
Lemma fold_step_stable (es : list NcaHashDataPatch) (b : bytes) :
  Forall entry_wf es -> ForallOrdPairs entries_disjoint es -> zlen b = buf_size ->
  forall e, In e es -> hdp_written e = false ->
            merge e (fold_left step es b) = fold_left step es b.
Proof.
  revert b. induction es as [| e0 rest IH]; intros b Hwf Hd Hb e Hin Hw;
    [contradiction |].
  inversion_clear Hwf as [| ? ? He0 Hrest]. inversion_clear Hd as [| ? ? Hd0 Hdrest].
  cbn [fold_left].
  destruct Hin as [-> | Hin].
  - unfold merge_step at 2 4. rewrite Hw.
    apply fold_step_keeps; try assumption.
    + now apply merge_entry_zlen.
    + now apply merge_entry_idem.
  - apply IH; try assumption.
    unfold merge_step. destruct (hdp_written e0); [exact Hb |].
    now apply merge_entry_zlen.
Qed.

(** A second pass over the entries a first pass left changes nothing. *)
Lemma fold_step_second (es es1 : list NcaHashDataPatch) (b1 : bytes) :
  Forall2 same_entry es es1 ->
  (forall e, In e es -> hdp_written e = false -> merge e b1 = b1) ->
  fold_left step es1 b1 = b1.
Proof.
  induction 1 as [| e e1 es es1 (Ho & Hs & Hd & Hw) _ IH]; intros Hst;
    [reflexivity |].
  cbn [fold_left].
  assert (Hstep : step b1 e1 = b1).
  { unfold merge_step. destruct (hdp_written e1) eqn:H1; [reflexivity |].
    destruct (hdp_written e) eqn:H0; [specialize (Hw eq_refl); congruence |].
    unfold merge_entry. rewrite Ho, Hs, Hd.
    apply (Hst e); [now left | exact H0]. }
  rewrite Hstep. apply IH. intros e' Hin. apply Hst. now right.
Qed.

(** Two passes over pairwise disjoint entries leave the buffer of one. *)
Lemma write_patch_entries_twice (es : list NcaHashDataPatch) (w w' : bool) (b : bytes) :
  Forall entry_wf es -> ForallOrdPairs entries_disjoint es -> zlen b = buf_size ->
  let r1 := write_patch_entries ctx es w b buf_size buf_offset in
  snd (write_patch_entries ctx (fst (fst r1)) w' (snd r1) buf_size buf_offset)
  = snd r1.
Proof.
  intros Hwf Hd Hb r1. subst r1.
  rewrite (write_patch_entries_buf (fst (fst _))).
  apply fold_step_second with (es := es).
  - apply write_patch_entries_same.
  - intros e Hin Hw. rewrite write_patch_entries_buf. now apply fold_step_stable.
Qed.

End PatchApply.

Lemma Forall_firstn' {A : Type} (P : A -> Prop) (n : nat) (l : list A) :
  Forall P l -> Forall P (firstn n l).
Proof.
  revert n. induction l as [| a l IH]; intros n H.
  - rewrite firstn_nil. constructor.
  - destruct n; [constructor |]. inversion_clear H as [| ? ? Ha Hl].
    cbn [firstn]. constructor; [assumption | now apply IH].
Qed.

Lemma ForallOrdPairs_firstn {A : Type} (R : A -> A -> Prop) (n : nat) (l : list A) :
  ForallOrdPairs R l -> ForallOrdPairs R (firstn n l).
Proof.
  revert n. induction l as [| a l IH]; intros n H.
  - rewrite firstn_nil. constructor.
  - destruct n; [constructor |]. inversion_clear H as [| ? ? Ha Hl].
    cbn [firstn]. constructor; [now apply Forall_firstn' | now apply IH].
Qed.

Lemma firstn_app_skipn_same {A : Type} (n : nat) (l l1 : list A) :
  length l1 = length (firstn n l) -> firstn n (l1 ++ skipn n l) = l1.
Proof.
  intros H. rewrite length_firstn in H.
  rewrite firstn_app.
  destruct (Nat.le_gt_cases n (length l)) as [Hn | Hn].
  - replace (n - length l1)%nat with 0%nat by lia. cbn [firstn].
    rewrite app_nil_r. apply firstn_all2. lia.
  - rewrite skipn_all2 by lia. rewrite firstn_nil, app_nil_r.
    apply firstn_all2. lia.
Qed.

(** A second run of the loop of either patch writer, on what the first run
    left, keeps the buffer. *)
Lemma write_patch_entries_rerun (ctx : NcaContext) (buf_size buf_offset : Z)
    (n : nat) (es : list NcaHashDataPatch) (w w' : bool) (b : bytes) :
  0 <= buf_offset -> buf_offset + buf_size < 2 ^ 64 -> content_size ctx < 2 ^ 64 ->
  Forall entry_wf es -> ForallOrdPairs entries_disjoint es -> zlen b = buf_size ->
  let r1 := write_patch_entries ctx (firstn n es) w b buf_size buf_offset in
  snd (write_patch_entries ctx (firstn n (fst (fst r1) ++ skipn n es)) w' (snd r1)
                           buf_size buf_offset)
  = snd r1.
Proof.
  intros Hbo Hbe Hc Hwf Hd Hb r1.
  assert (Hbs : 0 <= buf_size) by (rewrite <- Hb; unfold zlen; lia).
  rewrite firstn_app_skipn_same.
  - apply write_patch_entries_twice; try assumption.
    + now apply Forall_firstn'.
    + now apply ForallOrdPairs_firstn.
  - symmetry. eapply Forall2_length. apply write_patch_entries_same.
Qed.

(** ** C4: the patch-apply merge *)

(** C4, as the code has it: for a patch entry [(ciphertext, abs_offset, size)]
    and a buffer range [buf_offset, buf_offset + buf_size), an entry that is
    empty or reaches beyond the declared content size is refused (not fully
    applied, buffer unchanged); any other entry is merged as the
    specification words it: ranges that do not overlap give "not fully
    applied" and the unchanged buffer, overlapping ranges copy
    [min(remaining_patch, remaining_buf)] bytes from
    [ciphertext[max(0, buf_offset - abs_offset) ..]] onto
    [buf[max(0, abs_offset - buf_offset) ..]], and the result is "fully
    applied" exactly when the copy reaches the last byte of the patch. *)
Theorem patch_merge_inside_archive (ctx : NcaContext) (ciphertext : bytes)
    (size abs_offset : Z) (buf : bytes) (buf_size buf_offset : Z) :
  0 <= size -> 0 <= abs_offset -> abs_offset + size < 2 ^ 64 ->
  0 <= buf_size -> 0 <= buf_offset -> buf_offset + buf_size < 2 ^ 64 ->
  content_size ctx < 2 ^ 64 ->
  ncaWritePatchToMemoryBuffer ctx (Some ciphertext) size abs_offset
                              buf buf_size buf_offset
  = if (size =? 0) || (abs_offset + size >? content_size ctx)
    then (buf, false)
    else patch_merge_spec ciphertext size abs_offset buf buf_size buf_offset.
Proof.
  intros Hs Ho He Hbs Hbo Hbe Hc.
  destruct (Z.eqb_spec size 0) as [Hz | Hz].
  - apply write_patch_rejected. now left.
  - destruct (Z.gtb_spec (abs_offset + size) (content_size ctx)) as [Hg | Hg]; cbn [orb].
    + apply write_patch_rejected. right. unfold add64. rewrite u64_small; lia.
    + apply write_patch_merge; lia.
Qed.

Lemma patch_merge_inside_archive_witness :
  ncaWritePatchToMemoryBuffer (example_ctx 0x1000) (Some [1; 2; 3; 4]) 4 0xC02
                              [0; 0; 0; 0] 4 0xC00
  = if (4 =? 0) || (0xC02 + 4 >? content_size (example_ctx 0x1000))
    then ([0; 0; 0; 0], false)
    else patch_merge_spec [1; 2; 3; 4] 4 0xC02 [0; 0; 0; 0] 4 0xC00.
Proof.
  apply patch_merge_inside_archive; try lia.
  vm_compute. reflexivity.
Defined.

(** The claim as stated fails for an entry that overlaps the buffer range
    but reaches beyond the declared content size (0x1000 here): the code
    copies nothing, the words of the specification ask for two bytes. *)
Lemma patch_merge_counterexample :
  ncaWritePatchToMemoryBuffer (example_ctx 0x1000) (Some [1; 2; 3; 4]) 4 0xFFE
                              [0; 0; 0; 0] 4 0xFFC
  = ([0; 0; 0; 0], false)
  /\ patch_merge_spec [1; 2; 3; 4] 4 0xFFE [0; 0; 0; 0] 4 0xFFC
     = ([0; 0; 1; 2], false).
Proof. split; vm_compute; reflexivity. Qed.

(** ** C5: applying a patch set twice *)

(** C5, as the code has it: for a patch set whose entries cover pairwise
    disjoint archive ranges, and every output buffer, applying the patch
    set twice gives the buffer bytes of applying it once (for both patch
    writers); and once the written flag of the patch set is set a call
    copies nothing, and an entry whose written flag is set is skipped by the
    loop. *)
Theorem patch_apply_twice (ctx : NcaContext) (sp : NcaHierarchicalSha256Patch)
    (ip : NcaHierarchicalIntegrityPatch) (buf : bytes) (buf_size buf_offset : Z) :
  Forall entry_wf (sp_hash_region_patch sp) ->
  ForallOrdPairs entries_disjoint (sp_hash_region_patch sp) ->
  Forall entry_wf (ip_hash_level_patch ip) ->
  ForallOrdPairs entries_disjoint (ip_hash_level_patch ip) ->
  zlen buf = buf_size -> 0 <= buf_offset -> buf_offset + buf_size < 2 ^ 64 ->
  content_size ctx < 2 ^ 64 ->
  (let r := ncaWriteHierarchicalSha256PatchToMemoryBuffer ctx sp buf buf_size buf_offset in
   snd (ncaWriteHierarchicalSha256PatchToMemoryBuffer ctx (fst r) (snd r)
                                                      buf_size buf_offset) = snd r)
  /\ (let r := ncaWriteHierarchicalIntegrityPatchToMemoryBuffer ctx ip buf buf_size
                                                                buf_offset in
      snd (ncaWriteHierarchicalIntegrityPatchToMemoryBuffer ctx (fst r) (snd r)
                                                            buf_size buf_offset) = snd r)
  /\ (sp_written sp = true ->
      ncaWriteHierarchicalSha256PatchToMemoryBuffer ctx sp buf buf_size buf_offset
      = (sp, buf))
  /\ (ip_written ip = true ->
      ncaWriteHierarchicalIntegrityPatchToMemoryBuffer ctx ip buf buf_size buf_offset
      = (ip, buf))
  /\ (forall e rest w,
        hdp_written e = true ->
        snd (write_patch_entries ctx (e :: rest) w buf buf_size buf_offset)
        = snd (write_patch_entries ctx rest w buf buf_size buf_offset)).
Proof.
  intros Hswf Hsd Hiwf Hid Hb Hbo Hbe Hc.
  split; [| split; [| split; [| split]]].
  - unfold ncaWriteHierarchicalSha256PatchToMemoryBuffer. cbv zeta.
    match goal with |- context [if ?g then (sp, buf) else _] =>
      destruct g eqn:G end.
    + cbn [fst snd]. rewrite G. reflexivity.
    + pose proof (write_patch_entries_rerun ctx buf_size buf_offset
                    (Z.to_nat (sp_hash_region_count sp)) (sp_hash_region_patch sp)
                    true true buf Hbo Hbe Hc Hswf Hsd Hb) as Hre.
      cbv zeta in Hre.
      destruct (write_patch_entries ctx
                  (firstn (Z.to_nat (sp_hash_region_count sp)) (sp_hash_region_patch sp))
                  true buf buf_size buf_offset) as [[es1 w1] b1] eqn:Hrun.
      cbn [fst snd] in *. cbn [sp_written sp_content_id sp_hash_region_count
                               sp_hash_region_patch].
      repeat (apply orb_false_iff in G; destruct G as [G ?]).
      repeat match goal with H : _ = false |- _ => rewrite H end.
      cbn [orb].
      destruct w1; [reflexivity |]. cbn [orb].
      destruct (write_patch_entries ctx _ true b1 buf_size buf_offset) as [[es2 w2] b2].
      exact Hre.
  - unfold ncaWriteHierarchicalIntegrityPatchToMemoryBuffer. cbv zeta.
    match goal with |- context [if ?g then (ip, buf) else _] =>
      destruct g eqn:G end.
    + cbn [fst snd]. rewrite G. reflexivity.
    + pose proof (write_patch_entries_rerun ctx buf_size buf_offset
                    (Z.to_nat NCA_IVFC_LEVEL_COUNT) (ip_hash_level_patch ip)
                    true true buf Hbo Hbe Hc Hiwf Hid Hb) as Hre.
      cbv zeta in Hre.
      destruct (write_patch_entries ctx
                  (firstn (Z.to_nat NCA_IVFC_LEVEL_COUNT) (ip_hash_level_patch ip))
                  true buf buf_size buf_offset) as [[es1 w1] b1] eqn:Hrun.
      cbn [fst snd] in *. cbn [ip_written ip_content_id ip_hash_level_patch].
      repeat (apply orb_false_iff in G; destruct G as [G ?]).
      repeat match goal with H : _ = false |- _ => rewrite H end.
      cbn [orb].
      destruct w1; [reflexivity |]. cbn [orb].
      destruct (write_patch_entries ctx _ true b1 buf_size buf_offset) as [[es2 w2] b2].
      exact Hre.
  - intros Hw. unfold ncaWriteHierarchicalSha256PatchToMemoryBuffer.
    rewrite Hw, !orb_true_r. reflexivity.
  - intros Hw. unfold ncaWriteHierarchicalIntegrityPatchToMemoryBuffer.
    rewrite Hw, !orb_true_r. reflexivity.
  - intros e rest w Hw. cbn [write_patch_entries]. rewrite Hw.
    destruct (write_patch_entries ctx rest w buf buf_size buf_offset) as [[? ?] ?].
    reflexivity.
Qed.

Lemma disjoint_patch_wf : Forall entry_wf (sp_hash_region_patch disjoint_patch).
Proof.
  repeat constructor; cbn; try lia; intros p [= <-]; reflexivity.
Defined.

Lemma disjoint_patch_disjoint :
  ForallOrdPairs entries_disjoint (sp_hash_region_patch disjoint_patch).
Proof.
  apply FOP_cons; [| apply FOP_cons; [constructor | apply FOP_nil]].
  constructor; [| constructor]. left. cbn. lia.
Defined.

Lemma patch_apply_twice_witness :
  let r := ncaWriteHierarchicalSha256PatchToMemoryBuffer
             (example_ctx 0x1000) disjoint_patch (repeat 0 16) 16 0xC00 in
  snd r = [0; 0; 1; 2; 3; 4; 0; 0; 5; 6; 7; 8; 9; 10; 11; 12]
  /\ snd (ncaWriteHierarchicalSha256PatchToMemoryBuffer
            (example_ctx 0x1000) (fst r) (snd r) 16 0xC00) = snd r.
Proof.
  split; [vm_compute; reflexivity |].
  refine (proj1 (patch_apply_twice (example_ctx 0x1000) disjoint_patch
                   disjoint_ivfc_patch (repeat 0 16) 16 0xC00
                   disjoint_patch_wf disjoint_patch_disjoint
                   disjoint_patch_wf disjoint_patch_disjoint _ _ _ _)).
  - reflexivity.
  - lia.
  - lia.
  - vm_compute. reflexivity.
Defined.

(** The claim as stated fails when entries overlap: entry 0 is only partly
    inside the buffer range, so it stays unwritten and is copied again by
    the second call, over the bytes of entry 1, which was fully applied and
    is skipped. *)
Lemma patch_apply_twice_counterexample :
  let r := ncaWriteHierarchicalSha256PatchToMemoryBuffer
             (example_ctx 0x1000) overlapping_patch (repeat 0 10) 10 0xC00 in
  snd r = [0; 0; 0; 0; 0; 0xAA; 0xAA; 0xAA; 0xAA; 0xAA]
  /\ snd (ncaWriteHierarchicalSha256PatchToMemoryBuffer
            (example_ctx 0x1000) (fst r) (snd r) 10 0xC00)
     = [0; 0; 0; 0; 0; 0xBB; 0xBB; 0xBB; 0xBB; 0xBB].
Proof. split; vm_compute; reflexivity. Qed.

(** ** C1: the XTS sector law *)

Section SectorLaw.

Variable L : NcaLayout.
Variable E : NcaEnv.

(** The sector of a section header, as the code computes it, against the
    law: the two agree for V3 and V2, and for the third case (V0) exactly
    from [start_sector = 2] on; below, the subtraction wraps in 32 bits. *)
Lemma fs_header_sector_code (ctx : NcaContext) (i : Z) (fs_info : bytes) :
  0 <= i < NCA_FS_HEADER_COUNT ->
  fs_header_sector L ctx i fs_info
  = if format_version ctx =? NcaVersion_Nca3 then 2 + i
    else if format_version ctx =? NcaVersion_Nca2 then 0
    else (fs_info_start_sector L fs_info - 2) mod 2 ^ 32.
Proof.
  intros Hi. unfold fs_header_sector, add32, sub32, u32.
  unfold NCA_FS_HEADER_COUNT in Hi.
  destruct (format_version ctx =? NcaVersion_Nca3); [apply Z.mod_small; lia |].
  reflexivity.
Qed.

Lemma header_sector_agrees (version i start_sector : Z) :
  0 <= start_sector < 2 ^ 32 ->
  (if version =? NcaVersion_Nca3 then 2 + i
   else if version =? NcaVersion_Nca2 then 0
   else (start_sector - 2) mod 2 ^ 32)
  = header_sector_law version i start_sector
  <-> version = NcaVersion_Nca3 \/ version = NcaVersion_Nca2 \/ 2 <= start_sector.
Proof.
  intros Hs. unfold header_sector_law.
  destruct (Z.eqb_spec version NcaVersion_Nca3) as [H3 | H3]; [tauto |].
  destruct (Z.eqb_spec version NcaVersion_Nca2) as [H2 | H2]; [tauto |].
  split.
  - intros Heq. right. right.
    destruct (Z_lt_le_dec start_sector 2) as [Hlt | Hge]; [| exact Hge].
    exfalso. pose proof (Z.mod_pos_bound (start_sector - 2) (2 ^ 32) ltac:(lia)). lia.
  - intros [H | [H | H]]; [contradiction | contradiction |].
    apply Z.mod_small. lia.
Qed.

Lemma payload_sector_agrees (version offset so : Z) :
  version <> NcaVersion_Nca0
  \/ NCA_HEADER_LENGTH <= so + offset < 2 ^ 64 ->
  (if version =? NcaVersion_Nca0
   then ((add64 so offset - NCA_HEADER_LENGTH) mod 2 ^ 64) / NCA_AES_XTS_SECTOR_SIZE
   else offset / NCA_AES_XTS_SECTOR_SIZE)
  = payload_sector_law version offset (so + offset).
Proof.
  unfold payload_sector_law, add64, u64, NCA_AES_XTS_SECTOR_SIZE.
  destruct (Z.eqb_spec version NcaVersion_Nca0) as [H0 | H0]; [| reflexivity].
  intros [H | H]; [contradiction |].
  unfold NCA_HEADER_LENGTH in *.
  rewrite (Z.mod_small (so + offset)) by lia.
  rewrite Z.mod_small by lia. reflexivity.
Qed.

Lemma xts_sector_num_code (nca_ctx : NcaContext) (offset content_offset : Z) :
  xts_sector_num nca_ctx offset content_offset
  = if format_version nca_ctx =? NcaVersion_Nca0
    then ((content_offset - NCA_HEADER_LENGTH) mod 2 ^ 64) / NCA_AES_XTS_SECTOR_SIZE
    else offset / NCA_AES_XTS_SECTOR_SIZE.
Proof.
  unfold xts_sector_num, sub64, u64.
  destruct (format_version nca_ctx =? NcaVersion_Nca0); reflexivity.
Qed.

(** C1: the XTS sector law, as the code has it.  Decrypting and encrypting
    section header [i] run the XTS primitive at sector [2 + i] for a V3
    archive, [0] for V2 and, for V0, [start_sector - 2] computed in 32 bits:
    that is the law's [start_sector - 2] exactly when [start_sector >= 2],
    and [2^32 - 2] or [2^32 - 1] for the start sectors 0 and 1.  An XTS
    payload read of a section runs it, on the aligned path and on the
    staging-buffer path alike, at sector [offset / 0x200], and for V0 at
    [(content_offset - header_length) / 0x200] with the subtraction done in
    64 bits: the law's value whenever [content_offset] is at least the
    header length and the sum has not wrapped. *)
Theorem xts_sector_law (nca_ctx : NcaContext) (i : Z) (rest : list Z)
    (hdr_aes_ctx nca0_fs_header_ctx : Aes128XtsContext)
    (ctx : NcaFsSectionContext) (size offset : Z) :
  0 <= i < NCA_FS_HEADER_COUNT ->
  let fs_info := hdr_fs_info L (header nca_ctx) i in
  let start_sector := fs_info_start_sector L fs_info in
  let version := format_version nca_ctx in
  let content_offset := add64 (section_offset ctx) offset in
  let sector :=
    if version =? NcaVersion_Nca3 then 2 + i
    else if version =? NcaVersion_Nca2 then 0
    else (start_sector - 2) mod 2 ^ 32 in
  let sector_num :=
    if version =? NcaVersion_Nca0
    then ((content_offset - NCA_HEADER_LENGTH) mod 2 ^ 64) / NCA_AES_XTS_SECTOR_SIZE
    else offset / NCA_AES_XTS_SECTOR_SIZE in
  let aes_xts_ctx :=
    if negb (version =? NcaVersion_Nca0) then hdr_aes_ctx else nca0_fs_header_ctx in
  (* decrypting section header i *)
  (ncaIsFsInfoEntryValid fs_info = true ->
   read_fs_headers L E hdr_aes_ctx nca0_fs_header_ctx nca_ctx (i :: rest)
   = match ncaReadContentFile E nca_ctx NCA_FS_HEADER_LENGTH
                              (fs_header_offset L nca_ctx i fs_info) with
     | None => None
     | Some enc =>
       let '(dec, crypt_res) :=
         aes128XtsNintendoCrypt E aes_xts_ctx enc NCA_FS_HEADER_LENGTH sector
                                NCA_AES_XTS_SECTOR_SIZE false in
       if negb (crypt_res =? NCA_FS_HEADER_LENGTH) then None
       else read_fs_headers L E hdr_aes_ctx nca0_fs_header_ctx
              (put_fs_ctx nca_ctx i
                 (set_fs_header (set_fs_encrypted_header (get_fs_ctx nca_ctx i) enc) dec))
              rest
     end)
  (* encrypting section header i *)
  /\ (ncaIsFsInfoEntryValid fs_info = true ->
      encrypt_fs_headers L E hdr_aes_ctx nca0_fs_header_ctx nca_ctx (i :: rest)
      = let '(enc, crypt_res) :=
          aes128XtsNintendoCrypt E aes_xts_ctx (fs_header (get_fs_ctx nca_ctx i))
                                 NCA_FS_HEADER_LENGTH sector
                                 NCA_AES_XTS_SECTOR_SIZE true in
        if negb (crypt_res =? NCA_FS_HEADER_LENGTH) then None
        else encrypt_fs_headers L E hdr_aes_ctx nca0_fs_header_ctx
               (put_fs_ctx nca_ctx i
                  (set_fs_encrypted_header (get_fs_ctx nca_ctx i) enc))
               rest)
  (* the header sector against the law *)
  /\ (0 <= start_sector < 2 ^ 32 ->
      (sector = header_sector_law version i start_sector
       <-> version = NcaVersion_Nca3 \/ version = NcaVersion_Nca2 \/ 2 <= start_sector))
  (* an XTS read on the aligned path *)
  /\ (forall fuel crypto_buffer,
        encryption_type ctx = NcaEncryptionType_AesXts ->
        read_section_invalid crypto_buffer ctx size offset = false ->
        read_archive_invalid nca_ctx content_offset size = false ->
        aligned_access ctx true content_offset size = true ->
        _ncaReadFsSection_fuel E (S fuel) crypto_buffer nca_ctx ctx size offset
        = match ncaReadContentFile E nca_ctx size content_offset with
          | None => Failed
          | Some out =>
            let '(dec, crypt_res) :=
              aes128XtsNintendoCrypt E (xts_decrypt_ctx ctx) out size sector_num
                                     NCA_AES_XTS_SECTOR_SIZE false in
            if negb (crypt_res =? size) then Failed else Done dec
          end)
  (* an XTS read on the staging-buffer path *)
  /\ (forall fuel crypto_buffer,
        encryption_type ctx = NcaEncryptionType_AesXts ->
        read_section_invalid crypto_buffer ctx size offset = false ->
        read_archive_invalid nca_ctx content_offset size = false ->
        aligned_access ctx true content_offset size = false ->
        let block_start_offset := ALIGN_DOWN content_offset NCA_AES_XTS_SECTOR_SIZE in
        let block_size :=
          sub64 (ALIGN_UP (add64 content_offset size) NCA_AES_XTS_SECTOR_SIZE)
                block_start_offset in
        let data_start_offset := sub64 content_offset block_start_offset in
        let chunk_size :=
          if block_size >? NCA_CRYPTO_BUFFER_SIZE
          then NCA_CRYPTO_BUFFER_SIZE else block_size in
        let out_chunk_size :=
          if block_size >? NCA_CRYPTO_BUFFER_SIZE
          then sub64 NCA_CRYPTO_BUFFER_SIZE data_start_offset else size in
        _ncaReadFsSection_fuel E (S fuel) crypto_buffer nca_ctx ctx size offset
        = match ncaReadContentFile E nca_ctx chunk_size block_start_offset with
          | None => Failed
          | Some enc =>
            let '(dec, crypt_res) :=
              aes128XtsNintendoCrypt E (xts_decrypt_ctx ctx) enc chunk_size sector_num
                                     NCA_AES_XTS_SECTOR_SIZE false in
            if negb (crypt_res =? chunk_size) then Failed
            else
              let chunk := slice dec data_start_offset out_chunk_size in
              if block_size >? NCA_CRYPTO_BUFFER_SIZE then
                match _ncaReadFsSection_fuel E fuel crypto_buffer nca_ctx ctx
                        (sub64 size out_chunk_size) (add64 offset out_chunk_size) with
                | Done rest => Done (chunk ++ rest)
                | Failed => Failed
                | OutOfFuel => OutOfFuel
                end
              else Done chunk
          end)
  (* the payload sector against the law *)
  /\ (version <> NcaVersion_Nca0
      \/ NCA_HEADER_LENGTH <= section_offset ctx + offset < 2 ^ 64 ->
      sector_num = payload_sector_law version offset (section_offset ctx + offset)).
Proof.
  intros Hi fs_info start_sector version content_offset sector sector_num aes_xts_ctx.
  assert (Hsec : fs_header_sector L nca_ctx i fs_info = sector)
    by (apply fs_header_sector_code; exact Hi).
  assert (Hnum : xts_sector_num nca_ctx offset content_offset = sector_num)
    by apply xts_sector_num_code.
  assert (Hdec : encryption_type ctx = NcaEncryptionType_AesXts ->
            forall d n bo, decrypt_section_block E nca_ctx ctx d n offset
                             content_offset bo
            = let '(dec, crypt_res) :=
                aes128XtsNintendoCrypt E (xts_decrypt_ctx ctx) d n sector_num
                                       NCA_AES_XTS_SECTOR_SIZE false in
              if negb (crypt_res =? n) then None else Some dec).
  { intros Hx d n bo. unfold decrypt_section_block. rewrite Hx, Z.eqb_refl.
    rewrite Hnum. reflexivity. }
  split; [| split; [| split; [| split; [| split]]]].
  - intros Hp. cbn [read_fs_headers]. fold fs_info. rewrite Hp. cbn [negb].
    rewrite Hsec. reflexivity.
  - intros Hp. cbn [encrypt_fs_headers]. fold fs_info. rewrite Hp. cbn [negb].
    rewrite Hsec. reflexivity.
  - intros Hs. apply header_sector_agrees. exact Hs.
  - intros fuel cb Hx G1 G2 Ha. cbn [_ncaReadFsSection_fuel].
    fold content_offset. rewrite G1, G2, Ha.
    destruct (ncaReadContentFile E nca_ctx size content_offset) as [out |];
      [| reflexivity].
    replace (encryption_type ctx =? NcaEncryptionType_None) with false
      by (rewrite Hx; reflexivity).
    rewrite (Hdec Hx).
    destruct (aes128XtsNintendoCrypt E (xts_decrypt_ctx ctx) out size _ _ false)
      as [dec res].
    destruct (negb (res =? size)); reflexivity.
  - intros fuel cb Hx G1 G2 Ha. cbv zeta. cbn [_ncaReadFsSection_fuel].
    fold content_offset. rewrite G1, G2, Ha.
    assert (Hu : cipher_unit ctx = NCA_AES_XTS_SECTOR_SIZE).
    { unfold cipher_unit. rewrite Hx, Z.eqb_refl. reflexivity. }
    rewrite Hu.
    destruct (ncaReadContentFile E nca_ctx _ _) as [enc |]; [| reflexivity].
    rewrite (Hdec Hx).
    destruct (aes128XtsNintendoCrypt E (xts_decrypt_ctx ctx) enc _ _ _ false)
      as [dec res].
    destruct (negb (res =? _)); reflexivity.
  - intros Hr. apply payload_sector_agrees. exact Hr.
Qed.

End SectorLaw.

Lemma xts_sector_law_witness :
  let nca := Example.ctx_v0 in
  let s := get_fs_ctx nca 0 in
  let start_sector :=
    fs_info_start_sector Toy.layout (hdr_fs_info Toy.layout (header nca) 0) in
  start_sector = 6
  /\ (if format_version nca =? NcaVersion_Nca3 then 2 + 0
      else if format_version nca =? NcaVersion_Nca2 then 0
      else (start_sector - 2) mod 2 ^ 32)
     = header_sector_law (format_version nca) 0 start_sector
  /\ (if format_version nca =? NcaVersion_Nca0
      then ((add64 (section_offset s) 0x205 - NCA_HEADER_LENGTH) mod 2 ^ 64)
           / NCA_AES_XTS_SECTOR_SIZE
      else 0x205 / NCA_AES_XTS_SECTOR_SIZE)
     = payload_sector_law (format_version nca) 0x205 (section_offset s + 0x205).
Proof.
  cbv zeta.
  assert (Hs : fs_info_start_sector Toy.layout
                 (hdr_fs_info Toy.layout (header Example.ctx_v0) 0) = 6)
    by (vm_compute; reflexivity).
  assert (Hso : section_offset (get_fs_ctx Example.ctx_v0 0) = 0xC00)
    by (vm_compute; reflexivity).
  assert (Hi : 0 <= 0 < NCA_FS_HEADER_COUNT) by (unfold NCA_FS_HEADER_COUNT; lia).
  pose proof (xts_sector_law Toy.layout Example.env_v0 Example.ctx_v0 0 [] xts_zero
                xts_zero (get_fs_ctx Example.ctx_v0 0) 3 0x205 Hi) as P.
  cbv zeta in P. destruct P as (_ & _ & P3 & _ & _ & P6).
  split; [exact Hs |]. split.
  - apply P3; rewrite Hs; [lia |]. right. right. lia.
  - apply P6. right. rewrite Hso. unfold NCA_HEADER_LENGTH. lia.
Defined.

(** The law as the claim words it fails for a V0 section that starts at
    sector 0 or 1: the header read succeeds and the section header was
    decrypted at sector [2^32 - 1], not at [-1]. *)
Lemma xts_sector_law_counterexample :
  let nca := read_low_v0 in
  let fs_info := hdr_fs_info Toy.layout (header nca) 0 in
  ncaReadDecryptedHeader Toy.layout env_low_v0 (example_ctx 0x1000) = Some nca
  /\ format_version nca = NcaVersion_Nca0
  /\ fs_info_start_sector Toy.layout fs_info = 1
  /\ fs_header_sector Toy.layout nca 0 fs_info = 0xFFFFFFFF
  /\ header_sector_law (format_version nca) 0 (fs_info_start_sector Toy.layout fs_info)
     = -1
  /\ fs_header (get_fs_ctx nca 0)
     = fst (Toy.xts (nca0_xts_ctx nca false) (slice image_low_v0 0x200 0x200)
                    0x200 0xFFFFFFFF 0x200 false).
Proof. conj_compute. Qed.

(** ** Arrays *)

Lemma length_set_nth {A : Type} (l : list A) (i : Z) (v : A) :
  length (set_nth l i v) = length l.
Proof.
  unfold set_nth. rewrite length_app, length_firstn.
  destruct (skipn (Z.to_nat i) l) eqn:Hs.
  - apply (f_equal (@length A)) in Hs. rewrite length_skipn in Hs. cbn in *. lia.
  - apply (f_equal (@length A)) in Hs. rewrite length_skipn in Hs. cbn in *. lia.
Qed.

Lemma nth_set_nth_same {A : Type} (l : list A) (i : Z) (v d : A) :
  0 <= i < Z.of_nat (length l) -> nth_z (set_nth l i v) i d = v.
Proof.
  intros Hi. unfold nth_z, set_nth.
  rewrite app_nth2 by (rewrite length_firstn; lia).
  rewrite length_firstn.
  replace (Z.to_nat i - Nat.min (Z.to_nat i) (length l))%nat with 0%nat by lia.
  destruct (skipn (Z.to_nat i) l) eqn:Hs; [| reflexivity].
  apply (f_equal (@length A)) in Hs. rewrite length_skipn in Hs. cbn in Hs. lia.
Qed.

Lemma nth_set_nth_other {A : Type} (l : list A) (i j : Z) (v d : A) :
  0 <= i -> 0 <= j -> i <> j -> nth_z (set_nth l i v) j d = nth_z l j d.
Proof.
  intros Hi Hj Hij. unfold nth_z, set_nth.
  transitivity (nth (Z.to_nat j) (firstn (Z.to_nat i) l ++ skipn (Z.to_nat i) l) d);
    [| now rewrite firstn_skipn].
  destruct (Nat.lt_ge_cases (Z.to_nat j) (length (firstn (Z.to_nat i) l))) as [Hlt | Hge].
  - rewrite !app_nth1 by assumption. reflexivity.
  - rewrite !app_nth2 by assumption.
    rewrite length_firstn in *.
    destruct (skipn (Z.to_nat i) l) as [| x tl] eqn:Hs; [reflexivity |].
    apply (f_equal (@length A)) in Hs. rewrite length_skipn in Hs. cbn in Hs.
    destruct (Z.to_nat j - Nat.min (Z.to_nat i) (length l))%nat eqn:Hk; [lia |].
    reflexivity.
Qed.

Lemma set_nth_same {A : Type} (l : list A) (i : Z) (d : A) :
  set_nth l i (nth_z l i d) = l.
Proof.
  unfold set_nth, nth_z.
  transitivity (firstn (Z.to_nat i) l ++ skipn (Z.to_nat i) l);
    [| apply firstn_skipn].
  f_equal.
  destruct (skipn (Z.to_nat i) l) as [| x tl] eqn:Hs; [reflexivity |].
  f_equal. rewrite <- (Nat.add_0_r (Z.to_nat i)), <- nth_skipn, Hs. reflexivity.
Qed.

(** ** C2: the header round trip *)

Section HeaderRoundTrip.

Variable L : NcaLayout.
Variable E : NcaEnv.

Lemma set_fs_ctx_same (c : NcaContext) : set_fs_ctx c (fs_ctx c) = c.
Proof. destruct c; reflexivity. Qed.

Lemma put_fs_ctx_same (c : NcaContext) (i : Z) :
  put_fs_ctx c i (get_fs_ctx c i) = c.
Proof.
  unfold put_fs_ctx, get_fs_ctx. rewrite set_nth_same. apply set_fs_ctx_same.
Qed.

Lemma get_put_fs_ctx (c : NcaContext) (i : Z) (s : NcaFsSectionContext) :
  0 <= i < Z.of_nat (length (fs_ctx c)) -> get_fs_ctx (put_fs_ctx c i s) i = s.
Proof. intros Hi. unfold get_fs_ctx, put_fs_ctx. cbn. now apply nth_set_nth_same. Qed.

Lemma get_put_fs_ctx_other (c : NcaContext) (i j : Z) (s : NcaFsSectionContext) :
  0 <= i -> 0 <= j -> i <> j -> get_fs_ctx (put_fs_ctx c i s) j = get_fs_ctx c j.
Proof. intros. unfold get_fs_ctx, put_fs_ctx. cbn. now apply nth_set_nth_other. Qed.

(** What the section-header loop of the reader leaves: the archive fields
    are untouched, sections outside the loop are untouched, and every
    section of the loop is consistent. *)
Lemma read_fs_headers_inv (hdr_aes_ctx nca0_fs_header_ctx : Aes128XtsContext)
    (idx : list Z) :
  forall ctx ctx1,
    NoDup idx ->
    (forall i, In i idx -> 0 <= i < Z.of_nat (length (fs_ctx ctx))) ->
    read_fs_headers L E hdr_aes_ctx nca0_fs_header_ctx ctx idx = Some ctx1 ->
    ctx1 = set_fs_ctx ctx (fs_ctx ctx1)
    /\ length (fs_ctx ctx1) = length (fs_ctx ctx)
    /\ (forall j, 0 <= j -> ~ In j idx -> get_fs_ctx ctx1 j = get_fs_ctx ctx j)
    /\ (forall i, In i idx ->
                  fs_header_consistent L E hdr_aes_ctx nca0_fs_header_ctx ctx1 i).
Proof.
  induction idx as [| i rest IH]; intros ctx ctx1 Hnd Hr Hrun.
  - cbn in Hrun. injection Hrun as <-.
    split; [symmetry; apply set_fs_ctx_same |]. split; [reflexivity |].
    split; [reflexivity |]. intros k [].
  - inversion_clear Hnd as [| ? ? Hni Hnd'].
    cbn [read_fs_headers] in Hrun.
    assert (Hi : 0 <= i < Z.of_nat (length (fs_ctx ctx))) by (apply Hr; now left).
    destruct (ncaIsFsInfoEntryValid (hdr_fs_info L (header ctx) i)) eqn:Hp; cbn [negb] in Hrun.
    + destruct (ncaReadContentFile E ctx NCA_FS_HEADER_LENGTH
                  (fs_header_offset L ctx i (hdr_fs_info L (header ctx) i)))
        as [enc |] eqn:Hrd; [| discriminate].
      destruct (aes128XtsNintendoCrypt E _ enc NCA_FS_HEADER_LENGTH _ _ false)
        as [dec res] eqn:Hx.
      destruct (Z.eqb_spec res NCA_FS_HEADER_LENGTH) as [-> | Hne];
        cbn [negb] in Hrun; [| discriminate].
      set (s' := set_fs_header (set_fs_encrypted_header (get_fs_ctx ctx i) enc) dec) in *.
      specialize (IH (put_fs_ctx ctx i s') ctx1 Hnd').
      assert (Hlen : length (fs_ctx (put_fs_ctx ctx i s')) = length (fs_ctx ctx))
        by (cbn; apply length_set_nth).
      destruct IH as (He & Hl & Ho & Hc); [| exact Hrun |].
      { intros k Hk. rewrite Hlen. apply Hr. now right. }
      assert (Hctx1 : ctx1 = set_fs_ctx ctx (fs_ctx ctx1)).
      { rewrite He at 1. destruct ctx; reflexivity. }
      split; [exact Hctx1 |]. split; [congruence |]. split.
      * intros j Hj Hnj. rewrite Ho; [| assumption | intros Hin; apply Hnj; now right].
        apply get_put_fs_ctx_other; try lia. intros ->. apply Hnj. now left.
      * intros k [<- | Hk]; [| now apply Hc].
        assert (Hg : get_fs_ctx ctx1 i = s').
        { rewrite Ho by (assumption || lia). now apply get_put_fs_ctx. }
        unfold fs_header_consistent. rewrite Hg.
        rewrite Hctx1. cbn [header format_version]. intros _.
        assert (Hsame : forall o, ncaReadContentFile E (set_fs_ctx ctx (fs_ctx ctx1))
                                    NCA_FS_HEADER_LENGTH o
                                  = ncaReadContentFile E ctx NCA_FS_HEADER_LENGTH o)
          by (intros; destruct ctx; reflexivity).
        rewrite Hsame.
        replace (fs_header_offset L (set_fs_ctx ctx (fs_ctx ctx1)) i)
          with (fs_header_offset L ctx i) by (destruct ctx; reflexivity).
        replace (fs_header_sector L (set_fs_ctx ctx (fs_ctx ctx1)) i)
          with (fs_header_sector L ctx i) by (destruct ctx; reflexivity).
        replace (header (set_fs_ctx ctx (fs_ctx ctx1))) with (header ctx)
          by (destruct ctx; reflexivity).
        replace (format_version (set_fs_ctx ctx (fs_ctx ctx1))) with (format_version ctx)
          by (destruct ctx; reflexivity).
        split; [exact Hrd |].
        subst s'. destruct (get_fs_ctx ctx i). exact Hx.
    + specialize (IH ctx ctx1 Hnd').
      destruct IH as (He & Hl & Ho & Hc); [| exact Hrun |].
      { intros k Hk. apply Hr. now right. }
      split; [exact He |]. split; [exact Hl |]. split.
      * intros j Hj Hnj. apply Ho; [assumption |]. intros Hin. apply Hnj. now right.
      * intros k [<- | Hk]; [| now apply Hc].
        unfold fs_header_consistent. rewrite He. cbn [header].
        replace (header (set_fs_ctx ctx (fs_ctx ctx1))) with (header ctx)
          by (destruct ctx; reflexivity).
        rewrite Hp. discriminate.
Qed.

Lemma set_fs_encrypted_header_same (s : NcaFsSectionContext) :
  set_fs_encrypted_header s (fs_encrypted_header s) = s.
Proof. destruct s; reflexivity. Qed.

(** Re-encrypting consistent section headers rebuilds the context as it
    is. *)
Lemma encrypt_fs_headers_id (hdr_dec nca0_dec hdr_enc nca0_enc : Aes128XtsContext)
    (idx : list Z) (ctx : NcaContext) :
  xts_inverse E (if negb (format_version ctx =? NcaVersion_Nca0)
                 then hdr_dec else nca0_dec)
              (if negb (format_version ctx =? NcaVersion_Nca0)
               then hdr_enc else nca0_enc) ->
  (forall i, In i idx -> fs_header_consistent L E hdr_dec nca0_dec ctx i) ->
  encrypt_fs_headers L E hdr_enc nca0_enc ctx idx = Some ctx.
Proof.
  intros Hinv. induction idx as [| i rest IH]; intros Hc; [reflexivity |].
  cbn [encrypt_fs_headers].
  destruct (ncaIsFsInfoEntryValid (hdr_fs_info L (header ctx) i)) eqn:Hp; cbn [negb].
  - destruct (Hc i (or_introl eq_refl) Hp) as [_ Hx].
    apply Hinv in Hx. rewrite Hx. rewrite Z.eqb_refl. cbn [negb].
    rewrite set_fs_encrypted_header_same, put_fs_ctx_same.
    apply IH. intros k Hk. apply Hc. now right.
  - apply IH. intros k Hk. apply Hc. now right.
Qed.

Lemma NoDup_upto (n : Z) : NoDup (upto n).
Proof.
  unfold upto. generalize (Z.to_nat n) as m, 0%nat as a.
  induction m as [| m IH]; intros a; cbn; constructor.
  - rewrite in_map_iff. intros (k & Hk & Hin). apply in_seq in Hin. lia.
  - apply IH.
Qed.

Lemma In_upto (n i : Z) : In i (upto n) <-> 0 <= i < n.
Proof.
  unfold upto. rewrite in_map_iff. split.
  - intros (k & <- & Hk). apply in_seq in Hk. lia.
  - intros Hi. exists (Z.to_nat i). split; [lia |]. apply in_seq. lia.
Qed.

End HeaderRoundTrip.

(** The XTS stand-in has the algebra the round trip asks of the cipher. *)
Lemma xor_bytes_involutive (k : Z) (b : bytes) :
  Toy.xor_bytes k (Toy.xor_bytes k b) = b.
Proof.
  unfold Toy.xor_bytes. rewrite map_map. rewrite <- (map_id b) at 2.
  apply map_ext. intros x. rewrite Z.lxor_assoc, Z.lxor_nilpotent. apply Z.lxor_0_r.
Qed.

Lemma toy_xts_inverse (E : NcaEnv) (k0 k1 : bytes) :
  aes128XtsNintendoCrypt E = Toy.xts ->
  xts_inverse E (aes128XtsContextCreate k0 k1 false) (aes128XtsContextCreate k0 k1 true).
Proof.
  intros HE src size sector dst. rewrite HE. unfold Toy.xts.
  change (xts_keys (aes128XtsContextCreate k0 k1 false)) with (Some (k0, k1)).
  change (xts_keys (aes128XtsContextCreate k0 k1 true)) with (Some (k0, k1)).
  cbv iota beta.
  generalize (Toy.le (firstn 1 k0) + 2 * Toy.le (firstn 1 k1) + 3 * sector) as kk.
  intros kk.
  destruct (Z.eqb_spec (zlen src) size) as [Hl | Hl]; cbn [andb].
  - destruct (size mod NCA_AES_XTS_SECTOR_SIZE =? 0) eqn:Hm.
    + intros [= <-].
      assert (Hz : zlen (Toy.xor_bytes kk src) = size).
      { unfold zlen, Toy.xor_bytes in *. now rewrite length_map. }
      rewrite Hz, Z.eqb_refl. cbn [andb]. now rewrite xor_bytes_involutive.
    + intros [= <- <-]. cbn in Hm. discriminate.
  - intros [= <- <-].
    destruct (Z.eqb_spec (zlen src) 0); [contradiction | reflexivity].
Qed.

Section HeaderCodec.

Variable L : NcaLayout.
Variable E : NcaEnv.

(** What a successful header read establishes for the encryptor. *)
Lemma read_header_consistent (ctx ctx1 : NcaContext) :
  length (fs_ctx ctx) = Z.to_nat NCA_FS_HEADER_COUNT ->
  ncaReadDecryptedHeader L E ctx = Some ctx1 ->
  exists header_key,
    keysGetNcaHeaderKey E = Some header_key
    /\ ncaReadContentFile E ctx NCA_HEADER_LENGTH 0 = Some (encrypted_header ctx1)
    /\ aes128XtsNintendoCrypt E (header_xts_ctx header_key false) (encrypted_header ctx1)
         NCA_HEADER_LENGTH 0 NCA_AES_XTS_SECTOR_SIZE false
       = (header ctx1, NCA_HEADER_LENGTH)
    /\ (forall n o, ncaReadContentFile E ctx1 n o = ncaReadContentFile E ctx n o)
    /\ length (fs_ctx ctx1) = Z.to_nat NCA_FS_HEADER_COUNT
    /\ content_id_str_empty ctx1 || (content_size ctx1 <? NCA_FULL_HEADER_LENGTH) = false
    /\ (forall i, 0 <= i < NCA_FS_HEADER_COUNT ->
          fs_header_consistent L E (header_xts_ctx header_key false)
                               (nca0_xts_ctx ctx1 false) ctx1 i).
Proof.
  intros Hlen Hrun. unfold ncaReadDecryptedHeader in Hrun.
  destruct (content_id_str_empty ctx || (content_size ctx <? NCA_FULL_HEADER_LENGTH))
    eqn:Hg; [discriminate |].
  destruct (keysGetNcaHeaderKey E) as [header_key |] eqn:Hk; [| discriminate].
  destruct (ncaReadContentFile E ctx NCA_HEADER_LENGTH 0) as [enc |] eqn:Hrd;
    [| discriminate].
  destruct (aes128XtsNintendoCrypt E (header_xts_ctx header_key false) enc
              NCA_HEADER_LENGTH 0 NCA_AES_XTS_SECTOR_SIZE false) as [dec res] eqn:Hx.
  cbv zeta in Hrun.
  match type of Hrun with (if ?g then _ else _) = _ =>
    assert (Hchk : g = false) by (destruct g; [discriminate Hrun | reflexivity]);
    rewrite Hchk in Hrun
  end.
  apply orb_false_iff in Hchk. destruct Hchk as [Hchk _].
  apply orb_false_iff in Hchk. destruct Hchk as [Hres _].
  apply negb_false_iff, Z.eqb_eq in Hres. subst res.
  match type of Hrun with
    match (if _ then ncaDecryptKeyArea L E ?c0 else Some ?c0) with _ => _ end = _ =>
    set (cA := c0) in *
  end.
  destruct (if negb (rights_id_available cA) then ncaDecryptKeyArea L E cA else Some cA)
    as [cB |] eqn:Hka; [| discriminate].
  assert (HB : cB = set_decrypted_key_area cA (decrypted_key_area cB)).
  { destruct (negb (rights_id_available cA)).
    - unfold ncaDecryptKeyArea in Hka.
      destruct (ncaIsVersion0KeyAreaEncrypted L E cA).
      + injection Hka as <-. reflexivity.
      + destruct (decrypt_key_area_slots L E cA _ _ _); [| discriminate].
        injection Hka as <-. reflexivity.
    - injection Hka as <-. destruct cA; reflexivity. }
  assert (HlenB : length (fs_ctx cB) = Z.to_nat NCA_FS_HEADER_COUNT).
  { rewrite HB. subst cA. cbn. exact Hlen. }
  destruct (read_fs_headers_inv L E (header_xts_ctx header_key false)
              (nca0_xts_ctx cB false) (upto NCA_FS_HEADER_COUNT) cB ctx1)
    as (He & Hl & _ & Hc); [apply NoDup_upto | | exact Hrun |].
  { intros i Hi. apply In_upto in Hi. rewrite HlenB. lia. }
  assert (Hn0 : nca0_xts_ctx ctx1 false = nca0_xts_ctx cB false).
  { unfold nca0_xts_ctx. rewrite He. reflexivity. }
  exists header_key. split; [reflexivity |].
  assert (Henc : encrypted_header ctx1 = enc) by (rewrite He, HB; reflexivity).
  assert (Hhdr : header ctx1 = dec) by (rewrite He, HB; reflexivity).
  rewrite Henc, Hhdr.
  split; [reflexivity |]. split; [exact Hx |].
  split; [intros n o; rewrite He, HB; reflexivity |].
  split; [congruence |].
  split.
  - replace (content_id_str_empty ctx1) with (content_id_str_empty ctx)
      by (rewrite He, HB; reflexivity).
    replace (content_size ctx1) with (content_size ctx) by (rewrite He, HB; reflexivity).
    exact Hg.
  - intros i Hi. rewrite Hn0. apply Hc. now apply In_upto.
Qed.

Lemma fs_header_sector_ext (c c1 : NcaContext) (i : Z) (fs_info : bytes) :
  format_version c = format_version c1 ->
  fs_header_sector L c i fs_info = fs_header_sector L c1 i fs_info.
Proof. intros H. unfold fs_header_sector. rewrite H. reflexivity. Qed.

(** The section-header loop of the encryptor, run on any context that has
    the plaintext of [ctx1]: it stores, for every populated section of the
    loop, the encrypted header [ctx1] holds, and touches nothing else. *)
Lemma encrypt_fs_headers_images (hdr_dec nca0_dec hdr_enc nca0_enc : Aes128XtsContext)
    (ctx1 : NcaContext) (idx : list Z) :
  xts_inverse E (if negb (format_version ctx1 =? NcaVersion_Nca0)
                 then hdr_dec else nca0_dec)
              (if negb (format_version ctx1 =? NcaVersion_Nca0)
               then hdr_enc else nca0_enc) ->
  NoDup idx ->
  (forall i, In i idx -> fs_header_consistent L E hdr_dec nca0_dec ctx1 i) ->
  forall c,
    header c = header ctx1 -> format_version c = format_version ctx1 ->
    (forall i, In i idx -> 0 <= i < Z.of_nat (length (fs_ctx c))) ->
    (forall i, In i idx -> fs_header (get_fs_ctx c i) = fs_header (get_fs_ctx ctx1 i)) ->
    exists c',
      encrypt_fs_headers L E hdr_enc nca0_enc c idx = Some c'
      /\ c' = set_fs_ctx c (fs_ctx c')
      /\ length (fs_ctx c') = length (fs_ctx c)
      /\ (forall i, In i idx ->
            ncaIsFsInfoEntryValid (hdr_fs_info L (header ctx1) i) = true ->
            get_fs_ctx c' i
            = set_fs_encrypted_header (get_fs_ctx c i)
                                      (fs_encrypted_header (get_fs_ctx ctx1 i)))
      /\ (forall j, 0 <= j ->
            ~ In j idx \/ ncaIsFsInfoEntryValid (hdr_fs_info L (header ctx1) j) = false ->
            get_fs_ctx c' j = get_fs_ctx c j).
Proof.
  intros Hinv. induction idx as [| i rest IH]; intros Hnd Hc c Hh Hv Hr Hf.
  - exists c. cbn [encrypt_fs_headers]. split; [reflexivity |].
    split; [symmetry; apply set_fs_ctx_same |]. split; [reflexivity |].
    split; [intros k [] | reflexivity].
  - inversion_clear Hnd as [| ? ? Hni Hnd'].
    assert (Hi : 0 <= i < Z.of_nat (length (fs_ctx c))) by (apply Hr; now left).
    cbn [encrypt_fs_headers]. rewrite Hh.
    destruct (ncaIsFsInfoEntryValid (hdr_fs_info L (header ctx1) i)) eqn:Hp;
      cbn [negb].
    + destruct (Hc i (or_introl eq_refl) Hp) as [_ Hx].
      apply Hinv in Hx.
      rewrite Hv, (fs_header_sector_ext c ctx1 i _ Hv), (Hf i (or_introl eq_refl)), Hx.
      rewrite Z.eqb_refl. cbn [negb].
      set (s' := set_fs_encrypted_header (get_fs_ctx c i)
                   (fs_encrypted_header (get_fs_ctx ctx1 i))).
      assert (Hlen : length (fs_ctx (put_fs_ctx c i s')) = length (fs_ctx c))
        by (cbn; apply length_set_nth).
      destruct (IH Hnd' (fun k Hk => Hc k (or_intror Hk)) (put_fs_ctx c i s'))
        as (c' & Hrun & He & Hl & Hin & Hout).
      * exact Hh.
      * exact Hv.
      * intros k Hk. rewrite Hlen. apply Hr. now right.
      * intros k Hk.
        rewrite get_put_fs_ctx_other; [apply Hf; now right | lia | |].
        -- apply (Hr k). now right.
        -- intros ->. contradiction.
      * exists c'. split; [exact Hrun |].
        split; [rewrite He at 1; reflexivity |].
        split; [congruence |]. split.
        -- intros k [<- | Hk] Hpk.
           ++ rewrite Hout; [| lia | left; exact Hni].
              apply get_put_fs_ctx. exact Hi.
           ++ rewrite (Hin k Hk Hpk).
              rewrite get_put_fs_ctx_other; [reflexivity | lia | |].
              ** apply (Hr k). now right.
              ** intros ->. contradiction.
        -- intros j Hj Hcase.
           assert (Hji : i <> j).
           { intros ->. destruct Hcase as [Hn | Hn]; [apply Hn; now left | congruence]. }
           rewrite Hout; [apply get_put_fs_ctx_other; lia | exact Hj |].
           destruct Hcase as [Hn | Hn]; [left; intros Hk; apply Hn; now right |].
           right; exact Hn.
    + destruct (IH Hnd' (fun k Hk => Hc k (or_intror Hk)) c Hh Hv
                  (fun k Hk => Hr k (or_intror Hk)) (fun k Hk => Hf k (or_intror Hk)))
        as (c' & Hrun & He & Hl & Hin & Hout).
      exists c'. split; [exact Hrun |]. split; [exact He |]. split; [exact Hl |].
      split.
      * intros k [<- | Hk] Hpk; [congruence | now apply Hin].
      * intros j Hj Hcase.
        destruct (Z.eq_dec j i) as [-> | Hji].
        -- apply Hout; [exact Hj |]. left. exact Hni.
        -- apply Hout; [exact Hj |].
           destruct Hcase as [Hn | Hn]; [| right; exact Hn].
           left. intros Hk. apply Hn. now right.
Qed.

(** C2: the header round trip.  With an XTS primitive whose encryption
    inverts its decryption, for every archive whose header decrypts
    successfully (any of the three format versions): the encryptor, run on
    the decrypted archive header and section headers, writes the bytes of
    the archive.  It is run here on a context [c] that has the plaintext
    headers, the format version and the key area of the context read, and
    anything at all as encrypted images: after it the encrypted archive
    header is the 0x400 bytes at offset 0 of the archive, and the encrypted
    header of each of the four section slots that is populated is the 0x200
    bytes at the offset of its format version (for V0 the start sector of
    the section, with the XTS pair of the key area and sector
    [start_sector - 2]); the plaintext is untouched.  [ncaEncryptHeader]
    runs that encryptor whenever the header is dirty, and on the context
    just read it gives the context back. *)
Theorem header_round_trip (ctx ctx1 c : NcaContext) :
  (forall k0 k1, xts_inverse E (aes128XtsContextCreate k0 k1 false)
                               (aes128XtsContextCreate k0 k1 true)) ->
  length (fs_ctx ctx) = Z.to_nat NCA_FS_HEADER_COUNT ->
  ncaReadDecryptedHeader L E ctx = Some ctx1 ->
  header c = header ctx1 -> format_version c = format_version ctx1 ->
  decrypted_key_area c = decrypted_key_area ctx1 ->
  length (fs_ctx c) = Z.to_nat NCA_FS_HEADER_COUNT ->
  (forall i, 0 <= i < NCA_FS_HEADER_COUNT ->
             fs_header (get_fs_ctx c i) = fs_header (get_fs_ctx ctx1 i)) ->
  (* the encrypted images of the context read are the bytes of the archive *)
  ncaReadContentFile E ctx NCA_HEADER_LENGTH 0 = Some (encrypted_header ctx1)
  /\ (forall i, 0 <= i < NCA_FS_HEADER_COUNT ->
                ncaIsFsInfoEntryValid (hdr_fs_info L (header ctx1) i) = true ->
                ncaReadContentFile E ctx NCA_FS_HEADER_LENGTH
                  (fs_header_offset L ctx1 i (hdr_fs_info L (header ctx1) i))
                = Some (fs_encrypted_header (get_fs_ctx ctx1 i)))
  (* encrypting the plaintext writes those bytes *)
  /\ (exists c',
        encrypt_header_body L E c = Some c'
        /\ (ncaIsHeaderDirty E c = true -> content_id_str_empty c = false ->
            NCA_FULL_HEADER_LENGTH <= content_size c ->
            ncaEncryptHeader L E c = Some c')
        /\ encrypted_header c' = encrypted_header ctx1
        /\ (forall i, 0 <= i < NCA_FS_HEADER_COUNT ->
                      ncaIsFsInfoEntryValid (hdr_fs_info L (header ctx1) i) = true ->
                      fs_encrypted_header (get_fs_ctx c' i)
                      = fs_encrypted_header (get_fs_ctx ctx1 i))
        /\ header c' = header c
        /\ (forall i, 0 <= i -> fs_header (get_fs_ctx c' i) = fs_header (get_fs_ctx c i)))
  (* on the context read itself *)
  /\ encrypt_header_body L E ctx1 = Some ctx1
  /\ ncaEncryptHeader L E ctx1 = Some ctx1.
Proof.
  intros Hinv Hlen Hrun Hh Hv Hk Hlc Hf.
  destruct (read_header_consistent ctx ctx1 Hlen Hrun)
    as (header_key & Hkey & Hrd & Hx & Hread & Hl1 & Hg & Hc).
  assert (Hxi : xts_inverse E
                  (if negb (format_version ctx1 =? NcaVersion_Nca0)
                   then header_xts_ctx header_key false else nca0_xts_ctx ctx1 false)
                  (if negb (format_version ctx1 =? NcaVersion_Nca0)
                   then header_xts_ctx header_key true else nca0_xts_ctx ctx1 true)).
  { unfold nca0_xts_ctx, header_xts_ctx.
    destruct (format_version ctx1 =? NcaVersion_Nca0); cbn [negb]; apply Hinv. }
  assert (Hbody : forall c0,
            header c0 = header ctx1 -> format_version c0 = format_version ctx1 ->
            decrypted_key_area c0 = decrypted_key_area ctx1 ->
            length (fs_ctx c0) = Z.to_nat NCA_FS_HEADER_COUNT ->
            (forall i, 0 <= i < NCA_FS_HEADER_COUNT ->
                       fs_header (get_fs_ctx c0 i) = fs_header (get_fs_ctx ctx1 i)) ->
            exists c',
              encrypt_header_body L E c0 = Some c'
              /\ c' = set_fs_ctx (set_encrypted_header c0 (encrypted_header ctx1))
                                 (fs_ctx c')
              /\ length (fs_ctx c') = length (fs_ctx c0)
              /\ (forall i, 0 <= i < NCA_FS_HEADER_COUNT ->
                    ncaIsFsInfoEntryValid (hdr_fs_info L (header ctx1) i) = true ->
                    get_fs_ctx c' i
                    = set_fs_encrypted_header (get_fs_ctx c0 i)
                        (fs_encrypted_header (get_fs_ctx ctx1 i)))
              /\ (forall j, 0 <= j ->
                    ~ 0 <= j < NCA_FS_HEADER_COUNT
                    \/ ncaIsFsInfoEntryValid (hdr_fs_info L (header ctx1) j) = false ->
                    get_fs_ctx c' j = get_fs_ctx c0 j)).
  { intros c0 Hh0 Hv0 Hk0 Hl0 Hf0. unfold encrypt_header_body. rewrite Hkey.
    cbv zeta. unfold header_xts_ctx in Hx |- *.
    pose proof (Hinv _ _ _ _ _ _ Hx) as Hy. rewrite Hh0, Hy, Z.eqb_refl. cbn [negb].
    assert (Hn0 : nca0_xts_ctx c0 true = nca0_xts_ctx ctx1 true).
    { unfold nca0_xts_ctx. rewrite Hv0, Hk0. reflexivity. }
    rewrite Hn0.
    destruct (encrypt_fs_headers_images
                (header_xts_ctx header_key false) (nca0_xts_ctx ctx1 false)
                (header_xts_ctx header_key true) (nca0_xts_ctx ctx1 true)
                ctx1 (upto NCA_FS_HEADER_COUNT) Hxi (NoDup_upto _)
                (fun i Hi => Hc i (proj1 (In_upto _ _) Hi))
                (set_encrypted_header c0 (encrypted_header ctx1)))
      as (c' & Hrun' & He & Hl & Hin & Hout).
    - exact Hh0.
    - exact Hv0.
    - intros i Hi. apply In_upto in Hi.
      change (length (fs_ctx (set_encrypted_header c0 (encrypted_header ctx1))))
        with (length (fs_ctx c0)).
      rewrite Hl0. lia.
    - intros i Hi. apply In_upto in Hi. apply (Hf0 i Hi).
    - exists c'. unfold header_xts_ctx in Hrun'. split; [exact Hrun' |].
      split; [exact He |]. split; [exact Hl |]. split.
      + intros i Hi Hp. apply (Hin i); [now apply In_upto | exact Hp].
      + intros j Hj Hcase. apply Hout; [exact Hj |].
        destruct Hcase as [Hn | Hn]; [left | right; exact Hn].
        intros Hi. apply Hn. now apply In_upto. }
  assert (Hid : encrypt_header_body L E ctx1 = Some ctx1).
  { destruct (Hbody ctx1 eq_refl eq_refl eq_refl Hl1 (fun i _ => eq_refl))
      as (c' & Hrun' & He & Hl & Hin & Hout).
    rewrite Hrun'. f_equal. rewrite He.
    assert (Hfs : fs_ctx c' = fs_ctx ctx1).
    { apply (nth_ext _ _ fs_ctx_zero fs_ctx_zero); [exact Hl |].
      intros n Hn.
      assert (Hj : 0 <= Z.of_nat n) by lia.
      assert (Hg1 : get_fs_ctx c' (Z.of_nat n) = get_fs_ctx ctx1 (Z.of_nat n)).
      { destruct (Z_lt_le_dec (Z.of_nat n) NCA_FS_HEADER_COUNT) as [Hlt | Hge].
        - destruct (ncaIsFsInfoEntryValid (hdr_fs_info L (header ctx1) (Z.of_nat n)))
            eqn:Hp.
          + rewrite (Hin _ (conj Hj Hlt) Hp).
            destruct (get_fs_ctx ctx1 (Z.of_nat n)); reflexivity.
          + apply Hout; [exact Hj | right; exact Hp].
        - apply Hout; [exact Hj | left; lia]. }
      unfold get_fs_ctx, nth_z in Hg1. rewrite Nat2Z.id in Hg1. exact Hg1. }
    rewrite Hfs. destruct ctx1; reflexivity. }
  split; [exact Hrd |]. split; [| split; [| split]].
  - intros i Hi Hp. rewrite <- Hread. apply (Hc i Hi Hp).
  - destruct (Hbody c Hh Hv Hk Hlc Hf) as (c' & Hrun' & He & Hl & Hin & Hout).
    exists c'. split; [exact Hrun' |]. split; [| split; [| split; [| split]]].
    + intros Hd Hs Hsz. unfold ncaEncryptHeader. rewrite Hs, Hd. cbn [orb negb].
      destruct (Z.ltb_spec (content_size c) NCA_FULL_HEADER_LENGTH); [lia |].
      exact Hrun'.
    + rewrite He. reflexivity.
    + intros i Hi Hp. rewrite (Hin i Hi Hp). destruct (get_fs_ctx c i); reflexivity.
    + rewrite He. reflexivity.
    + intros i Hi.
      destruct (Z_lt_le_dec i NCA_FS_HEADER_COUNT) as [Hlt | Hge].
      * destruct (ncaIsFsInfoEntryValid (hdr_fs_info L (header ctx1) i)) eqn:Hp.
        -- rewrite (Hin i (conj Hi Hlt) Hp). destruct (get_fs_ctx c i); reflexivity.
        -- rewrite Hout; [reflexivity | exact Hi | right; exact Hp].
      * rewrite Hout; [reflexivity | exact Hi | left; lia].
  - exact Hid.
  - unfold ncaEncryptHeader. rewrite Hg.
    destruct (negb (ncaIsHeaderDirty E ctx1)); [reflexivity | exact Hid].
Qed.

End HeaderCodec.

Lemma header_round_trip_witness :
  format_version read_v0 = NcaVersion_Nca0
  /\ encrypted_header read_v0_wiped = []
  /\ fs_encrypted_header (get_fs_ctx read_v0_wiped 0) = []
  /\ exists c',
       encrypt_header_body Toy.layout Example.env_v0 read_v0_wiped = Some c'
       /\ encrypted_header c' = slice Toy.image_v0 0 0x400
       /\ fs_encrypted_header (get_fs_ctx c' 0) = slice Toy.image_v0 0xC00 0x200.
Proof.
  split; [vm_compute; reflexivity |].
  split; [vm_compute; reflexivity |].
  split; [vm_compute; reflexivity |].
  assert (Hrun : ncaReadDecryptedHeader Toy.layout Example.env_v0 (example_ctx 0x1000)
                 = Some read_v0) by (vm_compute; reflexivity).
  assert (Hf : forall i, 0 <= i < NCA_FS_HEADER_COUNT ->
                 fs_header (get_fs_ctx read_v0_wiped i) = fs_header (get_fs_ctx read_v0 i)).
  { intros i Hi. unfold NCA_FS_HEADER_COUNT in Hi.
    assert (Hc : i = 0 \/ i = 1 \/ i = 2 \/ i = 3) by lia.
    destruct Hc as [-> | [-> | [-> | ->]]]; vm_compute; reflexivity. }
  assert (He0 : encrypted_header read_v0 = slice Toy.image_v0 0 0x400)
    by (vm_compute; reflexivity).
  assert (He1 : fs_encrypted_header (get_fs_ctx read_v0 0) = slice Toy.image_v0 0xC00 0x200)
    by (vm_compute; reflexivity).
  assert (Hp : ncaIsFsInfoEntryValid (hdr_fs_info Toy.layout (header read_v0) 0) = true)
    by (vm_compute; reflexivity).
  assert (Hh : header read_v0_wiped = header read_v0) by (vm_compute; reflexivity).
  assert (Hv : format_version read_v0_wiped = format_version read_v0)
    by (vm_compute; reflexivity).
  assert (Hk : decrypted_key_area read_v0_wiped = decrypted_key_area read_v0)
    by (vm_compute; reflexivity).
  assert (Hl : length (fs_ctx read_v0_wiped) = Z.to_nat NCA_FS_HEADER_COUNT)
    by (vm_compute; reflexivity).
  destruct (header_round_trip Toy.layout Example.env_v0 (example_ctx 0x1000) read_v0
              read_v0_wiped
              (fun k0 k1 => toy_xts_inverse Example.env_v0 k0 k1 eq_refl)
              eq_refl Hrun Hh Hv Hk Hl Hf)
    as (_ & _ & (c' & Hb & _ & Hi0 & Hi1 & _) & _).
  exists c'. split; [exact Hb |]. split; [congruence |].
  rewrite <- He1. apply Hi1; [unfold NCA_FS_HEADER_COUNT; lia | exact Hp].
Defined.

(** ** C3: the plaintext key area of V0 archives *)

Lemma bytes_eqb_eq (a b : bytes) : bytes_eqb a b = true <-> a = b.
Proof.
  revert b. induction a as [| x a IH]; intros [| y b]; cbn; split; try congruence.
  - intros H. apply andb_true_iff in H. destruct H as [H1 H2].
    apply Z.eqb_eq in H1. apply IH in H2. congruence.
  - intros [= -> ->]. rewrite Z.eqb_refl. now apply IH.
Qed.

(** C3, what the code does: [ncaDecryptKeyArea] copies the stored key area
    verbatim exactly when the archive is V0 and the SHA-256 of the stored key
    area is NOT the marker; in every other case, among them a V0 archive
    whose stored key area hashes to the marker, it clears the decrypted key
    area and decrypts each non-zero slot with the KAEK of
    [(kaek_index, key_generation)].  The claim has the two V0 cases the other
    way round. *)
Theorem key_area_copy_condition (L : NcaLayout) (E : NcaEnv) (ctx : NcaContext) :
  ncaDecryptKeyArea L E ctx
  = let stored :=
      fixed NCA_USED_KEY_AREA_SIZE (hdr_encrypted_key_area L (header ctx)) in
    if (format_version ctx =? NcaVersion_Nca0)
       && negb (bytes_eqb (sha256CalculateHash E stored) g_nca0KeyAreaHash)
    then Some (set_decrypted_key_area ctx stored)
    else option_map (set_decrypted_key_area ctx)
           (decrypt_key_area_slots L E ctx stored (calloc NCA_USED_KEY_AREA_SIZE)
                                   (upto (key_count ctx))).
Proof.
  unfold ncaDecryptKeyArea, ncaIsVersion0KeyAreaEncrypted. cbv zeta.
  destruct (format_version ctx =? NcaVersion_Nca0); cbn [negb andb].
  - destruct (negb (bytes_eqb _ g_nca0KeyAreaHash)); [reflexivity |].
    destruct (decrypt_key_area_slots L E ctx _ _ _); reflexivity.
  - destruct (decrypt_key_area_slots L E ctx _ _ _); reflexivity.
Qed.

(** The two V0 cases on the example instance: a stored key area that hashes
    to the marker is decrypted slot by slot (the result differs from what is
    stored), one that does not is copied verbatim. *)
Example key_area_marker_is_decrypted :
  sha256CalculateHash Example.env_v0
    (hdr_encrypted_key_area Toy.layout (header ctx_v0_plain)) = g_nca0KeyAreaHash
  /\ option_map decrypted_key_area (ncaDecryptKeyArea Toy.layout Example.env_v0 ctx_v0_plain)
     = Some (repeat 0x2A 0x20 ++ repeat 0 0x20)
  /\ hdr_encrypted_key_area Toy.layout (header ctx_v0_plain) = repeat 0x70 0x40.
Proof. conj_compute. Qed.

Example key_area_other_is_copied :
  sha256CalculateHash Example.env_v0
    (hdr_encrypted_key_area Toy.layout (header read_v0)) <> g_nca0KeyAreaHash
  /\ decrypted_key_area read_v0 = hdr_encrypted_key_area Toy.layout (header read_v0).
Proof. split; [vm_compute; discriminate | vm_compute; reflexivity]. Qed.

(** ** C6: the working key of a section *)

Section KeySelection.

Variable L : NcaLayout.
Variable E : NcaEnv.

(** What "Initialize crypto data" leaves in the cipher contexts. *)
Lemma init_section_crypto_keys (out : NcaContext) (s : NcaFsSectionContext) :
  let s' := init_section_crypto L E out s in
  encryption_type s' = encryption_type s
  /\ (encryption_type s = NcaEncryptionType_AesCtr
      \/ encryption_type s = NcaEncryptionType_AesCtrEx ->
      (rights_id_available out = true -> titlekey_retrieved out = true ->
       ctr_key (ctr_ctx s') = Some (titlekey out))
      /\ (rights_id_available out = true -> titlekey_retrieved out = false ->
          ctr_ctx s' = ctr_ctx s)
      /\ (rights_id_available out = false ->
          ctr_key (ctr_ctx s') = Some (aes_ctr (decrypted_key_area out))))
  /\ (encryption_type s = NcaEncryptionType_AesXts ->
      rights_id_available out = false ->
      xts_keys (xts_decrypt_ctx s')
      = Some (aes_xts_1 (decrypted_key_area out), aes_xts_2 (decrypted_key_area out))
      /\ xts_keys (xts_encrypt_ctx s')
         = Some (aes_xts_1 (decrypted_key_area out), aes_xts_2 (decrypted_key_area out))).
Proof.
  unfold init_section_crypto. cbv zeta.
  split; [| split].
  - fs_simpl. repeat (if_destruct; fs_simpl); reflexivity.
  - intros Ht.
    assert (Hgt : (encryption_type s >? NcaEncryptionType_None) = true)
      by (destruct Ht as [-> | ->]; reflexivity).
    assert (Hle : (encryption_type s <=? NcaEncryptionType_AesCtrEx) = true)
      by (destruct Ht as [-> | ->]; reflexivity).
    assert (Hx : (encryption_type s =? NcaEncryptionType_AesXts) = false)
      by (destruct Ht as [-> | ->]; reflexivity).
    assert (Hc : (encryption_type s =? NcaEncryptionType_AesCtr)
                 || (encryption_type s =? NcaEncryptionType_AesCtrEx) = true)
      by (destruct Ht as [-> | ->]; reflexivity).
    split; [| split]; intros Hr; try intros Hk; rewrite Hr; try rewrite Hk;
      fs_simpl; rewrite ?Hgt, ?Hle, ?Hx, ?Hc; fs_simpl;
      repeat (if_destruct; fs_simpl; rewrite ?Hx, ?Hc; fs_simpl);
      try reflexivity; congruence.
  - intros Ht Hr.
    assert (Hgt : (encryption_type s >? NcaEncryptionType_None) = true)
      by (rewrite Ht; reflexivity).
    assert (Hle : (encryption_type s <=? NcaEncryptionType_AesCtrEx) = true)
      by (rewrite Ht; reflexivity).
    assert (Hx : (encryption_type s =? NcaEncryptionType_AesXts) = true)
      by (rewrite Ht; reflexivity).
    rewrite Hr. fs_simpl. rewrite ?Hgt, ?Hle, ?Hx. fs_simpl.
    repeat (if_destruct; fs_simpl; rewrite ?Hx; fs_simpl);
      try (split; reflexivity); congruence.
Qed.

(** A turn of the section loop that reaches its end leaves the section
    enabled, with the cipher contexts "Initialize crypto data" builds from
    the contexts the section had. *)
Lemma init_fs_section_end (out : NcaContext) (i : Z) (s' : NcaFsSectionContext) :
  init_fs_section L E out i = (s', true) ->
  exists s, s' = set_enabled (init_section_crypto L E out s) true
            /\ ctr_ctx s = ctr_ctx (get_fs_ctx out i)
            /\ xts_decrypt_ctx s = xts_decrypt_ctx (get_fs_ctx out i)
            /\ xts_encrypt_ctx s = xts_encrypt_ctx (get_fs_ctx out i).
Proof.
  unfold init_fs_section. cbv zeta. fs_simpl.
  repeat (if_destruct; fs_simpl); intros H; try discriminate H;
    injection H as <-; eexists; (split; [reflexivity |]); fs_simpl;
    repeat split; reflexivity.
Qed.

(** C6, as the code has it: for every section the loop enables, if the
    archive has a rights id and its title key was retrieved, the CTR context
    of a CTR or CTR-Ex section is keyed with the title key; if the archive
    has a rights id but the title key was not retrieved, the section is
    enabled all the same and its CTR context is left as it was (not keyed);
    without a rights id, CTR and CTR-Ex sections alike are keyed from slot 2
    of the decrypted key area (the CTR key, never slot 3), and XTS sections
    from slots 0 and 1. *)
Theorem section_key_selection (out : NcaContext) (i : Z) (s' : NcaFsSectionContext) :
  init_fs_section L E out i = (s', true) ->
  enabled s' = true
  /\ (encryption_type s' = NcaEncryptionType_AesCtr
      \/ encryption_type s' = NcaEncryptionType_AesCtrEx ->
      (rights_id_available out = true -> titlekey_retrieved out = true ->
       ctr_key (ctr_ctx s') = Some (titlekey out))
      /\ (rights_id_available out = true -> titlekey_retrieved out = false ->
          ctr_ctx s' = ctr_ctx (get_fs_ctx out i))
      /\ (rights_id_available out = false ->
          ctr_key (ctr_ctx s') = Some (key_area_slot (decrypted_key_area out) 2)))
  /\ (encryption_type s' = NcaEncryptionType_AesXts ->
      rights_id_available out = false ->
      xts_keys (xts_decrypt_ctx s')
      = Some (key_area_slot (decrypted_key_area out) 0,
              key_area_slot (decrypted_key_area out) 1)
      /\ xts_keys (xts_encrypt_ctx s')
         = Some (key_area_slot (decrypted_key_area out) 0,
                 key_area_slot (decrypted_key_area out) 1)).
Proof.
  intros H. apply init_fs_section_end in H.
  destruct H as (s & -> & Hc & Hd & He).
  destruct (init_section_crypto_keys out s) as (Ht & Hctr & Hxts).
  fs_simpl. split; [reflexivity |]. rewrite Ht. split.
  - intros Hty. destruct (Hctr Hty) as (H1 & H2 & H3).
    split; [exact H1 |]. split; [| exact H3].
    intros Hr Hk. rewrite <- Hc. now apply H2.
  - exact Hxts.
Qed.

End KeySelection.

Lemma section_key_selection_witness :
  let out := before_sections Example.env_v3 in
  let s' := fst (init_fs_section Toy.layout Example.env_v3 out 0) in
  init_fs_section Toy.layout Example.env_v3 out 0 = (s', true)
  /\ rights_id_available out = false
  /\ encryption_type s' = NcaEncryptionType_AesCtr
  /\ enabled s' = true.
Proof.
  intros out s'.
  assert (H : init_fs_section Toy.layout Example.env_v3 out 0 = (s', true))
    by (vm_compute; reflexivity).
  split; [exact H |].
  split; [vm_compute; reflexivity |].
  split; [vm_compute; reflexivity |].
  exact (proj1 (section_key_selection Toy.layout Example.env_v3 out 0 s' H)).
Defined.

(** The claim as stated fails for an archive with a rights id whose title
    key cannot be retrieved: initialization succeeds, the CTR section is
    enabled, and its CTR context has no key at all. *)
Lemma section_key_selection_counterexample :
  let ctx := Example.ctx_v3_rights in
  let s := get_fs_ctx ctx 0 in
  ncaInitializeContext Toy.layout Example.env_v3_rights 5 0 Toy.content_info = Some ctx
  /\ rights_id_available ctx = true
  /\ enabled s = true
  /\ encryption_type s = NcaEncryptionType_AesCtr
  /\ ctr_key (ctr_ctx s) = None
  /\ ctr_key (ctr_ctx s) <> Some (titlekey ctx).
Proof.
  conj_compute.
Qed.

(** ** C7: the main signature *)

Section Signature.

Variable L : NcaLayout.
Variable E : NcaEnv.
Variable modulus : Z -> option bytes.
Variable verify : bytes -> bytes -> bytes -> bytes -> bool.











End Signature.

(** The example archive is read and initialized although its signature
    check fails; the failure is on the context. *)
Example signature_failure_example :
  valid_main_signature Example.ctx_v3 = false
  /\ ncaInitializeContext Toy.layout Example.env_v3 5 0 Toy.content_info
     = Some Example.ctx_v3
  /\ enabled (get_fs_ctx Example.ctx_v3 0) = true.
Proof. conj_compute. Qed.

(** ** C8: which failures fail the initialization *)

Section Initialization.

Variable L : NcaLayout.
Variable E : NcaEnv.

Lemma ltb_negb_leb (a b : Z) : (a <? b) = negb (b <=? a).
Proof. destruct (Z.ltb_spec a b), (Z.leb_spec b a); reflexivity || lia. Qed.

Lemma gtb_negb_leb (a b : Z) : (a >? b) = negb (a <=? b).
Proof. rewrite Z.gtb_ltb. apply ltb_negb_leb. Qed.

Lemma geb_negb_ltb (a b : Z) : (a >=? b) = negb (a <? b).
Proof. rewrite Z.geb_leb, ltb_negb_leb. now rewrite negb_involutive. Qed.

Lemma resolve_encryption_type_eq (out : NcaContext) (i : Z) (s : NcaFsSectionContext) :
  section_num s = i -> fs_header s = fs_header (get_fs_ctx out i) ->
  resolve_encryption_type L out s = sec_encryption L out i.
Proof.
  intros Hn Hh. unfold resolve_encryption_type, sec_encryption, sec_header.
  rewrite Hn, Hh. cbv zeta.
  destruct (Z.eqb_spec
              (if format_version out =? NcaVersion_Nca0 then NcaEncryptionType_AesXts
               else fsh_encryption_type L (fs_header (get_fs_ctx out i)))
              NcaEncryptionType_Auto) as [Ht | Ht]; [| reflexivity].
  destruct ((i =? 0) || (i =? 1)); [reflexivity |].
  destruct (i =? 2); [reflexivity | exact Ht].
Qed.

Lemma resolve_section_type_eq (out : NcaContext) (i : Z) (s : NcaFsSectionContext) :
  fs_header s = fs_header (get_fs_ctx out i) ->
  encryption_type s = sec_encryption L out i ->
  section_type s = NcaFsSectionType_Invalid ->
  resolve_section_type L out s = sec_type L out i.
Proof.
  intros Hh He Ht. unfold resolve_section_type, sec_type, sec_header.
  rewrite Hh, He, Ht. reflexivity.
Qed.

Lemma init_fs_section_valid (out : NcaContext) (i : Z) :
  snd (init_fs_section L E out i) = section_passes L E out i.
Proof.
  unfold init_fs_section, section_passes, sec_populated, sec_hash_matches,
    sec_offsets_in_range, sec_encryption_valid, sec_type_valid, sec_sparse,
    sec_sparse_bucket_valid, sec_inside_archive, sec_size, sec_offset,
    sec_header, sec_fs_info.
  cbv zeta. fs_simpl.
  destruct (ncaIsFsInfoEntryValid (hdr_fs_info L (header out) i));
    cbn [negb andb snd]; [| reflexivity].
  destruct (bytes_eqb _ _); cbn [negb andb snd]; [| reflexivity].
  rewrite ltb_negb_leb.
  destruct (NCA_HEADER_LENGTH <=? _); cbn [negb andb orb snd]; [| reflexivity].
  destruct (_ =? 0) eqn:Hsz in |- *; cbn [negb andb orb snd]; [reflexivity |].
  rewrite !(resolve_encryption_type_eq out i) by reflexivity.
  rewrite gtb_negb_leb.
  destruct (sec_encryption L out i =? NcaEncryptionType_Auto);
    cbn [negb andb orb snd]; [reflexivity |].
  destruct (sec_encryption L out i <=? NcaEncryptionType_AesCtrEx);
    cbn [negb andb orb snd]; [| reflexivity].
  rewrite !(resolve_section_type_eq out i) by reflexivity.
  rewrite geb_negb_ltb.
  destruct (sec_type L out i <? NcaFsSectionType_Invalid);
    cbn [negb andb orb snd]; [| reflexivity].
  destruct (negb (fsh_sparse_generation L (fs_header (get_fs_ctx out i)) =? 0)).
  - rewrite !ltb_negb_leb, !gtb_negb_leb.
    repeat (match goal with
            | |- context [?a =? ?b] => destruct (a =? b)
            | |- context [?a <=? ?b] => destruct (a <=? b)
            end; cbn [negb andb orb snd]; try reflexivity).
  - rewrite gtb_negb_leb.
    destruct (_ <=? content_size out); reflexivity.
Qed.

(** Turns for other sections do not change what a turn sees. *)
Lemma init_fs_section_set_fs_ctx (out : NcaContext) (l : list NcaFsSectionContext)
    (i : Z) :
  get_fs_ctx (set_fs_ctx out l) i = get_fs_ctx out i ->
  init_fs_section L E (set_fs_ctx out l) i = init_fs_section L E out i.
Proof.
  intros H. unfold init_fs_section. rewrite H. reflexivity.
Qed.


(** The reader ends in its section-header loop, entered with the section
    contexts it was given. *)
Lemma read_header_loop (ctx ctx1 : NcaContext) :
  ncaReadDecryptedHeader L E ctx = Some ctx1 ->
  exists cB h n,
    fs_ctx cB = fs_ctx ctx /\ content_size cB = content_size ctx
    /\ read_fs_headers L E h n cB (upto NCA_FS_HEADER_COUNT) = Some ctx1.
Proof.
  intros Hrun. unfold ncaReadDecryptedHeader in Hrun.
  destruct (content_id_str_empty ctx || (content_size ctx <? NCA_FULL_HEADER_LENGTH));
    [discriminate |].
  destruct (keysGetNcaHeaderKey E) as [header_key |]; [| discriminate].
  destruct (ncaReadContentFile E ctx NCA_HEADER_LENGTH 0) as [enc |]; [| discriminate].
  destruct (aes128XtsNintendoCrypt E (header_xts_ctx header_key false) enc
              NCA_HEADER_LENGTH 0 NCA_AES_XTS_SECTOR_SIZE false) as [dec res].
  cbv zeta in Hrun.
  match type of Hrun with (if ?g then _ else _) = _ =>
    destruct g; [discriminate Hrun |]
  end.
  match type of Hrun with
    match (if _ then ncaDecryptKeyArea L E ?c0 else Some ?c0) with _ => _ end = _ =>
    set (cA := c0) in *
  end.
  destruct (if negb (rights_id_available cA) then ncaDecryptKeyArea L E cA else Some cA)
    as [cB |] eqn:Hka; [| discriminate].
  exists cB, (header_xts_ctx header_key false), (nca0_xts_ctx cB false).
  assert (HB : cB = set_decrypted_key_area cA (decrypted_key_area cB)).
  { destruct (negb (rights_id_available cA)).
    - unfold ncaDecryptKeyArea in Hka.
      destruct (ncaIsVersion0KeyAreaEncrypted L E cA).
      + injection Hka as <-. reflexivity.
      + destruct (decrypt_key_area_slots L E cA _ _ _); [| discriminate].
        injection Hka as <-. reflexivity.
    - injection Hka as <-. destruct cA; reflexivity. }
  split; [rewrite HB; reflexivity |]. split; [rewrite HB; reflexivity | exact Hrun].
Qed.

(** The section-header loop of the reader keeps the enabled flags. *)
Lemma read_fs_headers_enabled (h n : Aes128XtsContext) (idx : list Z) :
  forall c c1,
    (forall i, In i idx -> 0 <= i < Z.of_nat (length (fs_ctx c))) ->
    read_fs_headers L E h n c idx = Some c1 ->
    length (fs_ctx c1) = length (fs_ctx c)
    /\ forall j, 0 <= j -> enabled (get_fs_ctx c1 j) = enabled (get_fs_ctx c j).
Proof.
  induction idx as [| i rest IH]; intros c c1 Hr Hrun.
  - injection Hrun as <-. split; reflexivity.
  - cbn [read_fs_headers] in Hrun.
    assert (Hrest : forall k, In k rest -> 0 <= k < Z.of_nat (length (fs_ctx c)))
      by (intros k Hk; apply Hr; now right).
    destruct (negb (ncaIsFsInfoEntryValid (hdr_fs_info L (header c) i))); [eauto |].
    destruct (ncaReadContentFile E c _ _) as [enc |]; [| discriminate].
    destruct (aes128XtsNintendoCrypt E _ enc _ _ _ false) as [dec res].
    destruct (negb (res =? NCA_FS_HEADER_LENGTH)); [discriminate |].
    assert (Hi : 0 <= i < Z.of_nat (length (fs_ctx c))) by (apply Hr; now left).
    apply IH in Hrun.
    + destruct Hrun as [Hl He]. split.
      * rewrite Hl. cbn. apply length_set_nth.
      * intros j Hj. rewrite He by assumption.
        destruct (Z.eq_dec i j) as [<- | Hne].
        -- rewrite get_put_fs_ctx by assumption. reflexivity.
        -- rewrite get_put_fs_ctx_other by lia. reflexivity.
    + intros k Hk. cbn. rewrite length_set_nth. now apply Hrest.
Qed.

Lemma get_fs_ctx_zero (j : Z) : enabled (get_fs_ctx nca_ctx_zero j) = false.
Proof.
  unfold get_fs_ctx, nth_z. cbn [fs_ctx nca_ctx_zero].
  destruct (nth_in_or_default (Z.to_nat j)
              (repeat fs_ctx_zero (Z.to_nat NCA_FS_HEADER_COUNT)) fs_ctx_zero) as [H | ->].
  - apply repeat_spec in H. rewrite H. reflexivity.
  - reflexivity.
Qed.

(** Before the section loop, the context has its four section contexts,
    none enabled. *)
Lemma init_before_sections_fs (storage hfs_partition_type : Z)
    (content_info : NcmContentInfo) (out : NcaContext) :
  init_before_sections L E storage hfs_partition_type content_info = Some out ->
  length (fs_ctx out) = Z.to_nat NCA_FS_HEADER_COUNT
  /\ (forall j, 0 <= j -> enabled (get_fs_ctx out j) = false)
  /\ content_size out = ci_size content_info.
Proof.
  unfold init_before_sections. cbv zeta.
  match goal with |- context [if ?g then None else _] => destruct g end;
    [discriminate |].
  match goal with |- context [if ?g then None else _] => destruct g end;
    [discriminate |].
  match goal with
  | |- context [match ?o with Some out => match ncaReadDecryptedHeader L E out with _ => _ end
                        | None => None end] =>
    destruct o as [c0 |] eqn:Hc0
  end; [| discriminate].
  assert (H0 : fs_ctx c0 = fs_ctx nca_ctx_zero /\ content_size c0 = ci_size content_info).
  { match type of Hc0 with (if ?g then _ else _) = _ => destruct g end.
    - destruct (gamecardGetHashFileSystemEntryInfoByName E _ _); [| discriminate].
      injection Hc0 as <-. split; reflexivity.
    - injection Hc0 as <-. split; reflexivity. }
  destruct H0 as [H0 Hsz].
  destruct (ncaReadDecryptedHeader L E c0) as [c1 |] eqn:Hrd; [| discriminate].
  destruct (read_header_loop c0 c1 Hrd) as (cB & h & n & HB & HBs & Hloop).
  pose proof Hloop as Hloop'.
  apply read_fs_headers_enabled in Hloop.
  2: { intros i Hi. apply In_upto in Hi. rewrite HB, H0. cbn. exact Hi. }
  destruct Hloop as [Hl He].
  assert (Hc1 : length (fs_ctx c1) = Z.to_nat NCA_FS_HEADER_COUNT
                /\ (forall j, 0 <= j -> enabled (get_fs_ctx c1 j) = false)
                /\ content_size c1 = ci_size content_info).
  { split; [rewrite Hl, HB, H0; reflexivity |]. split.
    - intros j Hj. rewrite He by assumption. unfold get_fs_ctx. rewrite HB, H0.
      apply get_fs_ctx_zero.
    - destruct (read_fs_headers_inv L E h n (upto NCA_FS_HEADER_COUNT) cB c1)
        as (Heq & _); [apply NoDup_upto | | exact Hloop' |].
      { intros i Hi. apply In_upto in Hi. rewrite HB, H0. cbn. exact Hi. }
      rewrite Heq. cbn [content_size set_fs_ctx]. congruence. }
  intros H.
  destruct (rights_id_available c1).
  - destruct (tikRetrieveTicketByRightsId E _ _); injection H as <-; exact Hc1.
  - injection H as <-. exact Hc1.
Qed.


(** A turn leaves the section enabled exactly when it reaches its end (or
    the section was enabled before, which the loop never sees). *)
Lemma init_fs_section_enabled (out : NcaContext) (i : Z) :
  enabled (fst (init_fs_section L E out i))
  = snd (init_fs_section L E out i) || enabled (get_fs_ctx out i).
Proof.
  unfold init_fs_section. cbv zeta. fs_simpl.
  repeat (if_destruct; fs_simpl; try reflexivity).
Qed.

(** What the section loop leaves: each section of the loop is what its turn
    makes of the section the loop was entered with, the other sections and
    the archive fields are untouched, and the counter has counted the valid
    sections. *)
Lemma init_fs_sections_inv (idx : list Z) :
  forall out n out' n',
    NoDup idx ->
    (forall i, In i idx -> 0 <= i < Z.of_nat (length (fs_ctx out))) ->
    0 <= n -> n + Z.of_nat (length idx) <= 255 ->
    init_fs_sections L E out idx n = (out', n') ->
    out' = set_fs_ctx out (fs_ctx out')
    /\ length (fs_ctx out') = length (fs_ctx out)
    /\ (forall j, 0 <= j -> ~ In j idx -> get_fs_ctx out' j = get_fs_ctx out j)
    /\ (forall i, In i idx -> get_fs_ctx out' i = fst (init_fs_section L E out i))
    /\ n' = n + Z.of_nat (length (filter (section_passes L E out) idx)).
Proof.
  induction idx as [| i rest IH]; intros out n out' n' Hnd Hr Hn Hmax Hrun.
  - injection Hrun as <- <-. cbn.
    split; [symmetry; apply set_fs_ctx_same |].
    split; [reflexivity |]. split; [reflexivity |]. split; [intros k [] | lia].
  - inversion_clear Hnd as [| ? ? Hni Hnd'].
    cbn [init_fs_sections] in Hrun.
    assert (Hi : 0 <= i < Z.of_nat (length (fs_ctx out))) by (apply Hr; now left).
    pose proof (init_fs_section_valid out i) as Hv.
    destruct (init_fs_section L E out i) as [s counted] eqn:Hturn.
    cbn [snd] in Hv. subst counted.
    assert (Hput : put_fs_ctx out i s = set_fs_ctx out (fs_ctx (put_fs_ctx out i s)))
      by (destruct out; reflexivity).
    assert (Hsame : forall k, In k rest ->
              init_fs_section L E (put_fs_ctx out i s) k = init_fs_section L E out k).
    { intros k Hk. rewrite Hput. apply init_fs_section_set_fs_ctx.
      rewrite <- Hput. apply get_put_fs_ctx_other; try lia.
      - apply Hr. now right.
      - intros ->. contradiction. }
    cbn [length] in Hmax.
    apply IH in Hrun; try assumption.
    + destruct Hrun as (He & Hl & Ho & Hc & Hcnt).
      split; [rewrite He at 1; destruct out; reflexivity |].
      split; [rewrite Hl; cbn; apply length_set_nth |].
      split; [| split].
      * intros j Hj Hnj. rewrite Ho; [| assumption | intros Hin; apply Hnj; now right].
        apply get_put_fs_ctx_other; try lia. intros ->. apply Hnj. now left.
      * intros k [<- | Hk].
        -- rewrite Ho by (assumption || lia). rewrite get_put_fs_ctx by assumption.
           rewrite Hturn. reflexivity.
        -- rewrite Hc by assumption. now rewrite Hsame.
      * rewrite Hcnt. cbn [filter].
        assert (Hf : filter (section_passes L E (put_fs_ctx out i s)) rest
                     = filter (section_passes L E out) rest).
        { apply filter_ext_in. intros k Hk.
          rewrite <- !init_fs_section_valid. now rewrite Hsame. }
        rewrite Hf. unfold u8.
        destruct (section_passes L E out i); cbn [length].
        -- rewrite Z.mod_small by lia. lia.
        -- lia.
    + intros k Hk. cbn. rewrite length_set_nth. apply Hr. now right.
    + destruct (section_passes L E out i); unfold u8;
        [apply Z.mod_pos_bound; lia | exact Hn].
    + destruct (section_passes L E out i); unfold u8;
        [rewrite Z.mod_small by lia; lia | lia].
Qed.




End Initialization.

Section SectionRefinement.

Variable L : NcaLayout.
Variable E : NcaEnv.
Variable out : NcaContext.
Variable i : Z.



End SectionRefinement.

Section InitializationClaim.

Variable L : NcaLayout.
Variable E : NcaEnv.


End InitializationClaim.



(** ** C9: the header-dirty state *)

Section HeaderDirty.

Variable L : NcaLayout.
Variable E : NcaEnv.

(** The state is dirty exactly when the digest of the plaintext header is
    not the stored header hash. *)
Lemma header_dirty_iff (c : NcaContext) :
  ncaIsHeaderDirty E c = true <-> sha256CalculateHash E (header c) <> header_hash c.
Proof.
  unfold ncaIsHeaderDirty. rewrite negb_true_iff.
  destruct (bytes_eqb (sha256CalculateHash E (header c)) (header_hash c)) eqn:Hb.
  - apply bytes_eqb_eq in Hb. split; [discriminate | congruence].
  - split; [| reflexivity]. intros _ Heq. apply bytes_eqb_eq in Heq. congruence.
Qed.

Lemma remove_titlekey_header_hash (ctx ctx' : NcaContext) :
  ncaRemoveTitleKeyCrypto L E ctx = Some ctx' -> header_hash ctx' = header_hash ctx.
Proof.
  unfold ncaRemoveTitleKeyCrypto.
  destruct (_ || _ || _); [discriminate |].
  destruct (negb (rights_id_available ctx) || negb (titlekey_retrieved ctx)).
  - intros [= <-]. reflexivity.
  - cbv zeta. unfold ncaEncryptKeyArea.
    destruct (ncaIsVersion0KeyAreaEncrypted L E _).
    + intros [= <-]. reflexivity.
    + destruct (keysGetNcaKeyAreaEncryptionKey E _ _); [| discriminate].
      intros [= <-]. reflexivity.
Qed.

Lemma patch_header_hash (crypto_buffer : bool) (nca_ctx : NcaContext)
    (ctx : NcaFsSectionContext) (data : bytes) (data_size data_offset : Z)
    (is_integrity_patch : bool) :
  header_hash (pr_nca_ctx (ncaGenerateHashDataPatch L E crypto_buffer nca_ctx ctx data
                             data_size data_offset is_integrity_patch))
  = header_hash nca_ctx.
Proof.
  unfold ncaGenerateHashDataPatch.
  destruct (patch_params_invalid L ctx data_size data_offset is_integrity_patch);
    [reflexivity |].
  destruct (patch_layers L E _ _ _ _ _ _ _ _ _) as [[entries |] ctx']; reflexivity.
Qed.

End HeaderDirty.

Section HeaderDirtyClaim.

Variable L : NcaLayout.
Variable E : NcaEnv.

(** From a clean header, a helper that keeps the stored hash and really
    changes the plaintext header leaves a dirty one, if the hash tells the
    two headers apart. *)
Lemma dirty_after_change (c c' : NcaContext) :
  ncaIsHeaderDirty E c = false ->
  header_hash c' = header_hash c ->
  header c' <> header c ->
  hash_separates E (header c') (header c) ->
  ncaIsHeaderDirty E c' = true.
Proof.
  intros Hclean Hh Hne Hsep. apply (header_dirty_iff E). intros Heq.
  apply Hne, Hsep. rewrite Heq, Hh.
  unfold ncaIsHeaderDirty in Hclean. apply negb_false_iff in Hclean.
  apply bytes_eqb_eq in Hclean. symmetry. exact Hclean.
Qed.

(** A dirty header is not skipped by the encryptor. *)
Lemma dirty_not_skipped (c : NcaContext) :
  ncaIsHeaderDirty E c = true ->
  ncaEncryptHeader L E c
  = if content_id_str_empty c || (content_size c <? NCA_FULL_HEADER_LENGTH)
    then None else encrypt_header_body L E c.
Proof. intros Hd. unfold ncaEncryptHeader. rewrite Hd. reflexivity. Qed.

Lemma remove_titlekey_header (ctx ctx' : NcaContext) :
  ncaRemoveTitleKeyCrypto L E ctx = Some ctx' ->
  rights_id_available ctx = true -> titlekey_retrieved ctx = true ->
  exists h, header ctx' = hdr_set_rights_id L h (calloc 0x10).
Proof.
  unfold ncaRemoveTitleKeyCrypto. intros Hrun Hr Ht.
  destruct (_ || _ || _); [discriminate |].
  rewrite Hr, Ht in Hrun. cbn [negb orb] in Hrun. cbv zeta in Hrun.
  destruct (ncaEncryptKeyArea L E _) as [c2 |]; [| discriminate].
  injection Hrun as <-. exists (header c2). reflexivity.
Qed.

(** C9, as the code has it.  The header-dirty state compares the SHA-256 of
    the plaintext header with the header hash stored by the reader, and no
    mutation helper touches the stored hash.  Starting from a clean header
    (as after the read), and with a hash that tells the changed header from
    the one read: set-distribution-type on a header whose type is not
    Download yet, remove-titlekey-crypto on an archive with a rights id and
    its title key, and a patch generation that stored a different
    section-header hash each leave a dirty header, which the header
    encryptor does not skip.  A call that changes nothing (the type is
    already Download or the call is refused; no rights id or no title key)
    gives the context back as it was, and update-content-id never touches
    the header or the stored hash (whatever the dirty test compares of
    the two), so a clean header stays clean after it. *)
Theorem header_dirty_after_mutation (ctx : NcaContext) (new_hash : bytes)
    (crypto_buffer : bool) (fs : NcaFsSectionContext) (data : bytes)
    (data_size data_offset : Z) (is_integrity_patch : bool) :
  ncaIsHeaderDirty E ctx = false ->
  let reencrypted c :=
    ncaEncryptHeader L E c
    = (if content_id_str_empty c || (content_size c <? NCA_FULL_HEADER_LENGTH)
       then None else encrypt_header_body L E c) in
  (* update-content-id *)
  (header (ncaUpdateContentIdAndHash E ctx new_hash) = header ctx
   /\ header_hash (ncaUpdateContentIdAndHash E ctx new_hash) = header_hash ctx
   /\ ncaIsHeaderDirty E (ncaUpdateContentIdAndHash E ctx new_hash) = false)
  (* set-distribution-type *)
  /\ (let ctx' := ncaSetDownloadDistributionType L ctx in
      ((content_size ctx <? NCA_FULL_HEADER_LENGTH) || content_id_str_empty ctx
       || (content_type ctx >? NcmContentType_DeltaFragment)
       || (hdr_distribution_type L (header ctx) =? NcaDistributionType_Download)
       = true -> ctx' = ctx)
      /\ (NCA_FULL_HEADER_LENGTH <= content_size ctx ->
          content_id_str_empty ctx = false ->
          content_type ctx <= NcmContentType_DeltaFragment ->
          hdr_distribution_type L (header ctx) <> NcaDistributionType_Download ->
          hdr_distribution_type L
            (hdr_set_distribution_type L (header ctx) NcaDistributionType_Download)
          = NcaDistributionType_Download ->
          hash_separates E (header ctx') (header ctx) ->
          ncaIsHeaderDirty E ctx' = true /\ reencrypted ctx'))
  (* remove-titlekey-crypto *)
  /\ (forall ctx',
        ncaRemoveTitleKeyCrypto L E ctx = Some ctx' ->
        (rights_id_available ctx = false \/ titlekey_retrieved ctx = false ->
         ctx' = ctx)
        /\ (rights_id_available ctx = true -> titlekey_retrieved ctx = true ->
            ncaCheckRightsIdAvailability L ctx = true ->
            (forall h, hdr_rights_id L (hdr_set_rights_id L h (calloc 0x10))
                       = calloc 0x10) ->
            hash_separates E (header ctx') (header ctx) ->
            ncaIsHeaderDirty E ctx' = true /\ reencrypted ctx'))
  (* patch generation *)
  /\ (let r := ncaGenerateHashDataPatch L E crypto_buffer ctx fs data data_size
                                        data_offset is_integrity_patch in
      let i := section_num (pr_ctx r) in
      let stored := fixed SHA256_HASH_SIZE (sha256CalculateHash E (fs_header (pr_ctx r))) in
      pr_success r = true ->
      header (pr_nca_ctx r) = hdr_set_fs_header_hash L (header ctx) i stored
      /\ (hdr_fs_header_hash L (hdr_set_fs_header_hash L (header ctx) i stored) i
          = stored ->
          stored <> hdr_fs_header_hash L (header ctx) i ->
          hash_separates E (header (pr_nca_ctx r)) (header ctx) ->
          ncaIsHeaderDirty E (pr_nca_ctx r) = true /\ reencrypted (pr_nca_ctx r))).
Proof.
  intros Hclean reencrypted.
  assert (Hns : forall c, ncaIsHeaderDirty E c = true -> reencrypted c).
  { intros c Hd. apply dirty_not_skipped. exact Hd. }
  split; [split; [reflexivity | split; [reflexivity | exact Hclean]] |].
  split; [| split].
  - cbv zeta. split.
    + intros Hg. unfold ncaSetDownloadDistributionType. rewrite Hg. reflexivity.
    + intros Hsz Hstr Hct Hnd Hlaw Hsep.
      assert (Hrun : ncaSetDownloadDistributionType L ctx
                     = set_header ctx
                         (hdr_set_distribution_type L (header ctx)
                            NcaDistributionType_Download)).
      { unfold ncaSetDownloadDistributionType.
        replace (content_size ctx <? NCA_FULL_HEADER_LENGTH) with false
          by (symmetry; apply Z.ltb_ge; exact Hsz).
        rewrite Hstr.
        replace (content_type ctx >? NcmContentType_DeltaFragment) with false
          by (symmetry; rewrite Z.gtb_ltb; apply Z.ltb_ge; exact Hct).
        replace (hdr_distribution_type L (header ctx) =? NcaDistributionType_Download)
          with false by (symmetry; apply Z.eqb_neq; exact Hnd).
        reflexivity. }
      assert (Hd : ncaIsHeaderDirty E (ncaSetDownloadDistributionType L ctx) = true).
      { apply (dirty_after_change ctx); [exact Hclean | | | exact Hsep].
        - rewrite Hrun. reflexivity.
        - rewrite Hrun. cbn [header set_header]. intros Heq.
          apply Hnd. rewrite <- Heq. exact Hlaw. }
      split; [exact Hd | apply Hns; exact Hd].
  - intros ctx' Hrm. split.
    + intros Hno. unfold ncaRemoveTitleKeyCrypto in Hrm.
      destruct (_ || _ || _); [discriminate |].
      destruct Hno as [Hno | Hno]; rewrite Hno in Hrm; cbn [negb orb] in Hrm;
        rewrite ?orb_true_r in Hrm; congruence.
    + intros Hr Ht Hid Hlaw Hsep.
      assert (Hd : ncaIsHeaderDirty E ctx' = true).
      { apply (dirty_after_change ctx); [exact Hclean | | | exact Hsep].
        - apply (remove_titlekey_header_hash L E ctx ctx' Hrm).
        - destruct (remove_titlekey_header ctx ctx' Hrm Hr Ht) as [h Hh].
          intros Heq. unfold ncaCheckRightsIdAvailability in Hid.
          rewrite <- Heq, Hh, Hlaw in Hid. vm_compute in Hid. discriminate Hid. }
      split; [exact Hd | apply Hns; exact Hd].
  - cbv zeta. intros Hs.
    assert (Hh : header (pr_nca_ctx (ncaGenerateHashDataPatch L E crypto_buffer ctx fs
                                       data data_size data_offset is_integrity_patch))
                 = hdr_set_fs_header_hash L (header ctx)
                     (section_num (pr_ctx (ncaGenerateHashDataPatch L E crypto_buffer
                                             ctx fs data data_size data_offset
                                             is_integrity_patch)))
                     (fixed SHA256_HASH_SIZE
                        (sha256CalculateHash E
                           (fs_header (pr_ctx (ncaGenerateHashDataPatch L E
                                                 crypto_buffer ctx fs data data_size
                                                 data_offset is_integrity_patch)))))).
    { revert Hs. unfold ncaGenerateHashDataPatch.
      destruct (patch_params_invalid L fs data_size data_offset is_integrity_patch);
        [discriminate |].
      destruct (patch_layers L E _ _ _ _ _ _ _ _ _) as [[entries |] fs'];
        [| discriminate].
      intros _. reflexivity. }
    split; [exact Hh |].
    intros Hlaw Hnew Hsep.
    assert (Hd : ncaIsHeaderDirty E
                   (pr_nca_ctx (ncaGenerateHashDataPatch L E crypto_buffer ctx fs data
                                  data_size data_offset is_integrity_patch)) = true).
    { apply (dirty_after_change ctx); [exact Hclean | | | exact Hsep].
      - apply patch_header_hash.
      - rewrite Hh. intros Heq. apply Hnew.
        etransitivity; [symmetry; exact Hlaw |]. rewrite Heq. reflexivity. }
    split; [exact Hd | apply Hns; exact Hd].
Qed.

End HeaderDirtyClaim.

Lemma header_dirty_after_mutation_witness :
  let ctx' := ncaSetDownloadDistributionType Toy.layout Example.ctx_v3 in
  ncaIsHeaderDirty Example.env_v3 Example.ctx_v3 = false
  /\ hdr_distribution_type Toy.layout (header Example.ctx_v3)
     = NcaDistributionType_GameCard
  /\ ncaIsHeaderDirty Example.env_v3 ctx' = true
  /\ ncaEncryptHeader Toy.layout Example.env_v3 ctx'
     = (if content_id_str_empty ctx' || (content_size ctx' <? NCA_FULL_HEADER_LENGTH)
        then None else encrypt_header_body Toy.layout Example.env_v3 ctx').
Proof.
  cbv zeta.
  assert (Hclean : ncaIsHeaderDirty Example.env_v3 Example.ctx_v3 = false)
    by (vm_compute; reflexivity).
  assert (Ht : hdr_distribution_type Toy.layout (header Example.ctx_v3)
               = NcaDistributionType_GameCard) by (vm_compute; reflexivity).
  assert (Hsz : NCA_FULL_HEADER_LENGTH <= content_size Example.ctx_v3)
    by (vm_compute; discriminate).
  assert (Hstr : content_id_str_empty Example.ctx_v3 = false)
    by (vm_compute; reflexivity).
  assert (Hct : content_type Example.ctx_v3 <= NcmContentType_DeltaFragment)
    by (vm_compute; discriminate).
  assert (Hlaw : hdr_distribution_type Toy.layout
                   (hdr_set_distribution_type Toy.layout (header Example.ctx_v3)
                      NcaDistributionType_Download)
                 = NcaDistributionType_Download) by (vm_compute; reflexivity).
  assert (Hsep : hash_separates Example.env_v3
                   (header (ncaSetDownloadDistributionType Toy.layout Example.ctx_v3))
                   (header Example.ctx_v3)).
  { intros Heq. exfalso. revert Heq. vm_compute. discriminate. }
  destruct (header_dirty_after_mutation Toy.layout Example.env_v3 Example.ctx_v3
              [] false fs_ctx_zero [] 0 0 false Hclean) as (_ & (_ & Hset) & _).
  destruct (Hset Hsz Hstr Hct) as [Hd Hre]; [| exact Hlaw | exact Hsep |].
  - rewrite Ht. discriminate.
  - split; [exact Hclean |]. split; [exact Ht |]. split; [exact Hd | exact Hre].
Defined.

(** The claim as stated fails for update-content-id: on the freshly
    initialized example archive it changes the content id and neither the
    plaintext header nor the stored header hash, so it leaves the header
    clean, and the header encrypt that follows returns early with the
    context as it is. *)
Lemma header_dirty_counterexample :
  let ctx' := ncaUpdateContentIdAndHash Example.env_v3 Example.ctx_v3 (repeat 0xCD 0x20) in
  content_id ctx' = repeat 0xCD 0x10
  /\ content_id Example.ctx_v3 <> repeat 0xCD 0x10
  /\ header ctx' = header Example.ctx_v3
  /\ header_hash ctx' = header_hash Example.ctx_v3
  /\ ncaIsHeaderDirty Example.env_v3 ctx' = false
  /\ ncaEncryptHeader Toy.layout Example.env_v3 ctx' = Some ctx'.
Proof. conj_compute. Qed.

(** ** Section reads terminate *)

(** A chunk of an unaligned read larger than the staging buffer is shorter
    than the read and longer than the buffer less one sector. *)
Lemma read_chunk_decreases (unit co rs : Z) :
  unit = AES_BLOCK_SIZE \/ unit = NCA_AES_XTS_SECTOR_SIZE ->
  0 <= co < 2 ^ 64 -> 0 <= rs < 2 ^ 64 ->
  sub64 (ALIGN_UP (add64 co rs) unit) (ALIGN_DOWN co unit) > NCA_CRYPTO_BUFFER_SIZE ->
  let out_chunk_size := sub64 NCA_CRYPTO_BUFFER_SIZE (sub64 co (ALIGN_DOWN co unit)) in
  NCA_CRYPTO_BUFFER_SIZE - NCA_AES_XTS_SECTOR_SIZE < out_chunk_size < rs.
Proof.
  unfold sub64, add64, ALIGN_UP, ALIGN_DOWN, u64, NCA_CRYPTO_BUFFER_SIZE,
    AES_BLOCK_SIZE, NCA_AES_XTS_SECTOR_SIZE.
  change (2 ^ 64) with 18446744073709551616.
  intros [-> | ->] Hco Hrs Hb; cbv zeta;
    Z.to_euclidean_division_equations; lia.
Qed.

Section ReadTermination.
Variable L : NcaLayout.
Variable E : NcaEnv.

Lemma cipher_unit_cases (ctx : NcaFsSectionContext) :
  cipher_unit ctx = AES_BLOCK_SIZE \/ cipher_unit ctx = NCA_AES_XTS_SECTOR_SIZE.
Proof. unfold cipher_unit. destruct (_ =? _); auto. Qed.

Lemma read_fs_section_fuel_enough (fuel : nat) (crypto_buffer : bool)
    (nca_ctx : NcaContext) (ctx : NcaFsSectionContext) :
  forall read_size offset : Z,
    0 <= read_size < 2 ^ 64 ->
    (Z.to_nat (read_size / (NCA_CRYPTO_BUFFER_SIZE - NCA_AES_XTS_SECTOR_SIZE)) < fuel)%nat ->
    _ncaReadFsSection_fuel E fuel crypto_buffer nca_ctx ctx read_size offset
    <> OutOfFuel.
Proof.
  induction fuel as [| fuel IH]; intros read_size offset Hrs Hfuel; [lia |].
  cbn [_ncaReadFsSection_fuel].
  destruct (read_section_invalid _ _ _ _); [discriminate |].
  destruct (read_archive_invalid _ _ _); [discriminate |].
  destruct (aligned_access _ _ _ _).
  - destruct (ncaReadContentFile E _ _ _); [| discriminate].
    destruct (_ =? _); [discriminate |].
    destruct (decrypt_section_block _ _ _ _ _ _ _ _); discriminate.
  - destruct (ncaReadContentFile E _ _ _); [| discriminate].
    destruct (decrypt_section_block _ _ _ _ _ _ _ _); [| discriminate].
    destruct (_ >? _) eqn:Hbig; [| discriminate].
    pose proof (read_chunk_decreases (cipher_unit ctx)
                  (add64 (section_offset ctx) offset) read_size
                  (cipher_unit_cases ctx) (u64_range _) Hrs) as Hdec.
    cbv zeta in Hdec.
    apply Z.gtb_lt in Hbig. specialize (Hdec ltac:(lia)).
    set (ocs := sub64 NCA_CRYPTO_BUFFER_SIZE _) in *.
    assert (Hsub : sub64 read_size ocs = read_size - ocs).
    { unfold sub64, u64. apply Z.mod_small.
      unfold NCA_CRYPTO_BUFFER_SIZE, NCA_AES_XTS_SECTOR_SIZE in Hdec. lia. }
    specialize (IH (sub64 read_size ocs) (add64 offset ocs)).
    rewrite Hsub in *.
    assert (Hlt : (Z.to_nat ((read_size - ocs) / (NCA_CRYPTO_BUFFER_SIZE - NCA_AES_XTS_SECTOR_SIZE)) < fuel)%nat).
    { revert Hfuel Hdec. unfold NCA_CRYPTO_BUFFER_SIZE, NCA_AES_XTS_SECTOR_SIZE.
      intros Hfuel Hdec.
      assert ((read_size - ocs) / (8388608 - 512) < read_size / (8388608 - 512)).
      { Z.to_euclidean_division_equations. lia. }
      assert (0 <= (read_size - ocs) / (8388608 - 512)).
      { apply Z.div_pos; lia. }
      lia. }
    assert (Hrange : 0 <= read_size - ocs < 2 ^ 64).
    { unfold NCA_CRYPTO_BUFFER_SIZE, NCA_AES_XTS_SECTOR_SIZE in Hdec. lia. }
    specialize (IH Hrange Hlt).
    destruct (_ncaReadFsSection_fuel E fuel _ _ _ _ _); congruence.
Qed.

(** A read of a u64 size never runs out of the fuel [_ncaReadFsSection]
    gives it: [None] is a [false] of the C function. *)
Lemma read_fs_section_total (crypto_buffer : bool) (nca_ctx : NcaContext)
    (ctx : NcaFsSectionContext) (read_size offset : Z) :
  0 <= read_size < 2 ^ 64 ->
  _ncaReadFsSection_fuel E (read_fuel read_size) crypto_buffer nca_ctx ctx
                         read_size offset <> OutOfFuel.
Proof.
  intros Hrs. apply read_fs_section_fuel_enough; [exact Hrs |].
  unfold read_fuel. lia.
Qed.
End ReadTermination.

(** ** C10: block generation and CTR-Ex sections *)

Section BlockGeneration.

Variable L : NcaLayout.
Variable E : NcaEnv.

Lemma block_refused_invalid (crypto_buffer : bool) (ctx : NcaFsSectionContext)
    (data_size data_offset : Z) :
  block_refused ctx = true ->
  block_section_invalid crypto_buffer ctx data_size data_offset = true.
Proof.
  unfold block_refused, block_section_invalid. intros H.
  apply orb_true_iff in H as [H | H]; [apply orb_true_iff in H as [H | H] |];
    rewrite H, ?orb_true_r; reflexivity.
Qed.

Lemma generate_block_refused (crypto_buffer : bool) (nca_ctx : NcaContext)
    (ctx : NcaFsSectionContext) (data : bytes) (data_size data_offset : Z) :
  block_refused ctx = true ->
  _ncaGenerateEncryptedFsSectionBlock E crypto_buffer nca_ctx ctx data data_size
                                      data_offset = None.
Proof.
  intros H. unfold _ncaGenerateEncryptedFsSectionBlock.
  rewrite (block_refused_invalid _ _ _ _ H). reflexivity.
Qed.

(** The first turn of the layer loop already stops at the block generator. *)
Lemma patch_layers_refused (n : nat) (crypto_buffer : bool) (nca_ctx : NcaContext)
    (ctx : NcaFsSectionContext) (is_integrity_patch : bool) (cur_data : bytes)
    (cur_data_offset cur_data_size : Z) (entries : list NcaHashDataPatch) :
  block_refused ctx = true ->
  fst (patch_layers L E (S n) crypto_buffer nca_ctx ctx is_integrity_patch cur_data
                    cur_data_offset cur_data_size entries) = None.
Proof.
  intros H. cbn [patch_layers].
  destruct (_ || _ || _ || _); [reflexivity |].
  destruct (_ncaReadFsSection E _ _ _ _ _); [| reflexivity].
  destruct (Z.of_nat (S n) >? 1).
  - destruct (_ncaReadFsSection E _ _ _ _ _); [| reflexivity].
    rewrite (generate_block_refused _ _ _ _ _ _ H). reflexivity.
  - rewrite generate_block_refused; [reflexivity | exact H].
Qed.

Lemma patch_refused (crypto_buffer : bool) (nca_ctx : NcaContext)
    (ctx : NcaFsSectionContext) (data : bytes) (data_size data_offset : Z)
    (is_integrity_patch : bool) :
  0 <= fsh_sha256_hash_region_count L (fs_header ctx) ->
  block_refused ctx = true ->
  let r := ncaGenerateHashDataPatch L E crypto_buffer nca_ctx ctx data data_size
                                    data_offset is_integrity_patch in
  pr_success r = false /\ pr_entries r = released_entries is_integrity_patch.
Proof.
  intros Hcnt H. cbv zeta. unfold ncaGenerateHashDataPatch.
  destruct (patch_params_invalid _ _ _ _ _) eqn:Hp; [split; reflexivity |].
  assert (Hn : exists n, Z.to_nat (patch_layer_count L is_integrity_patch (fs_header ctx))
                         = S n).
  { unfold patch_params_invalid in Hp. cbv zeta in Hp.
    repeat (apply orb_false_iff in Hp as [Hp ?]).
    unfold patch_layer_count in *.
    destruct is_integrity_patch; cbn [negb andb] in *.
    - repeat match goal with
             | H : _ || _ = false |- _ => apply orb_false_iff in H as [H ?]
             end.
      match goal with H : negb (_ =? NCA_IVFC_LEVEL_COUNT) = false |- _ =>
        apply negb_false_iff, Z.eqb_eq in H; rewrite H end.
      eexists. reflexivity.
    - repeat match goal with
             | H : _ || _ = false |- _ => apply orb_false_iff in H as [H ?]
             end.
      match goal with H : (_ =? 0) = false |- _ => apply Z.eqb_neq in H end.
      exists (Z.to_nat (fsh_sha256_hash_region_count L (fs_header ctx) - 1)). lia. }
  destruct Hn as [n ->].
  pose proof (patch_layers_refused n crypto_buffer nca_ctx ctx is_integrity_patch data
                data_offset data_size (released_entries is_integrity_patch) H) as Hl.
  destruct (patch_layers _ _ _ _ _ _ _ _ _ _ _) as [[entries |] ctx'];
    [discriminate Hl | split; reflexivity].
Qed.

(** C10.  For a section whose encryption type is CTR-Ex the block generator
    returns no block, and hash-tree patch generation, which calls it, fails
    and leaves the output patch set released (every entry without data).
    More generally a patch generation that succeeds was run on a section
    that is not sparse and whose encryption type is None, XTS or CTR.  The
    region count and the encryption type are the unsigned fields of the
    C structs. *)
Theorem ctr_ex_sections_not_patched (crypto_buffer : bool) (nca_ctx : NcaContext)
    (ctx : NcaFsSectionContext) (data : bytes) (data_size data_offset : Z)
    (is_integrity_patch : bool) :
  0 <= fsh_sha256_hash_region_count L (fs_header ctx) ->
  0 <= encryption_type ctx ->
  let r := ncaGenerateHashDataPatch L E crypto_buffer nca_ctx ctx data data_size
                                    data_offset is_integrity_patch in
  (encryption_type ctx = NcaEncryptionType_AesCtrEx ->
   _ncaGenerateEncryptedFsSectionBlock E crypto_buffer nca_ctx ctx data data_size
                                       data_offset = None
   /\ pr_success r = false
   /\ pr_entries r = released_entries is_integrity_patch
   /\ Forall (fun e => hdp_data e = None) (pr_entries r))
  /\ (pr_success r = true ->
      has_sparse_layer ctx = false
      /\ (encryption_type ctx = NcaEncryptionType_None
          \/ encryption_type ctx = NcaEncryptionType_AesXts
          \/ encryption_type ctx = NcaEncryptionType_AesCtr)).
Proof.
  intros Hcnt Henc. cbv zeta. split.
  - intros Hx.
    assert (Hr : block_refused ctx = true).
    { unfold block_refused. rewrite Hx. rewrite orb_true_r. reflexivity. }
    split; [apply generate_block_refused; exact Hr |].
    destruct (patch_refused crypto_buffer nca_ctx ctx data data_size data_offset
                is_integrity_patch Hcnt Hr) as [Hs He].
    split; [exact Hs |]. split; [exact He |].
    rewrite He. destruct is_integrity_patch; vm_compute; repeat constructor.
  - intros Hs.
    destruct (block_refused ctx) eqn:Hr.
    + destruct (patch_refused crypto_buffer nca_ctx ctx data data_size data_offset
                  is_integrity_patch Hcnt Hr) as [Hf _]. congruence.
    + unfold block_refused in Hr.
      apply orb_false_iff in Hr as [Hr Hge]. apply orb_false_iff in Hr as [Hsp Hauto].
      split; [exact Hsp |].
      apply Z.eqb_neq in Hauto. rewrite Z.geb_leb in Hge. apply Z.leb_gt in Hge.
      revert Hauto Hge.
      unfold NcaEncryptionType_Auto, NcaEncryptionType_None, NcaEncryptionType_AesXts,
        NcaEncryptionType_AesCtr, NcaEncryptionType_AesCtrEx. lia.
Qed.

End BlockGeneration.

Lemma ctr_ex_sections_not_patched_witness :
  let ctr := get_fs_ctx Example.ctx_v3 0 in
  let ctr_ex := set_encryption_type ctr NcaEncryptionType_AesCtrEx in
  (encryption_type ctr = NcaEncryptionType_AesCtr
   /\ pr_success (ncaGenerateHashDataPatch Toy.layout Example.env_v3 true Example.ctx_v3
                    ctr [1; 2; 3] 3 5 false) = true)
  /\ (encryption_type ctr_ex = NcaEncryptionType_AesCtrEx
      /\ _ncaReadFsSection Example.env_v3 true Example.ctx_v3 ctr_ex 3 5 <> None
      /\ pr_success (ncaGenerateHashDataPatch Toy.layout Example.env_v3 true
                       Example.ctx_v3 ctr_ex [1; 2; 3] 3 5 false) = false).
Proof.
  cbv zeta. split.
  - split; vm_compute; reflexivity.
  - split; [vm_compute; reflexivity |].
    split; [vm_compute; discriminate |].
    refine (proj1 (proj2 (proj1
              (ctr_ex_sections_not_patched Toy.layout Example.env_v3 true Example.ctx_v3
                 (set_encryption_type (get_fs_ctx Example.ctx_v3 0)
                    NcaEncryptionType_AesCtrEx)
                 [1; 2; 3] 3 5 false _ _) _)));
      vm_compute; (reflexivity || discriminate).
Defined.

(** * Further properties of the engine *)

(** ** Section reads *)

Section ReadProperties.

Variable E : NcaEnv.

Lemma read_fs_section_fuel_mono (crypto_buffer : bool) (nca_ctx : NcaContext)
    (ctx : NcaFsSectionContext) (fuel : nat) :
  forall read_size offset,
    _ncaReadFsSection_fuel E fuel crypto_buffer nca_ctx ctx read_size offset
    <> OutOfFuel ->
    _ncaReadFsSection_fuel E (S fuel) crypto_buffer nca_ctx ctx read_size offset
    = _ncaReadFsSection_fuel E fuel crypto_buffer nca_ctx ctx read_size offset.
Proof.
  induction fuel as [| fuel IH]; intros read_size offset Hne.
  - cbn [_ncaReadFsSection_fuel] in Hne. congruence.
  - revert Hne. cbn [_ncaReadFsSection_fuel].
    destruct (read_section_invalid _ _ _ _); [reflexivity |].
    destruct (read_archive_invalid _ _ _); [reflexivity |].
    destruct (aligned_access _ _ _ _); [reflexivity |].
    destruct (ncaReadContentFile E _ _ _); [| reflexivity].
    destruct (decrypt_section_block _ _ _ _ _ _ _ _); [| reflexivity].
    destruct (_ >? _); [| reflexivity].
    intros Hne.
    match goal with
    | |- match ?a with _ => _ end = match ?b with _ => _ end =>
      assert (Heq : a = b)
    end.
    { apply IH. intros Hf. rewrite Hf in Hne. congruence. }
    cbn [_ncaReadFsSection_fuel] in Heq. rewrite Heq. reflexivity.
Qed.

(** X1.  [_ncaReadFsSection] terminates on every read of a u64 size: its
    recursion on the tail of a span larger than the staging buffer is never
    deeper than [read_size / (NCA_CRYPTO_BUFFER_SIZE - 0x200) + 1], and with
    any larger bound it gives the same answer. *)
Theorem read_fs_section_terminates (crypto_buffer : bool) (nca_ctx : NcaContext)
    (ctx : NcaFsSectionContext) (read_size offset : Z) (fuel : nat) :
  0 <= read_size < 2 ^ 64 ->
  (read_fuel read_size <= fuel)%nat ->
  _ncaReadFsSection_fuel E fuel crypto_buffer nca_ctx ctx read_size offset
  <> OutOfFuel
  /\ _ncaReadFsSection_fuel E fuel crypto_buffer nca_ctx ctx read_size offset
     = _ncaReadFsSection_fuel E (read_fuel read_size) crypto_buffer nca_ctx ctx
                              read_size offset.
Proof.
  intros Hrs Hle.
  pose proof (read_fs_section_total E crypto_buffer nca_ctx ctx read_size offset Hrs)
    as Htot.
  induction Hle as [| fuel Hle IH].
  - split; [exact Htot | reflexivity].
  - destruct IH as [Hne Heq].
    rewrite (read_fs_section_fuel_mono _ _ _ _ _ _ Hne). split; assumption.
Qed.

(** X2.  A read of a plaintext section that passes the two parameter tests
    is the raw read of the archive at [section_offset + offset], whatever
    the alignment and the size: no staging buffer, no chunks. *)
Theorem read_plaintext_section_is_raw (crypto_buffer : bool) (nca_ctx : NcaContext)
    (ctx : NcaFsSectionContext) (read_size offset : Z) :
  encryption_type ctx = NcaEncryptionType_None ->
  read_section_invalid crypto_buffer ctx read_size offset = false ->
  read_archive_invalid nca_ctx (add64 (section_offset ctx) offset) read_size = false ->
  _ncaReadFsSection E crypto_buffer nca_ctx ctx read_size offset
  = ncaReadContentFile E nca_ctx read_size (add64 (section_offset ctx) offset).
Proof.
  intros Hn Hs Ha. unfold _ncaReadFsSection, read_fuel.
  cbn [_ncaReadFsSection_fuel]. rewrite Hs, Ha.
  unfold aligned_access. rewrite Hn. cbn [Z.eqb orb].
  change (NcaEncryptionType_None =? NcaEncryptionType_None) with true.
  cbn [orb].
  destruct (ncaReadContentFile E _ _ _); reflexivity.
Qed.

(** X3.  A read that succeeds was asked of an enabled section with the
    staging buffer allocated, for a non-empty range that ends inside the
    section and inside the archive (as the code adds: modulo 2^64). *)
Theorem read_success_in_bounds (crypto_buffer : bool) (nca_ctx : NcaContext)
    (ctx : NcaFsSectionContext) (read_size offset : Z) (out : bytes) :
  _ncaReadFsSection E crypto_buffer nca_ctx ctx read_size offset = Some out ->
  crypto_buffer = true /\ enabled ctx = true
  /\ NCA_HEADER_LENGTH <= section_offset ctx
  /\ read_size <> 0
  /\ add64 offset read_size <= section_size ctx
  /\ add64 (add64 (section_offset ctx) offset) read_size <= content_size nca_ctx
  /\ content_id_str_empty nca_ctx = false /\ storage_missing nca_ctx = false.
Proof.
  unfold _ncaReadFsSection, read_fuel. cbn [_ncaReadFsSection_fuel].
  destruct (read_section_invalid _ _ _ _) eqn:Hs; [discriminate |].
  destruct (read_archive_invalid _ _ _) eqn:Ha; [discriminate |].
  intros _. unfold read_section_invalid in Hs. unfold read_archive_invalid in Ha.
  repeat match goal with
         | H : _ || _ = false |- _ => apply orb_false_iff in H as [H ?]
         end.
  repeat match goal with
         | H : negb _ = false |- _ => apply negb_false_iff in H
         | H : (_ <? _) = false |- _ => apply Z.ltb_ge in H
         | H : (_ =? 0) = false |- _ => apply Z.eqb_neq in H
         | H : (_ >? _) = false |- _ => rewrite Z.gtb_ltb in H; apply Z.ltb_ge in H
         end.
  repeat split; assumption.
Qed.

End ReadProperties.
Section ReadLength.

Variable E : NcaEnv.
Variable nca_ctx : NcaContext.
Variable ctx : NcaFsSectionContext.

(** The storage reader fills the whole block, and the ciphers keep the
    length of what they process. *)
Hypothesis reader_fills :
  forall n off out, 0 <= n -> 0 <= off ->
    ncaReadContentFile E nca_ctx n off = Some out -> zlen out = n.
Hypothesis xts_length :
  forall c src size sector ss enc,
    zlen (fst (aes128XtsNintendoCrypt E c src size sector ss enc)) = zlen src.
Hypothesis ctr_length :
  forall c src, zlen (aes128CtrCrypt E c src) = zlen src.

Lemma decrypt_section_block_length (data dec : bytes)
    (size offset content_offset block_offset : Z) :
  decrypt_section_block E nca_ctx ctx data size offset content_offset block_offset
  = Some dec ->
  zlen dec = zlen data.
Proof.
  unfold decrypt_section_block.
  destruct (encryption_type ctx =? NcaEncryptionType_AesXts).
  - pose proof (xts_length (xts_decrypt_ctx ctx) data size
                  (xts_sector_num nca_ctx offset content_offset)
                  NCA_AES_XTS_SECTOR_SIZE false) as Hl.
    destruct (aes128XtsNintendoCrypt E _ _ _ _ _ _) as [d r]. cbn [fst] in Hl.
    destruct (negb (r =? size)); [discriminate |]. intros [= <-]. exact Hl.
  - destruct (_ || _).
    + intros [= <-]. apply ctr_length.
    + intros [= <-]. reflexivity.
Qed.

Lemma zlen_slice (b : bytes) (off n : Z) :
  0 <= off -> 0 <= n -> off + n <= zlen b -> zlen (slice b off n) = n.
Proof.
  intros Ho Hn Hb. unfold zlen, slice in *.
  rewrite length_firstn, length_skipn. lia.
Qed.

Lemma zlen_app (a b : bytes) : zlen (a ++ b) = zlen a + zlen b.
Proof. unfold zlen. rewrite length_app. lia. Qed.

(** The arithmetic of one unaligned chunk when nothing wraps. *)
Lemma read_chunk_fits (unit co rs : Z) :
  unit = AES_BLOCK_SIZE \/ unit = NCA_AES_XTS_SECTOR_SIZE ->
  0 <= co -> 0 < rs -> co + rs + NCA_AES_XTS_SECTOR_SIZE <= 2 ^ 64 ->
  let block_size := sub64 (ALIGN_UP (add64 co rs) unit) (ALIGN_DOWN co unit) in
  let data_start_offset := sub64 co (ALIGN_DOWN co unit) in
  0 <= data_start_offset /\ 0 <= ALIGN_DOWN co unit /\ 0 <= block_size
  /\ data_start_offset + rs <= block_size
  /\ data_start_offset < unit.
Proof.
  unfold sub64, add64, ALIGN_UP, ALIGN_DOWN, u64, NCA_CRYPTO_BUFFER_SIZE,
    AES_BLOCK_SIZE, NCA_AES_XTS_SECTOR_SIZE.
  change (2 ^ 64) with 18446744073709551616.
  intros [-> | ->] Hco Hrs Hb; cbv zeta;
    Z.to_euclidean_division_equations; lia.
Qed.

Lemma read_fs_section_fuel_length (crypto_buffer : bool) (fuel : nat) :
  forall read_size offset out,
    0 < read_size -> 0 <= offset -> 0 <= section_offset ctx ->
    section_offset ctx + offset + read_size + NCA_AES_XTS_SECTOR_SIZE <= 2 ^ 64 ->
    _ncaReadFsSection_fuel E fuel crypto_buffer nca_ctx ctx read_size offset
    = Done out ->
    zlen out = read_size.
Proof.
  induction fuel as [| fuel IH]; intros read_size offset out Hrs Hoff Hso Hsum;
    [discriminate |].
  cbn [_ncaReadFsSection_fuel].
  assert (Hco : add64 (section_offset ctx) offset = section_offset ctx + offset).
  { unfold add64, u64. apply Z.mod_small.
    unfold NCA_AES_XTS_SECTOR_SIZE in Hsum. lia. }
  rewrite Hco.
  destruct (read_section_invalid _ _ _ _); [discriminate |].
  destruct (read_archive_invalid _ _ _); [discriminate |].
  destruct (aligned_access _ _ _ _).
  - destruct (ncaReadContentFile E _ _ _) as [rd |] eqn:Hrd; [| discriminate].
    apply reader_fills in Hrd; [| lia | lia].
    destruct (_ =? _); [intros [= <-]; exact Hrd |].
    destruct (decrypt_section_block _ _ _ _ _ _ _ _) as [dec |] eqn:Hd;
      [| discriminate].
    intros [= <-]. apply decrypt_section_block_length in Hd. congruence.
  - pose proof (read_chunk_fits (cipher_unit ctx) (section_offset ctx + offset)
                  read_size (cipher_unit_cases ctx) ltac:(lia) Hrs ltac:(lia)) as Hfit.
    cbv zeta in Hfit. destruct Hfit as (Hd0 & Hbs0 & Hb0 & Hfit & Hdu).
    set (block_start := ALIGN_DOWN (section_offset ctx + offset) (cipher_unit ctx)) in *.
    set (block_size :=
           sub64 (ALIGN_UP (add64 (section_offset ctx + offset) read_size)
                           (cipher_unit ctx)) block_start) in *.
    set (dso := sub64 (section_offset ctx + offset) block_start) in *.
    destruct (block_size >? NCA_CRYPTO_BUFFER_SIZE) eqn:Hbig; cbv beta iota;
      (destruct (ncaReadContentFile E _ _ _) as [enc |] eqn:Hrd; [| discriminate]);
      (destruct (decrypt_section_block _ _ _ _ _ _ _ _) as [dec |] eqn:Hd;
        [| discriminate]);
      apply decrypt_section_block_length in Hd.
    + apply reader_fills in Hrd; [| unfold NCA_CRYPTO_BUFFER_SIZE; lia | exact Hbs0].
      pose proof (read_chunk_decreases (cipher_unit ctx)
                    (add64 (section_offset ctx) offset) read_size
                    (cipher_unit_cases ctx) (u64_range _)) as Hdec.
      rewrite Hco in Hdec. cbv zeta in Hdec. fold block_start block_size dso in Hdec.
      apply Z.gtb_lt in Hbig.
      assert (Hrange : 0 <= read_size < 2 ^ 64).
      { unfold NCA_AES_XTS_SECTOR_SIZE in Hsum. lia. }
      specialize (Hdec Hrange ltac:(lia)).
      set (ocs := sub64 NCA_CRYPTO_BUFFER_SIZE dso) in *.
      assert (Hocs : ocs = NCA_CRYPTO_BUFFER_SIZE - dso).
      { unfold ocs, sub64, u64. apply Z.mod_small.
        assert (cipher_unit ctx <= 0x200)
          by (destruct (cipher_unit_cases ctx) as [-> | ->]; vm_compute; discriminate).
        unfold NCA_CRYPTO_BUFFER_SIZE. lia. }
      assert (Hsub : sub64 read_size ocs = read_size - ocs).
      { unfold sub64, u64. apply Z.mod_small.
        unfold NCA_CRYPTO_BUFFER_SIZE, NCA_AES_XTS_SECTOR_SIZE in *. lia. }
      assert (Hadd : add64 offset ocs = offset + ocs).
      { unfold add64, u64. apply Z.mod_small.
        unfold NCA_CRYPTO_BUFFER_SIZE, NCA_AES_XTS_SECTOR_SIZE in *. lia. }
      rewrite Hsub, Hadd.
      destruct (_ncaReadFsSection_fuel E fuel _ _ _ _ _) as [rest | |] eqn:Hrest;
        try discriminate.
      intros [= <-]. rewrite zlen_app.
      apply IH in Hrest;
        [| unfold NCA_CRYPTO_BUFFER_SIZE, NCA_AES_XTS_SECTOR_SIZE in *; lia ..].
      rewrite Hrest, zlen_slice; [lia | exact Hd0 | | ].
      * unfold NCA_CRYPTO_BUFFER_SIZE, NCA_AES_XTS_SECTOR_SIZE in *. lia.
      * rewrite Hd, Hrd. lia.
    + assert (Hbz : 0 <= block_size) by exact Hb0.
      apply reader_fills in Hrd; [| exact Hbz | exact Hbs0].
      intros [= <-]. apply zlen_slice; [exact Hd0 | lia |].
      rewrite Hd, Hrd. exact Hfit.
Qed.

(** X4.  With a storage reader that fills the block it is asked for and
    ciphers that keep the length of their input, a section read that
    succeeds returns exactly [read_size] bytes, also when it is assembled
    from chunks of the staging buffer.  The range is one that does not wrap
    around 2^64. *)
Theorem read_fs_section_length (crypto_buffer : bool) (read_size offset : Z)
    (out : bytes) :
  0 <= offset -> 0 <= section_offset ctx -> 0 <= read_size ->
  section_offset ctx + offset + read_size + NCA_AES_XTS_SECTOR_SIZE <= 2 ^ 64 ->
  _ncaReadFsSection E crypto_buffer nca_ctx ctx read_size offset = Some out ->
  zlen out = read_size.
Proof.
  intros Hoff Hso Hrs Hsum. unfold _ncaReadFsSection.
  destruct (_ncaReadFsSection_fuel E _ _ _ _ _ _) as [o | |] eqn:Hrun;
    try discriminate.
  intros [= <-].
  assert (Hpos : 0 < read_size).
  { destruct (Z.eq_dec read_size 0) as [-> | Hne]; [| lia].
    revert Hrun. unfold read_fuel. cbn [_ncaReadFsSection_fuel].
    unfold read_section_invalid. rewrite Z.eqb_refl, !orb_true_r. discriminate. }
  now apply (read_fs_section_fuel_length crypto_buffer _ _ _ _ Hpos Hoff Hso Hsum Hrun).
Qed.

End ReadLength.
Lemma read_fs_section_terminates_witness :
  let s := get_fs_ctx Example.ctx_v3 0 in
  _ncaReadFsSection_fuel Example.env_v3 7 true Example.ctx_v3 s 3 5 <> OutOfFuel
  /\ _ncaReadFsSection_fuel Example.env_v3 7 true Example.ctx_v3 s 3 5
     = _ncaReadFsSection_fuel Example.env_v3 (read_fuel 3) true Example.ctx_v3 s 3 5.
Proof.
  apply (read_fs_section_terminates Example.env_v3 true Example.ctx_v3
           (get_fs_ctx Example.ctx_v3 0) 3 5 7).
  - split; [discriminate | reflexivity].
  - vm_compute. repeat constructor.
Defined.

Lemma read_plaintext_section_is_raw_witness :
  let s := set_encryption_type (get_fs_ctx Example.ctx_v3 0) NcaEncryptionType_None in
  _ncaReadFsSection Example.env_v3 true Example.ctx_v3 s 3 5
  = ncaReadContentFile Example.env_v3 Example.ctx_v3 3 (add64 (section_offset s) 5).
Proof.
  apply (read_plaintext_section_is_raw Example.env_v3 true Example.ctx_v3
           (set_encryption_type (get_fs_ctx Example.ctx_v3 0) NcaEncryptionType_None)
           3 5); vm_compute; reflexivity.
Defined.

Lemma read_success_in_bounds_witness :
  let s := get_fs_ctx Example.ctx_v3 0 in
  enabled s = true /\ add64 5 3 <= section_size s.
Proof.
  assert (H : exists out, _ncaReadFsSection Example.env_v3 true Example.ctx_v3
                            (get_fs_ctx Example.ctx_v3 0) 3 5 = Some out).
  { eexists. vm_compute. reflexivity. }
  destruct H as [out H].
  pose proof (read_success_in_bounds Example.env_v3 true Example.ctx_v3
                (get_fs_ctx Example.ctx_v3 0) 3 5 out H) as P.
  cbv zeta. split; [exact (proj1 (proj2 P)) | exact (proj1 (proj2 (proj2 (proj2 (proj2 P)))))].
Defined.

(** The stand-in storage and ciphers of the example keep lengths. *)
Lemma toy_reader_fills (image : bytes) (tik : option bytes) (sig_ok : bool)
    (nca_ctx : NcaContext) (n off : Z) (out : bytes) :
  0 <= n -> 0 <= off ->
  ncaReadContentFile (Toy.env image tik sig_ok) nca_ctx n off = Some out ->
  zlen out = n.
Proof.
  intros Hn Hoff. unfold ncaReadContentFile.
  destruct (_ || _ || _ || _); [discriminate |].
  destruct (negb _).
  - cbn [Toy.env ncmContentStorageReadContentIdFile].
    destruct (off + n <=? zlen image) eqn:Hle; [| discriminate].
    intros [= <-]. apply Z.leb_le in Hle. now apply zlen_slice.
  - cbn [Toy.env gamecardReadStorage]. discriminate.
Qed.

Lemma toy_xts_length (c : Aes128XtsContext) (src : bytes)
    (size sector ss : Z) (enc : bool) :
  zlen (fst (Toy.xts c src size sector ss enc)) = zlen src.
Proof.
  unfold Toy.xts. destruct (xts_keys c) as [[k0 k1] |]; [| reflexivity].
  destruct (_ && _); [| reflexivity].
  cbn [fst]. unfold zlen, Toy.xor_bytes. now rewrite length_map.
Qed.

Lemma toy_ctr_length (c : Aes128CtrContext) (src : bytes) :
  zlen (Toy.ctr_crypt c src) = zlen src.
Proof.
  unfold Toy.ctr_crypt. destruct (ctr_key c); [| reflexivity].
  unfold zlen, Toy.xor_bytes. now rewrite length_map.
Qed.

Lemma read_fs_section_length_witness :
  exists out,
    _ncaReadFsSection Example.env_v3 true Example.ctx_v3
                      (get_fs_ctx Example.ctx_v3 0) 3 5 = Some out
    /\ zlen out = 3.
Proof.
  assert (H : exists out, _ncaReadFsSection Example.env_v3 true Example.ctx_v3
                            (get_fs_ctx Example.ctx_v3 0) 3 5 = Some out).
  { eexists. vm_compute. reflexivity. }
  destruct H as [out H]. exists out. split; [exact H |].
  apply (read_fs_section_length Example.env_v3 Example.ctx_v3
           (get_fs_ctx Example.ctx_v3 0)
           (toy_reader_fills Toy.image_v3 None false Example.ctx_v3)
           toy_xts_length toy_ctr_length true 3 5 out).
  - discriminate.
  - vm_compute. discriminate.
  - discriminate.
  - vm_compute. discriminate.
  - exact H.
Defined.

(** ** The patch writers *)

Section PatchWriters.

Variable ctx : NcaContext.
Variables buf_size buf_offset : Z.

(** The flag the loop of the patch writers returns: the flag it started with,
    and every entry written afterwards. *)
Lemma write_patch_entries_flag (es : list NcaHashDataPatch) (w : bool) (b : bytes) :
  let r := write_patch_entries ctx es w b buf_size buf_offset in
  snd (fst r) = w && forallb hdp_written (fst (fst r)).
Proof.
  cbv zeta. revert w b. induction es as [| e rest IH]; intros w b.
  - cbn. now rewrite andb_true_r.
  - cbn [write_patch_entries]. destruct (hdp_written e) eqn:Hw.
    + specialize (IH w b).
      destruct (write_patch_entries ctx rest w b buf_size buf_offset) as [[es' w'] b'].
      cbn [fst snd forallb] in *. rewrite Hw. exact IH.
    + destruct (ncaWritePatchToMemoryBuffer ctx (hdp_data e) (hdp_size e) (hdp_offset e)
                  b buf_size buf_offset) as [b1 r].
      specialize (IH (if r then w else false) b1).
      destruct (write_patch_entries ctx rest (if r then w else false) b1
                                    buf_size buf_offset) as [[es' w'] b'].
      cbn [fst snd forallb hdp_written] in *. rewrite IH.
      destruct r, w; reflexivity.
Qed.

Lemma write_patch_entries_length (es : list NcaHashDataPatch) (w : bool) (b : bytes) :
  length (fst (fst (write_patch_entries ctx es w b buf_size buf_offset))) = length es.
Proof.
  symmetry. apply (Forall2_length (write_patch_entries_same ctx buf_size buf_offset es w b)).
Qed.

Lemma firstn_app_skipn_firstn {A : Type} (n : nat) (l es : list A) :
  length es = length (firstn n l) -> firstn n (es ++ skipn n l) = es.
Proof.
  intros Hlen. rewrite length_firstn in Hlen.
  destruct (Nat.le_gt_cases n (length l)) as [Hle | Hgt].
  - rewrite firstn_app. replace (n - length es)%nat with 0%nat by lia.
    cbn [firstn]. rewrite app_nil_r. apply firstn_all2. lia.
  - rewrite skipn_all2 by lia. rewrite app_nil_r. apply firstn_all2. lia.
Qed.

Lemma In_firstn' {A : Type} (n : nat) (l : list A) (x : A) :
  In x (firstn n l) -> In x l.
Proof.
  intros H. rewrite <- (firstn_skipn n l). apply in_or_app. now left.
Qed.

(** X5.  What [written] of a patch set means after a call of its writer:
    either the call was refused and left the patch set as it was, or the
    flag is true exactly when every entry of the set (the first
    [hash_region_count] regions, the six levels) is written. *)
Theorem patch_written_flag (sp : NcaHierarchicalSha256Patch)
    (ip : NcaHierarchicalIntegrityPatch) (buf : bytes) :
  (let r := ncaWriteHierarchicalSha256PatchToMemoryBuffer ctx sp buf buf_size buf_offset in
   r = (sp, buf)
   \/ sp_written (fst r)
      = forallb hdp_written
          (firstn (Z.to_nat (sp_hash_region_count sp)) (sp_hash_region_patch (fst r))))
  /\ (let r := ncaWriteHierarchicalIntegrityPatchToMemoryBuffer ctx ip buf buf_size
                                                                buf_offset in
      r = (ip, buf)
      \/ ip_written (fst r)
         = forallb hdp_written
             (firstn (Z.to_nat NCA_IVFC_LEVEL_COUNT) (ip_hash_level_patch (fst r)))).
Proof.
  split; cbv zeta.
  - unfold ncaWriteHierarchicalSha256PatchToMemoryBuffer. cbv zeta.
    match goal with |- context [if ?g then (sp, buf) else _] => destruct g end;
      [left; reflexivity | right].
    pose proof (write_patch_entries_flag
                  (firstn (Z.to_nat (sp_hash_region_count sp)) (sp_hash_region_patch sp))
                  true buf) as Hf.
    pose proof (write_patch_entries_length
                  (firstn (Z.to_nat (sp_hash_region_count sp)) (sp_hash_region_patch sp))
                  true buf) as Hl.
    cbv zeta in Hf.
    destruct (write_patch_entries ctx _ true buf buf_size buf_offset) as [[es w] b].
    cbn [fst snd sp_written sp_hash_region_patch] in *.
    rewrite firstn_app_skipn_firstn by exact Hl. exact Hf.
  - unfold ncaWriteHierarchicalIntegrityPatchToMemoryBuffer. cbv zeta.
    match goal with |- context [if ?g then (ip, buf) else _] => destruct g end;
      [left; reflexivity | right].
    pose proof (write_patch_entries_flag
                  (firstn (Z.to_nat NCA_IVFC_LEVEL_COUNT) (ip_hash_level_patch ip))
                  true buf) as Hf.
    pose proof (write_patch_entries_length
                  (firstn (Z.to_nat NCA_IVFC_LEVEL_COUNT) (ip_hash_level_patch ip))
                  true buf) as Hl.
    cbv zeta in Hf.
    destruct (write_patch_entries ctx _ true buf buf_size buf_offset) as [[es w] b].
    cbn [fst snd ip_written ip_hash_level_patch] in *.
    rewrite firstn_app_skipn_firstn by exact Hl. exact Hf.
Qed.

Hypothesis buf_size_pos : 0 <= buf_size.
Hypothesis buf_offset_pos : 0 <= buf_offset.
Hypothesis buf_end_u64 : buf_offset + buf_size < 2 ^ 64.
Hypothesis content_size_u64 : content_size ctx < 2 ^ 64.

(** Merging an entry leaves every byte outside the entry's archive range. *)
Lemma merge_entry_frame (e : NcaHashDataPatch) (b : bytes) (k : nat) (d : Z) :
  entry_wf e -> zlen b = buf_size ->
  ~ (hdp_offset e <= buf_offset + Z.of_nat k < hdp_offset e + hdp_size e) ->
  nth k (merge_entry ctx buf_size buf_offset e b) d = nth k b d.
Proof.
  intros He Hb Hout.
  destruct (merge_entry_shape ctx buf_size buf_offset e He)
    as (a & off & n & src & Heq & Hwin); try assumption.
  rewrite Heq. destruct a; [| reflexivity].
  destruct (Hwin eq_refl) as (H1 & H2 & H3 & H4 & H5 & H6).
  rewrite nth_memcpy by lia.
  destruct (Z.leb_spec off (Z.of_nat k)); [| reflexivity].
  destruct (Z.ltb_spec (Z.of_nat k) (off + n)); [| reflexivity].
  exfalso. apply Hout. lia.
Qed.

Lemma fold_step_frame (es : list NcaHashDataPatch) (b : bytes) (k : nat) (d : Z) :
  Forall entry_wf es -> zlen b = buf_size ->
  (forall e, In e es ->
     ~ (hdp_offset e <= buf_offset + Z.of_nat k < hdp_offset e + hdp_size e)) ->
  nth k (fold_left (merge_step ctx buf_size buf_offset) es b) d = nth k b d.
Proof.
  revert b. induction es as [| e rest IH]; intros b Hwf Hb Hout; [reflexivity |].
  inversion_clear Hwf as [| ? ? He Hrest]. cbn [fold_left].
  rewrite IH.
  - unfold merge_step. destruct (hdp_written e); [reflexivity |].
    apply merge_entry_frame; [assumption .. |]. apply Hout. now left.
  - assumption.
  - unfold merge_step. destruct (hdp_written e); [exact Hb |].
    now apply merge_entry_zlen.
  - intros e' Hin. apply Hout. now right.
Qed.

(** X6.  The patch writers never write outside the buffer or outside the
    archive ranges of the entries: the buffer keeps its length, and a byte
    whose archive position lies in no entry's range keeps its value. *)
Theorem patch_apply_frame (sp : NcaHierarchicalSha256Patch)
    (ip : NcaHierarchicalIntegrityPatch) (buf : bytes) (k : nat) (d : Z) :
  Forall entry_wf (sp_hash_region_patch sp) ->
  Forall entry_wf (ip_hash_level_patch ip) ->
  zlen buf = buf_size ->
  (let b' := snd (ncaWriteHierarchicalSha256PatchToMemoryBuffer ctx sp buf buf_size
                                                                buf_offset) in
   zlen b' = buf_size
   /\ ((forall e, In e (sp_hash_region_patch sp) ->
          ~ (hdp_offset e <= buf_offset + Z.of_nat k < hdp_offset e + hdp_size e)) ->
       nth k b' d = nth k buf d))
  /\ (let b' := snd (ncaWriteHierarchicalIntegrityPatchToMemoryBuffer ctx ip buf buf_size
                                                                      buf_offset) in
      zlen b' = buf_size
      /\ ((forall e, In e (ip_hash_level_patch ip) ->
             ~ (hdp_offset e <= buf_offset + Z.of_nat k < hdp_offset e + hdp_size e)) ->
          nth k b' d = nth k buf d)).
Proof.
  intros Hswf Hiwf Hb. split; cbv zeta.
  - unfold ncaWriteHierarchicalSha256PatchToMemoryBuffer. cbv zeta.
    match goal with |- context [if ?g then (sp, buf) else _] => destruct g end;
      [split; [exact Hb | reflexivity] |].
    set (es := firstn (Z.to_nat (sp_hash_region_count sp)) (sp_hash_region_patch sp)).
    pose proof (write_patch_entries_buf ctx buf_size buf_offset es true buf) as Hbuf.
    destruct (write_patch_entries ctx es true buf buf_size buf_offset) as [[es1 w1] b1].
    cbn [snd] in *. subst b1.
    assert (Hwf : Forall entry_wf es) by (apply Forall_firstn'; exact Hswf).
    split.
    + apply fold_step_zlen; assumption.
    + intros Hout. apply fold_step_frame; try assumption.
      intros e Hin. apply Hout. eapply In_firstn'. exact Hin.
  - unfold ncaWriteHierarchicalIntegrityPatchToMemoryBuffer. cbv zeta.
    match goal with |- context [if ?g then (ip, buf) else _] => destruct g end;
      [split; [exact Hb | reflexivity] |].
    set (es := firstn (Z.to_nat NCA_IVFC_LEVEL_COUNT) (ip_hash_level_patch ip)).
    pose proof (write_patch_entries_buf ctx buf_size buf_offset es true buf) as Hbuf.
    destruct (write_patch_entries ctx es true buf buf_size buf_offset) as [[es1 w1] b1].
    cbn [snd] in *. subst b1.
    assert (Hwf : Forall entry_wf es) by (apply Forall_firstn'; exact Hiwf).
    split.
    + apply fold_step_zlen; assumption.
    + intros Hout. apply fold_step_frame; try assumption.
      intros e Hin. apply Hout. eapply In_firstn'. exact Hin.
Qed.

End PatchWriters.
Lemma patch_apply_frame_witness :
  let b' := snd (ncaWriteHierarchicalSha256PatchToMemoryBuffer
                   (example_ctx 0x1000) disjoint_patch (repeat 0xEE 16) 16 0xC00) in
  zlen b' = 16 /\ nth 6 b' 0 = 0xEE.
Proof.
  assert (H0 : 0 <= 16) by discriminate.
  assert (H1 : 0 <= 0xC00) by discriminate.
  assert (H2 : 0xC00 + 16 < 2 ^ 64) by reflexivity.
  assert (H3 : content_size (example_ctx 0x1000) < 2 ^ 64) by reflexivity.
  destruct (proj1 (patch_apply_frame (example_ctx 0x1000) 16 0xC00 H0 H1 H2 H3
                     disjoint_patch disjoint_ivfc_patch (repeat 0xEE 16) 6 0
                     disjoint_patch_wf disjoint_patch_wf eq_refl)) as [Hlen Hnth].
  split; [exact Hlen |].
  rewrite Hnth; [reflexivity |].
  intros e [<- | [<- | []]]; cbn [hdp_offset hdp_size]; lia.
Defined.

(** ** The buffer merge, byte by byte *)

Section MergeBytes.

Variable ctx : NcaContext.
Variable p : bytes.
Variables patch_size patch_offset : Z.
Hypothesis patch_size_pos : 0 < patch_size.
Hypothesis patch_offset_pos : 0 <= patch_offset.
Hypothesis patch_inside : patch_offset + patch_size <= content_size ctx.
Hypothesis content_size_u64 : content_size ctx < 2 ^ 64.
Hypothesis patch_block : zlen p = patch_size.

(** After the merge a byte of the buffer is the byte of the patch for its
    archive position, if the patch covers the position, and its old value
    otherwise; the buffer keeps its length. *)
Lemma write_patch_nth (buf : bytes) (buf_size buf_offset : Z) (k : nat) (d : Z) :
  zlen buf = buf_size -> 0 <= buf_offset -> buf_offset + buf_size < 2 ^ 64 ->
  let b' := fst (ncaWritePatchToMemoryBuffer ctx (Some p) patch_size patch_offset
                                             buf buf_size buf_offset) in
  zlen b' = buf_size
  /\ ((k < length buf)%nat ->
      nth k b' d
      = if (patch_offset <=? buf_offset + Z.of_nat k)
           && (buf_offset + Z.of_nat k <? patch_offset + patch_size)
        then nth (Z.to_nat (buf_offset + Z.of_nat k - patch_offset)) p d
        else nth k buf d).
Proof.
  intros Hb Hbo Hbe. cbv zeta.
  assert (Hbs : 0 <= buf_size) by (unfold zlen in Hb; lia).
  rewrite write_patch_merge by lia.
  unfold patch_merge_spec.
  destruct (Z.leb_spec (buf_offset + buf_size) patch_offset) as [H1 | H1]; cbn [orb].
  { cbn [fst]. split; [exact Hb |]. intros Hk. unfold zlen in Hb.
    destruct (Z.leb_spec patch_offset (buf_offset + Z.of_nat k)); [lia | reflexivity]. }
  destruct (Z.leb_spec (patch_offset + patch_size) buf_offset) as [H2 | H2]; cbn [orb].
  { cbn [fst]. split; [exact Hb |]. intros Hk. unfold zlen in Hb.
    destruct (Z.leb_spec patch_offset (buf_offset + Z.of_nat k)); cbn [andb];
      [| reflexivity].
    destruct (Z.ltb_spec (buf_offset + Z.of_nat k) (patch_offset + patch_size));
      [lia | reflexivity]. }
  cbn [fst].
  set (from := Z.max 0 (buf_offset - patch_offset)).
  set (onto := Z.max 0 (patch_offset - buf_offset)).
  set (count := Z.min (patch_size - from) (buf_size - onto)).
  assert (Hsk : zlen (skipn (Z.to_nat from) p) = patch_size - from).
  { unfold zlen in *. rewrite length_skipn. subst from. lia. }
  split.
  - unfold zlen. rewrite length_memcpy; [exact Hb | subst onto; lia | subst count from onto; lia
                                        | subst count from onto; lia | rewrite Hsk; subst count; lia].
  - intros Hk. unfold zlen in Hb.
    rewrite nth_memcpy;
      [| subst onto; lia | subst count from onto; lia | unfold zlen; subst count from onto; lia
       | rewrite Hsk; subst count; lia].
    destruct (Z.leb_spec onto (Z.of_nat k)); destruct (Z.ltb_spec (Z.of_nat k) (onto + count));
      destruct (Z.leb_spec patch_offset (buf_offset + Z.of_nat k));
      destruct (Z.ltb_spec (buf_offset + Z.of_nat k) (patch_offset + patch_size));
      cbn [andb]; try reflexivity; try (exfalso; subst count from onto; lia).
    rewrite nth_skipn. f_equal. subst from onto. lia.
Qed.

(** X7.  The buffer merge is compatible with streaming: merging a patch
    into two consecutive buffers of the archive gives the bytes of merging it
    into their concatenation. *)
Theorem patch_merge_chunks (b1 b2 : bytes) (buf_offset : Z) :
  0 <= buf_offset -> buf_offset + zlen b1 + zlen b2 < 2 ^ 64 ->
  fst (ncaWritePatchToMemoryBuffer ctx (Some p) patch_size patch_offset
         (b1 ++ b2) (zlen b1 + zlen b2) buf_offset)
  = fst (ncaWritePatchToMemoryBuffer ctx (Some p) patch_size patch_offset
           b1 (zlen b1) buf_offset)
    ++ fst (ncaWritePatchToMemoryBuffer ctx (Some p) patch_size patch_offset
              b2 (zlen b2) (buf_offset + zlen b1)).
Proof.
  intros Hbo Hbe.
  assert (Hz1 : 0 <= zlen b1) by (unfold zlen; lia).
  assert (Hz2 : 0 <= zlen b2) by (unfold zlen; lia).
  assert (Hz : zlen (b1 ++ b2) = zlen b1 + zlen b2).
  { unfold zlen. rewrite length_app. lia. }
  pose proof (fun k => write_patch_nth (b1 ++ b2) (zlen b1 + zlen b2) buf_offset k 0
                         Hz Hbo ltac:(lia)) as H12.
  pose proof (fun k => write_patch_nth b1 (zlen b1) buf_offset k 0
                         eq_refl Hbo ltac:(lia)) as H1.
  pose proof (fun k => write_patch_nth b2 (zlen b2) (buf_offset + zlen b1) k 0
                         eq_refl ltac:(lia) ltac:(lia)) as H2.
  cbv zeta in H12, H1, H2.
  set (r12 := fst (ncaWritePatchToMemoryBuffer ctx (Some p) patch_size patch_offset
                     (b1 ++ b2) (zlen b1 + zlen b2) buf_offset)) in *.
  set (r1 := fst (ncaWritePatchToMemoryBuffer ctx (Some p) patch_size patch_offset
                    b1 (zlen b1) buf_offset)) in *.
  set (r2 := fst (ncaWritePatchToMemoryBuffer ctx (Some p) patch_size patch_offset
                    b2 (zlen b2) (buf_offset + zlen b1))) in *.
  assert (L12 : length r12 = (length b1 + length b2)%nat).
  { pose proof (proj1 (H12 0%nat)) as H. unfold zlen in H. lia. }
  assert (L1 : length r1 = length b1).
  { pose proof (proj1 (H1 0%nat)) as H. unfold zlen in H. lia. }
  assert (L2 : length r2 = length b2).
  { pose proof (proj1 (H2 0%nat)) as H. unfold zlen in H. lia. }
  apply (nth_ext _ _ 0 0).
  - rewrite length_app. lia.
  - intros k Hk. rewrite L12 in Hk.
    rewrite (proj2 (H12 k)) by (rewrite length_app; lia).
    destruct (Nat.lt_ge_cases k (length b1)) as [Hlt | Hge].
    + rewrite (app_nth1 r1) by lia. rewrite (proj2 (H1 k)) by lia.
      rewrite (app_nth1 b1) by lia. reflexivity.
    + rewrite (app_nth2 r1) by lia. rewrite L1.
      rewrite (proj2 (H2 (k - length b1)%nat)) by lia.
      rewrite (app_nth2 b1) by lia.
      unfold zlen.
      replace (buf_offset + Z.of_nat (length b1) + Z.of_nat (k - length b1))
        with (buf_offset + Z.of_nat k) by lia.
      reflexivity.
Qed.

End MergeBytes.

Lemma patch_merge_chunks_witness :
  fst (ncaWritePatchToMemoryBuffer (example_ctx 0x1000) (Some [1; 2; 3; 4]) 4 0xC02
         ([0; 0; 0; 0] ++ [0; 0; 0]) (4 + 3) 0xC00)
  = fst (ncaWritePatchToMemoryBuffer (example_ctx 0x1000) (Some [1; 2; 3; 4]) 4 0xC02
           [0; 0; 0; 0] 4 0xC00)
    ++ fst (ncaWritePatchToMemoryBuffer (example_ctx 0x1000) (Some [1; 2; 3; 4]) 4 0xC02
              [0; 0; 0] 3 (0xC00 + 4)).
Proof.
  apply (patch_merge_chunks (example_ctx 0x1000) [1; 2; 3; 4] 4 0xC02).
  - reflexivity.
  - discriminate.
  - vm_compute. discriminate.
  - reflexivity.
  - reflexivity.
  - discriminate.
  - reflexivity.
Defined.

(** ** Writing the encrypted headers *)

Section HeaderWriter.

Variables buf_size buf_offset : Z.

(** What the section loop of the header writer keeps, and what a true
    [header_written] at its end tells. *)
Lemma write_fs_headers_inv (idx : list Z) :
  forall (ctx : NcaContext) (buf : bytes),
    NoDup idx ->
    (forall i, In i idx -> 0 <= i < Z.of_nat (length (fs_ctx ctx))) ->
    let r := write_fs_headers ctx idx buf buf_size buf_offset in
    length (fs_ctx (fst r)) = length (fs_ctx ctx)
    /\ content_size (fst r) = content_size ctx
    /\ format_version (fst r) = format_version ctx
    /\ encrypted_header (fst r) = encrypted_header ctx
    /\ (header_written (fst r) = true -> header_written ctx = true)
    /\ (forall j, 0 <= j -> ~ In j idx -> get_fs_ctx (fst r) j = get_fs_ctx ctx j)
    /\ (forall j, 0 <= j ->
          set_fs_header_written (get_fs_ctx (fst r) j) false
          = set_fs_header_written (get_fs_ctx ctx j) false)
    /\ (header_written (fst r) = true ->
        forall j, In j idx -> enabled (get_fs_ctx ctx j) = true ->
                  fs_header_written (get_fs_ctx (fst r) j) = true).
Proof.
  induction idx as [| i rest IH]; intros ctx buf Hnd Hin; cbv zeta.
  - cbn [write_fs_headers fst]. repeat split; auto; try (intros _ j []).
  - inversion_clear Hnd as [| ? ? Hni Hnd'].
    assert (Hi : 0 <= i < Z.of_nat (length (fs_ctx ctx))) by (apply Hin; now left).
    cbn [write_fs_headers].
    destruct (negb (enabled (get_fs_ctx ctx i)) || fs_header_written (get_fs_ctx ctx i))
      eqn:Hskip.
    + specialize (IH ctx buf Hnd' (fun j Hj => Hin j (or_intror Hj))). cbv zeta in IH.
      destruct IH as (I1 & I2 & I3 & I4 & I5 & I6 & I7 & I8).
      repeat split; auto.
      * intros j Hj Hnj. apply I6; [exact Hj |]. intros Hr. apply Hnj. now right.
      * intros Hw j [<- | Hj] He; [| now apply I8].
        rewrite I6 by (try exact Hni; lia).
        rewrite He in Hskip. exact Hskip.
    + apply orb_false_iff in Hskip. destruct Hskip as [Hen Hwr].
      apply negb_false_iff in Hen.
      destruct (ncaWritePatchToMemoryBuffer ctx _ _ _ buf buf_size buf_offset)
        as [buf1 r].
      set (s1 := set_fs_header_written (get_fs_ctx ctx i) r).
      set (ctx1 := if r then put_fs_ctx ctx i s1
                   else set_header_written (put_fs_ctx ctx i s1) false).
      assert (Hlen1 : length (fs_ctx ctx1) = length (fs_ctx ctx)).
      { subst ctx1. destruct r; cbn; apply length_set_nth. }
      assert (Hget1 : forall j, get_fs_ctx ctx1 j = get_fs_ctx (put_fs_ctx ctx i s1) j).
      { intros j. subst ctx1. destruct r; reflexivity. }
      specialize (IH ctx1 buf1 Hnd').
      assert (Hin1 : forall j, In j rest -> 0 <= j < Z.of_nat (length (fs_ctx ctx1))).
      { intros j Hj. rewrite Hlen1. apply Hin. now right. }
      specialize (IH Hin1). cbv zeta in IH.
      destruct IH as (I1 & I2 & I3 & I4 & I5 & I6 & I7 & I8).
      assert (Hw1 : header_written ctx1 = true -> header_written ctx = true /\ r = true).
      { subst ctx1. destruct r; cbn; [auto | discriminate]. }
      repeat split.
      * rewrite I1. exact Hlen1.
      * rewrite I2. subst ctx1. destruct r; reflexivity.
      * rewrite I3. subst ctx1. destruct r; reflexivity.
      * rewrite I4. subst ctx1. destruct r; reflexivity.
      * intros Hw. apply Hw1. now apply I5.
      * intros j Hj Hnj. rewrite I6; [| exact Hj | intros Hr; apply Hnj; now right].
        rewrite Hget1. apply get_put_fs_ctx_other; try lia.
        intros ->. apply Hnj. now left.
      * intros j Hj. rewrite I7 by exact Hj. rewrite Hget1.
        destruct (Z.eq_dec i j) as [<- | Hne].
        -- rewrite get_put_fs_ctx by exact Hi. subst s1.
           destruct (get_fs_ctx ctx i). reflexivity.
        -- rewrite get_put_fs_ctx_other by lia. reflexivity.
      * intros Hw j [<- | Hj] He.
        -- rewrite I6 by (try exact Hni; lia). rewrite Hget1.
           rewrite get_put_fs_ctx by exact Hi.
           destruct (Hw1 (I5 Hw)) as [_ ->]. subst s1.
           destruct (get_fs_ctx ctx i). reflexivity.
        -- apply I8; [exact Hw | exact Hj |].
           rewrite Hget1.
           destruct (Z.eq_dec i j) as [<- | Hne]; [contradiction |].
           rewrite get_put_fs_ctx_other; [exact He | lia | | exact Hne].
           apply (Hin j). now right.
Qed.

(** X8.  After [ncaWriteEncryptedHeaderDataToMemoryBuffer] a true
    [header_written] of the archive means that the header of every enabled
    section is written; the call changes nothing of a section but that
    flag, and nothing of the archive context but the flags. *)
Theorem header_written_sound (ctx : NcaContext) (buf : bytes) :
  length (fs_ctx ctx) = Z.to_nat NCA_FS_HEADER_COUNT ->
  let r := ncaWriteEncryptedHeaderDataToMemoryBuffer ctx buf buf_size buf_offset in
  (header_written ctx = true -> r = (ctx, buf))
  /\ (header_written ctx = false -> header_written (fst r) = true ->
      forall i, 0 <= i < NCA_FS_HEADER_COUNT ->
                enabled (get_fs_ctx (fst r) i) = true ->
                fs_header_written (get_fs_ctx (fst r) i) = true)
  /\ (forall i, 0 <= i < NCA_FS_HEADER_COUNT ->
                set_fs_header_written (get_fs_ctx (fst r) i) false
                = set_fs_header_written (get_fs_ctx ctx i) false)
  /\ set_header_written (set_fs_ctx (fst r) (fs_ctx ctx)) false
     = set_header_written ctx false.
Proof.
  intros Hlen. cbv zeta.
  unfold ncaWriteEncryptedHeaderDataToMemoryBuffer.
  destruct (header_written ctx) eqn:Hhw; cbn [orb].
  { repeat split; auto; discriminate. }
  destruct (_ || _ || _) eqn:Hg.
  { cbn [fst]. repeat split; auto; congruence. }
  split; [discriminate |].
  set (ctx0 := set_header_written ctx true).
  assert (Hnd : NoDup (upto NCA_FS_HEADER_COUNT)) by apply NoDup_upto.
  assert (Hin : forall i, In i (upto NCA_FS_HEADER_COUNT) ->
                          0 <= i < Z.of_nat (length (fs_ctx ctx0))).
  { intros i Hi. apply In_upto in Hi. subst ctx0. cbn [fs_ctx set_header_written].
    rewrite Hlen. unfold NCA_FS_HEADER_COUNT in *. lia. }
  assert (Hloop : forall b,
    let r := write_fs_headers ctx0 (upto NCA_FS_HEADER_COUNT) b buf_size buf_offset in
    (header_written (fst r) = true ->
      forall i, 0 <= i < NCA_FS_HEADER_COUNT ->
                enabled (get_fs_ctx (fst r) i) = true ->
                fs_header_written (get_fs_ctx (fst r) i) = true)
    /\ (forall i, 0 <= i < NCA_FS_HEADER_COUNT ->
                set_fs_header_written (get_fs_ctx (fst r) i) false
                = set_fs_header_written (get_fs_ctx ctx i) false)).
  { intros b. cbv zeta.
    destruct (write_fs_headers_inv (upto NCA_FS_HEADER_COUNT) ctx0 b Hnd Hin)
      as (I1 & I2 & I3 & I4 & I5 & I6 & I7 & I8).
    split.
    - intros Hw i Hi He. apply I8; [exact Hw | now apply In_upto |].
      specialize (I7 i ltac:(lia)).
      apply (f_equal enabled) in I7.
      destruct (get_fs_ctx (fst _) i), (get_fs_ctx ctx0 i); cbn in *. congruence.
    - intros i Hi. rewrite I7 by lia. reflexivity. }
  assert (Hctx : forall b,
    set_header_written
      (set_fs_ctx (fst (write_fs_headers ctx0 (upto NCA_FS_HEADER_COUNT) b
                                         buf_size buf_offset)) (fs_ctx ctx)) false
    = set_header_written ctx false).
  { intros b. generalize (upto NCA_FS_HEADER_COUNT) as idx.
    assert (G : forall idx c b0,
      set_header_written (set_fs_ctx c (fs_ctx ctx)) false = set_header_written ctx false ->
      set_header_written
        (set_fs_ctx (fst (write_fs_headers c idx b0 buf_size buf_offset)) (fs_ctx ctx))
        false = set_header_written ctx false).
    { induction idx as [| i rest IH]; intros c b0 Hc; [exact Hc |].
      cbn [write_fs_headers].
      match goal with |- context [if ?g then _ else _] => destruct g end;
        [now apply IH |].
      destruct (ncaWritePatchToMemoryBuffer c _ _ _ b0 buf_size buf_offset) as [b1 r].
      apply IH. rewrite <- Hc. destruct r; destruct c; reflexivity. }
    intros idx. apply G. subst ctx0. destruct ctx; reflexivity. }
  destruct (buf_offset <? NCA_HEADER_LENGTH).
  - destruct (ncaWritePatchToMemoryBuffer ctx0 _ _ _ buf buf_size buf_offset)
      as [buf1 r].
    destruct r; cbn [negb].
    + destruct (Hloop buf1) as [H1 H2].
      split; [intros _; exact H1 |]. split; [exact H2 |]. apply Hctx.
    + cbn [fst]. split; [discriminate |]. split; [reflexivity |].
      subst ctx0. destruct ctx; reflexivity.
  - destruct (Hloop buf) as [H1 H2].
    split; [intros _; exact H1 |]. split; [exact H2 |]. apply Hctx.
Qed.

End HeaderWriter.

(** A patch whose range lies inside the buffer range is fully written. *)
Lemma write_patch_full (ctx : NcaContext) (p : bytes) (patch_size patch_offset : Z)
    (buf : bytes) (buf_size buf_offset : Z) :
  0 < patch_size -> 0 <= buf_offset -> buf_offset <= patch_offset ->
  patch_offset + patch_size <= buf_offset + buf_size ->
  patch_offset + patch_size <= content_size ctx ->
  content_size ctx < 2 ^ 64 -> buf_offset + buf_size < 2 ^ 64 ->
  snd (ncaWritePatchToMemoryBuffer ctx (Some p) patch_size patch_offset
                                   buf buf_size buf_offset) = true.
Proof.
  intros Hps Hbo Hle Hin Hc Hcs Hbe.
  rewrite write_patch_merge by lia. unfold patch_merge_spec.
  destruct (Z.leb_spec (buf_offset + buf_size) patch_offset); [lia |].
  destruct (Z.leb_spec (patch_offset + patch_size) buf_offset); [lia |].
  cbn [orb snd]. apply Z.leb_le. lia.
Qed.

Section HeaderBlock.

Variable buf_size : Z.
Variable d : Z.

(** The window of section header [i] in a V2 or V3 archive. *)
Local Abbreviation fs_off i := (NCA_HEADER_LENGTH + i * NCA_FS_HEADER_LENGTH).

Lemma write_fs_headers_bytes (idx : list Z) :
  forall (ctx : NcaContext) (buf : bytes),
    NoDup idx ->
    (forall i, In i idx -> 0 <= i < NCA_FS_HEADER_COUNT) ->
    length (fs_ctx ctx) = Z.to_nat NCA_FS_HEADER_COUNT ->
    format_version ctx <> NcaVersion_Nca0 ->
    NCA_FULL_HEADER_LENGTH <= buf_size <= content_size ctx ->
    content_size ctx < 2 ^ 64 ->
    zlen buf = buf_size ->
    (forall i, In i idx -> zlen (fs_encrypted_header (get_fs_ctx ctx i))
                           = NCA_FS_HEADER_LENGTH) ->
    let r := write_fs_headers ctx idx buf buf_size 0 in
    zlen (snd r) = buf_size
    /\ header_written (fst r) = header_written ctx
    /\ forall k : nat,
         (forall i, In i idx -> enabled (get_fs_ctx ctx i) = true ->
            fs_header_written (get_fs_ctx ctx i) = false ->
            fs_off i <= Z.of_nat k < fs_off i + NCA_FS_HEADER_LENGTH ->
            nth k (snd r) d
            = nth (Z.to_nat (Z.of_nat k - fs_off i))
                  (fs_encrypted_header (get_fs_ctx ctx i)) d)
         /\ ((forall i, In i idx -> enabled (get_fs_ctx ctx i) = true ->
                fs_header_written (get_fs_ctx ctx i) = false ->
                ~ (fs_off i <= Z.of_nat k < fs_off i + NCA_FS_HEADER_LENGTH)) ->
             nth k (snd r) d = nth k buf d).
Proof.
  induction idx as [| i rest IH];
    intros ctx buf Hnd Hin Hlen Hv Hbs Hcs Hb Hfe; cbv zeta.
  - cbn [write_fs_headers fst snd]. split; [exact Hb |]. split; [reflexivity |].
    intros k. split; [intros i [] | reflexivity].
  - inversion_clear Hnd as [| ? ? Hni Hnd'].
    assert (Hi : 0 <= i < NCA_FS_HEADER_COUNT) by (apply Hin; now left).
    assert (Hi' : 0 <= i < Z.of_nat (length (fs_ctx ctx))).
    { rewrite Hlen. unfold NCA_FS_HEADER_COUNT in *. lia. }
    cbn [write_fs_headers].
    destruct (negb (enabled (get_fs_ctx ctx i)) || fs_header_written (get_fs_ctx ctx i))
      eqn:Hskip.
    + specialize (IH ctx buf Hnd' (fun j Hj => Hin j (or_intror Hj)) Hlen Hv Hbs Hcs Hb
                     (fun j Hj => Hfe j (or_intror Hj))).
      cbv zeta in IH. destruct IH as (I1 & I2 & I3).
      split; [exact I1 |]. split; [exact I2 |].
      intros k. destruct (I3 k) as [I3a I3b]. split.
      * intros j [<- | Hj] He Hw Hk; [| now apply I3a].
        rewrite He, Hw in Hskip. discriminate.
      * intros Hout. apply I3b. intros j Hj. apply Hout. now right.
    + apply orb_false_iff in Hskip. destruct Hskip as [Hen Hwr].
      apply negb_false_iff in Hen.
      replace (format_version ctx =? NcaVersion_Nca0) with false
        by (symmetry; now apply Z.eqb_neq).
      cbn [negb].
      set (p := fs_encrypted_header (get_fs_ctx ctx i)).
      assert (Hp : zlen p = NCA_FS_HEADER_LENGTH) by (apply Hfe; now left).
      assert (Hwin : fs_off i + NCA_FS_HEADER_LENGTH <= NCA_FULL_HEADER_LENGTH).
      { unfold NCA_FULL_HEADER_LENGTH, NCA_HEADER_LENGTH, NCA_FS_HEADER_LENGTH,
          NCA_FS_HEADER_COUNT in *. lia. }
      assert (Hconst : 0 < NCA_FS_HEADER_LENGTH /\ 0 < NCA_HEADER_LENGTH)
        by (split; reflexivity).
      pose proof (write_patch_full ctx p NCA_FS_HEADER_LENGTH (fs_off i) buf buf_size 0
                    ltac:(lia) ltac:(lia) ltac:(lia) ltac:(lia) ltac:(lia) Hcs ltac:(lia))
        as Hfull.
      pose proof (fun k => write_patch_nth ctx p NCA_FS_HEADER_LENGTH (fs_off i)
                    ltac:(lia) ltac:(lia) ltac:(lia) Hcs Hp buf buf_size 0 k d Hb
                    ltac:(lia) ltac:(lia)) as Hnth.
      cbv zeta in Hnth.
      destruct (ncaWritePatchToMemoryBuffer ctx (Some p) NCA_FS_HEADER_LENGTH (fs_off i)
                  buf buf_size 0) as [buf1 r].
      cbn [fst snd] in Hfull, Hnth. subst r.
      set (ctx1 := put_fs_ctx ctx i (set_fs_header_written (get_fs_ctx ctx i) true)).
      assert (Hget : forall j, In j rest -> get_fs_ctx ctx1 j = get_fs_ctx ctx j).
      { intros j Hj. subst ctx1. apply get_put_fs_ctx_other.
        - lia.
        - apply (Hin j). now right.
        - intros ->. contradiction. }
      assert (Hb1 : zlen buf1 = buf_size) by (apply (proj1 (Hnth 0%nat))).
      specialize (IH ctx1 buf1 Hnd' (fun j Hj => Hin j (or_intror Hj))).
      assert (Hlen1 : length (fs_ctx ctx1) = Z.to_nat NCA_FS_HEADER_COUNT).
      { subst ctx1. cbn. rewrite length_set_nth. exact Hlen. }
      specialize (IH Hlen1 Hv Hbs Hcs Hb1).
      assert (Hfe1 : forall j, In j rest ->
                zlen (fs_encrypted_header (get_fs_ctx ctx1 j)) = NCA_FS_HEADER_LENGTH).
      { intros j Hj. rewrite Hget by exact Hj. apply Hfe. now right. }
      specialize (IH Hfe1). cbv zeta in IH. destruct IH as (I1 & I2 & I3).
      split; [exact I1 |]. split; [exact I2 |].
      intros k. destruct (I3 k) as [I3a I3b].
      assert (Hlb : length buf1 = length buf).
      { unfold zlen in *. lia. }
      split.
      * intros j [<- | Hj] He Hw Hk.
        -- rewrite I3b.
           ++ destruct (Hnth k) as [_ Hn]. rewrite Hn by (unfold zlen in *; lia).
              destruct (Z.leb_spec (fs_off i) (0 + Z.of_nat k)); [| lia].
              destruct (Z.ltb_spec (0 + Z.of_nat k) (fs_off i + NCA_FS_HEADER_LENGTH));
                [| lia].
              cbn [andb]. f_equal.
           ++ intros j Hj He' Hw' Hk'.
              assert (j <> i) by (intros ->; contradiction).
              assert (0 <= j < NCA_FS_HEADER_COUNT) by (apply Hin; now right).
              unfold NCA_FS_HEADER_LENGTH, NCA_HEADER_LENGTH in *. lia.
        -- rewrite <- (Hget j Hj). apply I3a; try assumption;
             rewrite (Hget j Hj); assumption.
      * intros Hout. rewrite I3b.
        -- destruct (Nat.lt_ge_cases k (length buf)) as [Hlt | Hge].
           ++ destruct (Hnth k) as [_ Hn]. rewrite Hn by exact Hlt.
              destruct (Z.leb_spec (fs_off i) (0 + Z.of_nat k)); [| reflexivity].
              destruct (Z.ltb_spec (0 + Z.of_nat k) (fs_off i + NCA_FS_HEADER_LENGTH));
                [| reflexivity].
              exfalso. apply (Hout i); [now left | exact Hen | exact Hwr | lia].
           ++ rewrite !nth_overflow by lia. reflexivity.
        -- intros j Hj He Hw. rewrite (Hget j Hj) in He, Hw.
           apply Hout; [now right | exact He | exact Hw].
Qed.

(** X9.  A buffer that starts at offset 0 of a V2 or V3 archive and holds
    at least the full header block receives, in one call, the encrypted
    archive header at offset 0 and the encrypted header of every enabled
    section that is not written yet at [0x400 + i * 0x200]; everything from
    0xC00 on keeps its value, and [header_written] becomes true. *)
Theorem header_block_written (ctx : NcaContext) (buf : bytes) :
  zlen buf = buf_size ->
  format_version ctx <> NcaVersion_Nca0 ->
  header_written ctx = false ->
  length (fs_ctx ctx) = Z.to_nat NCA_FS_HEADER_COUNT ->
  NCA_FULL_HEADER_LENGTH <= buf_size <= content_size ctx ->
  content_size ctx < 2 ^ 64 ->
  zlen (encrypted_header ctx) = NCA_HEADER_LENGTH ->
  (forall i, 0 <= i < NCA_FS_HEADER_COUNT ->
             zlen (fs_encrypted_header (get_fs_ctx ctx i)) = NCA_FS_HEADER_LENGTH) ->
  let r := ncaWriteEncryptedHeaderDataToMemoryBuffer ctx buf buf_size 0 in
  header_written (fst r) = true
  /\ zlen (snd r) = buf_size
  /\ (forall k, 0 <= k < NCA_HEADER_LENGTH ->
                nth (Z.to_nat k) (snd r) d = nth (Z.to_nat k) (encrypted_header ctx) d)
  /\ (forall i k, 0 <= i < NCA_FS_HEADER_COUNT ->
                  enabled (get_fs_ctx ctx i) = true ->
                  fs_header_written (get_fs_ctx ctx i) = false ->
                  0 <= k < NCA_FS_HEADER_LENGTH ->
                  nth (Z.to_nat (fs_off i + k)) (snd r) d
                  = nth (Z.to_nat k) (fs_encrypted_header (get_fs_ctx ctx i)) d)
  /\ (forall k, NCA_FULL_HEADER_LENGTH <= k ->
                nth (Z.to_nat k) (snd r) d = nth (Z.to_nat k) buf d).
Proof.
  intros Hb Hv Hhw Hlen Hbs Hcs Hzh Hzf. cbv zeta.
  unfold ncaWriteEncryptedHeaderDataToMemoryBuffer. rewrite Hhw. cbn [orb].
  assert (Hconst : NCA_FULL_HEADER_LENGTH = 0xC00 /\ NCA_HEADER_LENGTH = 0x400
                   /\ NCA_FS_HEADER_LENGTH = 0x200 /\ NCA_FS_HEADER_COUNT = 4)
    by (repeat split; reflexivity).
  destruct Hconst as (C1 & C2 & C3 & C4).
  replace (content_size ctx <? NCA_FULL_HEADER_LENGTH) with false
    by (symmetry; apply Z.ltb_ge; lia).
  replace (buf_size =? 0) with false by (symmetry; apply Z.eqb_neq; lia).
  replace (add64 0 buf_size >? content_size ctx) with false.
  2: { symmetry. unfold add64. rewrite u64_small by lia.
       rewrite Z.gtb_ltb. apply Z.ltb_ge. lia. }
  cbn [orb].
  replace (0 <? NCA_HEADER_LENGTH) with true by reflexivity.
  set (ctx0 := set_header_written ctx true).
  pose proof (write_patch_full ctx0 (encrypted_header ctx0) NCA_HEADER_LENGTH 0 buf
                buf_size 0 ltac:(lia) ltac:(lia) ltac:(lia) ltac:(lia)
                ltac:(cbn; lia) Hcs ltac:(lia)) as Hfull.
  pose proof (fun k => write_patch_nth ctx0 (encrypted_header ctx0) NCA_HEADER_LENGTH 0
                ltac:(lia) ltac:(lia) ltac:(cbn; lia) Hcs Hzh buf buf_size 0 k d Hb
                ltac:(lia) ltac:(lia)) as Hnth.
  cbv zeta in Hnth.
  destruct (ncaWritePatchToMemoryBuffer ctx0 (Some (encrypted_header ctx0))
              NCA_HEADER_LENGTH 0 buf buf_size 0) as [buf1 r].
  cbn [fst snd] in Hfull, Hnth. subst r. cbn [negb].
  assert (Hb1 : zlen buf1 = buf_size) by (apply (proj1 (Hnth 0%nat))).
  assert (Hin : forall i, In i (upto NCA_FS_HEADER_COUNT) -> 0 <= i < NCA_FS_HEADER_COUNT)
    by (intros i Hi; now apply In_upto).
  destruct (write_fs_headers_bytes (upto NCA_FS_HEADER_COUNT) ctx0 buf1
              (NoDup_upto _) Hin Hlen Hv Hbs Hcs Hb1
              (fun i Hi => Hzf i (Hin i Hi))) as (L1 & L2 & L3).
  split; [rewrite L2; reflexivity |]. split; [exact L1 |].
  assert (Hlb : length buf1 = length buf) by (unfold zlen in *; lia).
  split; [| split].
  - intros k Hk. destruct (L3 (Z.to_nat k)) as [_ L3b]. rewrite L3b.
    + destruct (Hnth (Z.to_nat k)) as [_ Hn]. rewrite Hn by (unfold zlen in *; lia).
      destruct (Z.leb_spec 0 (0 + Z.of_nat (Z.to_nat k))); [| lia].
      destruct (Z.ltb_spec (0 + Z.of_nat (Z.to_nat k)) (0 + NCA_HEADER_LENGTH)); [| lia].
      cbn [andb]. f_equal. lia.
    + intros i Hi _ _. apply Hin in Hi. lia.
  - intros i k Hi He Hw Hk. destruct (L3 (Z.to_nat (fs_off i + k))) as [L3a _].
    rewrite (L3a i); [f_equal; lia | now apply In_upto | exact He | exact Hw | lia].
  - intros k Hk. destruct (L3 (Z.to_nat k)) as [_ L3b]. rewrite L3b.
    + destruct (Nat.lt_ge_cases (Z.to_nat k) (length buf)) as [Hlt | Hge].
      * destruct (Hnth (Z.to_nat k)) as [_ Hn]. rewrite Hn by exact Hlt.
        destruct (Z.leb_spec 0 (0 + Z.of_nat (Z.to_nat k))); [| lia].
        destruct (Z.ltb_spec (0 + Z.of_nat (Z.to_nat k)) (0 + NCA_HEADER_LENGTH));
          [lia | reflexivity].
      * rewrite !nth_overflow by lia. reflexivity.
    + intros i Hi _ _. apply Hin in Hi. lia.
Qed.

End HeaderBlock.

Lemma header_written_sound_witness :
  let r := ncaWriteEncryptedHeaderDataToMemoryBuffer Example.ctx_v3 (calloc 0xC00) 0xC00 0 in
  header_written (fst r) = true
  /\ enabled (get_fs_ctx (fst r) 0) = true
  /\ fs_header_written (get_fs_ctx (fst r) 0) = true.
Proof.
  cbv zeta.
  assert (Hw : header_written
                 (fst (ncaWriteEncryptedHeaderDataToMemoryBuffer Example.ctx_v3
                         (calloc 0xC00) 0xC00 0)) = true) by (vm_compute; reflexivity).
  assert (He : enabled
                 (get_fs_ctx
                    (fst (ncaWriteEncryptedHeaderDataToMemoryBuffer Example.ctx_v3
                            (calloc 0xC00) 0xC00 0)) 0) = true) by (vm_compute; reflexivity).
  split; [exact Hw |]. split; [exact He |].
  refine (proj1 (proj2 (header_written_sound 0xC00 0 Example.ctx_v3 (calloc 0xC00) _))
            _ Hw 0 _ He).
  - vm_compute. reflexivity.
  - vm_compute. reflexivity.
  - split; [discriminate | reflexivity].
Defined.

Lemma header_block_written_witness :
  let r := ncaWriteEncryptedHeaderDataToMemoryBuffer Example.ctx_v3 (calloc 0xD00) 0xD00 0 in
  header_written (fst r) = true
  /\ nth 0x3FF (snd r) 0 = nth 0x3FF (encrypted_header Example.ctx_v3) 0
  /\ nth 0x400 (snd r) 0 = nth 0 (fs_encrypted_header (get_fs_ctx Example.ctx_v3 0)) 0.
Proof.
  cbv zeta.
  assert (Hf : forall i, 0 <= i < NCA_FS_HEADER_COUNT ->
                 zlen (fs_encrypted_header (get_fs_ctx Example.ctx_v3 i))
                 = NCA_FS_HEADER_LENGTH).
  { intros i Hi. unfold NCA_FS_HEADER_COUNT in Hi.
    assert (Hc : i = 0 \/ i = 1 \/ i = 2 \/ i = 3) by lia.
    destruct Hc as [-> | [-> | [-> | ->]]]; vm_compute; reflexivity. }
  destruct (header_block_written 0xD00 0 Example.ctx_v3 (calloc 0xD00))
    as (H1 & _ & H3 & H4 & _).
  - vm_compute. reflexivity.
  - vm_compute. discriminate.
  - vm_compute. reflexivity.
  - vm_compute. reflexivity.
  - vm_compute. split; discriminate.
  - vm_compute. reflexivity.
  - vm_compute. reflexivity.
  - exact Hf.
  - split; [exact H1 |]. split.
    + apply (H3 0x3FF). split; [discriminate | reflexivity].
    + apply (H4 0 0).
      * split; [discriminate | reflexivity].
      * vm_compute. reflexivity.
      * vm_compute. reflexivity.
      * split; [discriminate | reflexivity].
Defined.

(** ** Reads of the CTR-Ex storage *)

Section BktrReadProperties.

Variable E : NcaEnv.
Variable aes128CtrUpdatePartialCtrEx : bytes -> Z -> Z -> bytes.

Lemma bktr_read_fuel_enough (fuel : nat) (crypto_buffer : bool)
    (nca_ctx : NcaContext) (ctx : NcaFsSectionContext) (ctr_val : Z) :
  forall read_size offset : Z,
    0 <= read_size < 2 ^ 64 ->
    (Z.to_nat (read_size / (NCA_CRYPTO_BUFFER_SIZE - NCA_AES_XTS_SECTOR_SIZE)) < fuel)%nat ->
    _ncaReadAesCtrExStorageFromBktrSection_fuel E aes128CtrUpdatePartialCtrEx fuel
      crypto_buffer nca_ctx ctx read_size offset ctr_val <> OutOfFuel.
Proof.
  induction fuel as [| fuel IH]; intros read_size offset Hrs Hfuel; [lia |].
  cbn [_ncaReadAesCtrExStorageFromBktrSection_fuel].
  destruct (bktr_section_invalid _ _ _ _); [discriminate |].
  destruct (bktr_archive_invalid _ _ _); [discriminate |].
  destruct (_ && _).
  - destruct (ncaReadContentFile E _ _ _); discriminate.
  - destruct (ncaReadContentFile E _ _ _); [| discriminate].
    destruct (_ >? _) eqn:Hbig; [| discriminate].
    pose proof (read_chunk_decreases AES_BLOCK_SIZE
                  (add64 (section_offset ctx) offset) read_size
                  (or_introl eq_refl) (u64_range _) Hrs) as Hdec.
    cbv zeta in Hdec.
    apply Z.gtb_lt in Hbig. specialize (Hdec ltac:(lia)).
    set (ocs := sub64 NCA_CRYPTO_BUFFER_SIZE _) in *.
    assert (Hsub : sub64 read_size ocs = read_size - ocs).
    { unfold sub64, u64. apply Z.mod_small.
      unfold NCA_CRYPTO_BUFFER_SIZE, NCA_AES_XTS_SECTOR_SIZE in Hdec. lia. }
    specialize (IH (sub64 read_size ocs) (add64 offset ocs)).
    rewrite Hsub in *.
    assert (Hlt : (Z.to_nat ((read_size - ocs)
                             / (NCA_CRYPTO_BUFFER_SIZE - NCA_AES_XTS_SECTOR_SIZE))
                   < fuel)%nat).
    { revert Hfuel Hdec. unfold NCA_CRYPTO_BUFFER_SIZE, NCA_AES_XTS_SECTOR_SIZE.
      intros Hfuel Hdec.
      assert ((read_size - ocs) / (8388608 - 512) < read_size / (8388608 - 512)).
      { Z.to_euclidean_division_equations. lia. }
      assert (0 <= (read_size - ocs) / (8388608 - 512)).
      { apply Z.div_pos; lia. }
      lia. }
    assert (Hrange : 0 <= read_size - ocs < 2 ^ 64).
    { unfold NCA_CRYPTO_BUFFER_SIZE, NCA_AES_XTS_SECTOR_SIZE in Hdec. lia. }
    specialize (IH Hrange Hlt).
    destruct (_ncaReadAesCtrExStorageFromBktrSection_fuel E _ fuel _ _ _ _ _ _);
      congruence.
Qed.

(** X10.  [_ncaReadAesCtrExStorageFromBktrSection] terminates on every read
    of a u64 size, and it succeeds only on an enabled Patch RomFS section
    with CTR-Ex encryption, for a non-empty range that passes the two bound
    tests of the code: [offset + read_size], taken modulo 2^64, is at most
    the section size, and [section_offset + offset + read_size], taken
    modulo 2^64, is at most the archive size.  Where neither sum wraps the
    range lies inside the section and the archive in exact arithmetic; a
    sum that wraps can pass the tests with a range that does not.  On any
    other section the read fails whatever the range. *)
Theorem bktr_read_guarded (crypto_buffer : bool) (nca_ctx : NcaContext)
    (ctx : NcaFsSectionContext) (read_size offset ctr_val : Z) :
  0 <= read_size < 2 ^ 64 ->
  _ncaReadAesCtrExStorageFromBktrSection_fuel E aes128CtrUpdatePartialCtrEx
    (read_fuel read_size) crypto_buffer nca_ctx ctx read_size offset ctr_val
  <> OutOfFuel
  /\ (forall out,
        _ncaReadAesCtrExStorageFromBktrSection E aes128CtrUpdatePartialCtrEx
          crypto_buffer nca_ctx ctx read_size offset ctr_val = Some out ->
        crypto_buffer = true /\ enabled ctx = true
        /\ section_type ctx = NcaFsSectionType_PatchRomFs
        /\ encryption_type ctx = NcaEncryptionType_AesCtrEx
        /\ read_size <> 0
        /\ add64 offset read_size <= section_size ctx
        /\ add64 (add64 (section_offset ctx) offset) read_size <= content_size nca_ctx
        /\ (0 <= offset -> 0 <= section_offset ctx ->
            offset + read_size < 2 ^ 64 ->
            section_offset ctx + offset + read_size < 2 ^ 64 ->
            offset + read_size <= section_size ctx
            /\ section_offset ctx + offset + read_size <= content_size nca_ctx))
  /\ (section_type ctx <> NcaFsSectionType_PatchRomFs
      \/ encryption_type ctx <> NcaEncryptionType_AesCtrEx ->
      forall fuel,
        _ncaReadAesCtrExStorageFromBktrSection_fuel E aes128CtrUpdatePartialCtrEx
          (S fuel) crypto_buffer nca_ctx ctx read_size offset ctr_val = Failed).
Proof.
  intros Hrs. split; [| split].
  - apply bktr_read_fuel_enough; [exact Hrs |]. unfold read_fuel. lia.
  - intros out. unfold _ncaReadAesCtrExStorageFromBktrSection, read_fuel.
    cbn [_ncaReadAesCtrExStorageFromBktrSection_fuel].
    destruct (bktr_section_invalid _ _ _ _) eqn:Hs; [discriminate |].
    destruct (bktr_archive_invalid _ _ _) eqn:Ha; [discriminate |].
    intros _. unfold bktr_section_invalid in Hs. unfold bktr_archive_invalid in Ha.
    repeat match goal with
           | H : _ || _ = false |- _ => apply orb_false_iff in H as [H ?]
           end.
    repeat match goal with
           | H : negb (_ =? _) = false |- _ => apply negb_false_iff, Z.eqb_eq in H
           | H : negb _ = false |- _ => apply negb_false_iff in H
           | H : (_ =? 0) = false |- _ => apply Z.eqb_neq in H
           | H : (_ >? _) = false |- _ => rewrite Z.gtb_ltb in H; apply Z.ltb_ge in H
           end.
    repeat match goal with |- _ /\ _ => split end; try assumption.
    intros Ho Hso Hw1 Hw2.
    match goal with
    | Hin : add64 offset read_size <= _,
      Har : add64 (add64 (section_offset ctx) offset) read_size <= _ |- _ =>
      revert Hin Har
    end.
    unfold add64, u64.
    rewrite (Z.mod_small (offset + read_size)) by lia.
    rewrite (Z.mod_small (section_offset ctx + offset)) by lia.
    rewrite (Z.mod_small (section_offset ctx + offset + read_size)) by lia.
    intros Hin Har. split; assumption.
  - intros Hno fuel. cbn [_ncaReadAesCtrExStorageFromBktrSection_fuel].
    replace (bktr_section_invalid crypto_buffer ctx read_size offset) with true;
      [reflexivity |].
    symmetry. unfold bktr_section_invalid.
    destruct Hno as [Hno | Hno]; apply Z.eqb_neq in Hno; rewrite Hno;
      cbn [negb]; rewrite ?orb_true_r; reflexivity.
Qed.

End BktrReadProperties.

Lemma bktr_read_guarded_witness :
  let bktr := set_section_type
                (set_encryption_type (get_fs_ctx Example.ctx_v3 0)
                   NcaEncryptionType_AesCtrEx) NcaFsSectionType_PatchRomFs in
  let upd := fun (ctr : bytes) (ctr_val offset : Z) =>
               aes128CtrUpdatePartialCtr Example.env_v3 ctr (offset + ctr_val) in
  _ncaReadAesCtrExStorageFromBktrSection Example.env_v3 upd true Example.ctx_v3
    bktr 3 5 1 <> None
  /\ _ncaReadAesCtrExStorageFromBktrSection_fuel Example.env_v3 upd 1 true
       Example.ctx_v3 (get_fs_ctx Example.ctx_v3 0) 3 5 1 = Failed.
Proof.
  cbv zeta. split; [vm_compute; discriminate |].
  refine (proj2 (proj2 (bktr_read_guarded Example.env_v3 _ true Example.ctx_v3
                          (get_fs_ctx Example.ctx_v3 0) 3 5 1 _)) _ 0%nat).
  - split; [discriminate | reflexivity].
  - left. vm_compute. discriminate.
Defined.

(** ** Hash-tree patch generation *)

Section PatchGeneration.

Variable L : NcaLayout.
Variable E : NcaEnv.

Ltac step H :=
  match type of H with
  | (if ?c then _ else _) = _ => destruct c eqn:?; try discriminate H
  | match ?x with _ => _ end = _ => destruct x eqn:?; try discriminate H
  end.

(** What the layer loop leaves when it succeeds: an entry with a block for
    every layer it processed, the other entries as they were, and a section
    record that differs from the one it started with in the header only
    (the record of [patch_layers], which does not carry the counter writes
    of the code). *)
Lemma patch_layers_shape (n : nat) (crypto_buffer : bool) (nca_ctx : NcaContext)
    (is_integrity_patch : bool) :
  forall (ctx : NcaFsSectionContext) (cur_data : bytes)
         (cur_data_offset cur_data_size : Z) (entries es : list NcaHashDataPatch)
         (ctx' : NcaFsSectionContext),
    patch_layers L E n crypto_buffer nca_ctx ctx is_integrity_patch cur_data
                 cur_data_offset cur_data_size entries = (Some es, ctx') ->
    (n <= length entries)%nat ->
    length es = length entries
    /\ (forall j, 0 <= j < Z.of_nat n ->
          hdp_data (nth_z es j hdp_zero) <> None
          /\ hdp_written (nth_z es j hdp_zero) = hdp_written (nth_z entries j hdp_zero))
    /\ (forall j, Z.of_nat n <= j -> nth_z es j hdp_zero = nth_z entries j hdp_zero)
    /\ set_fs_header ctx' [] = set_fs_header ctx [].
Proof.
  induction n as [| n IH];
    intros ctx cur_data cur_data_offset cur_data_size entries es ctx' Hrun Hlen.
  - cbn [patch_layers] in Hrun. injection Hrun as <- <-.
    split; [reflexivity |]. split; [intros j Hj; lia |]. split; reflexivity.
  - cbn [patch_layers] in Hrun.
    step Hrun. step Hrun.
    destruct (Z.of_nat (S n) >? 1) eqn:Hi; cbv beta iota in Hrun.
    + match type of Hrun with
      | context [match _ncaReadFsSection E ?a ?b ?c ?d ?e with _ => _ end] =>
        destruct (_ncaReadFsSection E a b c d e) eqn:Hprd; [| discriminate Hrun]
      end.
      cbv beta iota in Hrun.
      match type of Hrun with
      | match ?x with _ => _ end = _ => destruct x as [[[block bs] bo] |] eqn:Hgen;
                                        [| discriminate Hrun]
      end.
      apply IH in Hrun; [| rewrite length_set_nth; apply Z.gtb_lt in Hi; lia].
      destruct Hrun as (H1 & H2 & H3 & H4).
      rewrite length_set_nth in H1.
      split; [exact H1 |]. split; [| split; [| exact H4]].
      * intros j Hj. destruct (Z.eq_dec j (Z.of_nat n)) as [-> | Hne].
        -- rewrite H3 by lia.
           replace (Z.of_nat (S n) - 1) with (Z.of_nat n) by lia.
           rewrite nth_set_nth_same by lia. cbn. split; [discriminate | reflexivity].
        -- destruct (H2 j ltac:(lia)) as [H2a H2b]. split; [exact H2a |].
           rewrite H2b. rewrite nth_set_nth_other by lia. reflexivity.
      * intros j Hj. rewrite H3 by lia. rewrite nth_set_nth_other by lia. reflexivity.
    + match type of Hrun with
      | match ?x with _ => _ end = _ => destruct x as [[[block bs] bo] |] eqn:Hgen;
                                        [| discriminate Hrun]
      end.
      injection Hrun as <- <-.
      assert (Hn : n = 0%nat) by (rewrite Z.gtb_ltb in Hi; apply Z.ltb_ge in Hi; lia).
      subst n. rewrite length_set_nth.
      split; [reflexivity |]. split; [| split; [| destruct ctx; reflexivity]].
      * intros j Hj. assert (j = 0) by lia. subst j.
        match goal with |- context [set_nth entries ?i _] => change i with 0 end.
        rewrite nth_set_nth_same by lia. cbn. split; [discriminate | reflexivity].
      * intros j Hj.
        match goal with |- context [set_nth entries ?i _] => change i with 0 end.
        rewrite nth_set_nth_other by lia. reflexivity.
Qed.

(** Whatever the outcome, the layer loop changes nothing of the section
    record of [patch_layers] but its header. *)
Lemma patch_layers_frame (n : nat) (crypto_buffer : bool) (nca_ctx : NcaContext)
    (is_integrity_patch : bool) :
  forall (ctx : NcaFsSectionContext) (cur_data : bytes)
         (cur_data_offset cur_data_size : Z) (entries : list NcaHashDataPatch),
    set_fs_header
      (snd (patch_layers L E n crypto_buffer nca_ctx ctx is_integrity_patch cur_data
                         cur_data_offset cur_data_size entries)) []
    = set_fs_header ctx [].
Proof.
  induction n as [| n IH]; intros ctx cur_data cur_data_offset cur_data_size entries.
  - reflexivity.
  - cbn [patch_layers].
    match goal with |- context [if ?c then (None, ctx) else _] => destruct c end;
      [reflexivity |].
    match goal with
    | |- context [match _ncaReadFsSection E ?a ?b ?c ?d ?e with _ => _ end] =>
      destruct (_ncaReadFsSection E a b c d e); [| reflexivity]
    end.
    destruct (Z.of_nat (S n) >? 1).
    + match goal with
      | |- context [match _ncaReadFsSection E ?a ?b ?c ?d ?e with _ => _ end] =>
        destruct (_ncaReadFsSection E a b c d e); [| reflexivity]
      end.
      match goal with
      | |- context [match ?x with Some _ => _ | None => (None, ctx) end] =>
        destruct x as [[[block bs] bo] |]; [| reflexivity]
      end.
      apply IH.
    + match goal with
      | |- context [match ?x with Some _ => _ | None => _ end] =>
        destruct x as [[[block bs] bo] |]; cbn [snd]; destruct ctx; reflexivity
      end.
Qed.

Lemma nth_z_repeat {A : Type} (x : A) (n : nat) (j : Z) : nth_z (repeat x n) j x = x.
Proof. unfold nth_z. apply nth_repeat. Qed.

Lemma released_entries_zero (is_integrity_patch : bool) (j : Z) :
  nth_z (released_entries is_integrity_patch) j hdp_zero = hdp_zero.
Proof. destruct is_integrity_patch; apply nth_z_repeat. Qed.

Lemma patch_layer_count_fits (ctx : NcaFsSectionContext) (data_size data_offset : Z)
    (is_integrity_patch : bool) :
  patch_params_invalid L ctx data_size data_offset is_integrity_patch = false ->
  (Z.to_nat (patch_layer_count L is_integrity_patch (fs_header ctx))
   <= length (released_entries is_integrity_patch))%nat.
Proof.
  intros Hp. unfold patch_params_invalid in Hp. cbv zeta in Hp.
  repeat (apply orb_false_iff in Hp as [Hp ?]).
  unfold patch_layer_count in *.
  destruct is_integrity_patch; cbn [negb andb] in *.
  - repeat match goal with
           | H : _ || _ = false |- _ => apply orb_false_iff in H as [H ?]
           end.
    match goal with H : negb (_ =? NCA_IVFC_LEVEL_COUNT) = false |- _ =>
      apply negb_false_iff, Z.eqb_eq in H; rewrite H end.
    vm_compute. repeat constructor.
  - repeat match goal with
           | H : _ || _ = false |- _ => apply orb_false_iff in H as [H ?]
           end.
    match goal with H : (_ >? NCA_HIERARCHICAL_SHA256_MAX_REGION_COUNT) = false |- _ =>
      rewrite Z.gtb_ltb in H; apply Z.ltb_ge in H; revert H end.
    unfold released_entries. cbn [negb]. unfold ncaFreeHierarchicalSha256Patch.
    cbn [sp_hash_region_patch]. rewrite repeat_length. lia.
Qed.

(** The fields of [section_frame] are those that erasing the header leaves
    comparable, less the counter and the cipher contexts. *)
Lemma section_frame_erased (c ctx : NcaFsSectionContext) :
  set_fs_header c [] = set_fs_header ctx [] -> section_frame c ctx.
Proof.
  intros H. unfold section_frame.
  repeat match goal with |- _ /\ _ => split end.
  - exact (f_equal enabled H).
  - exact (f_equal section_num H).
  - exact (f_equal section_offset H).
  - exact (f_equal section_size H).
  - exact (f_equal section_type H).
  - exact (f_equal encryption_type H).
  - exact (f_equal fs_encrypted_header H).
  - exact (f_equal fs_header_written H).
  - exact (f_equal has_sparse_layer H).
  - exact (f_equal sparse_table_offset H).
  - exact (f_equal sparse_table_size H).
  - exact (f_equal sparse_ctr H).
  - exact (f_equal sparse_ctr_ctx H).
Qed.

(** X11.  What a successful patch generation hands out: one entry with a
    ciphertext block, not yet written, for every layer of the hash tree; the
    entries beyond the layer count empty; the content id of the archive; the
    region count of a SHA-256 tree.  Of the section context it leaves
    untouched the fields no read or block generation writes: the enabled
    flag, the section number, offset, size and type, the encryption type,
    the encrypted header with its written flag and the sparse fields.  The
    header takes the new hashes, and the counter [ctr] with [ctr_ctx], which
    the code re-seeds in place at every decryption and encryption, is not
    among the fields kept. *)
Theorem patch_success_entries (crypto_buffer : bool) (nca_ctx : NcaContext)
    (ctx : NcaFsSectionContext) (data : bytes) (data_size data_offset : Z)
    (is_integrity_patch : bool) :
  let r := ncaGenerateHashDataPatch L E crypto_buffer nca_ctx ctx data data_size
                                    data_offset is_integrity_patch in
  let layer_count := patch_layer_count L is_integrity_patch (fs_header ctx) in
  pr_success r = true ->
  length (pr_entries r) = length (released_entries is_integrity_patch)
  /\ (forall j, 0 <= j < layer_count ->
        hdp_data (nth_z (pr_entries r) j hdp_zero) <> None
        /\ hdp_written (nth_z (pr_entries r) j hdp_zero) = false)
  /\ (forall j, 0 <= j -> layer_count <= j ->
                nth_z (pr_entries r) j hdp_zero = hdp_zero)
  /\ pr_content_id r = fixed 0x10 (content_id nca_ctx)
  /\ pr_hash_region_count r = (if negb is_integrity_patch then layer_count else 0)
  /\ section_frame (pr_ctx r) ctx.
Proof.
  cbv zeta. unfold ncaGenerateHashDataPatch.
  destruct (patch_params_invalid L ctx data_size data_offset is_integrity_patch) eqn:Hp;
    [discriminate |].
  pose proof (patch_layer_count_fits ctx data_size data_offset is_integrity_patch Hp)
    as Hfit.
  destruct (patch_layers L E _ _ _ _ _ _ _ _ _) as [[es |] ctx'] eqn:Hrun;
    [| discriminate].
  intros _. cbn [pr_entries pr_content_id pr_hash_region_count pr_ctx].
  destruct (patch_layers_shape _ _ _ _ _ _ _ _ _ _ _ Hrun Hfit) as (H1 & H2 & H3 & H4).
  split; [exact H1 |]. split; [| split; [| split; [| split]]].
  - intros j Hj.
    assert (Hj' : 0 <= j < Z.of_nat (Z.to_nat (patch_layer_count L is_integrity_patch
                                                                 (fs_header ctx))))
      by lia.
    destruct (H2 j Hj') as [Ha Hb]. split; [exact Ha |].
    rewrite Hb, released_entries_zero. reflexivity.
  - intros j Hj0 Hj. rewrite H3 by lia. apply released_entries_zero.
  - destruct nca_ctx; reflexivity.
  - reflexivity.
  - apply section_frame_erased. exact H4.
Qed.

(** X12.  What a failed patch generation leaves: the output patch set
    released, the archive header as it was, and, of the section context,
    the fields no read or block generation writes (the enabled flag, the
    section number, offset, size and type, the encryption type, the
    encrypted header with its written flag and the sparse fields).  The
    section header can differ: the master hash is recomputed before the
    last block is encrypted.  The counter [ctr] with [ctr_ctx], which the
    code re-seeds in place at every decryption, is not among the fields
    kept. *)
Theorem patch_failure_frame (crypto_buffer : bool) (nca_ctx : NcaContext)
    (ctx : NcaFsSectionContext) (data : bytes) (data_size data_offset : Z)
    (is_integrity_patch : bool) :
  let r := ncaGenerateHashDataPatch L E crypto_buffer nca_ctx ctx data data_size
                                    data_offset is_integrity_patch in
  pr_success r = false ->
  pr_entries r = released_entries is_integrity_patch
  /\ Forall (fun e => hdp_data e = None) (pr_entries r)
  /\ pr_hash_region_count r = 0
  /\ header (pr_nca_ctx r) = header nca_ctx
  /\ section_frame (pr_ctx r) ctx.
Proof.
  cbv zeta. unfold ncaGenerateHashDataPatch.
  assert (Hrel : Forall (fun e => hdp_data e = None) (released_entries is_integrity_patch)).
  { destruct is_integrity_patch; vm_compute; repeat constructor. }
  destruct (patch_params_invalid L ctx data_size data_offset is_integrity_patch).
  { intros _. cbn [patch_failure pr_entries pr_hash_region_count pr_nca_ctx pr_ctx].
    split; [reflexivity |]. split; [exact Hrel |]. split; [reflexivity |].
    split; [reflexivity |]. apply section_frame_erased. reflexivity. }
  pose proof (patch_layers_frame
                (Z.to_nat (patch_layer_count L is_integrity_patch (fs_header ctx)))
                crypto_buffer nca_ctx is_integrity_patch ctx data data_offset data_size
                (released_entries is_integrity_patch)) as Hfr.
  destruct (patch_layers L E _ _ _ _ _ _ _ _ _) as [[es |] ctx']; [discriminate |].
  intros _. cbn [snd] in Hfr.
  cbn [patch_failure pr_entries pr_hash_region_count pr_nca_ctx pr_ctx].
  split; [reflexivity |]. split; [exact Hrel |]. split; [reflexivity |].
  split; [reflexivity |]. apply section_frame_erased. exact Hfr.
Qed.

End PatchGeneration.

Lemma zlen_fixed (n : Z) (b : bytes) : 0 <= n -> zlen (fixed n b) = n.
Proof.
  intros Hn. unfold zlen, fixed.
  rewrite length_firstn, length_app, repeat_length. lia.
Qed.

Lemma fixed_exact (n : Z) (b : bytes) : zlen b = n -> fixed n b = b.
Proof.
  intros Hb. unfold fixed, zlen in *.
  rewrite firstn_app. replace (Z.to_nat n - length b)%nat with 0%nat by lia.
  cbn [firstn]. rewrite app_nil_r. apply firstn_all2. lia.
Qed.

Section PatchConsistency.

Variable L : NcaLayout.
Variable E : NcaEnv.

(** X13.  After a successful patch generation the archive context holds the
    patched section context, and, with a layout whose hash slot gives back
    what was stored in it, the hash of the section header in the archive
    header is the SHA-256 of the patched section header: the section passes
    the hash test of [ncaInitializeContext] again.  The other sections and
    the stored header hash are as they were. *)
Theorem patch_keeps_section_hash (crypto_buffer : bool) (nca_ctx : NcaContext)
    (ctx : NcaFsSectionContext) (data : bytes) (data_size data_offset : Z)
    (is_integrity_patch : bool) :
  let r := ncaGenerateHashDataPatch L E crypto_buffer nca_ctx ctx data data_size
                                    data_offset is_integrity_patch in
  let i := section_num ctx in
  (forall v, zlen v = SHA256_HASH_SIZE ->
     hdr_fs_header_hash L (hdr_set_fs_header_hash L (header nca_ctx) i v) i = v) ->
  0 <= i < Z.of_nat (length (fs_ctx nca_ctx)) ->
  pr_success r = true ->
  get_fs_ctx (pr_nca_ctx r) i = pr_ctx r
  /\ sec_hash_matches L E (pr_nca_ctx r) i = true
  /\ (forall j, 0 <= j -> j <> i ->
        get_fs_ctx (pr_nca_ctx r) j = get_fs_ctx nca_ctx j)
  /\ header_hash (pr_nca_ctx r) = header_hash nca_ctx.
Proof.
  cbv zeta. intros Hlaw Hi. unfold ncaGenerateHashDataPatch.
  destruct (patch_params_invalid L ctx data_size data_offset is_integrity_patch);
    [discriminate |].
  pose proof (patch_layers_frame L E
                (Z.to_nat (patch_layer_count L is_integrity_patch (fs_header ctx)))
                crypto_buffer nca_ctx is_integrity_patch ctx data data_offset data_size
                (released_entries is_integrity_patch)) as Hfr.
  destruct (patch_layers L E _ _ _ _ _ _ _ _ _) as [[es |] ctx']; [| discriminate].
  intros _. cbn [snd] in Hfr. cbn [pr_nca_ctx pr_ctx].
  assert (Hnum : section_num ctx' = section_num ctx).
  { apply (f_equal section_num) in Hfr. exact Hfr. }
  rewrite Hnum.
  assert (Hget : get_fs_ctx
                   (set_header (put_fs_ctx nca_ctx (section_num ctx) ctx')
                      (hdr_set_fs_header_hash L
                         (header (put_fs_ctx nca_ctx (section_num ctx) ctx'))
                         (section_num ctx)
                         (fixed SHA256_HASH_SIZE (sha256CalculateHash E (fs_header ctx')))))
                   (section_num ctx) = ctx').
  { transitivity (get_fs_ctx (put_fs_ctx nca_ctx (section_num ctx) ctx') (section_num ctx));
      [reflexivity | now apply get_put_fs_ctx]. }
  split; [exact Hget |]. split; [| split].
  - unfold sec_hash_matches, sec_header. rewrite Hget.
    cbn [header set_header]. 
    change (header (put_fs_ctx nca_ctx (section_num ctx) ctx')) with (header nca_ctx).
    rewrite Hlaw by (apply zlen_fixed; discriminate).
    rewrite (fixed_exact SHA256_HASH_SIZE (fixed _ _)) by (apply zlen_fixed; discriminate).
    apply bytes_eqb_eq. reflexivity.
  - intros j Hj Hne.
    transitivity (get_fs_ctx (put_fs_ctx nca_ctx (section_num ctx) ctx') j);
      [reflexivity |].
    apply get_put_fs_ctx_other; lia.
  - reflexivity.
Qed.

End PatchConsistency.

Lemma slice_memcpy_same (dst src : bytes) (off n : Z) :
  0 <= off -> 0 <= n -> off + n <= zlen dst -> n <= zlen src ->
  slice (memcpy dst off src n) off n = firstn (Z.to_nat n) src.
Proof.
  unfold slice, memcpy, zlen. intros Ho Hn Hd Hs.
  rewrite skipn_app.
  rewrite (skipn_all2 (firstn (Z.to_nat off) dst)) by (rewrite length_firstn; lia).
  rewrite length_firstn.
  replace (Z.to_nat off - Nat.min (Z.to_nat off) (length dst))%nat with 0%nat by lia.
  cbn [skipn app]. rewrite firstn_app, length_firstn.
  replace (Z.to_nat n - Nat.min (Z.to_nat n) (length src))%nat with 0%nat by lia.
  cbn [firstn]. rewrite app_nil_r. apply firstn_all2. rewrite length_firstn. lia.
Qed.

Lemma patch_success_entries_witness :
  let r := ncaGenerateHashDataPatch Toy.layout Example.env_v3 true Example.ctx_v3
             (get_fs_ctx Example.ctx_v3 0) [1; 2; 3] 3 5 false in
  pr_success r = true
  /\ hdp_data (nth_z (pr_entries r) 1 hdp_zero) <> None
  /\ nth_z (pr_entries r) 2 hdp_zero = hdp_zero
  /\ section_frame (pr_ctx r) (get_fs_ctx Example.ctx_v3 0).
Proof.
  cbv zeta.
  assert (Hs : pr_success
                 (ncaGenerateHashDataPatch Toy.layout Example.env_v3 true Example.ctx_v3
                    (get_fs_ctx Example.ctx_v3 0) [1; 2; 3] 3 5 false) = true)
    by (vm_compute; reflexivity).
  destruct (patch_success_entries Toy.layout Example.env_v3 true Example.ctx_v3
              (get_fs_ctx Example.ctx_v3 0) [1; 2; 3] 3 5 false Hs)
    as (_ & H2 & H3 & _ & _ & H6).
  split; [exact Hs |]. split; [| split].
  - apply (H2 1). vm_compute. split; [discriminate | reflexivity].
  - apply (H3 2); vm_compute; discriminate.
  - exact H6.
Defined.

(** A section with a one-layer tree and CTR-Ex encryption: the patch fails
    at the block generator, after the master hash was recomputed. *)
Lemma patch_failure_frame_witness :
  let s := get_fs_ctx Example.ctx_v3 0 in
  let s1 := set_fs_header (set_encryption_type s NcaEncryptionType_AesCtrEx)
              (Toy.put_le (fs_header s) 0x2C 4 1) in
  let r := ncaGenerateHashDataPatch Toy.layout Example.env_v3 true Example.ctx_v3
             s1 [1; 2; 3] 3 5 false in
  pr_success r = false
  /\ header (pr_nca_ctx r) = header Example.ctx_v3
  /\ section_frame (pr_ctx r) s1
  /\ fs_header (pr_ctx r) <> fs_header s1.
Proof.
  cbv zeta.
  set (s1 := set_fs_header
               (set_encryption_type (get_fs_ctx Example.ctx_v3 0) NcaEncryptionType_AesCtrEx)
               (Toy.put_le (fs_header (get_fs_ctx Example.ctx_v3 0)) 0x2C 4 1)).
  assert (Hs : pr_success
                 (ncaGenerateHashDataPatch Toy.layout Example.env_v3 true Example.ctx_v3
                    s1 [1; 2; 3] 3 5 false) = false)
    by (vm_compute; reflexivity).
  destruct (patch_failure_frame Toy.layout Example.env_v3 true Example.ctx_v3
              s1 [1; 2; 3] 3 5 false Hs) as (_ & _ & _ & H4 & H5).
  split; [exact Hs |]. split; [exact H4 |]. split; [exact H5 |].
  vm_compute. discriminate.
Defined.

Lemma patch_keeps_section_hash_witness :
  let r := ncaGenerateHashDataPatch Toy.layout Example.env_v3 true Example.ctx_v3
             (get_fs_ctx Example.ctx_v3 0) [1; 2; 3] 3 5 false in
  pr_success r = true
  /\ fs_header (pr_ctx r) <> fs_header (get_fs_ctx Example.ctx_v3 0)
  /\ sec_hash_matches Toy.layout Example.env_v3 (pr_nca_ctx r) 0 = true.
Proof.
  cbv zeta.
  assert (Hs : pr_success
                 (ncaGenerateHashDataPatch Toy.layout Example.env_v3 true Example.ctx_v3
                    (get_fs_ctx Example.ctx_v3 0) [1; 2; 3] 3 5 false) = true)
    by (vm_compute; reflexivity).
  assert (Hn : section_num (get_fs_ctx Example.ctx_v3 0) = 0) by (vm_compute; reflexivity).
  assert (Hh : zlen (header Example.ctx_v3) = 0x400) by (vm_compute; reflexivity).
  pose proof (patch_keeps_section_hash Toy.layout Example.env_v3 true Example.ctx_v3
                (get_fs_ctx Example.ctx_v3 0) [1; 2; 3] 3 5 false) as P.
  cbv zeta in P. rewrite Hn in P.
  assert (Hlaw : forall v, zlen v = SHA256_HASH_SIZE ->
            hdr_fs_header_hash Toy.layout
              (hdr_set_fs_header_hash Toy.layout (header Example.ctx_v3) 0 v) 0 = v).
  { intros v Hv. cbn [hdr_fs_header_hash hdr_set_fs_header_hash Toy.layout].
    unfold Toy.put. change (0x280 + 0x20 * 0) with 0x280.
    rewrite slice_memcpy_same.
    - rewrite fixed_exact by exact Hv. apply firstn_all2.
      unfold zlen, SHA256_HASH_SIZE in Hv. lia.
    - discriminate.
    - discriminate.
    - rewrite Hh. discriminate.
    - rewrite zlen_fixed by discriminate. apply Z.le_refl. }
  specialize (P Hlaw).
  assert (Hi : 0 <= 0 < Z.of_nat (length (fs_ctx Example.ctx_v3)))
    by (vm_compute; split; [discriminate | reflexivity]).
  destruct (P Hi Hs) as (_ & H2 & _).
  split; [exact Hs |]. split; [vm_compute; discriminate | exact H2].
Defined.

(** ** What initialization establishes *)

Section InitializationFacts.

Variable L : NcaLayout.
Variable E : NcaEnv.

(** The fields of the context a successful header read leaves. *)
Lemma read_header_fields (ctx ctx1 : NcaContext) :
  ncaReadDecryptedHeader L E ctx = Some ctx1 ->
  content_id_str_empty ctx = false
  /\ NCA_FULL_HEADER_LENGTH <= content_size ctx
  /\ ncaReadContentFile E ctx NCA_HEADER_LENGTH 0 = Some (encrypted_header ctx1)
  /\ (format_version ctx1 = NcaVersion_Nca0 \/ format_version ctx1 = NcaVersion_Nca2
      \/ format_version ctx1 = NcaVersion_Nca3)
  /\ hdr_content_size L (header ctx1) = content_size ctx
  /\ key_generation ctx1
     = Z.max (hdr_key_generation L (header ctx1)) (hdr_key_generation_old L (header ctx1))
  /\ rights_id_available ctx1 = ncaCheckRightsIdAvailability L ctx1
  /\ header_hash ctx1 = sha256CalculateHash E (header ctx1)
  /\ (rights_id_available ctx1 = true -> decrypted_key_area ctx1 = decrypted_key_area ctx)
  /\ set_fs_ctx
       (set_decrypted_key_area
          (set_valid_main_signature
             (set_header_hash
                (set_rights_id_available
                   (set_key_generation
                      (set_format_version
                         (set_header (set_encrypted_header ctx1 []) []) 0) 0) false)
                []) false) []) []
     = set_fs_ctx
         (set_decrypted_key_area
            (set_valid_main_signature
               (set_header_hash
                  (set_rights_id_available
                     (set_key_generation
                        (set_format_version
                           (set_header (set_encrypted_header ctx []) []) 0) 0) false)
                  []) false) []) [].
Proof.
  intros Hrun. unfold ncaReadDecryptedHeader in Hrun.
  destruct (content_id_str_empty ctx || (content_size ctx <? NCA_FULL_HEADER_LENGTH))
    eqn:Hg; [discriminate |].
  apply orb_false_iff in Hg. destruct Hg as [Hid Hsz]. apply Z.ltb_ge in Hsz.
  destruct (keysGetNcaHeaderKey E) as [header_key |]; [| discriminate].
  destruct (ncaReadContentFile E ctx NCA_HEADER_LENGTH 0) as [enc |]; [| discriminate].
  destruct (aes128XtsNintendoCrypt E (header_xts_ctx header_key false) enc
              NCA_HEADER_LENGTH 0 NCA_AES_XTS_SECTOR_SIZE false) as [dec res].
  cbv zeta in Hrun.
  match type of Hrun with (if ?g then _ else _) = _ =>
    destruct g eqn:Hg2; [discriminate Hrun |]
  end.
  apply orb_false_iff in Hg2. destruct Hg2 as [_ Hcs].
  apply negb_false_iff, Z.eqb_eq in Hcs.
  change (header (set_header (set_encrypted_header ctx enc) dec)) with dec in Hcs.
  change (content_size (set_header (set_encrypted_header ctx enc) dec))
    with (content_size ctx) in Hcs.
  match type of Hrun with
    match (if _ then ncaDecryptKeyArea L E ?c0 else Some ?c0) with _ => _ end = _ =>
    set (cA := c0) in *
  end.
  destruct (if negb (rights_id_available cA) then ncaDecryptKeyArea L E cA else Some cA)
    as [cB |] eqn:Hka; [| discriminate].
  assert (HB : cB = set_decrypted_key_area cA (decrypted_key_area cB)).
  { destruct (negb (rights_id_available cA)).
    - unfold ncaDecryptKeyArea in Hka.
      destruct (ncaIsVersion0KeyAreaEncrypted L E cA).
      + injection Hka as <-. reflexivity.
      + destruct (decrypt_key_area_slots L E cA _ _ _); [| discriminate].
        injection Hka as <-. reflexivity.
    - injection Hka as <-. destruct cA; reflexivity. }
  assert (Hdka : rights_id_available cA = true ->
                 decrypted_key_area cB = decrypted_key_area ctx).
  { intros Hr. rewrite Hr in Hka. cbn [negb] in Hka. injection Hka as <-.
    reflexivity. }
  assert (He : ctx1 = set_fs_ctx cB (fs_ctx ctx1)).
  { clear HB Hka Hdka. revert Hrun. generalize (nca0_xts_ctx cB false) as n.
    generalize (header_xts_ctx header_key false) as h.
    generalize (upto NCA_FS_HEADER_COUNT) as idx. clear. intros idx.
    revert cB. induction idx as [| i rest IH]; intros cB h n Hrun.
    - injection Hrun as <-. destruct cB; reflexivity.
    - cbn [read_fs_headers] in Hrun.
      destruct (negb (ncaIsFsInfoEntryValid (hdr_fs_info L (header cB) i))); [eauto |].
      destruct (ncaReadContentFile E cB _ _) as [enc |]; [| discriminate].
      destruct (aes128XtsNintendoCrypt E _ enc _ _ _ false) as [dec res].
      destruct (negb (res =? NCA_FS_HEADER_LENGTH)); [discriminate |].
      apply IH in Hrun. rewrite Hrun at 1. destruct cB; reflexivity. }
  assert (Hra : rights_id_available ctx1 = rights_id_available cA)
    by (rewrite He, HB; reflexivity).
  split; [exact Hid |]. split; [exact Hsz |].
  split; [rewrite He, HB; reflexivity |].
  split.
  { rewrite He, HB. subst cA. cbn.
    destruct (_ =? NCA_NCA3_MAGIC); [auto |].
    destruct (_ =? NCA_NCA2_MAGIC); auto. }
  split; [rewrite He, HB; subst cA; exact Hcs |].
  split.
  { rewrite He, HB. subst cA. cbn. unfold ncaGetKeyGenerationValue. cbn.
    destruct (Z.gtb_spec (hdr_key_generation L dec) (hdr_key_generation_old L dec)); lia. }
  split; [rewrite He, HB; subst cA; reflexivity |].
  split; [rewrite He, HB; subst cA; reflexivity |].
  split.
  { intros Hr. rewrite Hra in Hr. rewrite He. cbn [decrypted_key_area set_fs_ctx].
    now apply Hdka. }
  rewrite He, HB. subst cA. reflexivity.
Qed.

(** The steps of a successful initialization: the context filled from the
    content info, the header read, the ticket retrieval, the section loop. *)
Lemma init_context_chain (storage hfs_partition_type : Z)
    (content_info : NcmContentInfo) (out : NcaContext) :
  ncaInitializeContext L E storage hfs_partition_type content_info = Some out ->
  exists c0 c1 o2,
    (header_written c0 = false /\ storage_id c0 = storage
     /\ content_id c0 = fixed 0x10 (ci_content_id content_info)
     /\ content_size c0 = ci_size content_info
     /\ content_type c0 = ci_content_type content_info
     /\ decrypted_key_area c0 = calloc NCA_USED_KEY_AREA_SIZE
     /\ titlekey_retrieved c0 = false /\ titlekey c0 = calloc 0x10)
    /\ ncaReadDecryptedHeader L E c0 = Some c1
    /\ o2 = (if rights_id_available c1 then
               match tikRetrieveTicketByRightsId E
                       (fixed 0x10 (hdr_rights_id L (header c1)))
                       (storage_id c1 =? NcmStorageId_GameCard) with
               | Some k => set_titlekey_retrieved (set_titlekey c1 (fixed 0x10 k)) true
               | None => c1
               end
             else c1)
    /\ init_before_sections L E storage hfs_partition_type content_info = Some o2
    /\ out = set_fs_ctx o2 (fs_ctx out)
    /\ length (fs_ctx out) = Z.to_nat NCA_FS_HEADER_COUNT
    /\ (forall i, 0 <= i < NCA_FS_HEADER_COUNT ->
          get_fs_ctx out i = fst (init_fs_section L E o2 i)
          /\ enabled (get_fs_ctx out i) = section_passes L E o2 i).
Proof.
  unfold ncaInitializeContext.
  destruct (init_before_sections L E storage hfs_partition_type content_info)
    as [o2 |] eqn:Hb; [| discriminate].
  destruct (init_fs_sections L E o2 (upto NCA_FS_HEADER_COUNT) 0) as [out' n] eqn:Hs.
  destruct (n >? 0); [| discriminate]. intros [= <-].
  destruct (init_before_sections_fs L E _ _ _ _ Hb) as (Hlen & Hdis & Hsz).
  assert (Hin : forall i, In i (upto NCA_FS_HEADER_COUNT) ->
                          0 <= i < Z.of_nat (length (fs_ctx o2))).
  { intros i Hi. apply In_upto in Hi. rewrite Hlen.
    unfold NCA_FS_HEADER_COUNT in *. lia. }
  destruct (init_fs_sections_inv L E (upto NCA_FS_HEADER_COUNT) o2 0 out' n
              (NoDup_upto _) Hin ltac:(lia) ltac:(vm_compute; discriminate) Hs)
    as (Heq & Hl & _ & Hget & _).
  pose proof Hb as Hb'.
  unfold init_before_sections in Hb. cbv zeta in Hb.
  match type of Hb with (if ?g then None else _) = _ => destruct g end;
    [discriminate |].
  match type of Hb with (if ?g then None else _) = _ => destruct g end;
    [discriminate |].
  match type of Hb with
  | match ?o with Some out => match ncaReadDecryptedHeader L E out with _ => _ end
             | None => None end = _ =>
    destruct o as [c0 |] eqn:Hc0
  end; [| discriminate].
  destruct (ncaReadDecryptedHeader L E c0) as [c1 |] eqn:Hrd; [| discriminate].
  exists c0, c1, o2.
  split.
  { match type of Hc0 with (if ?g then _ else _) = _ => destruct g eqn:Hgc end.
    - destruct (gamecardGetHashFileSystemEntryInfoByName E _ _); [| discriminate].
      injection Hc0 as <-. repeat split; reflexivity.
    - injection Hc0 as <-. repeat split; reflexivity. }
  split; [exact Hrd |].
  split.
  { destruct (rights_id_available c1) eqn:Hr.
    - destruct (tikRetrieveTicketByRightsId E _ _) as [k |]; congruence.
    - congruence. }
  split; [reflexivity |]. split; [exact Heq |]. split; [congruence |].
  intros i Hi.
  assert (Hi' : In i (upto NCA_FS_HEADER_COUNT)) by now apply In_upto.
  split; [now apply Hget |].
  rewrite (Hget i Hi'), init_fs_section_enabled, init_fs_section_valid.
  rewrite Hdis by lia. apply orb_false_r.
Qed.

(** X14.  A context that [ncaInitializeContext] has just built is clean:
    it has the storage, the content id and the size it was asked for, a size
    of at least the full header block that the decrypted header declares
    too, a known format version, no header written, a header that is not
    dirty, so [ncaEncryptHeader] returns at once and leaves it as it is. *)
Theorem initialized_context_clean (storage hfs_partition_type : Z)
    (content_info : NcmContentInfo) (out : NcaContext) :
  ncaInitializeContext L E storage hfs_partition_type content_info = Some out ->
  storage_id out = storage
  /\ content_id out = fixed 0x10 (ci_content_id content_info)
  /\ content_size out = ci_size content_info
  /\ NCA_FULL_HEADER_LENGTH <= content_size out
  /\ hdr_content_size L (header out) = content_size out
  /\ (format_version out = NcaVersion_Nca0 \/ format_version out = NcaVersion_Nca2
      \/ format_version out = NcaVersion_Nca3)
  /\ header_written out = false
  /\ ncaIsHeaderDirty E out = false
  /\ ncaEncryptHeader L E out = Some out.
Proof.
  intros Hinit.
  destruct (init_context_chain _ _ _ _ Hinit)
    as (c0 & c1 & o2 & (F1 & F2 & F3 & F4 & F5 & F6 & F7 & F8) & Hrd & Ho2 & _ & Heq & _).
  destruct (read_header_fields c0 c1 Hrd)
    as (R1 & R2 & R3 & R4 & R5 & R6 & R7 & R8 & R9 & R10).
  assert (Hsame : forall (A : Type) (f : NcaContext -> A),
             (forall c k, f (set_titlekey_retrieved (set_titlekey c k) true) = f c) ->
             (forall c l, f (set_fs_ctx c l) = f c) -> f out = f c1).
  { intros A f Hf1 Hf2. rewrite Heq, Hf2, Ho2.
    destruct (rights_id_available c1); [| reflexivity].
    destruct (tikRetrieveTicketByRightsId E _ _); [apply Hf1 | reflexivity]. }
  assert (Hframe : forall (A : Type)
             (f : NcaContext -> A),
             (forall c, f c
                = f (set_fs_ctx
                       (set_decrypted_key_area
                          (set_valid_main_signature
                             (set_header_hash
                                (set_rights_id_available
                                   (set_key_generation
                                      (set_format_version
                                         (set_header (set_encrypted_header c []) []) 0) 0)
                                   false) []) false) []) [])) ->
             f c1 = f c0).
  { intros A f Hf. rewrite (Hf c1), (Hf c0), R10. reflexivity. }
  assert (Hdirty : ncaIsHeaderDirty E out = false).
  { unfold ncaIsHeaderDirty.
    rewrite (Hsame _ header) by reflexivity.
    rewrite (Hsame _ header_hash) by reflexivity.
    rewrite R8. apply negb_false_iff, bytes_eqb_eq. reflexivity. }
  assert (Hsz : content_size out = content_size c0).
  { rewrite (Hsame _ content_size) by reflexivity.
    apply (Hframe _ content_size). reflexivity. }
  split.
  { rewrite (Hsame _ storage_id) by reflexivity.
    rewrite (Hframe _ storage_id) by reflexivity. exact F2. }
  split.
  { rewrite (Hsame _ content_id) by reflexivity.
    rewrite (Hframe _ content_id) by reflexivity. exact F3. }
  split; [congruence |]. split; [rewrite Hsz; exact R2 |].
  split.
  { rewrite (Hsame _ (fun c => hdr_content_size L (header c))) by reflexivity.
    rewrite Hsz. exact R5. }
  split; [rewrite (Hsame _ format_version) by reflexivity; tauto |].
  split.
  { rewrite (Hsame _ header_written) by reflexivity.
    rewrite (Hframe _ header_written) by reflexivity. exact F1. }
  split; [exact Hdirty |].
  unfold ncaEncryptHeader. rewrite Hdirty. cbn [negb].
  replace (content_id_str_empty out) with false.
  2: { symmetry. rewrite (Hsame _ content_id_str_empty) by reflexivity.
       rewrite (Hframe _ content_id_str_empty) by reflexivity. exact R1. }
  replace (content_size out <? NCA_FULL_HEADER_LENGTH) with false; [reflexivity |].
  symmetry. apply Z.ltb_ge. rewrite Hsz. exact R2.
Qed.

(** X15.  The key material of an initialized context.  Without a rights id
    no title key is retrieved; with a rights id the key area is not
    decrypted at all (it stays zero-filled), and the title key is the one
    the ticket store gave, if it gave one. *)
Theorem initialized_key_material (storage hfs_partition_type : Z)
    (content_info : NcmContentInfo) (out : NcaContext) :
  ncaInitializeContext L E storage hfs_partition_type content_info = Some out ->
  rights_id_available out = ncaCheckRightsIdAvailability L out
  /\ (rights_id_available out = false ->
      titlekey_retrieved out = false /\ titlekey out = calloc 0x10)
  /\ (rights_id_available out = true ->
      decrypted_key_area out = calloc NCA_USED_KEY_AREA_SIZE
      /\ match tikRetrieveTicketByRightsId E
                 (fixed 0x10 (hdr_rights_id L (header out)))
                 (storage_id out =? NcmStorageId_GameCard) with
         | Some k => titlekey_retrieved out = true /\ titlekey out = fixed 0x10 k
         | None => titlekey_retrieved out = false
         end).
Proof.
  intros Hinit.
  destruct (init_context_chain _ _ _ _ Hinit)
    as (c0 & c1 & o2 & (F1 & F2 & F3 & F4 & F5 & F6 & F7 & F8) & Hrd & Ho2 & _ & Heq & _).
  destruct (read_header_fields c0 c1 Hrd)
    as (R1 & R2 & R3 & R4 & R5 & R6 & R7 & R8 & R9 & R10).
  assert (Hframe : forall (A : Type) (f : NcaContext -> A),
             (forall c, f c
                = f (set_fs_ctx
                       (set_decrypted_key_area
                          (set_valid_main_signature
                             (set_header_hash
                                (set_rights_id_available
                                   (set_key_generation
                                      (set_format_version
                                         (set_header (set_encrypted_header c []) []) 0) 0)
                                   false) []) false) []) [])) ->
             f c1 = f c0).
  { intros A f Hf. rewrite (Hf c1), (Hf c0), R10. reflexivity. }
  assert (Htr : titlekey_retrieved c1 = false)
    by (rewrite (Hframe _ titlekey_retrieved) by reflexivity; exact F7).
  assert (Htk : titlekey c1 = calloc 0x10)
    by (rewrite (Hframe _ titlekey) by reflexivity; exact F8).
  rewrite Heq.
  change (rights_id_available (set_fs_ctx o2 (fs_ctx out))) with (rights_id_available o2).
  change (titlekey_retrieved (set_fs_ctx o2 (fs_ctx out))) with (titlekey_retrieved o2).
  change (titlekey (set_fs_ctx o2 (fs_ctx out))) with (titlekey o2).
  change (decrypted_key_area (set_fs_ctx o2 (fs_ctx out))) with (decrypted_key_area o2).
  change (header (set_fs_ctx o2 (fs_ctx out))) with (header o2).
  change (storage_id (set_fs_ctx o2 (fs_ctx out))) with (storage_id o2).
  change (ncaCheckRightsIdAvailability L (set_fs_ctx o2 (fs_ctx out)))
    with (ncaCheckRightsIdAvailability L o2).
  assert (Ho2f : rights_id_available o2 = rights_id_available c1
                 /\ header o2 = header c1 /\ storage_id o2 = storage_id c1
                 /\ decrypted_key_area o2 = decrypted_key_area c1).
  { rewrite Ho2. destruct (rights_id_available c1) eqn:Hr;
      [| repeat split; auto].
    destruct (tikRetrieveTicketByRightsId E _ _); repeat split; auto. }
  destruct Ho2f as (A1 & A2 & A3 & A4).
  split.
  { rewrite A1. unfold ncaCheckRightsIdAvailability. rewrite A2. exact R7. }
  split.
  - intros Hno. rewrite A1 in Hno. rewrite Hno in Ho2. subst o2. split; assumption.
  - intros Hyes. rewrite A1 in Hyes.
    split; [rewrite A4, (R9 Hyes); exact F6 |].
    rewrite A2, A3. rewrite Hyes in Ho2.
    destruct (tikRetrieveTicketByRightsId E _ _) as [k |]; subst o2;
      [split; reflexivity | exact Htr].
Qed.

End InitializationFacts.

Section SectionFacts.

Variable L : NcaLayout.
Variable E : NcaEnv.

(** "Initialize crypto data" touches the counters and the cipher contexts
    only. *)
Lemma init_section_crypto_frame (out : NcaContext) (s : NcaFsSectionContext) :
  let s' := init_section_crypto L E out s in
  enabled s' = enabled s /\ section_num s' = section_num s
  /\ section_offset s' = section_offset s /\ section_size s' = section_size s
  /\ section_type s' = section_type s /\ encryption_type s' = encryption_type s
  /\ has_sparse_layer s' = has_sparse_layer s /\ fs_header s' = fs_header s.
Proof.
  cbv zeta. unfold init_section_crypto.
  destruct (_ && _ && _); [| repeat split; reflexivity].
  cbv zeta. destruct s. fs_simpl.
  repeat (match goal with
          | |- context [if ?c then _ else _] => destruct c
          end; fs_simpl);
    repeat split; reflexivity.
Qed.

(** The fields of a section the loop enabled. *)
Lemma init_fs_section_fields (out : NcaContext) (i : Z) (s' : NcaFsSectionContext) :
  init_fs_section L E out i = (s', true) ->
  enabled s' = true /\ section_num s' = i
  /\ NCA_HEADER_LENGTH <= section_offset s' /\ section_size s' <> 0
  /\ encryption_type s' <> NcaEncryptionType_Auto
  /\ encryption_type s' <= NcaEncryptionType_AesCtrEx
  /\ section_type s' < NcaFsSectionType_Invalid
  /\ (has_sparse_layer s' = false ->
      add64 (section_offset s') (section_size s') <= content_size out)
  /\ fs_header s' = fs_header (get_fs_ctx out i).
Proof.
  unfold init_fs_section. cbv zeta. fs_simpl.
  destruct (negb (ncaIsFsInfoEntryValid _)); [discriminate |].
  destruct (negb (bytes_eqb _ _)); [discriminate |].
  match goal with |- context [if ?g then _ else _] => destruct g eqn:H1 end;
    [discriminate |].
  match goal with |- context [if ?g then _ else _] => destruct g eqn:H2 end;
    [discriminate |].
  match goal with |- context [if ?g then _ else _] => destruct g eqn:H3 end;
    [discriminate |].
  apply orb_false_iff in H1. destruct H1 as [H1a H1b].
  apply Z.ltb_ge in H1a. apply Z.eqb_neq in H1b.
  apply orb_false_iff in H2. destruct H2 as [H2a H2b].
  apply Z.eqb_neq in H2a. rewrite Z.gtb_ltb in H2b. apply Z.ltb_ge in H2b.
  rewrite Z.geb_leb in H3. apply Z.leb_gt in H3.
  match goal with
  | |- context [match ?sc with Some _ => _ | None => _ end] =>
    destruct sc as [s2 |] eqn:Hsc; [| discriminate]
  end.
  intros [= <-].
  destruct (init_section_crypto_frame out s2) as (C1 & C2 & C3 & C4 & C5 & C6 & C7 & C8).
  fs_simpl. rewrite C2, C3, C4, C5, C6, C7, C8.
  match type of Hsc with
  | (if ?sp then _ else _) = _ => destruct sp eqn:Hsp
  end.
  - match type of Hsc with (if ?g then _ else _) = _ => destruct g end;
      [discriminate |].
    injection Hsc as <-. fs_simpl.
    repeat split; try assumption; try reflexivity.
    intros Hno. discriminate.
  - match type of Hsc with (if ?g then _ else _) = _ => destruct g eqn:Hin end;
      [discriminate |].
    injection Hsc as <-. fs_simpl.
    rewrite Z.gtb_ltb in Hin. apply Z.ltb_ge in Hin.
    repeat split; try assumption; try reflexivity.
    intros _. exact Hin.
Qed.

(** The offset and the size the loop gives a section it enabled, as the
    code computes them from the two sector numbers of its FsInfo entry. *)
Lemma init_fs_section_range (out : NcaContext) (i : Z) (s' : NcaFsSectionContext) :
  init_fs_section L E out i = (s', true) ->
  let fs_info := hdr_fs_info L (header out) i in
  section_offset s' = NCA_FS_SECTOR_OFFSET (fs_info_start_sector L fs_info)
  /\ section_size s'
     = sub64 (NCA_FS_SECTOR_OFFSET (fs_info_end_sector L fs_info))
             (NCA_FS_SECTOR_OFFSET (fs_info_start_sector L fs_info)).
Proof.
  unfold init_fs_section. cbv zeta. fs_simpl.
  destruct (negb (ncaIsFsInfoEntryValid _)); [discriminate |].
  destruct (negb (bytes_eqb _ _)); [discriminate |].
  match goal with |- context [if ?g then _ else _] => destruct g end;
    [discriminate |].
  match goal with |- context [if ?g then _ else _] => destruct g end;
    [discriminate |].
  match goal with |- context [if ?g then _ else _] => destruct g end;
    [discriminate |].
  match goal with
  | |- context [match ?sc with Some _ => _ | None => _ end] =>
    destruct sc as [s2 |] eqn:Hsc; [| discriminate]
  end.
  intros [= <-].
  destruct (init_section_crypto_frame out s2) as (_ & _ & C3 & C4 & _).
  fs_simpl. rewrite C3, C4.
  match type of Hsc with
  | (if ?sp then _ else _) = _ => destruct sp
  end;
    (match type of Hsc with (if ?g then _ else _) = _ => destruct g end;
     [discriminate |]);
    injection Hsc as <-; fs_simpl; split; reflexivity.
Qed.

(** X16.  Every section that [ncaInitializeContext] leaves enabled has its
    own number, starts after the archive header, is not empty, has a known
    section type and an encryption type from None to CTR-Ex, and, unless it
    is sparse, passes the bound test of the code: [section_offset +
    section_size], taken modulo 2^64, is at most the archive size.  Its
    offset is the start sector times 0x200 and its size the difference of
    the two sector offsets modulo 2^64; where the 32-bit sector numbers
    satisfy [start_sector <= end_sector] the size is [(end_sector -
    start_sector) * 0x200] and the section, unless sparse, ends inside the
    archive in exact arithmetic.  With [end_sector < start_sector] the size
    wraps and the section can be enabled without lying inside the archive.
    The structural part of the test at the top of [_ncaReadFsSection] never
    refuses an enabled section: a read is refused only without staging
    buffer, for an empty range or for a range beyond the section. *)
Theorem enabled_section_invariants (storage hfs_partition_type : Z)
    (content_info : NcmContentInfo) (out : NcaContext) (i : Z) :
  ncaInitializeContext L E storage hfs_partition_type content_info = Some out ->
  0 <= i < NCA_FS_HEADER_COUNT ->
  enabled (get_fs_ctx out i) = true ->
  let s := get_fs_ctx out i in
  section_num s = i
  /\ NCA_HEADER_LENGTH <= section_offset s /\ section_size s <> 0
  /\ section_type s < NcaFsSectionType_Invalid
  /\ encryption_type s <> NcaEncryptionType_Auto
  /\ encryption_type s <= NcaEncryptionType_AesCtrEx
  /\ (has_sparse_layer s = false ->
      add64 (section_offset s) (section_size s) <= content_size out)
  /\ (let fs_info := hdr_fs_info L (header out) i in
      let start_sector := fs_info_start_sector L fs_info in
      let end_sector := fs_info_end_sector L fs_info in
      section_offset s = NCA_FS_SECTOR_OFFSET start_sector
      /\ section_size s
         = sub64 (NCA_FS_SECTOR_OFFSET end_sector) (NCA_FS_SECTOR_OFFSET start_sector)
      /\ (0 <= start_sector -> start_sector <= end_sector -> end_sector < 2 ^ 32 ->
          section_offset s = start_sector * NCA_FS_SECTOR_SIZE
          /\ section_size s = (end_sector - start_sector) * NCA_FS_SECTOR_SIZE
          /\ (has_sparse_layer s = false ->
              section_offset s + section_size s <= content_size out)))
  /\ (forall crypto_buffer read_size offset,
        read_section_invalid crypto_buffer s read_size offset
        = negb crypto_buffer || (read_size =? 0)
          || (add64 offset read_size >? section_size s)).
Proof.
  intros Hinit Hi Hen. cbv zeta.
  destruct (init_context_chain L E _ _ _ _ Hinit)
    as (c0 & c1 & o2 & _ & _ & _ & Hb & Heq & Hlen & Hsec).
  destruct (Hsec i Hi) as [Hget Hval].
  assert (Hrun : init_fs_section L E o2 i = (get_fs_ctx out i, true)).
  { rewrite Hget. rewrite (surjective_pairing (init_fs_section L E o2 i)) at 1.
    f_equal. rewrite init_fs_section_valid. rewrite <- Hval. exact Hen. }
  destruct (init_fs_section_fields o2 i _ Hrun)
    as (F1 & F2 & F3 & F4 & F5 & F6 & F7 & F8 & F9).
  assert (Hcs : content_size out = content_size o2) by (rewrite Heq; reflexivity).
  assert (Hhd : header out = header o2) by (rewrite Heq; reflexivity).
  destruct (init_fs_section_range o2 i _ Hrun) as [R1 R2].
  split; [exact F2 |]. split; [exact F3 |]. split; [exact F4 |].
  split; [exact F7 |]. split; [exact F5 |]. split; [exact F6 |].
  split; [rewrite Hcs; exact F8 |].
  split.
  { rewrite Hhd. split; [exact R1 |]. split; [exact R2 |].
    intros Hs0 Hse He.
    set (a := fs_info_start_sector L (hdr_fs_info L (header o2) i)) in *.
    set (b := fs_info_end_sector L (hdr_fs_info L (header o2) i)) in *.
    assert (Ha : NCA_FS_SECTOR_OFFSET a = a * NCA_FS_SECTOR_SIZE).
    { unfold NCA_FS_SECTOR_OFFSET, mul64, u64, NCA_FS_SECTOR_SIZE.
      apply Z.mod_small. lia. }
    assert (Hb' : NCA_FS_SECTOR_OFFSET b = b * NCA_FS_SECTOR_SIZE).
    { unfold NCA_FS_SECTOR_OFFSET, mul64, u64, NCA_FS_SECTOR_SIZE.
      apply Z.mod_small. lia. }
    assert (Hsz : section_size (get_fs_ctx out i) = (b - a) * NCA_FS_SECTOR_SIZE).
    { rewrite R2, Ha, Hb'. unfold sub64, u64, NCA_FS_SECTOR_SIZE.
      rewrite Z.mod_small by lia. lia. }
    split; [rewrite R1; exact Ha |]. split; [exact Hsz |].
    intros Hns. specialize (F8 Hns). rewrite <- Hcs in F8.
    revert F8. rewrite Hsz, R1, Ha. unfold add64, u64, NCA_FS_SECTOR_SIZE.
    rewrite Z.mod_small by lia. intros F8. exact F8. }
  intros cb rs off. unfold read_section_invalid. rewrite F1, F2.
  replace (i >=? NCA_FS_HEADER_COUNT) with false
    by (symmetry; rewrite Z.geb_leb; apply Z.leb_gt; lia).
  replace (section_offset (get_fs_ctx out i) <? NCA_HEADER_LENGTH) with false
    by (symmetry; apply Z.ltb_ge; exact F3).
  replace (section_type (get_fs_ctx out i) >=? NcaFsSectionType_Invalid) with false
    by (symmetry; rewrite Z.geb_leb; apply Z.leb_gt; exact F7).
  replace (encryption_type (get_fs_ctx out i) =? NcaEncryptionType_Auto) with false
    by (symmetry; apply Z.eqb_neq; exact F5).
  replace (encryption_type (get_fs_ctx out i) >? NcaEncryptionType_AesCtrEx) with false
    by (symmetry; rewrite Z.gtb_ltb; apply Z.ltb_ge; exact F6).
  cbn [negb]. rewrite !orb_false_r. reflexivity.
Qed.

End SectionFacts.

Lemma initialized_context_clean_witness :
  ncaIsHeaderDirty Example.env_v3 Example.ctx_v3 = false
  /\ ncaEncryptHeader Toy.layout Example.env_v3 Example.ctx_v3 = Some Example.ctx_v3.
Proof.
  assert (H : ncaInitializeContext Toy.layout Example.env_v3 5 0 Toy.content_info
              = Some Example.ctx_v3) by (vm_compute; reflexivity).
  pose proof (initialized_context_clean Toy.layout Example.env_v3 5 0 Toy.content_info
                Example.ctx_v3 H) as P.
  split; [exact (proj1 (proj2 (proj2 (proj2 (proj2 (proj2 (proj2 (proj2 P))))))))
         | exact (proj2 (proj2 (proj2 (proj2 (proj2 (proj2 (proj2 (proj2 P))))))))].
Defined.

Lemma initialized_key_material_witness :
  rights_id_available Example.ctx_v3_rights = true
  /\ decrypted_key_area Example.ctx_v3_rights = calloc NCA_USED_KEY_AREA_SIZE
  /\ titlekey_retrieved Example.ctx_v3_rights = false.
Proof.
  assert (H : ncaInitializeContext Toy.layout Example.env_v3_rights 5 0 Toy.content_info
              = Some Example.ctx_v3_rights) by (vm_compute; reflexivity).
  assert (Hr : rights_id_available Example.ctx_v3_rights = true)
    by (vm_compute; reflexivity).
  destruct (proj2 (proj2 (initialized_key_material Toy.layout Example.env_v3_rights 5 0
                            Toy.content_info Example.ctx_v3_rights H)) Hr) as [Hk Ht].
  split; [exact Hr |]. split; [exact Hk |].
  vm_compute. reflexivity.
Defined.

Lemma enabled_section_invariants_witness :
  let s := get_fs_ctx Example.ctx_v3 0 in
  enabled s = true
  /\ NCA_HEADER_LENGTH <= section_offset s
  /\ read_section_invalid true s 3 5 = false
  /\ section_offset s + section_size s <= content_size Example.ctx_v3.
Proof.
  cbv zeta.
  assert (H : ncaInitializeContext Toy.layout Example.env_v3 5 0 Toy.content_info
              = Some Example.ctx_v3) by (vm_compute; reflexivity).
  assert (He : enabled (get_fs_ctx Example.ctx_v3 0) = true) by (vm_compute; reflexivity).
  assert (Hi : 0 <= 0 < NCA_FS_HEADER_COUNT) by (split; [discriminate | reflexivity]).
  destruct (enabled_section_invariants Toy.layout Example.env_v3 5 0 Toy.content_info
              Example.ctx_v3 0 H Hi He) as (_ & H2 & _ & _ & _ & _ & _ & H8 & H9).
  split; [exact He |]. split; [exact H2 |]. split.
  - rewrite H9. vm_compute. reflexivity.
  - destruct H8 as (_ & _ & H8).
    assert (Hns : has_sparse_layer (get_fs_ctx Example.ctx_v3 0) = false)
      by (vm_compute; reflexivity).
    assert (Hs0 : 0 <= fs_info_start_sector Toy.layout
                         (hdr_fs_info Toy.layout (header Example.ctx_v3) 0))
      by (vm_compute; discriminate).
    assert (Hse : fs_info_start_sector Toy.layout
                    (hdr_fs_info Toy.layout (header Example.ctx_v3) 0)
                  <= fs_info_end_sector Toy.layout
                       (hdr_fs_info Toy.layout (header Example.ctx_v3) 0))
      by (vm_compute; discriminate).
    assert (Hee : fs_info_end_sector Toy.layout
                    (hdr_fs_info Toy.layout (header Example.ctx_v3) 0) < 2 ^ 32)
      by (vm_compute; reflexivity).
    destruct (H8 Hs0 Hse Hee) as (_ & _ & H10).
    exact (H10 Hns).
Defined.

(** ** The header mutation helpers *)

Lemma nth_slice (b : bytes) (off n : Z) (k : nat) (d : Z) :
  0 <= off -> 0 <= n ->
  nth k (slice b off n) d
  = if (k <? Z.to_nat n)%nat then nth (Z.to_nat off + k) b d else d.
Proof.
  intros Ho Hn. unfold slice. rewrite nth_firstn.
  destruct (k <? Z.to_nat n)%nat; [| reflexivity]. apply nth_skipn.
Qed.

Lemma slice_memcpy_other (dst src : bytes) (off n off' n' : Z) :
  0 <= off -> 0 <= n -> off + n <= zlen dst -> n <= zlen src ->
  0 <= off' -> 0 <= n' -> off' + n' <= off \/ off + n <= off' ->
  slice (memcpy dst off src n) off' n' = slice dst off' n'.
Proof.
  intros Ho Hn Hd Hs Ho' Hn' Hdis.
  apply (nth_ext _ _ 0 0).
  - unfold slice. rewrite !length_firstn, !length_skipn.
    rewrite length_memcpy by assumption. reflexivity.
  - intros k Hk. rewrite !nth_slice by assumption.
    destruct (Nat.ltb_spec k (Z.to_nat n')); [| reflexivity].
    rewrite nth_memcpy by assumption.
    destruct (Z.leb_spec off (Z.of_nat (Z.to_nat off' + k))); [| reflexivity].
    destruct (Z.ltb_spec (Z.of_nat (Z.to_nat off' + k)) (off + n)); [| reflexivity].
    exfalso. lia.
Qed.

Section Mutators.

Variable L : NcaLayout.
Variable E : NcaEnv.

Lemma encrypt_key_area_frame (ctx ctx' : NcaContext) :
  ncaEncryptKeyArea L E ctx = Some ctx' ->
  exists h, ctx' = set_header ctx h.
Proof.
  unfold ncaEncryptKeyArea.
  destruct (ncaIsVersion0KeyAreaEncrypted L E ctx).
  - intros [= <-]. eexists. reflexivity.
  - destruct (keysGetNcaKeyAreaEncryptionKey E _ _); [| discriminate].
    intros [= <-]. eexists. reflexivity.
Qed.

(** X17.  [ncaRemoveTitleKeyCrypto] on an archive with a rights id and its
    title key: the title key becomes slot 2 of the decrypted key area (the
    CTR key), the other slots are kept, the rights id flag is cleared, and
    nothing else of the context changes but the header (the key area is
    re-encrypted, the rights id wiped).  A second call changes nothing. *)
Theorem remove_titlekey_crypto_effects (ctx ctx' : NcaContext) :
  ncaRemoveTitleKeyCrypto L E ctx = Some ctx' ->
  ncaRemoveTitleKeyCrypto L E ctx' = Some ctx'
  /\ (rights_id_available ctx = true -> titlekey_retrieved ctx = true ->
      rights_id_available ctx' = false
      /\ aes_ctr (decrypted_key_area ctx') = fixed AES_128_KEY_SIZE (titlekey ctx)
      /\ (forall i, 0 <= i < 4 -> i <> 2 ->
            key_area_slot (decrypted_key_area ctx') i
            = key_area_slot (fixed NCA_USED_KEY_AREA_SIZE (decrypted_key_area ctx)) i)
      /\ set_header
           (set_decrypted_key_area (set_rights_id_available ctx' true) []) []
         = set_header (set_decrypted_key_area ctx []) []).
Proof.
  unfold ncaRemoveTitleKeyCrypto at 1.
  destruct (_ || _ || _) eqn:Hg; [discriminate |].
  destruct (negb (rights_id_available ctx) || negb (titlekey_retrieved ctx)) eqn:Hno.
  - intros [= <-]. split.
    + unfold ncaRemoveTitleKeyCrypto. rewrite Hg, Hno. reflexivity.
    + intros Hr Ht. rewrite Hr, Ht in Hno. discriminate.
  - cbv zeta.
    set (c1 := set_decrypted_key_area ctx _).
    destruct (ncaEncryptKeyArea L E c1) as [c2 |] eqn:Henc; [| discriminate].
    destruct (encrypt_key_area_frame c1 c2 Henc) as [h ->].
    intros [= <-]. split.
    + match goal with |- ncaRemoveTitleKeyCrypto L E ?c = _ => set (c' := c) end.
      assert (Hg' : (content_size c' <? NCA_FULL_HEADER_LENGTH)
                    || content_id_str_empty c'
                    || (content_type c' >? NcmContentType_DeltaFragment) = false)
        by exact Hg.
      assert (Hr' : rights_id_available c' = false) by reflexivity.
      unfold ncaRemoveTitleKeyCrypto. rewrite Hg', Hr'. reflexivity.
    + intros Hr Ht. split; [reflexivity |].
      assert (Hz : zlen (fixed NCA_USED_KEY_AREA_SIZE (decrypted_key_area ctx))
                   = NCA_USED_KEY_AREA_SIZE) by (apply zlen_fixed; discriminate).
      assert (Hk : zlen (fixed AES_128_KEY_SIZE (titlekey ctx)) = AES_128_KEY_SIZE)
        by (apply zlen_fixed; discriminate).
      split; [| split].
      * unfold aes_ctr, key_area_slot. subst c1. nca_simpl.
        rewrite slice_memcpy_same;
          [| discriminate | discriminate | rewrite Hz; discriminate
           | rewrite Hk; discriminate].
        apply firstn_all2. unfold zlen in Hk. revert Hk.
        unfold AES_128_KEY_SIZE. lia.
      * intros i Hi Hne. unfold key_area_slot. subst c1. nca_simpl.
        apply slice_memcpy_other;
          try discriminate; try (rewrite Hz; discriminate);
          try (rewrite Hk; discriminate).
        -- unfold AES_128_KEY_SIZE. lia.
        -- unfold AES_128_KEY_SIZE. lia.
      * subst c1. clear - Hr. destruct ctx. cbn in Hr. subst. reflexivity.
Qed.

(** X18.  [ncaSetDownloadDistributionType] changes the header only, and,
    with a layout whose distribution type field gives back what was stored
    in it, a second call changes nothing: after the first the type is
    Download whenever the call was not refused. *)
Theorem set_download_distribution_idempotent (ctx : NcaContext) :
  hdr_distribution_type L
    (hdr_set_distribution_type L (header ctx) NcaDistributionType_Download)
  = NcaDistributionType_Download ->
  let ctx' := ncaSetDownloadDistributionType L ctx in
  ncaSetDownloadDistributionType L ctx' = ctx'
  /\ set_header ctx' [] = set_header ctx []
  /\ (NCA_FULL_HEADER_LENGTH <= content_size ctx ->
      content_id_str_empty ctx = false ->
      content_type ctx <= NcmContentType_DeltaFragment ->
      hdr_distribution_type L (header ctx') = NcaDistributionType_Download).
Proof.
  intros Hlaw. cbv zeta. unfold ncaSetDownloadDistributionType.
  destruct ((content_size ctx <? NCA_FULL_HEADER_LENGTH) || content_id_str_empty ctx
            || (content_type ctx >? NcmContentType_DeltaFragment)) eqn:Hg; cbn [orb].
  - rewrite Hg. cbn [orb]. split; [reflexivity |]. split; [reflexivity |].
    intros H1 H2 H3. exfalso.
    apply orb_true_iff in Hg. destruct Hg as [Hg | Hg].
    + apply orb_true_iff in Hg. destruct Hg as [Hg | Hg].
      * apply Z.ltb_lt in Hg. lia.
      * congruence.
    + rewrite Z.gtb_ltb in Hg. apply Z.ltb_lt in Hg. lia.
  - destruct (hdr_distribution_type L (header ctx) =? NcaDistributionType_Download)
      eqn:Hd.
    + rewrite Hg, Hd. cbn [orb]. split; [reflexivity |]. split; [reflexivity |].
      intros _ _ _. now apply Z.eqb_eq.
    + set (c' := set_header ctx _).
      assert (Hg' : (content_size c' <? NCA_FULL_HEADER_LENGTH)
                    || content_id_str_empty c'
                    || (content_type c' >? NcmContentType_DeltaFragment) = false)
        by exact Hg.
      assert (Hd' : hdr_distribution_type L (header c') = NcaDistributionType_Download)
        by exact Hlaw.
      rewrite Hg', Hd', Z.eqb_refl. cbn [orb].
      split; [reflexivity |]. split; [subst c'; destruct ctx; reflexivity |].
      intros _ _ _. reflexivity.
Qed.

Lemma firstn_repeat' {A : Type} (x : A) (k n : nat) :
  firstn k (repeat x n) = repeat x (Nat.min k n).
Proof.
  revert n. induction k as [| k IH]; intros [| n]; cbn; try reflexivity.
  f_equal. apply IH.
Qed.

Lemma firstn_fixed (m n : Z) (b : bytes) :
  0 <= m <= n -> firstn (Z.to_nat m) (fixed n b) = fixed m b.
Proof.
  intros Hmn. unfold fixed. rewrite firstn_firstn.
  replace (Nat.min (Z.to_nat m) (Z.to_nat n)) with (Z.to_nat m) by lia.
  rewrite !firstn_app. f_equal.
  rewrite !firstn_repeat'. f_equal. lia.
Qed.

(** X19.  [ncaUpdateContentIdAndHash] makes the content id the first half
    of the hash and renders both strings from the new values; it touches
    nothing else (not the header or its hash), and a second call with the
    same hash changes nothing. *)
Theorem update_content_id_effects (ctx : NcaContext) (new_hash : bytes) :
  let ctx' := ncaUpdateContentIdAndHash E ctx new_hash in
  content_id ctx' = firstn 0x10 (hash ctx')
  /\ hash ctx' = fixed SHA256_HASH_SIZE new_hash
  /\ content_id_str ctx' = utilsGenerateHexStringFromData E (content_id ctx')
  /\ hash_str ctx' = utilsGenerateHexStringFromData E (hash ctx')
  /\ set_hash_str (set_hash (set_content_id_str (set_content_id ctx' []) []) []) []
     = set_hash_str (set_hash (set_content_id_str (set_content_id ctx []) []) []) []
  /\ ncaUpdateContentIdAndHash E ctx' new_hash = ctx'.
Proof.
  cbv zeta. unfold ncaUpdateContentIdAndHash. cbv zeta. nca_simpl.
  split.
  { symmetry. apply (firstn_fixed 0x10 SHA256_HASH_SIZE).
    split; discriminate. }
  repeat split; reflexivity.
Qed.

End Mutators.

Section EncryptFrame.

Variable L : NcaLayout.
Variable E : NcaEnv.

(** The section-header loop of [ncaEncryptHeader] writes the encrypted
    images only, and run again on its result it changes nothing. *)
Lemma encrypt_fs_headers_inv (h n : Aes128XtsContext) (idx : list Z) :
  forall ctx c',
    NoDup idx ->
    (forall i, In i idx -> 0 <= i < Z.of_nat (length (fs_ctx ctx))) ->
    encrypt_fs_headers L E h n ctx idx = Some c' ->
    c' = set_fs_ctx ctx (fs_ctx c')
    /\ length (fs_ctx c') = length (fs_ctx ctx)
    /\ (forall j, 0 <= j -> ~ In j idx -> get_fs_ctx c' j = get_fs_ctx ctx j)
    /\ (forall j, 0 <= j ->
          set_fs_encrypted_header (get_fs_ctx c' j) []
          = set_fs_encrypted_header (get_fs_ctx ctx j) [])
    /\ encrypt_fs_headers L E h n c' idx = Some c'.
Proof.
  induction idx as [| i rest IH]; intros ctx c' Hnd Hin Hrun.
  - cbn in Hrun. injection Hrun as <-. repeat split; auto.
    destruct ctx; reflexivity.
  - inversion_clear Hnd as [| ? ? Hni Hnd'].
    assert (Hi : 0 <= i < Z.of_nat (length (fs_ctx ctx))) by (apply Hin; now left).
    cbn [encrypt_fs_headers] in Hrun |- *.
    destruct (negb (ncaIsFsInfoEntryValid (hdr_fs_info L (header ctx) i))) eqn:Hv.
    + destruct (IH ctx c' Hnd' (fun j Hj => Hin j (or_intror Hj)) Hrun)
        as (I1 & I2 & I3 & I4 & I5).
      split; [exact I1 |]. split; [exact I2 |]. split; [| split; [exact I4 |]].
      * intros j Hj Hnj. apply I3; [exact Hj |]. intros Hr. apply Hnj. now right.
      * replace (header c') with (header ctx) by (rewrite I1; reflexivity).
        rewrite Hv. exact I5.
    + destruct (aes128XtsNintendoCrypt E _ (fs_header (get_fs_ctx ctx i)) _ _ _ true)
        as [enc res] eqn:Hx.
      destruct (negb (res =? NCA_FS_HEADER_LENGTH)) eqn:Hres; [discriminate |].
      set (ctx1 := put_fs_ctx ctx i (set_fs_encrypted_header (get_fs_ctx ctx i) enc)) in *.
      assert (Hlen1 : length (fs_ctx ctx1) = length (fs_ctx ctx)).
      { subst ctx1. cbn. apply length_set_nth. }
      destruct (IH ctx1 c' Hnd') as (I1 & I2 & I3 & I4 & I5); [| exact Hrun |].
      { intros j Hj. rewrite Hlen1. apply Hin. now right. }
      assert (Heq : c' = set_fs_ctx ctx (fs_ctx c')).
      { rewrite I1 at 1. subst ctx1. destruct ctx; reflexivity. }
      assert (Hgi : get_fs_ctx c' i = set_fs_encrypted_header (get_fs_ctx ctx i) enc).
      { rewrite I3 by (try exact Hni; lia). subst ctx1. now apply get_put_fs_ctx. }
      split; [exact Heq |]. split; [congruence |]. split; [| split].
      * intros j Hj Hnj. rewrite I3; [| exact Hj | intros Hr; apply Hnj; now right].
        subst ctx1. apply get_put_fs_ctx_other; try lia.
        intros ->. apply Hnj. now left.
      * intros j Hj. rewrite I4 by exact Hj. subst ctx1.
        destruct (Z.eq_dec i j) as [<- | Hne].
        -- rewrite get_put_fs_ctx by exact Hi. destruct (get_fs_ctx ctx i); reflexivity.
        -- rewrite get_put_fs_ctx_other by lia. reflexivity.
      * replace (header c') with (header ctx) by (rewrite Heq; reflexivity).
        rewrite Hv.
        replace (format_version c') with (format_version ctx)
          by (rewrite Heq; reflexivity).
        replace (fs_header_sector L c' i (hdr_fs_info L (header ctx) i))
          with (fs_header_sector L ctx i (hdr_fs_info L (header ctx) i))
          by (unfold fs_header_sector; rewrite Heq; reflexivity).
        rewrite Hgi.
        change (fs_header (set_fs_encrypted_header (get_fs_ctx ctx i) enc))
          with (fs_header (get_fs_ctx ctx i)).
        rewrite Hx, Hres.
        replace (put_fs_ctx c' i
                   (set_fs_encrypted_header
                      (set_fs_encrypted_header (get_fs_ctx ctx i) enc) enc))
          with c'; [exact I5 |].
        change (set_fs_encrypted_header
                  (set_fs_encrypted_header (get_fs_ctx ctx i) enc) enc)
          with (set_fs_encrypted_header (get_fs_ctx ctx i) enc).
        rewrite <- Hgi. symmetry. apply put_fs_ctx_same.
Qed.

(** X20.  [ncaEncryptHeader] writes the encrypted images only: the plaintext
    header, the plaintext section headers, the stored header hash and the
    keys are as they were, so the header-dirty state is what it was; and a
    second call gives the same context again. *)
Theorem encrypt_header_frame (ctx c' : NcaContext) :
  length (fs_ctx ctx) = Z.to_nat NCA_FS_HEADER_COUNT ->
  ncaEncryptHeader L E ctx = Some c' ->
  header c' = header ctx /\ header_hash c' = header_hash ctx
  /\ decrypted_key_area c' = decrypted_key_area ctx
  /\ (forall i, 0 <= i -> fs_header (get_fs_ctx c' i) = fs_header (get_fs_ctx ctx i))
  /\ ncaIsHeaderDirty E c' = ncaIsHeaderDirty E ctx
  /\ ncaEncryptHeader L E c' = Some c'.
Proof.
  intros Hlen. unfold ncaEncryptHeader at 1.
  destruct (content_id_str_empty ctx || (content_size ctx <? NCA_FULL_HEADER_LENGTH))
    eqn:Hg; [discriminate |].
  destruct (negb (ncaIsHeaderDirty E ctx)) eqn:Hd.
  - intros [= <-]. repeat split; auto.
    unfold ncaEncryptHeader. rewrite Hg, Hd. reflexivity.
  - unfold encrypt_header_body.
    destruct (keysGetNcaHeaderKey E) as [header_key |] eqn:Hk; [| discriminate].
    destruct (aes128XtsNintendoCrypt E (header_xts_ctx header_key true) (header ctx)
                NCA_HEADER_LENGTH 0 NCA_AES_XTS_SECTOR_SIZE true) as [enc res] eqn:Hx.
    destruct (negb (res =? NCA_HEADER_LENGTH)) eqn:Hres; [discriminate |].
    intros Hrun.
    assert (Hin : forall i, In i (upto NCA_FS_HEADER_COUNT) ->
                     0 <= i < Z.of_nat (length (fs_ctx (set_encrypted_header ctx enc)))).
    { intros i Hi. apply In_upto in Hi.
      change (fs_ctx (set_encrypted_header ctx enc)) with (fs_ctx ctx).
      rewrite Hlen. unfold NCA_FS_HEADER_COUNT in *. lia. }
    destruct (encrypt_fs_headers_inv _ _ _ _ _ (NoDup_upto _) Hin Hrun)
      as (I1 & I2 & I3 & I4 & I5).
    assert (Hh : header c' = header ctx) by (rewrite I1; reflexivity).
    assert (Hhh : header_hash c' = header_hash ctx) by (rewrite I1; reflexivity).
    split; [exact Hh |]. split; [exact Hhh |].
    split; [rewrite I1; reflexivity |].
    split.
    { intros i Hi. specialize (I4 i Hi). apply (f_equal fs_header) in I4.
      exact I4. }
    assert (Hdd : ncaIsHeaderDirty E c' = ncaIsHeaderDirty E ctx).
    { unfold ncaIsHeaderDirty. rewrite Hh, Hhh. reflexivity. }
    split; [exact Hdd |].
    unfold ncaEncryptHeader.
    replace (content_id_str_empty c') with (content_id_str_empty ctx)
      by (rewrite I1; reflexivity).
    replace (content_size c') with (content_size ctx) by (rewrite I1; reflexivity).
    rewrite Hg, Hdd, Hd.
    unfold encrypt_header_body. rewrite Hk, Hh, Hx, Hres.
    replace (nca0_xts_ctx c' true) with (nca0_xts_ctx ctx true)
      by (unfold nca0_xts_ctx; rewrite I1; reflexivity).
    replace (set_encrypted_header c' enc) with c';
      [exact I5 | rewrite I1; reflexivity].
Qed.

End EncryptFrame.

Lemma remove_titlekey_crypto_effects_witness :
  let E := Toy.env Toy.image_v3_rights (Some (repeat 0x77 16)) false in
  let ctx := Example.init E in
  rights_id_available ctx = true /\ titlekey_retrieved ctx = true
  /\ exists ctx',
       ncaRemoveTitleKeyCrypto Toy.layout E ctx = Some ctx'
       /\ rights_id_available ctx' = false
       /\ aes_ctr (decrypted_key_area ctx') = repeat 0x77 16
       /\ ncaRemoveTitleKeyCrypto Toy.layout E ctx' = Some ctx'.
Proof.
  cbv zeta.
  set (E := Toy.env Toy.image_v3_rights (Some (repeat 0x77 16)) false).
  assert (Hr : rights_id_available (Example.init E) = true) by (vm_compute; reflexivity).
  assert (Ht : titlekey_retrieved (Example.init E) = true) by (vm_compute; reflexivity).
  split; [exact Hr |]. split; [exact Ht |].
  destruct (ncaRemoveTitleKeyCrypto Toy.layout E (Example.init E)) as [ctx' |] eqn:Hrm.
  - exists ctx'. split; [reflexivity |].
    destruct (remove_titlekey_crypto_effects Toy.layout E (Example.init E) ctx' Hrm)
      as (H1 & H2).
    destruct (H2 Hr Ht) as (H3 & H4 & _).
    split; [exact H3 |]. split; [| exact H1].
    rewrite H4. vm_compute. reflexivity.
  - exfalso. revert Hrm. vm_compute. discriminate.
Defined.

Lemma set_download_distribution_idempotent_witness :
  let ctx' := ncaSetDownloadDistributionType Toy.layout Example.ctx_v3 in
  hdr_distribution_type Toy.layout (header Example.ctx_v3) = NcaDistributionType_GameCard
  /\ hdr_distribution_type Toy.layout (header ctx') = NcaDistributionType_Download
  /\ ncaSetDownloadDistributionType Toy.layout ctx' = ctx'.
Proof.
  cbv zeta.
  destruct (set_download_distribution_idempotent Toy.layout Example.ctx_v3)
    as (H1 & _ & H3).
  - vm_compute. reflexivity.
  - split; [vm_compute; reflexivity |]. split; [| exact H1].
    apply H3; vm_compute; (reflexivity || discriminate).
Defined.

Lemma encrypt_header_frame_witness :
  let ctx := ncaSetDownloadDistributionType Toy.layout Example.ctx_v3 in
  ncaIsHeaderDirty Example.env_v3 ctx = true
  /\ exists c',
       ncaEncryptHeader Toy.layout Example.env_v3 ctx = Some c'
       /\ encrypted_header c' <> encrypted_header ctx
       /\ ncaIsHeaderDirty Example.env_v3 c' = true
       /\ ncaEncryptHeader Toy.layout Example.env_v3 c' = Some c'.
Proof.
  cbv zeta.
  set (ctx := ncaSetDownloadDistributionType Toy.layout Example.ctx_v3).
  assert (Hd : ncaIsHeaderDirty Example.env_v3 ctx = true) by (vm_compute; reflexivity).
  split; [exact Hd |].
  destruct (ncaEncryptHeader Toy.layout Example.env_v3 ctx) as [c' |] eqn:He.
  - exists c'. split; [reflexivity |].
    destruct (encrypt_header_frame Toy.layout Example.env_v3 ctx c')
      as (_ & _ & _ & _ & H5 & H6).
    + vm_compute. reflexivity.
    + exact He.
    + split; [| split; [rewrite H5; exact Hd | exact H6]].
      revert He. vm_compute. intros [= <-]. discriminate.
  - exfalso. revert He. vm_compute. discriminate.
Defined.

(** ** The key area *)

Lemma all_zero_repeat (b : bytes) : all_zero b = true -> b = repeat 0 (length b).
Proof.
  unfold all_zero. induction b as [| x b IH]; cbn [forallb length repeat];
    [reflexivity |].
  intros H. apply andb_true_iff in H. destruct H as [Hx Hb].
  apply Z.eqb_eq in Hx. subst x. f_equal. now apply IH.
Qed.

Lemma zlen_key_area_slot (ka : bytes) (i : Z) :
  zlen ka = NCA_USED_KEY_AREA_SIZE -> 0 <= i < 4 ->
  zlen (key_area_slot ka i) = AES_128_KEY_SIZE.
Proof.
  intros Hz Hi. unfold key_area_slot. apply zlen_slice.
  - unfold AES_128_KEY_SIZE. lia.
  - discriminate.
  - rewrite Hz. unfold AES_128_KEY_SIZE, NCA_USED_KEY_AREA_SIZE. lia.
Qed.

(** A key area is its four slots. *)
Lemma key_area_ext (a b : bytes) :
  zlen a = NCA_USED_KEY_AREA_SIZE -> zlen b = NCA_USED_KEY_AREA_SIZE ->
  (forall i, 0 <= i < 4 -> key_area_slot a i = key_area_slot b i) -> a = b.
Proof.
  intros Ha Hb Hs. apply (nth_ext _ _ 0 0).
  - unfold zlen in *. lia.
  - intros k Hk.
    assert (Hk' : (k < 64)%nat).
    { unfold zlen, NCA_USED_KEY_AREA_SIZE in Ha. lia. }
    set (i := Z.of_nat k / 16).
    assert (Hi : 0 <= i < 4).
    { subst i. split; [apply Z.div_pos; lia | apply Z.div_lt_upper_bound; lia]. }
    pose proof (f_equal (fun l => nth (k - Z.to_nat (i * 16)) l 0) (Hs i Hi)) as He.
    cbv beta in He. unfold key_area_slot in He.
    rewrite !nth_slice in He by (unfold AES_128_KEY_SIZE; lia).
    assert (Hm : 0 <= Z.of_nat k - i * 16 < 16).
    { subst i. pose proof (Z.div_mod (Z.of_nat k) 16 ltac:(lia)).
      pose proof (Z.mod_pos_bound (Z.of_nat k) 16 ltac:(lia)). lia. }
    destruct (Nat.ltb_spec (k - Z.to_nat (i * 16)) (Z.to_nat AES_128_KEY_SIZE)) as [_ | Hge].
    + replace (Z.to_nat (i * AES_128_KEY_SIZE) + (k - Z.to_nat (i * 16)))%nat with k in He
        by (unfold AES_128_KEY_SIZE; lia).
      exact He.
    + exfalso. unfold AES_128_KEY_SIZE in Hge. lia.
Qed.

Section KeyArea.

Variable L : NcaLayout.
Variable E : NcaEnv.
Variable ctx : NcaContext.

Local Abbreviation decrypt_entry :=
  (keysDecryptNcaKeyAreaEntry E (hdr_kaek_index L (header ctx)) (key_generation ctx)).

(** The slot loop of [ncaDecryptKeyArea], slot by slot. *)
Lemma decrypt_key_area_slots_spec (src : bytes) (idx : list Z) :
  forall dst dka,
    NoDup idx -> (forall i, In i idx -> 0 <= i < 4) ->
    zlen dst = NCA_USED_KEY_AREA_SIZE ->
    decrypt_key_area_slots L E ctx src dst idx = Some dka ->
    zlen dka = NCA_USED_KEY_AREA_SIZE
    /\ forall i, 0 <= i < 4 ->
         if in_dec Z.eq_dec i idx then
           if all_zero (fixed AES_128_KEY_SIZE (key_area_slot src i))
           then key_area_slot dka i = key_area_slot dst i
           else exists k,
                  decrypt_entry (fixed AES_128_KEY_SIZE (key_area_slot src i)) = Some k
                  /\ key_area_slot dka i = fixed AES_128_KEY_SIZE k
         else key_area_slot dka i = key_area_slot dst i.
Proof.
  induction idx as [| j rest IH]; intros dst dka Hnd Hin Hz Hrun.
  - cbn in Hrun. injection Hrun as <-. split; [exact Hz |]. intros i Hi.
    destruct (in_dec Z.eq_dec i []) as [[] | _]. reflexivity.
  - inversion_clear Hnd as [| ? ? Hnj Hnd'].
    assert (Hj : 0 <= j < 4) by (apply Hin; now left).
    cbn [decrypt_key_area_slots] in Hrun.
    destruct (all_zero (fixed AES_128_KEY_SIZE (key_area_slot src j))) eqn:Hzero.
    + destruct (IH dst dka Hnd' (fun i Hi => Hin i (or_intror Hi)) Hz Hrun) as [I1 I2].
      split; [exact I1 |]. intros i Hi. specialize (I2 i Hi).
      destruct (in_dec Z.eq_dec i (j :: rest)) as [Hm | Hm];
        destruct (in_dec Z.eq_dec i rest) as [Hr | Hr]; try exact I2.
      * destruct Hm as [<- | Hm]; [| contradiction]. rewrite Hzero. exact I2.
      * exfalso. apply Hm. now right.
    + destruct (decrypt_entry (fixed AES_128_KEY_SIZE (key_area_slot src j)))
        as [k |] eqn:Hk; [| discriminate].
      set (dst1 := memcpy dst (j * AES_128_KEY_SIZE) (fixed AES_128_KEY_SIZE k)
                          AES_128_KEY_SIZE) in *.
      assert (Hzk : zlen (fixed AES_128_KEY_SIZE k) = AES_128_KEY_SIZE)
        by (apply zlen_fixed; discriminate).
      assert (Hz1 : zlen dst1 = NCA_USED_KEY_AREA_SIZE).
      { unfold zlen. subst dst1. rewrite length_memcpy.
        - exact Hz.
        - unfold AES_128_KEY_SIZE. lia.
        - discriminate.
        - rewrite Hz. unfold AES_128_KEY_SIZE, NCA_USED_KEY_AREA_SIZE. lia.
        - rewrite Hzk. apply Z.le_refl. }
      destruct (IH dst1 dka Hnd' (fun i Hi => Hin i (or_intror Hi)) Hz1 Hrun) as [I1 I2].
      split; [exact I1 |]. intros i Hi. specialize (I2 i Hi).
      assert (Hsame : key_area_slot dst1 j = fixed AES_128_KEY_SIZE k).
      { unfold key_area_slot. subst dst1. rewrite slice_memcpy_same.
        - apply firstn_all2. unfold zlen in Hzk. lia.
        - unfold AES_128_KEY_SIZE. lia.
        - discriminate.
        - rewrite Hz. unfold AES_128_KEY_SIZE, NCA_USED_KEY_AREA_SIZE. lia.
        - rewrite Hzk. apply Z.le_refl. }
      assert (Hother : i <> j -> key_area_slot dst1 i = key_area_slot dst i).
      { intros Hne. unfold key_area_slot. subst dst1. apply slice_memcpy_other;
          try (unfold AES_128_KEY_SIZE; lia).
        - rewrite Hz. unfold AES_128_KEY_SIZE, NCA_USED_KEY_AREA_SIZE. lia.
        - rewrite Hzk. apply Z.le_refl. }
      destruct (in_dec Z.eq_dec i (j :: rest)) as [Hm | Hm];
        destruct (in_dec Z.eq_dec i rest) as [Hr | Hr].
      * destruct (all_zero (fixed AES_128_KEY_SIZE (key_area_slot src i)));
          [| exact I2].
        rewrite I2. apply Hother. intros ->. contradiction.
      * destruct Hm as [<- | Hm]; [| contradiction].
        rewrite Hzero. exists k. split; [exact Hk |]. rewrite I2. exact Hsame.
      * exfalso. apply Hm. now right.
      * rewrite I2. apply Hother. intros ->. apply Hm. now left.
Qed.

Lemma key_area_slot_calloc (i : Z) :
  0 <= i < 4 ->
  key_area_slot (calloc NCA_USED_KEY_AREA_SIZE) i = calloc AES_128_KEY_SIZE.
Proof.
  intros Hi. assert (H : i = 0 \/ i = 1 \/ i = 2 \/ i = 3) by lia.
  destruct H as [-> | [-> | [-> | ->]]]; reflexivity.
Qed.

(** [ncaDecryptKeyArea] slot by slot, when it does not copy the key area. *)
Lemma decrypt_key_area_spec (ctx' : NcaContext) (i : Z) :
  ncaIsVersion0KeyAreaEncrypted L E ctx = false ->
  ncaDecryptKeyArea L E ctx = Some ctx' ->
  0 <= i < 4 ->
  let stored := fixed NCA_USED_KEY_AREA_SIZE (hdr_encrypted_key_area L (header ctx)) in
  let slot := fixed AES_128_KEY_SIZE (key_area_slot stored i) in
  ctx' = set_decrypted_key_area ctx (decrypted_key_area ctx')
  /\ zlen (decrypted_key_area ctx') = NCA_USED_KEY_AREA_SIZE
  /\ (key_count ctx <= i \/ all_zero slot = true ->
      key_area_slot (decrypted_key_area ctx') i = calloc AES_128_KEY_SIZE)
  /\ (i < key_count ctx -> all_zero slot = false ->
      exists k, decrypt_entry slot = Some k
                /\ key_area_slot (decrypted_key_area ctx') i = fixed AES_128_KEY_SIZE k).
Proof.
  intros Hcopy Hrun Hi. cbv zeta. unfold ncaDecryptKeyArea in Hrun.
  rewrite Hcopy in Hrun.
  destruct (decrypt_key_area_slots L E ctx _ _ _) as [dka |] eqn:Hs; [| discriminate].
  injection Hrun as <-. cbn [decrypted_key_area set_decrypted_key_area].
  assert (Hkc : key_count ctx = 2 \/ key_count ctx = 4).
  { unfold key_count. destruct (_ =? _); auto. }
  assert (Hin : forall j, In j (upto (key_count ctx)) -> 0 <= j < 4).
  { intros j Hj. apply In_upto in Hj. lia. }
  assert (Hz0 : zlen (calloc NCA_USED_KEY_AREA_SIZE) = NCA_USED_KEY_AREA_SIZE)
    by reflexivity.
  destruct (decrypt_key_area_slots_spec _ _ _ _ (NoDup_upto _) Hin Hz0 Hs) as [S1 S2].
  split; [reflexivity |]. split; [exact S1 |].
  specialize (S2 i Hi). rewrite key_area_slot_calloc in S2 by exact Hi.
  destruct (in_dec Z.eq_dec i (upto (key_count ctx))) as [Hm | Hm].
  - apply In_upto in Hm. split.
    + intros [Hge | Hz]; [lia |]. rewrite Hz in S2. exact S2.
    + intros _ Hnz. rewrite Hnz in S2. exact S2.
  - rewrite In_upto in Hm. split.
    + intros _. exact S2.
    + intros Hlt. exfalso. apply Hm. lia.
Qed.

(** X21.  [ncaDecryptKeyArea] slot by slot, when it does not copy the key
    area: a slot past the key count of the format (two for V0, four
    otherwise) and a stored slot that is all zero give a zero slot; any other
    slot is what the key store decrypts the stored slot to.  Nothing else of
    the context changes. *)
Theorem key_area_decrypt_slots (ctx' : NcaContext) (i : Z) :
  ncaIsVersion0KeyAreaEncrypted L E ctx = false ->
  ncaDecryptKeyArea L E ctx = Some ctx' ->
  0 <= i < 4 ->
  let stored := fixed NCA_USED_KEY_AREA_SIZE (hdr_encrypted_key_area L (header ctx)) in
  let slot := fixed AES_128_KEY_SIZE (key_area_slot stored i) in
  ctx' = set_decrypted_key_area ctx (decrypted_key_area ctx')
  /\ zlen (decrypted_key_area ctx') = NCA_USED_KEY_AREA_SIZE
  /\ (key_count ctx <= i \/ all_zero slot = true ->
      key_area_slot (decrypted_key_area ctx') i = calloc AES_128_KEY_SIZE)
  /\ (i < key_count ctx -> all_zero slot = false ->
      exists k, decrypt_entry slot = Some k
                /\ key_area_slot (decrypted_key_area ctx') i = fixed AES_128_KEY_SIZE k).
Proof. apply decrypt_key_area_spec. Qed.

End KeyArea.

Section KeyAreaRoundTrip.

Variable L : NcaLayout.
Variable E : NcaEnv.

(** The slot loop of [ncaEncryptKeyArea], slot by slot. *)
Lemma encrypt_key_area_slots_spec (kaek src : bytes) (idx : list Z) :
  forall dst,
    NoDup idx -> (forall i, In i idx -> 0 <= i < 4) ->
    zlen dst = NCA_USED_KEY_AREA_SIZE ->
    let eka := encrypt_key_area_slots E kaek src dst idx in
    zlen eka = NCA_USED_KEY_AREA_SIZE
    /\ forall i, 0 <= i < 4 ->
         key_area_slot eka i
         = if in_dec Z.eq_dec i idx then
             if all_zero (fixed AES_128_KEY_SIZE (key_area_slot src i))
             then key_area_slot dst i
             else fixed AES_128_KEY_SIZE
                    (aes128EncryptBlock E kaek
                       (fixed AES_128_KEY_SIZE (key_area_slot src i)))
           else key_area_slot dst i.
Proof.
  induction idx as [| j rest IH]; intros dst Hnd Hin Hz; cbv zeta.
  - cbn [encrypt_key_area_slots]. split; [exact Hz |]. intros i Hi.
    destruct (in_dec Z.eq_dec i []) as [[] | _]. reflexivity.
  - inversion_clear Hnd as [| ? ? Hnj Hnd'].
    assert (Hj : 0 <= j < 4) by (apply Hin; now left).
    cbn [encrypt_key_area_slots].
    destruct (all_zero (fixed AES_128_KEY_SIZE (key_area_slot src j))) eqn:Hzero.
    + destruct (IH dst Hnd' (fun i Hi => Hin i (or_intror Hi)) Hz) as [I1 I2].
      split; [exact I1 |]. intros i Hi. rewrite (I2 i Hi).
      destruct (in_dec Z.eq_dec i (j :: rest)) as [Hm | Hm];
        destruct (in_dec Z.eq_dec i rest) as [Hr | Hr]; try reflexivity.
      * destruct Hm as [<- | Hm]; [| contradiction]. rewrite Hzero. reflexivity.
      * exfalso. apply Hm. now right.
    + set (blk := fixed AES_128_KEY_SIZE
                    (aes128EncryptBlock E kaek
                       (fixed AES_128_KEY_SIZE (key_area_slot src j)))).
      set (dst1 := memcpy dst (j * AES_128_KEY_SIZE) blk AES_128_KEY_SIZE).
      assert (Hzk : zlen blk = AES_128_KEY_SIZE) by (apply zlen_fixed; discriminate).
      assert (Hz1 : zlen dst1 = NCA_USED_KEY_AREA_SIZE).
      { unfold zlen. subst dst1. rewrite length_memcpy.
        - exact Hz.
        - unfold AES_128_KEY_SIZE. lia.
        - discriminate.
        - rewrite Hz. unfold AES_128_KEY_SIZE, NCA_USED_KEY_AREA_SIZE. lia.
        - rewrite Hzk. apply Z.le_refl. }
      destruct (IH dst1 Hnd' (fun i Hi => Hin i (or_intror Hi)) Hz1) as [I1 I2].
      split; [exact I1 |]. intros i Hi. rewrite (I2 i Hi).
      assert (Hsame : key_area_slot dst1 j = blk).
      { unfold key_area_slot. subst dst1. rewrite slice_memcpy_same.
        - apply firstn_all2. unfold zlen in Hzk. lia.
        - unfold AES_128_KEY_SIZE. lia.
        - discriminate.
        - rewrite Hz. unfold AES_128_KEY_SIZE, NCA_USED_KEY_AREA_SIZE. lia.
        - rewrite Hzk. apply Z.le_refl. }
      assert (Hother : i <> j -> key_area_slot dst1 i = key_area_slot dst i).
      { intros Hne. unfold key_area_slot. subst dst1. apply slice_memcpy_other;
          try (unfold AES_128_KEY_SIZE; lia).
        - rewrite Hz. unfold AES_128_KEY_SIZE, NCA_USED_KEY_AREA_SIZE. lia.
        - rewrite Hzk. apply Z.le_refl. }
      destruct (in_dec Z.eq_dec i (j :: rest)) as [Hm | Hm];
        destruct (in_dec Z.eq_dec i rest) as [Hr | Hr].
      * destruct (all_zero (fixed AES_128_KEY_SIZE (key_area_slot src i)));
          [| reflexivity].
        apply Hother. intros ->. contradiction.
      * destruct Hm as [<- | Hm]; [| contradiction]. rewrite Hzero. exact Hsame.
      * exfalso. apply Hm. now right.
      * apply Hother. intros ->. apply Hm. now left.
Qed.

(** X22.  The key area round trip of a V2 or V3 archive.  With a key store
    whose block encryption under the KAEK inverts its key area decryption,
    a layout whose key area field gives back what was stored in it, and no
    stored slot that decrypts to the all-zero key, encrypting the key area
    that [ncaDecryptKeyArea] decrypted stores the key area the header had. *)
Theorem key_area_round_trip (ctx c1 : NcaContext) (kaek : bytes) :
  let stored := fixed NCA_USED_KEY_AREA_SIZE (hdr_encrypted_key_area L (header ctx)) in
  format_version ctx <> NcaVersion_Nca0 ->
  keysGetNcaKeyAreaEncryptionKey E (hdr_kaek_index L (header ctx)) (key_generation ctx)
  = Some kaek ->
  (forall i k, 0 <= i < 4 ->
     keysDecryptNcaKeyAreaEntry E (hdr_kaek_index L (header ctx)) (key_generation ctx)
       (key_area_slot stored i) = Some k ->
     aes128EncryptBlock E kaek (fixed AES_128_KEY_SIZE k) = key_area_slot stored i
     /\ all_zero (fixed AES_128_KEY_SIZE k) = false) ->
  (forall v, zlen v = NCA_USED_KEY_AREA_SIZE ->
     hdr_encrypted_key_area L (hdr_set_encrypted_key_area L (header ctx) v) = v) ->
  ncaDecryptKeyArea L E ctx = Some c1 ->
  exists c2,
    ncaEncryptKeyArea L E c1 = Some c2
    /\ hdr_encrypted_key_area L (header c2) = stored
    /\ c2 = set_header c1 (header c2).
Proof.
  cbv zeta. intros Hv Hkaek Hinv Hlaw Hdec.
  set (stored := fixed NCA_USED_KEY_AREA_SIZE (hdr_encrypted_key_area L (header ctx)))
    in *.
  assert (Hzs : zlen stored = NCA_USED_KEY_AREA_SIZE)
    by (apply zlen_fixed; discriminate).
  assert (Hcopy : ncaIsVersion0KeyAreaEncrypted L E ctx = false).
  { unfold ncaIsVersion0KeyAreaEncrypted.
    replace (format_version ctx =? NcaVersion_Nca0) with false
      by (symmetry; now apply Z.eqb_neq).
    reflexivity. }
  assert (Hkc : key_count ctx = 4).
  { unfold key_count.
    replace (format_version ctx =? NcaVersion_Nca0) with false
      by (symmetry; now apply Z.eqb_neq).
    reflexivity. }
  pose proof (fun i Hi => decrypt_key_area_spec L E ctx c1 i Hcopy Hdec Hi) as Hslots.
  cbv zeta in Hslots. fold stored in Hslots.
  assert (Hc1 : c1 = set_decrypted_key_area ctx (decrypted_key_area c1)).
  { exact (proj1 (Hslots 0 ltac:(lia))). }
  assert (Hzd : zlen (decrypted_key_area c1) = NCA_USED_KEY_AREA_SIZE).
  { exact (proj1 (proj2 (Hslots 0 ltac:(lia)))). }
  unfold ncaEncryptKeyArea.
  replace (ncaIsVersion0KeyAreaEncrypted L E c1) with false.
  2: { symmetry. rewrite Hc1. exact Hcopy. }
  replace (header c1) with (header ctx) by (rewrite Hc1; reflexivity).
  replace (key_generation c1) with (key_generation ctx) by (rewrite Hc1; reflexivity).
  rewrite Hkaek.
  replace (key_count c1) with 4 by (rewrite Hc1; symmetry; exact Hkc).
  rewrite (fixed_exact _ _ Hzd).
  eexists. split; [reflexivity |].
  cbn [header set_header]. split; [| reflexivity].
  assert (Hin : forall i, In i (upto 4) -> 0 <= i < 4)
    by (intros i Hi; now apply In_upto).
  destruct (encrypt_key_area_slots_spec kaek (decrypted_key_area c1) (upto 4)
              (calloc NCA_USED_KEY_AREA_SIZE) (NoDup_upto _) Hin eq_refl) as [S1 S2].
  rewrite Hlaw by exact S1.
  apply key_area_ext; [exact S1 | exact Hzs |].
  intros i Hi. rewrite (S2 i Hi).
  destruct (in_dec Z.eq_dec i (upto 4)) as [_ | Hm];
    [| exfalso; apply Hm; now apply In_upto].
  destruct (Hslots i Hi) as (_ & _ & Hzero & Hnz).
  assert (Hzi : zlen (key_area_slot stored i) = AES_128_KEY_SIZE)
    by (apply zlen_key_area_slot; assumption).
  rewrite (fixed_exact _ _ Hzi) in Hzero, Hnz.
  assert (Hzdi : zlen (key_area_slot (decrypted_key_area c1) i) = AES_128_KEY_SIZE)
    by (apply zlen_key_area_slot; assumption).
  rewrite (fixed_exact _ _ Hzdi).
  destruct (all_zero (key_area_slot stored i)) eqn:Hz.
  - rewrite (Hzero (or_intror eq_refl)).
    change (all_zero (calloc AES_128_KEY_SIZE)) with true. cbv iota.
    rewrite key_area_slot_calloc by exact Hi.
    rewrite (all_zero_repeat _ Hz). unfold zlen in Hzi.
    unfold calloc. f_equal. lia.
  - destruct (Hnz ltac:(lia) eq_refl) as (k & Hk & Hs).
    destruct (Hinv i k Hi Hk) as [Henc Hknz].
    rewrite Hs, Hknz, Henc. apply fixed_exact. exact Hzi.
Qed.

End KeyAreaRoundTrip.

Lemma key_area_decrypt_slots_witness :
  exists ctx',
    ncaDecryptKeyArea Toy.layout Example.env_v3 Example.ctx_v3 = Some ctx'
    /\ key_area_slot (decrypted_key_area ctx') 2 = repeat 0x69 16.
Proof.
  destruct (ncaDecryptKeyArea Toy.layout Example.env_v3 Example.ctx_v3) as [ctx' |] eqn:Hd.
  - exists ctx'. split; [reflexivity |].
    destruct (key_area_decrypt_slots Toy.layout Example.env_v3 Example.ctx_v3 ctx' 2)
      as (_ & _ & _ & H4).
    + vm_compute. reflexivity.
    + exact Hd.
    + split; [discriminate | reflexivity].
    + destruct H4 as (k & Hk & Hs).
      * vm_compute. reflexivity.
      * vm_compute. reflexivity.
      * rewrite Hs. revert Hk. vm_compute. intros [= <-]. reflexivity.
  - exfalso. revert Hd. vm_compute. discriminate.
Defined.

Lemma key_area_round_trip_witness :
  exists c1 c2,
    ncaDecryptKeyArea Toy.layout Example.env_v3 Example.ctx_v3 = Some c1
    /\ ncaEncryptKeyArea Toy.layout Example.env_v3 c1 = Some c2
    /\ hdr_encrypted_key_area Toy.layout (header c2) = repeat 0x33 0x40.
Proof.
  destruct (ncaDecryptKeyArea Toy.layout Example.env_v3 Example.ctx_v3) as [c1 |] eqn:Hd.
  2: { exfalso. revert Hd. vm_compute. discriminate. }
  assert (Hh : zlen (header Example.ctx_v3) = 0x400) by (vm_compute; reflexivity).
  destruct (key_area_round_trip Toy.layout Example.env_v3 Example.ctx_v3 c1
              (repeat 0x5A 16)) as (c2 & He & Hs & _).
  - vm_compute. discriminate.
  - reflexivity.
  - intros i k Hi. assert (Hc : i = 0 \/ i = 1 \/ i = 2 \/ i = 3) by lia.
    destruct Hc as [-> | [-> | [-> | ->]]]; vm_compute; intros [= <-];
      split; reflexivity.
  - intros v Hv. cbn [hdr_encrypted_key_area hdr_set_encrypted_key_area Toy.layout].
    unfold Toy.put. rewrite slice_memcpy_same.
    + rewrite fixed_exact by exact Hv. apply firstn_all2.
      unfold zlen, NCA_USED_KEY_AREA_SIZE in Hv. lia.
    + discriminate.
    + discriminate.
    + rewrite Hh. discriminate.
    + rewrite zlen_fixed by discriminate. apply Z.le_refl.
  - exact Hd.
  - exists c1, c2. split; [reflexivity |]. split; [exact He |].
    rewrite Hs. vm_compute. reflexivity.
Defined.

Section BlockGeometry.

Variable E : NcaEnv.

(** A read that succeeds passed both parameter tests. *)
Lemma read_success_guards (crypto_buffer : bool) (nca_ctx : NcaContext)
    (ctx : NcaFsSectionContext) (read_size offset : Z) (out : bytes) :
  _ncaReadFsSection E crypto_buffer nca_ctx ctx read_size offset = Some out ->
  read_section_invalid crypto_buffer ctx read_size offset = false
  /\ read_archive_invalid nca_ctx (add64 (section_offset ctx) offset) read_size = false.
Proof.
  unfold _ncaReadFsSection, read_fuel. cbn [_ncaReadFsSection_fuel].
  destruct (read_section_invalid _ _ _ _); [discriminate |].
  destruct (read_archive_invalid _ _ _); [discriminate |].
  split; reflexivity.
Qed.

(** The block of whole cipher units around a data range, when nothing
    wraps. *)
Lemma block_range_fits (unit so do ds : Z) :
  unit = AES_BLOCK_SIZE \/ unit = NCA_AES_XTS_SECTOR_SIZE ->
  0 <= so -> 0 <= do -> 0 < ds ->
  so + do + ds + NCA_AES_XTS_SECTOR_SIZE <= 2 ^ 64 ->
  let block_start := ALIGN_DOWN do unit in
  let block_size := sub64 (ALIGN_UP (add64 do ds) unit) block_start in
  let block_offset := add64 so block_start in
  block_offset = so + block_start
  /\ add64 block_start block_size = block_start + block_size
  /\ add64 block_offset block_size = block_offset + block_size
  /\ 0 <= block_start <= do /\ do < block_start + unit
  /\ do + ds <= block_start + block_size /\ block_start + block_size < do + ds + unit
  /\ block_size mod unit = 0
  /\ sub64 do block_start = do - block_start.
Proof.
  unfold sub64, add64, ALIGN_UP, ALIGN_DOWN, u64, AES_BLOCK_SIZE,
    NCA_AES_XTS_SECTOR_SIZE.
  change (2 ^ 64) with 18446744073709551616.
  intros [-> | ->] Hso Hdo Hds Hb; cbv zeta;
    Z.to_euclidean_division_equations; lia.
Qed.

(** In a section that starts on a sector boundary the block starts on a
    cipher unit of the archive. *)
Lemma block_offset_aligned (unit so do : Z) :
  unit = AES_BLOCK_SIZE \/ unit = NCA_AES_XTS_SECTOR_SIZE ->
  so mod NCA_AES_XTS_SECTOR_SIZE = 0 ->
  (so + ALIGN_DOWN do unit) mod unit = 0 \/ 2 ^ 64 <= do \/ do < 0.
Proof.
  unfold ALIGN_DOWN, u64, AES_BLOCK_SIZE, NCA_AES_XTS_SECTOR_SIZE.
  change (2 ^ 64) with 18446744073709551616.
  intros [-> | ->] Hsm; Z.to_euclidean_division_equations; lia.
Qed.

(** X23.  The block that [_ncaGenerateEncryptedFsSectionBlock] returns for a
    data range that does not wrap around 2^64, in a section that starts on a
    sector boundary: it is the smallest range of whole cipher units (whole
    bytes in a plaintext section) that covers the data, it lies inside the
    section and inside the archive, and it is not empty. *)
Theorem generated_block_geometry (crypto_buffer : bool) (nca_ctx : NcaContext)
    (ctx : NcaFsSectionContext) (data block : bytes)
    (data_size data_offset block_size block_offset : Z) :
  0 <= section_offset ctx -> section_offset ctx mod NCA_AES_XTS_SECTOR_SIZE = 0 ->
  0 <= data_offset -> 0 <= data_size ->
  section_offset ctx + data_offset + data_size + NCA_AES_XTS_SECTOR_SIZE <= 2 ^ 64 ->
  _ncaGenerateEncryptedFsSectionBlock E crypto_buffer nca_ctx ctx data data_size
                                      data_offset
  = Some (block, block_size, block_offset) ->
  let unit :=
    if encryption_type ctx =? NcaEncryptionType_None then 1 else cipher_unit ctx in
  let first := section_offset ctx + data_offset in
  block_offset mod unit = 0 /\ block_size mod unit = 0
  /\ block_offset <= first < block_offset + unit
  /\ first + data_size <= block_offset + block_size < first + data_size + unit
  /\ 0 < block_size
  /\ section_offset ctx <= block_offset
  /\ block_offset - section_offset ctx + block_size <= section_size ctx
  /\ block_offset + block_size <= content_size nca_ctx.
Proof.
  intros Hso Hsm Hdo Hds Hsum. cbv zeta.
  unfold _ncaGenerateEncryptedFsSectionBlock.
  destruct (block_section_invalid _ _ _ _) eqn:Hs; [discriminate |].
  assert (Hco : add64 (section_offset ctx) data_offset
                = section_offset ctx + data_offset).
  { unfold add64, u64. apply Z.mod_small.
    unfold NCA_AES_XTS_SECTOR_SIZE in Hsum. lia. }
  assert (Hdd : add64 data_offset data_size = data_offset + data_size).
  { unfold add64, u64. apply Z.mod_small.
    unfold NCA_AES_XTS_SECTOR_SIZE in Hsum. lia. }
  assert (Hcd : add64 (section_offset ctx + data_offset) data_size
                = section_offset ctx + data_offset + data_size).
  { unfold add64, u64. apply Z.mod_small.
    unfold NCA_AES_XTS_SECTOR_SIZE in Hsum. lia. }
  rewrite Hco.
  destruct (read_archive_invalid _ _ _) eqn:Ha; [discriminate |].
  unfold block_section_invalid in Hs. unfold read_archive_invalid in Ha.
  repeat match goal with
         | H : _ || _ = false |- _ => apply orb_false_iff in H as [H ?]
         end.
  match goal with H : (data_size =? 0) = false |- _ => apply Z.eqb_neq in H;
    rename H into Hnz end.
  match goal with H : (add64 data_offset data_size >? _) = false |- _ =>
    rewrite Z.gtb_ltb in H; apply Z.ltb_ge in H; rewrite Hdd in H;
    rename H into Hsec end.
  match goal with H : (add64 _ data_size >? content_size _) = false |- _ =>
    rewrite Z.gtb_ltb in H; apply Z.ltb_ge in H; rewrite Hcd in H;
    rename H into Harc end.
  destruct (aligned_access ctx false _ data_size) eqn:Hal.
  - destruct (encrypt_section_block _ _ _ _ _ _ _) as [enc |]; [| discriminate].
    intros [= _ <- <-].
    assert (Hu : (section_offset ctx + data_offset)
                 mod (if encryption_type ctx =? NcaEncryptionType_None
                      then 1 else cipher_unit ctx) = 0
                 /\ data_size
                    mod (if encryption_type ctx =? NcaEncryptionType_None
                         then 1 else cipher_unit ctx) = 0).
    { unfold aligned_access, cipher_unit in *.
      destruct (encryption_type ctx =? NcaEncryptionType_None) eqn:Hn.
      - split; apply Z.mod_1_r.
      - cbn [orb andb] in Hal.
        destruct (encryption_type ctx =? NcaEncryptionType_AesXts) eqn:Hx;
          cbn [orb andb] in Hal.
        + apply orb_true_iff in Hal as [Hal | Hal].
          * apply andb_true_iff in Hal as [Hal1 Hal2].
            apply Z.eqb_eq in Hal1, Hal2. split; assumption.
          * apply andb_true_iff in Hal as [Hal _].
            apply andb_true_iff in Hal as [Hal _].
            rewrite orb_false_r in Hal. apply Z.eqb_eq in Hal, Hx.
            rewrite Hx in Hal. discriminate Hal.
        + apply andb_true_iff in Hal as [Hal Hal2].
          apply andb_true_iff in Hal as [_ Hal1].
          apply Z.eqb_eq in Hal1, Hal2. split; assumption. }
    destruct Hu as [Hu1 Hu2].
    assert (Hup : 0 < (if encryption_type ctx =? NcaEncryptionType_None
                       then 1 else cipher_unit ctx)).
    { destruct (encryption_type ctx =? NcaEncryptionType_None); [lia |].
      destruct (cipher_unit_cases ctx) as [Hc | Hc]; rewrite Hc; reflexivity. }
    repeat split; try assumption; try lia.
  - pose proof (block_range_fits (cipher_unit ctx) (section_offset ctx) data_offset
                  data_size (cipher_unit_cases ctx) Hso Hdo ltac:(lia) Hsum)
      as Hfit.
    pose proof (block_offset_aligned (cipher_unit ctx) (section_offset ctx) data_offset
                  (cipher_unit_cases ctx) Hsm) as Hm1.
    cbv zeta in Hfit.
    set (block_start := ALIGN_DOWN data_offset (cipher_unit ctx)) in *.
    set (bsz := sub64 (ALIGN_UP (add64 data_offset data_size) (cipher_unit ctx))
                      block_start) in *.
    destruct Hfit as (Hbo & Hbb & Hob & Hst & Hst' & Hcov & Hmin & Hm2 & _).
    rewrite <- Hbo in Hm1.
    assert (Hlt : data_offset < 2 ^ 64)
      by (unfold NCA_AES_XTS_SECTOR_SIZE in Hsum; lia).
    destruct Hm1 as [Hm1 | [Hm1 | Hm1]]; [| lia | lia].
    destruct (_ncaReadFsSection E _ _ _ _ _) as [out |] eqn:Hrd; [| discriminate].
    destruct (encrypt_section_block _ _ _ _ _ _ _) as [enc |]; [| discriminate].
    intros [= _ <- <-].
    apply read_success_guards in Hrd as [Hrs Hra].
    unfold read_section_invalid in Hrs. unfold read_archive_invalid in Hra.
    repeat match goal with
           | H : _ || _ = false |- _ => apply orb_false_iff in H as [H ?]
           end.
    match goal with H : (add64 block_start bsz >? _) = false |- _ =>
      rewrite Z.gtb_ltb in H; apply Z.ltb_ge in H; rewrite Hbb in H;
      rename H into Hsec' end.
    match goal with H : (add64 _ bsz >? content_size _) = false |- _ =>
      rewrite Z.gtb_ltb in H; apply Z.ltb_ge in H; rewrite Hob in H;
      rename H into Harc' end.
    assert (Hn : (encryption_type ctx =? NcaEncryptionType_None) = false).
    { unfold aligned_access in Hal.
      destruct (encryption_type ctx =? NcaEncryptionType_None);
        [discriminate Hal | reflexivity]. }
    rewrite Hn.
    repeat split; try assumption; try lia.
Qed.

End BlockGeometry.

Section BlockContent.

Variable E : NcaEnv.
Variable nca_ctx : NcaContext.
Variable ctx : NcaFsSectionContext.

(** The storage reader fills the whole block, the ciphers keep the length
    of what they process, XTS decryption of the section inverts its XTS
    encryption, and CTR is its own inverse under one counter. *)
Hypothesis reader_fills :
  forall n off out, 0 <= n -> 0 <= off ->
    ncaReadContentFile E nca_ctx n off = Some out -> zlen out = n.
Hypothesis xts_length :
  forall c src size sector ss enc,
    zlen (fst (aes128XtsNintendoCrypt E c src size sector ss enc)) = zlen src.
Hypothesis ctr_length :
  forall c src, zlen (aes128CtrCrypt E c src) = zlen src.
Hypothesis xts_inverse :
  forall src size sector,
    snd (aes128XtsNintendoCrypt E (xts_encrypt_ctx ctx) src size sector
           NCA_AES_XTS_SECTOR_SIZE true) = size ->
    aes128XtsNintendoCrypt E (xts_decrypt_ctx ctx)
      (fst (aes128XtsNintendoCrypt E (xts_encrypt_ctx ctx) src size sector
              NCA_AES_XTS_SECTOR_SIZE true))
      size sector NCA_AES_XTS_SECTOR_SIZE false
    = (src, size).
Hypothesis ctr_involutive :
  forall c src, aes128CtrCrypt E c (aes128CtrCrypt E c src) = src.

Lemma encrypt_section_block_length (data enc : bytes) (size offset content_offset : Z) :
  encrypt_section_block E nca_ctx ctx data size offset content_offset = Some enc ->
  zlen enc = zlen data.
Proof.
  unfold encrypt_section_block.
  destruct (encryption_type ctx =? NcaEncryptionType_AesXts).
  - pose proof (xts_length (xts_encrypt_ctx ctx) data size
                  (xts_sector_num nca_ctx offset content_offset)
                  NCA_AES_XTS_SECTOR_SIZE true) as Hl.
    destruct (aes128XtsNintendoCrypt E _ _ _ _ _ _) as [d r]. cbn [fst] in Hl.
    destruct (negb (r =? size)); [discriminate |]. intros [= <-]. exact Hl.
  - destruct (_ =? _).
    + intros [= <-]. apply ctr_length.
    + intros [= <-]. reflexivity.
Qed.

(** What the block generator encrypts, a read at the same place decrypts. *)
Lemma decrypt_encrypt_section_block (data enc : bytes) (size offset content_offset : Z) :
  (encryption_type ctx >=? NcaEncryptionType_AesCtrEx) = false ->
  encrypt_section_block E nca_ctx ctx data size offset content_offset = Some enc ->
  decrypt_section_block E nca_ctx ctx enc size offset content_offset content_offset
  = Some data.
Proof.
  intros Hex. unfold encrypt_section_block, decrypt_section_block.
  destruct (encryption_type ctx =? NcaEncryptionType_AesXts).
  - pose proof (xts_inverse data size (xts_sector_num nca_ctx offset content_offset))
      as Hinv.
    destruct (aes128XtsNintendoCrypt E (xts_encrypt_ctx ctx) _ _ _ _ _) as [d r].
    cbn [fst snd] in Hinv.
    destruct (r =? size) eqn:Hr; cbn [negb]; [| discriminate].
    apply Z.eqb_eq in Hr. intros [= <-]. rewrite (Hinv Hr).
    rewrite Z.eqb_refl. reflexivity.
  - destruct (encryption_type ctx =? NcaEncryptionType_AesCtr) eqn:Hc.
    + intros [= <-]. cbn [orb]. rewrite ctr_involutive. reflexivity.
    + intros [= <-].
      assert (Hx : (encryption_type ctx =? NcaEncryptionType_AesCtrEx) = false).
      { rewrite Z.geb_leb in Hex. apply Z.leb_gt in Hex. apply Z.eqb_neq. lia. }
      rewrite Hx. reflexivity.
Qed.

Lemma read_some_length (crypto_buffer : bool) (read_size offset : Z) (out : bytes) :
  0 < read_size -> 0 <= offset -> 0 <= section_offset ctx ->
  section_offset ctx + offset + read_size + NCA_AES_XTS_SECTOR_SIZE <= 2 ^ 64 ->
  _ncaReadFsSection E crypto_buffer nca_ctx ctx read_size offset = Some out ->
  zlen out = read_size.
Proof.
  intros Hrs Hoff Hso Hsum. unfold _ncaReadFsSection.
  destruct (_ncaReadFsSection_fuel E _ _ _ _ _ _) as [o | |] eqn:Hrun;
    try discriminate.
  intros [= <-].
  exact (read_fs_section_fuel_length E nca_ctx ctx reader_fills xts_length ctr_length
           crypto_buffer _ _ _ _ Hrs Hoff Hso Hsum Hrun).
Qed.

(** X24.  What the generated block is: ciphertext of [block_size] bytes
    that a read at the place of the block decrypts to the plaintext the
    section had there with the new data copied in at its offset.  The
    ciphers are taken to keep lengths and to invert each other, and the
    range not to wrap around 2^64. *)
Theorem generated_block_decrypts (crypto_buffer : bool) (data block : bytes)
    (data_size data_offset block_size block_offset : Z) :
  0 <= section_offset ctx -> 0 <= data_offset -> 0 <= data_size ->
  section_offset ctx + data_offset + data_size + 2 * NCA_AES_XTS_SECTOR_SIZE
  <= 2 ^ 64 ->
  _ncaGenerateEncryptedFsSectionBlock E crypto_buffer nca_ctx ctx data data_size
                                      data_offset
  = Some (block, block_size, block_offset) ->
  let block_start := block_offset - section_offset ctx in
  let patch_at := data_offset - block_start in
  zlen block = block_size
  /\ exists plain,
       decrypt_section_block E nca_ctx ctx block block_size block_start
                             block_offset block_offset = Some plain
       /\ zlen plain = block_size
       /\ slice plain patch_at data_size = fixed data_size data
       /\ (forall old,
             _ncaReadFsSection E crypto_buffer nca_ctx ctx block_size block_start
             = Some old ->
             plain = memcpy old patch_at (fixed data_size data) data_size).
Proof.
  intros Hso Hdo Hds Hsum. cbv zeta.
  unfold _ncaGenerateEncryptedFsSectionBlock.
  destruct (block_section_invalid _ _ _ _) eqn:Hs; [discriminate |].
  assert (Hco : add64 (section_offset ctx) data_offset
                = section_offset ctx + data_offset).
  { unfold add64, u64. apply Z.mod_small.
    unfold NCA_AES_XTS_SECTOR_SIZE in Hsum. lia. }
  rewrite Hco.
  destruct (read_archive_invalid _ _ _); [discriminate |].
  unfold block_section_invalid in Hs.
  repeat match goal with
         | H : _ || _ = false |- _ => apply orb_false_iff in H as [H ?]
         end.
  match goal with H : (data_size =? 0) = false |- _ => apply Z.eqb_neq in H;
    rename H into Hnz end.
  match goal with H : (encryption_type ctx >=? _) = false |- _ =>
    rename H into Hex end.
  assert (Hfix : zlen (fixed data_size data) = data_size) by now apply zlen_fixed.
  destruct (aligned_access ctx false _ data_size).
  - destruct (encrypt_section_block _ _ _ _ _ _ _) as [enc |] eqn:Henc;
      [| discriminate].
    intros [= <- <- <-].
    replace (section_offset ctx + data_offset - section_offset ctx)
      with data_offset by lia.
    replace (data_offset - data_offset) with 0 by lia.
    split.
    { apply encrypt_section_block_length in Henc. congruence. }
    exists (fixed data_size data).
    split; [exact (decrypt_encrypt_section_block _ _ _ _ _ Hex Henc) |].
    split; [exact Hfix |].
    assert (Hall : firstn (Z.to_nat data_size) (fixed data_size data)
                   = fixed data_size data).
    { apply firstn_all2. unfold zlen in Hfix. lia. }
    split.
    + unfold slice. cbn [Z.to_nat skipn]. exact Hall.
    + intros old Hold.
      apply read_some_length in Hold;
        [| lia | exact Hdo | exact Hso | unfold NCA_AES_XTS_SECTOR_SIZE in *; lia].
      unfold memcpy. cbn [Z.to_nat firstn app]. rewrite Hall.
      rewrite skipn_all2 by (unfold zlen in Hold; lia).
      now rewrite app_nil_r.
  - assert (Hsum' : section_offset ctx + data_offset + data_size
                    + NCA_AES_XTS_SECTOR_SIZE <= 2 ^ 64)
      by (unfold NCA_AES_XTS_SECTOR_SIZE in *; lia).
    pose proof (block_range_fits (cipher_unit ctx) (section_offset ctx) data_offset
                  data_size (cipher_unit_cases ctx) Hso Hdo ltac:(lia) Hsum')
      as Hfit.
    cbv zeta in Hfit.
    assert (Hunit : cipher_unit ctx <= NCA_AES_XTS_SECTOR_SIZE).
    { destruct (cipher_unit_cases ctx) as [Hc | Hc]; rewrite Hc;
        vm_compute; discriminate. }
    set (block_start := ALIGN_DOWN data_offset (cipher_unit ctx)) in *.
    set (bsz := sub64 (ALIGN_UP (add64 data_offset data_size) (cipher_unit ctx))
                      block_start) in *.
    destruct Hfit as (Hbo & _ & _ & Hst & Hst' & Hcov & Hmin & _ & Hpc).
    rewrite Hpc, Hbo.
    destruct (_ncaReadFsSection E _ _ _ _ _) as [out |] eqn:Hrd; [| discriminate].
    destruct (encrypt_section_block _ _ _ _ _ _ _) as [enc |] eqn:Henc;
      [| discriminate].
    intros [= <- <- <-].
    replace (section_offset ctx + block_start - section_offset ctx)
      with block_start by lia.
    pose proof Hrd as Hlen.
    apply read_some_length in Hlen;
      [| lia | lia | exact Hso | unfold NCA_AES_XTS_SECTOR_SIZE in *; lia].
    assert (Hml : zlen (memcpy out (data_offset - block_start)
                               (fixed data_size data) data_size) = bsz).
    { unfold zlen at 1. rewrite length_memcpy; [exact Hlen | lia | lia | lia | lia]. }
    split.
    { apply encrypt_section_block_length in Henc. congruence. }
    exists (memcpy out (data_offset - block_start) (fixed data_size data) data_size).
    split; [exact (decrypt_encrypt_section_block _ _ _ _ _ Hex Henc) |].
    split; [exact Hml |].
    split.
    + rewrite slice_memcpy_same; [| lia | lia | lia | lia].
      apply firstn_all2. unfold zlen in Hfix. lia.
    + intros old Hold. rewrite Hrd in Hold. injection Hold as <-. reflexivity.
Qed.

End BlockContent.

Section GeneratedPatch.

Variable L : NcaLayout.
Variable E : NcaEnv.

Ltac step H :=
  match type of H with
  | (if ?c then _ else _) = _ => destruct c eqn:?; try discriminate H
  | match ?x with _ => _ end = _ => destruct x eqn:?; try discriminate H
  end.

(** Every block the generator returns is one the buffer merge accepts, and
    the archive it was made for has a content id string. *)
Lemma generate_block_accepted (crypto_buffer : bool) (nca_ctx : NcaContext)
    (ctx : NcaFsSectionContext) (data block : bytes)
    (data_size data_offset block_size block_offset : Z) :
  0 <= data_size ->
  _ncaGenerateEncryptedFsSectionBlock E crypto_buffer nca_ctx ctx data data_size
                                      data_offset
  = Some (block, block_size, block_offset) ->
  block_size <> 0 /\ 0 <= block_size /\ 0 <= block_offset
  /\ add64 block_offset block_size <= content_size nca_ctx
  /\ content_id_str_empty nca_ctx = false.
Proof.
  intros Hds. unfold _ncaGenerateEncryptedFsSectionBlock.
  destruct (block_section_invalid _ _ _ _) eqn:Hs; [discriminate |].
  destruct (read_archive_invalid _ _ _) eqn:Ha; [discriminate |].
  unfold block_section_invalid in Hs. unfold read_archive_invalid in Ha.
  repeat match goal with
         | H : _ || _ = false |- _ => apply orb_false_iff in H as [H ?]
         end.
  match goal with H : (data_size =? 0) = false |- _ => apply Z.eqb_neq in H;
    rename H into Hnz end.
  match goal with H : (add64 _ data_size >? content_size _) = false |- _ =>
    rewrite Z.gtb_ltb in H; apply Z.ltb_ge in H; rename H into Harc end.
  destruct (aligned_access ctx false _ data_size).
  - destruct (encrypt_section_block _ _ _ _ _ _ _) as [enc |]; [| discriminate].
    intros [= _ <- <-].
    pose proof (u64_range (section_offset ctx + data_offset)) as Hr.
    repeat split; try assumption. apply Hr.
  - destruct (_ncaReadFsSection E _ _ _ _ _) as [out |] eqn:Hrd; [| discriminate].
    destruct (encrypt_section_block _ _ _ _ _ _ _) as [enc |]; [| discriminate].
    intros [= _ <- <-].
    apply read_success_guards in Hrd as [Hrs Hra].
    unfold read_section_invalid in Hrs. unfold read_archive_invalid in Hra.
    repeat match goal with
           | H : _ || _ = false |- _ => apply orb_false_iff in H as [H ?]
           end.
    match goal with H : (sub64 _ _ =? 0) = false |- _ => apply Z.eqb_neq in H;
      rename H into Hbz end.
    match goal with H : (add64 (add64 _ _) (sub64 _ _) >? content_size _) = false |- _ =>
      rewrite Z.gtb_ltb in H; apply Z.ltb_ge in H; rename H into Harc' end.
    split; [exact Hbz |]. split; [apply u64_range |]. split; [apply u64_range |].
    split; assumption.
Qed.

(** Every entry the layer loop fills is accepted by the buffer merge. *)
Lemma patch_layers_accepted (n : nat) (crypto_buffer : bool) (nca_ctx : NcaContext)
    (is_integrity_patch : bool) :
  forall (ctx : NcaFsSectionContext) (cur_data : bytes)
         (cur_data_offset cur_data_size : Z) (entries es : list NcaHashDataPatch)
         (ctx' : NcaFsSectionContext),
    patch_layers L E n crypto_buffer nca_ctx ctx is_integrity_patch cur_data
                 cur_data_offset cur_data_size entries = (Some es, ctx') ->
    (n <= length entries)%nat -> 0 <= cur_data_size ->
    forall j, 0 <= j < Z.of_nat n ->
      entry_accepted nca_ctx (nth_z es j hdp_zero)
      /\ content_id_str_empty nca_ctx = false.
Proof.
  induction n as [| n IH];
    intros ctx cur_data cur_data_offset cur_data_size entries es ctx' Hrun Hlen Hds
           j Hj.
  - lia.
  - pose proof Hrun as Hshape. cbn [patch_layers] in Hrun.
    step Hrun. step Hrun.
    destruct (Z.of_nat (S n) >? 1) eqn:Hi; cbv beta iota in Hrun.
    + match type of Hrun with
      | context [match _ncaReadFsSection E ?a ?b ?c ?d ?e with _ => _ end] =>
        destruct (_ncaReadFsSection E a b c d e) eqn:Hprd; [| discriminate Hrun]
      end.
      cbv beta iota in Hrun.
      match type of Hrun with
      | match ?x with _ => _ end = _ => destruct x as [[[block bs] bo] |] eqn:Hgen;
                                        [| discriminate Hrun]
      end.
      apply generate_block_accepted in Hgen; [| exact Hds].
      destruct Hgen as (G1 & G2 & G3 & G4 & G5).
      destruct (Z.eq_dec j (Z.of_nat n)) as [-> | Hne].
      * apply patch_layers_shape in Hrun;
          [| rewrite length_set_nth; apply Z.gtb_lt in Hi; lia].
        destruct Hrun as (_ & _ & H3 & _).
        rewrite H3 by lia.
        replace (Z.of_nat (S n) - 1) with (Z.of_nat n) by lia.
        rewrite nth_set_nth_same by lia.
        split; [| exact G5].
        unfold entry_accepted. cbn [hdp_data hdp_size hdp_offset].
        repeat split; try assumption. discriminate.
      * apply (IH _ _ _ _ _ _ _ Hrun).
        -- rewrite length_set_nth. apply Z.gtb_lt in Hi. lia.
        -- apply u64_range.
        -- lia.
    + match type of Hrun with
      | match ?x with _ => _ end = _ => destruct x as [[[block bs] bo] |] eqn:Hgen;
                                        [| discriminate Hrun]
      end.
      injection Hrun as <- <-.
      apply generate_block_accepted in Hgen; [| exact Hds].
      destruct Hgen as (G1 & G2 & G3 & G4 & G5).
      assert (Hn : n = 0%nat) by (rewrite Z.gtb_ltb in Hi; apply Z.ltb_ge in Hi; lia).
      subst n. assert (j = 0) by lia. subst j.
      match goal with |- context [set_nth entries ?i _] => change i with 0 end.
      rewrite nth_set_nth_same by lia.
      split; [| exact G5].
      unfold entry_accepted. cbn [hdp_data hdp_size hdp_offset].
      repeat split; try assumption. discriminate.
Qed.

(** A successful generation, taken apart. *)
Lemma generate_success_inv (crypto_buffer : bool) (nca_ctx : NcaContext)
    (ctx : NcaFsSectionContext) (data : bytes) (data_size data_offset : Z)
    (is_integrity_patch : bool) :
  let r := ncaGenerateHashDataPatch L E crypto_buffer nca_ctx ctx data data_size
                                    data_offset is_integrity_patch in
  let layer_count := patch_layer_count L is_integrity_patch (fs_header ctx) in
  pr_success r = true ->
  patch_params_invalid L ctx data_size data_offset is_integrity_patch = false
  /\ (exists ctx',
        patch_layers L E (Z.to_nat layer_count) crypto_buffer nca_ctx ctx
                     is_integrity_patch data data_offset data_size
                     (released_entries is_integrity_patch)
        = (Some (pr_entries r), ctx'))
  /\ pr_content_id r = fixed 0x10 (content_id nca_ctx)
  /\ pr_hash_region_count r = (if negb is_integrity_patch then layer_count else 0)
  /\ content_size (pr_nca_ctx r) = content_size nca_ctx
  /\ content_id (pr_nca_ctx r) = content_id nca_ctx
  /\ content_id_str (pr_nca_ctx r) = content_id_str nca_ctx.
Proof.
  cbv zeta. unfold ncaGenerateHashDataPatch.
  destruct (patch_params_invalid _ _ _ _ _); [discriminate |].
  destruct (patch_layers _ _ _ _ _ _ _ _ _ _ _) as [[es |] ctx'] eqn:Hrun;
    [| discriminate].
  intros _. cbn [pr_entries pr_content_id pr_hash_region_count pr_nca_ctx].
  split; [reflexivity |]. split; [exists ctx'; reflexivity |].
  repeat split; reflexivity.
Qed.

End GeneratedPatch.

Section WholeArchive.

Variable ctx : NcaContext.
Hypothesis size_range : 0 < content_size ctx < 2 ^ 64.

(** A buffer that holds the whole archive takes a patch inside the archive
    in one call. *)
Lemma write_patch_whole (p buf : bytes) (patch_size patch_offset : Z) :
  0 < patch_size -> 0 <= patch_offset ->
  patch_offset + patch_size <= content_size ctx ->
  snd (ncaWritePatchToMemoryBuffer ctx (Some p) patch_size patch_offset buf
                                   (content_size ctx) 0) = true.
Proof.
  intros Hs Ho Hin. unfold ncaWritePatchToMemoryBuffer.
  assert (Ha : add64 patch_offset patch_size = patch_offset + patch_size).
  { unfold add64, u64. apply Z.mod_small. lia. }
  assert (Hb : add64 0 (content_size ctx) = content_size ctx).
  { unfold add64, u64. apply Z.mod_small. lia. }
  rewrite Ha, Hb.
  replace (patch_size =? 0) with false by (symmetry; apply Z.eqb_neq; lia).
  replace (patch_offset + patch_size >? content_size ctx) with false
    by (symmetry; rewrite Z.gtb_ltb; apply Z.ltb_ge; lia).
  replace (content_size ctx <=? patch_offset) with false
    by (symmetry; apply Z.leb_gt; lia).
  replace (patch_offset + patch_size <=? 0) with false
    by (symmetry; apply Z.leb_gt; lia).
  cbn [orb snd].
  replace (patch_offset <? 0) with false by (symmetry; apply Z.ltb_ge; lia).
  assert (Hp0 : sub64 patch_size 0 = patch_size).
  { unfold sub64, u64. rewrite Z.sub_0_r. apply Z.mod_small. lia. }
  rewrite Hp0.
  assert (Hbo : (if 0 <? patch_offset then sub64 patch_offset 0 else 0)
                = patch_offset).
  { destruct (0 <? patch_offset) eqn:Hlt.
    - unfold sub64, u64. rewrite Z.sub_0_r. apply Z.mod_small. lia.
    - apply Z.ltb_ge in Hlt. lia. }
  rewrite Hbo.
  assert (Hbr : sub64 (content_size ctx) patch_offset
                = content_size ctx - patch_offset).
  { unfold sub64, u64. apply Z.mod_small. lia. }
  rewrite Hbr.
  replace (content_size ctx - patch_offset <? patch_size) with false
    by (symmetry; apply Z.ltb_ge; lia).
  apply Z.eqb_eq. unfold add64, u64. apply Z.mod_small. lia.
Qed.

Lemma write_patch_entries_whole (es : list NcaHashDataPatch) :
  Forall (fun e => hdp_data e <> None /\ 0 < hdp_size e /\ 0 <= hdp_offset e
                   /\ hdp_offset e + hdp_size e <= content_size ctx) es ->
  forall buf,
    snd (fst (write_patch_entries ctx es true buf (content_size ctx) 0)) = true.
Proof.
  induction 1 as [| e rest (Hd & Hs & Ho & Hin) _ IH]; intros buf.
  - reflexivity.
  - cbn [write_patch_entries]. destruct (hdp_written e).
    + specialize (IH buf).
      destruct (write_patch_entries ctx rest true buf _ _) as [[es' w'] b'].
      exact IH.
    + destruct (hdp_data e) as [p |] eqn:Hp; [| congruence].
      pose proof (write_patch_whole p buf _ _ Hs Ho Hin) as Hw.
      destruct (ncaWritePatchToMemoryBuffer ctx (Some p) _ _ _ _ _) as [b1 r].
      cbn [snd] in Hw. subst r.
      specialize (IH b1).
      destruct (write_patch_entries ctx rest true b1 _ _) as [[es' w'] b'].
      exact IH.
Qed.

End WholeArchive.

Section GeneratedPatchWritten.

Variable L : NcaLayout.
Variable E : NcaEnv.

(** The entries of a successful generation whose ranges do not wrap lie
    inside the archive. *)
Lemma generated_entries_inside (crypto_buffer : bool) (nca_ctx : NcaContext)
    (ctx : NcaFsSectionContext) (data : bytes) (data_size data_offset : Z)
    (is_integrity_patch : bool) :
  let r := ncaGenerateHashDataPatch L E crypto_buffer nca_ctx ctx data data_size
                                    data_offset is_integrity_patch in
  let layer_count := patch_layer_count L is_integrity_patch (fs_header ctx) in
  pr_success r = true -> 0 <= data_size ->
  Forall (fun e => hdp_offset e + hdp_size e < 2 ^ 64) (pr_entries r) ->
  Forall (fun e => hdp_data e <> None /\ 0 < hdp_size e /\ 0 <= hdp_offset e
                   /\ hdp_offset e + hdp_size e <= content_size nca_ctx)
         (firstn (Z.to_nat layer_count) (pr_entries r))
  /\ (0 < layer_count -> content_id_str_empty nca_ctx = false).
Proof.
  cbv zeta. intros Hok Hds Hnw.
  destruct (generate_success_inv L E crypto_buffer nca_ctx ctx data data_size
              data_offset is_integrity_patch Hok) as (Hp & [ctx' Hrun] & _).
  pose proof (patch_layer_count_fits L ctx data_size data_offset is_integrity_patch Hp)
    as Hfit.
  pose proof (patch_layers_accepted L E _ _ _ _ _ _ _ _ _ _ _ Hrun Hfit Hds) as Hacc.
  split.
  - apply Forall_forall. intros e He.
    destruct (In_nth _ _ hdp_zero He) as (k & Hk & Hnth).
    rewrite length_firstn in Hk.
    rewrite nth_firstn in Hnth.
    replace (k <? Z.to_nat (patch_layer_count L is_integrity_patch (fs_header ctx)))%nat
      with true in Hnth by (symmetry; apply Nat.ltb_lt; lia).
    destruct (Hacc (Z.of_nat k) ltac:(lia)) as [(A1 & A2 & A3 & A4 & A5) _].
    unfold nth_z in A1, A2, A3, A4, A5. rewrite Nat2Z.id, Hnth in *.
    assert (Hin : In e (pr_entries
                          (ncaGenerateHashDataPatch L E crypto_buffer nca_ctx ctx data
                             data_size data_offset is_integrity_patch))).
    { rewrite <- Hnth. apply nth_In. lia. }
    pose proof (proj1 (Forall_forall _ _) Hnw e Hin) as Hw.
    cbv beta in Hw.
    assert (Ha : add64 (hdp_offset e) (hdp_size e) = hdp_offset e + hdp_size e).
    { unfold add64, u64. apply Z.mod_small. lia. }
    rewrite Ha in A5.
    repeat split; try assumption; lia.
  - intros Hpos. apply (Hacc 0). lia.
Qed.

(** X25.  Generation and writing fit together: the patch set of a
    successful [ncaGenerateHashDataPatch], handed to its writer with a
    buffer that holds the whole archive, is written completely in that one
    call.  The generated ranges are taken not to wrap around 2^64, and the
    region count and the data size to be the unsigned values of the C
    code. *)
Theorem generated_patch_written_whole (crypto_buffer : bool) (nca_ctx : NcaContext)
    (ctx : NcaFsSectionContext) (data buf : bytes) (data_size data_offset : Z)
    (is_integrity_patch : bool) :
  let r := ncaGenerateHashDataPatch L E crypto_buffer nca_ctx ctx data data_size
                                    data_offset is_integrity_patch in
  pr_success r = true ->
  0 <= data_size ->
  0 <= fsh_sha256_hash_region_count L (fs_header ctx) ->
  NCA_FULL_HEADER_LENGTH <= content_size nca_ctx < 2 ^ 64 ->
  Forall (fun e => hdp_offset e + hdp_size e < 2 ^ 64) (pr_entries r) ->
  if is_integrity_patch
  then ip_written
         (fst (ncaWriteHierarchicalIntegrityPatchToMemoryBuffer
                 (pr_nca_ctx r) (pr_integrity_patch r) buf (content_size nca_ctx) 0))
       = true
  else sp_written
         (fst (ncaWriteHierarchicalSha256PatchToMemoryBuffer
                 (pr_nca_ctx r) (pr_sha256_patch r) buf (content_size nca_ctx) 0))
       = true.
Proof.
  cbv zeta. intros Hok Hds Hcnt Hcs Hnw.
  destruct (generate_success_inv L E crypto_buffer nca_ctx ctx data data_size
              data_offset is_integrity_patch Hok)
    as (Hp & _ & Hid & Hrc & Hsz & Hcid & Hstr).
  destruct (generated_entries_inside crypto_buffer nca_ctx ctx data data_size
              data_offset is_integrity_patch Hok Hds Hnw) as [Hin Hne].
  set (r := ncaGenerateHashDataPatch L E crypto_buffer nca_ctx ctx data data_size
                                     data_offset is_integrity_patch) in *.
  assert (Hfull : NCA_FULL_HEADER_LENGTH = 0xC00) by reflexivity.
  rewrite Hfull in Hcs.
  assert (Hrange : 0 < content_size (pr_nca_ctx r) < 2 ^ 64).
  { rewrite Hsz. lia. }
  assert (Hmatch : bytes_eqb (fixed 0x10 (pr_content_id r))
                             (fixed 0x10 (content_id (pr_nca_ctx r))) = true).
  { apply bytes_eqb_eq. rewrite Hid, Hcid. apply fixed_exact. now apply zlen_fixed. }
  assert (Hbig : (content_size (pr_nca_ctx r) <? NCA_FULL_HEADER_LENGTH) = false).
  { rewrite Hsz, Hfull. apply Z.ltb_ge. lia. }
  assert (Hbz : (content_size nca_ctx =? 0) = false).
  { apply Z.eqb_neq. lia. }
  assert (Hfit : (add64 0 (content_size nca_ctx) >? content_size (pr_nca_ctx r))
                 = false).
  { rewrite Hsz. unfold add64, u64. rewrite Z.add_0_l, Z.mod_small by lia.
    rewrite Z.gtb_ltb. apply Z.ltb_ge. lia. }
  unfold patch_params_invalid in Hp. cbv zeta in Hp.
  repeat (apply orb_false_iff in Hp as [Hp ?]).
  destruct is_integrity_patch; cbn [negb andb] in *.
  - repeat match goal with
           | H : _ || _ = false |- _ => apply orb_false_iff in H as [H ?]
           end.
    match goal with H : negb (_ =? NCA_IVFC_LEVEL_COUNT) = false |- _ =>
      apply negb_false_iff, Z.eqb_eq in H; rename H into Hsix end.
    rewrite Hsix in Hin, Hne.
    assert (Hstr' : all_zero (firstn 1 (content_id_str (pr_nca_ctx r))) = false).
    { rewrite Hstr. apply Hne. reflexivity. }
    unfold ncaWriteHierarchicalIntegrityPatchToMemoryBuffer.
    cbn [pr_integrity_patch ip_written ip_content_id ip_hash_level_patch
         ncaFreeHierarchicalIntegrityPatch].
    rewrite Hstr', Hbig, Hmatch, Hbz, Hfit.
    cbn [negb orb].
    rewrite <- Hsz in Hin |- *.
    pose proof (write_patch_entries_whole (pr_nca_ctx r) Hrange _ Hin buf) as Hw.
    destruct (write_patch_entries _ _ _ _ _ _) as [[es' w'] b'].
    exact Hw.
  - repeat match goal with
           | H : _ || _ = false |- _ => apply orb_false_iff in H as [H ?]
           end.
    match goal with H : (patch_layer_count L false _ =? 0) = false |- _ =>
      apply Z.eqb_neq in H; rename H into Hnz end.
    match goal with H : (patch_layer_count L false _ >? _) = false |- _ =>
      rename H into Hmax end.
    assert (Hpos : 0 < patch_layer_count L false (fs_header ctx)).
    { unfold patch_layer_count in *. cbn [negb] in *. lia. }
    assert (Hstr' : all_zero (firstn 1 (content_id_str (pr_nca_ctx r))) = false).
    { rewrite Hstr. apply Hne. exact Hpos. }
    unfold ncaWriteHierarchicalSha256PatchToMemoryBuffer.
    cbn [pr_sha256_patch sp_written sp_content_id sp_hash_region_count
         sp_hash_region_patch ncaFreeHierarchicalSha256Patch].
    rewrite Hstr', Hbig, Hmatch, Hbz, Hfit, Hrc.
    replace (patch_layer_count L false (fs_header ctx) =? 0) with false
      by (symmetry; apply Z.eqb_neq; exact Hnz).
    rewrite Hmax. cbn [negb orb].
    rewrite <- Hsz in Hin |- *.
    pose proof (write_patch_entries_whole (pr_nca_ctx r) Hrange _ Hin buf) as Hw.
    destruct (write_patch_entries _ _ _ _ _ _) as [[es' w'] b'].
    exact Hw.
Qed.

End GeneratedPatchWritten.

Lemma generated_block_geometry_witness :
  let s := get_fs_ctx Example.ctx_v3 0 in
  exists block block_size block_offset,
    _ncaGenerateEncryptedFsSectionBlock Example.env_v3 true Example.ctx_v3 s
      [1; 2; 3] 3 5 = Some (block, block_size, block_offset)
    /\ block_offset mod AES_BLOCK_SIZE = 0 /\ block_size = AES_BLOCK_SIZE
    /\ block_offset <= section_offset s + 5 < block_offset + AES_BLOCK_SIZE.
Proof.
  cbv zeta.
  assert (H : exists r,
             _ncaGenerateEncryptedFsSectionBlock Example.env_v3 true Example.ctx_v3
               (get_fs_ctx Example.ctx_v3 0) [1; 2; 3] 3 5 = Some r).
  { eexists. vm_compute. reflexivity. }
  destruct H as [[[block block_size] block_offset] H].
  exists block, block_size, block_offset. split; [exact H |].
  assert (Hbs : block_size = AES_BLOCK_SIZE).
  { revert H. vm_compute. intros [= _ <- _]. reflexivity. }
  assert (Hu : (if encryption_type (get_fs_ctx Example.ctx_v3 0)
                      =? NcaEncryptionType_None
                   then 1 else cipher_unit (get_fs_ctx Example.ctx_v3 0))
               = AES_BLOCK_SIZE) by (vm_compute; reflexivity).
  assert (Hso : 0 <= section_offset (get_fs_ctx Example.ctx_v3 0))
    by (vm_compute; discriminate).
  assert (Hsm : section_offset (get_fs_ctx Example.ctx_v3 0)
                mod NCA_AES_XTS_SECTOR_SIZE = 0) by (vm_compute; reflexivity).
  assert (Hsum : section_offset (get_fs_ctx Example.ctx_v3 0) + 5 + 3
                 + NCA_AES_XTS_SECTOR_SIZE <= 2 ^ 64) by (vm_compute; discriminate).
  pose proof (generated_block_geometry Example.env_v3 true Example.ctx_v3
                (get_fs_ctx Example.ctx_v3 0) [1; 2; 3] block 3 5 block_size
                block_offset Hso Hsm ltac:(lia) ltac:(lia) Hsum H) as P.
  cbv zeta in P. rewrite Hu in P.
  destruct P as (P1 & _ & P3 & _).
  split; [exact P1 |]. split; [exact Hbs | exact P3].
Defined.

(** The stand-in ciphers invert themselves. *)
Lemma toy_xts_section_inverse (c_enc c_dec : Aes128XtsContext)
    (src : bytes) (size sector : Z) :
  xts_keys c_enc = xts_keys c_dec ->
  snd (Toy.xts c_enc src size sector NCA_AES_XTS_SECTOR_SIZE true) = size ->
  Toy.xts c_dec (fst (Toy.xts c_enc src size sector NCA_AES_XTS_SECTOR_SIZE true))
          size sector NCA_AES_XTS_SECTOR_SIZE false
  = (src, size).
Proof.
  intros Hk. unfold Toy.xts. rewrite <- Hk.
  destruct (xts_keys c_enc) as [[k0 k1] |].
  - generalize (Toy.le (firstn 1 k0) + 2 * Toy.le (firstn 1 k1) + 3 * sector) as kk.
    intros kk.
    destruct ((zlen src =? size) && (size mod NCA_AES_XTS_SECTOR_SIZE =? 0)) eqn:Hc;
      cbn [fst snd].
    + intros _.
      assert (Hz : zlen (Toy.xor_bytes kk src) = zlen src).
      { unfold zlen, Toy.xor_bytes. now rewrite length_map. }
      rewrite Hz, Hc. now rewrite xor_bytes_involutive.
    + intros <-. rewrite Hc. reflexivity.
  - cbn [fst snd]. intros <-. reflexivity.
Qed.

Lemma toy_ctr_involutive (c : Aes128CtrContext) (src : bytes) :
  Toy.ctr_crypt c (Toy.ctr_crypt c src) = src.
Proof.
  unfold Toy.ctr_crypt. destruct (ctr_key c); [| reflexivity].
  apply xor_bytes_involutive.
Qed.

Lemma generated_block_decrypts_witness :
  let s := get_fs_ctx Example.ctx_v2 0 in
  exists block block_size block_offset plain,
    _ncaGenerateEncryptedFsSectionBlock Example.env_v2 true Example.ctx_v2 s
      [1; 2; 3] 3 5 = Some (block, block_size, block_offset)
    /\ block_size = NCA_AES_XTS_SECTOR_SIZE
    /\ zlen block = block_size
    /\ decrypt_section_block Example.env_v2 Example.ctx_v2 s block block_size
         (block_offset - section_offset s) block_offset block_offset = Some plain
    /\ slice plain 5 3 = [1; 2; 3].
Proof.
  cbv zeta.
  assert (H : exists r,
             _ncaGenerateEncryptedFsSectionBlock Example.env_v2 true Example.ctx_v2
               (get_fs_ctx Example.ctx_v2 0) [1; 2; 3] 3 5 = Some r).
  { eexists. vm_compute. reflexivity. }
  destruct H as [[[block block_size] block_offset] H].
  assert (Hbs : block_size = NCA_AES_XTS_SECTOR_SIZE
                /\ block_offset - section_offset (get_fs_ctx Example.ctx_v2 0) = 0).
  { revert H. vm_compute. intros [= _ <- <-]. split; reflexivity. }
  destruct Hbs as [Hbs Hbo].
  pose proof (generated_block_decrypts Example.env_v2 Example.ctx_v2
                (get_fs_ctx Example.ctx_v2 0)
                (toy_reader_fills Toy.image_v2 None false Example.ctx_v2)
                toy_xts_length toy_ctr_length) as P.
  assert (Hk : xts_keys (xts_encrypt_ctx (get_fs_ctx Example.ctx_v2 0))
               = xts_keys (xts_decrypt_ctx (get_fs_ctx Example.ctx_v2 0)))
    by (vm_compute; reflexivity).
  assert (Hso : 0 <= section_offset (get_fs_ctx Example.ctx_v2 0))
    by (vm_compute; discriminate).
  assert (Hsum : section_offset (get_fs_ctx Example.ctx_v2 0) + 5 + 3
                 + 2 * NCA_AES_XTS_SECTOR_SIZE <= 2 ^ 64)
    by (vm_compute; discriminate).
  specialize (P (fun src size sector =>
                   toy_xts_section_inverse _ _ src size sector Hk)
                toy_ctr_involutive true [1; 2; 3] block 3 5 block_size block_offset
                Hso ltac:(lia) ltac:(lia) Hsum H).
  cbv zeta in P.
  destruct P as (P1 & plain & P2 & _ & P3 & _).
  exists block, block_size, block_offset, plain.
    split; [exact H |]. split; [exact Hbs |]. split; [exact P1 |].
    split; [exact P2 |].
    rewrite Hbo in P3. exact P3.
Defined.

Lemma generated_patch_written_whole_witness :
  let r := ncaGenerateHashDataPatch Toy.layout Example.env_v3 true Example.ctx_v3
             (get_fs_ctx Example.ctx_v3 0) [1; 2; 3] 3 5 false in
  pr_success r = true
  /\ sp_written
       (fst (ncaWriteHierarchicalSha256PatchToMemoryBuffer
               (pr_nca_ctx r) (pr_sha256_patch r) Toy.image_v3
               (content_size Example.ctx_v3) 0)) = true.
Proof.
  cbv zeta.
  assert (Hok : pr_success
                  (ncaGenerateHashDataPatch Toy.layout Example.env_v3 true
                     Example.ctx_v3 (get_fs_ctx Example.ctx_v3 0) [1; 2; 3] 3 5 false)
                = true) by (vm_compute; reflexivity).
  assert (Hcnt : 0 <= fsh_sha256_hash_region_count Toy.layout
                        (fs_header (get_fs_ctx Example.ctx_v3 0)))
    by (vm_compute; discriminate).
  assert (Hcs : NCA_FULL_HEADER_LENGTH <= content_size Example.ctx_v3 < 2 ^ 64)
    by (split; vm_compute; [discriminate | reflexivity]).
  assert (Hb : forallb (fun e => hdp_offset e + hdp_size e <? 2 ^ 64)
                 (pr_entries
                    (ncaGenerateHashDataPatch Toy.layout Example.env_v3 true
                       Example.ctx_v3 (get_fs_ctx Example.ctx_v3 0) [1; 2; 3] 3 5
                       false)) = true) by (vm_compute; reflexivity).
  assert (Hnw : Forall (fun e => hdp_offset e + hdp_size e < 2 ^ 64)
                  (pr_entries
                     (ncaGenerateHashDataPatch Toy.layout Example.env_v3 true
                        Example.ctx_v3 (get_fs_ctx Example.ctx_v3 0) [1; 2; 3] 3 5
                        false))).
  { apply Forall_forall. intros e He.
    apply Z.ltb_lt. revert e He. apply forallb_forall. exact Hb. }
  split; [exact Hok |].
  exact (generated_patch_written_whole Toy.layout Example.env_v3 true Example.ctx_v3
           (get_fs_ctx Example.ctx_v3 0) [1; 2; 3] Toy.image_v3 3 5 false
           Hok ltac:(lia) Hcnt Hcs Hnw).
Defined.
